(** * compress_img: the image compression core of [image_app/views.py]

    A shallow embedding of the orientation normaliser
    ([process_image_orientation]), the fixed-quality compressor
    ([compress_image]), the size-targeting compressor
    ([compress_image_to_kb]) and the view that drives the fixed-quality
    path ([compress_single_image]). The last part, "The views of the
    application", adds the views around them: the six size-targeting views
    ([ResizeToKBView], [resize_to_50kb_view], [resize_to_100kb_view],
    [compress_to_50kb], [compress_to_100kb], [compress_to_200kb]), [home]
    and [UploadView], [get_mime_type], the forms of [image_app/forms.py]
    and the tables of [StaticViewSitemap].

    Python integers are [Z], Python floats are IEEE binary64 values
    ([spec_float] at precision 53), image objects live in a store and are
    handled through references, and every call into the imaging library is
    recorded in a chronological trace. *)

From Stdlib Require Import ZArith List Lia Bool.
From Stdlib Require Import Strings.Byte Strings.Ascii Strings.String.
From Stdlib Require Import Floats.SpecFloat.
From Stdlib Require Import DecimalString.
From stdpp Require Import base option list gmap strings.

Open Scope Z_scope.

(** ** Python floats *)

Module PyFloat.

Definition float := spec_float.

Definition prec : Z := 53.
Definition emax : Z := 1024.

Definition mul : float -> float -> float := SFmul prec emax.
Definition div : float -> float -> float := SFdiv prec emax.
Definition ltb : float -> float -> bool := SFltb.

(** The double nearest to the integer [z] (round half to even); an
    integer beyond the double range comes out as an infinity. *)
Definition nearest (z : Z) : float := binary_normalize prec emax z 0 false.

(** A decimal literal [n/d], as the parser reads it: the double nearest to
    the exact quotient. *)
Definition literal (n d : Z) : float := div (nearest n) (nearest d).

Definition is_zero (f : float) : bool :=
  match f with S754_zero _ => true | _ => false end.

(** Exact comparison of an integer with a float, as Python compares
    [int] with [float]: no rounding of the integer takes place. *)
Definition compare_int (z : Z) (f : float) : option comparison :=
  match f with
  | S754_nan => None
  | S754_infinity s => Some (if s then Gt else Lt)
  | S754_zero _ => Some (z ?= 0)
  | S754_finite s m e =>
      let v := if s then Zneg m else Zpos m in
      match e with
      | Z0 => Some (z ?= v)
      | Zpos _ => Some (z ?= v * 2 ^ e)
      | Zneg _ => Some (z * 2 ^ (- e) ?= v)
      end
  end.

(** [z <= f] *)
Definition int_le (z : Z) (f : float) : bool :=
  match compare_int z f with
  | Some Lt | Some Eq => true
  | _ => false
  end.

(** [f < z] *)
Definition lt_int (f : float) (z : Z) : bool :=
  match compare_int z f with
  | Some Gt => true
  | _ => false
  end.

(** Truncation toward zero of a finite float. *)
Definition truncate (f : float) : option Z :=
  match f with
  | S754_zero _ => Some 0
  | S754_finite s m e =>
      let a := match e with
               | Z0 => Zpos m
               | Zpos _ => Zpos m * 2 ^ e
               | Zneg _ => Zpos m / 2 ^ (- e)
               end in
      Some (if s then - a else a)
  | _ => None
  end.

(** Rounding of a finite float to the nearest integer, ties to even
    (Python's [round]). *)
Definition round_nearest (f : float) : option Z :=
  match f with
  | S754_zero _ => Some 0
  | S754_finite s m e =>
      let a := match e with
               | Z0 => Zpos m
               | Zpos _ => Zpos m * 2 ^ e
               | Zneg _ =>
                   let d := 2 ^ (- e) in
                   let q := Zpos m / d in
                   let r := Zpos m mod d in
                   match 2 * r ?= d with
                   | Lt => q
                   | Gt => q + 1
                   | Eq => if Z.even q then q else q + 1
                   end
               end in
      Some (if s then - a else a)
  | _ => None
  end.

End PyFloat.

Abbreviation float := PyFloat.float.

(** ** Exceptions and results *)

(** A raised exception: its class name and its message ([str(e)]). *)
Inductive exn := PyExn (cls : string) (msg : string).

Definition exn_str (e : exn) : string := match e with PyExn _ m => m end.

Inductive result (A : Type) :=
| Ok (a : A)
| Raise (e : exn).
Arguments Ok {A} a.
Arguments Raise {A} e.

Definition ZeroDivisionError : exn := PyExn "ZeroDivisionError" "float division by zero".
Definition OverflowError_int : exn := PyExn "OverflowError" "int too large to convert to float".
Definition OverflowError_inf : exn := PyExn "OverflowError" "cannot convert float infinity to integer".
Definition ValueError_nan : exn := PyExn "ValueError" "cannot convert float NaN to integer".

Definition result_bind {A B} (r : result A) (k : A -> result B) : result B :=
  match r with
  | Ok a => k a
  | Raise e => Raise e
  end.

(** [float(z)]: conversion of a Python integer, which raises when the
    integer is beyond the double range. *)
Definition py_float (z : Z) : result float :=
  match PyFloat.nearest z with
  | S754_infinity _ => Raise OverflowError_int
  | f => Ok f
  end.

(** [z * f] for an integer and a float. *)
Definition int_mul_float (z : Z) (f : float) : result float :=
  result_bind (py_float z) (fun x => Ok (PyFloat.mul x f)).

(** [z / f] for an integer and a float. *)
Definition int_div_float (z : Z) (f : float) : result float :=
  result_bind (py_float z) (fun x =>
    if PyFloat.is_zero f then Raise ZeroDivisionError else Ok (PyFloat.div x f)).

(** [int(f)] *)
Definition py_int (f : float) : result Z :=
  match f with
  | S754_infinity _ => Raise OverflowError_inf
  | S754_nan => Raise ValueError_nan
  | _ => match PyFloat.truncate f with
         | Some z => Ok z
         | None => Raise ValueError_nan
         end
  end.

(** [min(a, b)] on floats: the second argument wins only when it is
    strictly smaller. *)
Definition py_min (a b : float) : float := if PyFloat.ltb b a then b else a.

(** ** Images, the object store and the trace *)

Abbreviation bytes := (list byte).

Inductive exif_value :=
| EInt (z : Z)
| ERaw (raw : bytes).

Abbreviation exif_dict := (gmap Z exif_value).

(** An image object: [size], [mode], the pixel buffer, the ['exif'] entry of
    [info], and the [_getexif] method when the object has one, given by what
    a call to it produces. *)
Record Image := {
  size : Z * Z;
  mode : string;
  pixels : bytes;
  info_exif : option bytes;
  getexif : option (result (option exif_dict))
}.

Abbreviation ref := nat.

(** The statement of the program at which an encode takes place: a probe of
    the quality search at a dimension factor, the last-resort encode of the
    size-targeting compressor, or the single encode of the fixed-quality
    compressor. *)
Inductive site :=
| AtProbe (dimension_factor : float)
| AtFallback
| AtFixed.

Inductive event :=
| EvConvert (src : Image) (to : string) (out : result bytes)
| EvResize (src : Image) (new_size : Z * Z) (out : result bytes)
| EvCopy (src : Image)
| EvRotate (src : Image) (angle : Z) (expand : bool) (out : result (Z * Z * bytes))
| EvSave (at_ : site) (img : Image) (quality : Z) (exif : option bytes) (out : result bytes)
| EvLog (level : string) (msg : string).

Record state := {
  heap : list Image;
  trace : list event
}.

(** ** The monad of the embedding: state and exceptions *)

Definition M (A : Type) : Type := state -> result A * state.

Definition ret {A} (a : A) : M A := fun s => (Ok a, s).

Definition bind {A B} (m : M A) (k : A -> M B) : M B :=
  fun s => match m s with
           | (Ok a, s') => k a s'
           | (Raise e, s') => (Raise e, s')
           end.

Definition raise {A} (e : exn) : M A := fun s => (Raise e, s).

Definition lift {A} (r : result A) : M A := fun s => (r, s).

(** [try: body except Exception as e: handler e] *)
Definition try_except {A} (body : M A) (handler : exn -> M A) : M A :=
  fun s => match body s with
           | (Ok a, s') => (Ok a, s')
           | (Raise e, s') => handler e s'
           end.

Declare Scope py_scope.
Delimit Scope py_scope with py.
Notation "x <- c1 ;; c2" := (bind c1 (fun x => c2))
  (at level 100, c1 at next level, right associativity) : py_scope.
Notation "c1 ;;; c2" := (bind c1 (fun _ => c2))
  (at level 100, right associativity) : py_scope.
Open Scope py_scope.

Definition emit (e : event) : M unit :=
  fun s => (Ok tt, {| heap := heap s; trace := trace s ++ [e] |}).

Definition alloc (i : Image) : M ref :=
  fun s => (Ok (length (heap s)), {| heap := heap s ++ [i]; trace := trace s |}).

(** Dereferencing; a reference outside the store has no Python counterpart
    and is reported as an error. *)
Definition deref (r : ref) : M Image :=
  fun s => match heap s !! r with
           | Some i => (Ok i, s)
           | None => (Raise (PyExn "ReferenceError" "no such object"), s)
           end.

(** ** The imaging library

    The pixel-level work of the library is left open: resampling,
    mode conversion, rotation, JPEG encoding and decoding are the fields of
    an interface. What the library guarantees about the objects it returns
    (a new object each time, of the requested size or mode, carrying the
    [info] of its source) is written out in the operations below. *)

Class Pil := {
  pil_resample : Image -> Z * Z -> result bytes;
  pil_convert : Image -> string -> result bytes;
  pil_rotate : Image -> Z -> bool -> result (Z * Z * bytes);
  pil_encode_jpeg : Image -> Z -> option bytes -> result bytes;
  pil_open : bytes -> result Image
}.

Section Library.
Context {pil : Pil}.

Definition derived (src : Image) (sz : Z * Z) (m : string) (px : bytes) : Image :=
  {| size := sz; mode := m; pixels := px;
     info_exif := info_exif src; getexif := None |}.

(** [image.resize(new_size, Image.Resampling.LANCZOS)] *)
Definition img_resize (r : ref) (new_size : Z * Z) : M ref :=
  src <- deref r ;;
  let out := pil_resample src new_size in
  emit (EvResize src new_size out) ;;;
  px <- lift out ;;
  alloc (derived src new_size (mode src) px).

(** [image.copy()] *)
Definition img_copy (r : ref) : M ref :=
  src <- deref r ;;
  emit (EvCopy src) ;;;
  alloc (derived src (size src) (mode src) (pixels src)).

(** [image.convert(to)] *)
Definition img_convert (r : ref) (to : string) : M ref :=
  src <- deref r ;;
  let out := pil_convert src to in
  emit (EvConvert src to out) ;;;
  px <- lift out ;;
  alloc (derived src (size src) to px).

(** [image.rotate(angle, expand=expand)] *)
Definition img_rotate (r : ref) (angle : Z) (expand : bool) : M ref :=
  src <- deref r ;;
  let out := pil_rotate src angle expand in
  emit (EvRotate src angle expand out) ;;;
  rotated <- lift out ;;
  let '(sz, px) := rotated in
  alloc (derived src sz (mode src) px).

(** [image.save(output_buffer, format='JPEG', quality=quality,
    optimize=True, [exif=exif])] followed by [output_buffer.getvalue()] *)
Definition img_save (at_ : site) (r : ref) (quality : Z) (exif : option bytes) : M bytes :=
  img <- deref r ;;
  let out := pil_encode_jpeg img quality exif in
  emit (EvSave at_ img quality exif out) ;;;
  lift out.

(** [logger.warning(msg)] *)
Definition log_warning (msg : string) : M unit := emit (EvLog "WARNING" msg).

End Library.

(** ** Orientation normaliser *)

(** An excerpt of the library's table [ExifTags.TAGS] (tag number, tag
    name), in the table's order, around the entry the normaliser looks for. *)
Definition TAGS : list (Z * string) :=
  [ (256, "ImageWidth"); (257, "ImageLength"); (258, "BitsPerSample");
    (259, "Compression"); (262, "PhotometricInterpretation");
    (270, "ImageDescription"); (271, "Make"); (272, "Model");
    (273, "StripOffsets"); (274, "Orientation"); (277, "SamplesPerPixel");
    (278, "RowsPerStrip"); (282, "XResolution"); (283, "YResolution") ].

(** The value of the loop variable [orientation] after
    [for orientation in TAGS.keys(): if TAGS[orientation] == 'Orientation': break]:
    the first key named ['Orientation'], the last key when there is none,
    and unbound over an empty table. *)
Fixpoint orientation_after_loop (tags : list (Z * string)) (bound : option Z) : option Z :=
  match tags with
  | [] => bound
  | (key, name) :: rest =>
      if String.eqb name "Orientation" then Some key
      else orientation_after_loop rest (Some key)
  end.

Definition orientation_key : result Z :=
  match orientation_after_loop TAGS None with
  | Some key => Ok key
  | None => Raise (PyExn "UnboundLocalError" "orientation")
  end.

(** Truth value of what [_getexif()] returned: [None] and the empty
    dictionary are false. *)
Definition exif_truthy (e : option exif_dict) : bool :=
  match e with
  | Some d => negb (bool_decide (d = ∅))
  | None => false
  end.

(** [dict(e.items())] *)
Definition exif_items (e : option exif_dict) : result exif_dict :=
  match e with
  | Some d => Ok d
  | None => Raise (PyExn "AttributeError" "'NoneType' object has no attribute 'items'")
  end.

(** [v == n] for an EXIF value and an integer constant. *)
Definition exif_eqb (v : exif_value) (n : Z) : bool :=
  match v with
  | EInt z => z =? n
  | ERaw _ => false
  end.

(** ** Data shared by the two compressors *)

(** The stats dictionary; the fixed-quality compressor leaves the last two
    keys out. *)
Record stats := {
  final_width : Z;
  final_height : Z;
  compressed_size : Z;
  quality_used : option Z;
  dimension_factor : option float
}.

(** [image.mode in ('RGBA', 'P')] *)
Definition mode_needs_rgb (m : string) : bool :=
  String.eqb m "RGBA" || String.eqb m "P".

(** The [exif] entry of [save_params]: set when
    [preserve_exif and hasattr(image, 'info') and 'exif' in image.info]. *)
Definition exif_param (preserve_exif : bool) (img : Image) : option bytes :=
  if preserve_exif then info_exif img else None.

(** [int(dim * factor)] *)
Definition scaled (dim : Z) (factor : float) : result Z :=
  result_bind (int_mul_float dim factor) py_int.

Definition min_quality : Z := 10.
Definition max_quality : Z := 95.

Definition one : float := PyFloat.literal 1 1.
Definition tight_tolerance : float := PyFloat.literal 5 100.
Definition relaxed_tolerance : float := PyFloat.literal 1 10.

Definition dimension_reductions : list float :=
  [ one; PyFloat.literal 9 10; PyFloat.literal 8 10; PyFloat.literal 7 10;
    PyFloat.literal 6 10; PyFloat.literal 5 10 ].

(** [abs(compressed_size - target_size_bytes) <= target_size_bytes * tolerance] *)
Definition within (compressed_size target_size_bytes : Z) (tolerance : float)
  : result bool :=
  result_bind (int_mul_float target_size_bytes tolerance) (fun bound =>
    Ok (PyFloat.int_le (Z.abs (compressed_size - target_size_bytes)) bound)).

Definition candidate : Type := bytes * stats.

(** How a loop is left: by a [return] of the enclosing function, or by
    running to its end (or a [break]) with the loop-carried value. *)
Inductive control (A : Type) :=
| Return (r : candidate)
| Continue (a : A).
Arguments Return {A} r.
Arguments Continue {A} a.

Definition probe_stats (working : Image) (compressed_size quality : Z)
    (factor : float) : stats :=
  {| final_width := fst (size working);
     final_height := snd (size working);
     compressed_size := compressed_size;
     quality_used := Some quality;
     dimension_factor := Some factor |}.

(** [best_result is None or
     abs(compressed_size - target) < abs(best_stats['compressed_size'] - target)] *)
Definition improves (target_size_bytes size_now : Z)
    (best : option candidate) : bool :=
  match best with
  | None => true
  | Some (_, best_stats) =>
      Z.abs (size_now - target_size_bytes)
      <? Z.abs (compressed_size best_stats - target_size_bytes)
  end.

(** The adjustment of the quality range after a probe. *)
Definition narrow (target_size_bytes compressed_size current_quality : Z)
    (range : Z * Z) : Z * Z :=
  if compressed_size >? target_size_bytes
  then (fst range, current_quality - 1)
  else (current_quality + 1, snd range).


(** [bytes] are true when not empty. *)
Definition bytes_truthy (b : bytes) : bool :=
  match b with [] => false | _ => true end.

(** The best result when [best_result] is true (neither [None] nor empty). *)
Definition truthy_best (best : option candidate) : option candidate :=
  match best with
  | Some (best_result, best_stats) =>
      if bytes_truthy best_result then best else None
  | None => None
  end.

(** The best result when
    [best_result and
     abs(best_stats['compressed_size'] - target) <= target * 0.1]. *)
Definition good_enough (target_size_bytes : Z) (best : option candidate)
  : result (option candidate) :=
  match truthy_best best with
  | Some (best_result, best_stats) =>
      result_bind
        (within (compressed_size best_stats) target_size_bytes relaxed_tolerance)
        (fun ok => Ok (if ok : bool then Some (best_result, best_stats) else None))
  | None => Ok None
  end.

Section Program.
Context {pil : Pil}.

Definition process_image_orientation (image : ref) : M ref :=
  img <- deref image ;;
  match getexif img with
  | None => ret image
  | Some _getexif =>
      first <- lift _getexif ;;
      if negb (exif_truthy first) then ret image
      else
        returned <-
          try_except
            (orientation <- lift orientation_key ;;
             second <- lift _getexif ;;
             exif <- lift (exif_items second) ;;
             match exif !! orientation with
             | Some v =>
                 if exif_eqb v 3 then
                   rotated <- img_rotate image 180 true ;; ret (Some rotated)
                 else if exif_eqb v 6 then
                   rotated <- img_rotate image 270 true ;; ret (Some rotated)
                 else if exif_eqb v 8 then
                   rotated <- img_rotate image 90 true ;; ret (Some rotated)
                 else ret None
             | None => ret None
             end)
            (fun e =>
               log_warning ("Error processing image orientation: " +:+ exn_str e) ;;;
               ret None) ;;
        match returned with
        | Some rotated => ret rotated
        | None => ret image
        end
  end.

(** ** Fixed-quality compressor *)

Definition compress_image (image : ref) (max_dimension quality : Z)
    (preserve_exif : bool) : M (bytes * stats) :=
  img <- deref image ;;
  width <- lift (py_float (fst (size img))) ;;
  by_width <- lift (int_div_float max_dimension width) ;;
  height <- lift (py_float (snd (size img))) ;;
  by_height <- lift (int_div_float max_dimension height) ;;
  let ratio := py_min by_width by_height in
  image <- (if PyFloat.lt_int ratio 1 then
              new_width <- lift (scaled (fst (size img)) ratio) ;;
              new_height <- lift (scaled (snd (size img)) ratio) ;;
              img_resize image (new_width, new_height)
            else ret image) ;;
  img <- deref image ;;
  image <- (if mode_needs_rgb (mode img) then img_convert image "RGB"
            else ret image) ;;
  img <- deref image ;;
  compressed_data <- img_save AtFixed image quality (exif_param preserve_exif img) ;;
  ret (compressed_data,
       {| final_width := fst (size img);
          final_height := snd (size img);
          compressed_size := Z.of_nat (length compressed_data);
          quality_used := None;
          dimension_factor := None |}).

(** ** Size-targeting compressor *)

Section Search.
Variables (image : ref) (target_size_bytes : Z) (preserve_exif : bool).

(** The binary search over quality at one dimension factor:
    [for iteration in range(max_iterations)]. *)
Fixpoint quality_loop (working_image : ref) (factor : float) (iterations : nat)
    (low_quality high_quality : Z) (best : option candidate)
  : M (control (option candidate)) :=
  match iterations with
  | O => ret (Continue best)
  | S remaining =>
      let current_quality := (low_quality + high_quality) / 2 in
      img <- deref image ;;
      compressed_data <-
        img_save (AtProbe factor) working_image current_quality
                 (exif_param preserve_exif img) ;;
      let compressed_size := Z.of_nat (length compressed_data) in
      tight <- lift (within compressed_size target_size_bytes tight_tolerance) ;;
      working <- deref working_image ;;
      let found :=
        (compressed_data,
         probe_stats working compressed_size current_quality factor) in
      if tight : bool then ret (Return found)
      else
        let best :=
          if improves target_size_bytes compressed_size best
          then Some found else best in
        let range :=
          narrow target_size_bytes compressed_size current_quality
                 (low_quality, high_quality) in
        if fst range >=? snd range then ret (Continue best)
        else quality_loop working_image factor remaining
                          (fst range) (snd range) best
  end.

(** [for dimension_factor in dimension_reductions] *)
Fixpoint dimension_loop (original_size : Z * Z) (max_iterations : Z)
    (factors : list float) (best : option candidate)
  : M (control (option candidate)) :=
  match factors with
  | [] => ret (Continue best)
  | factor :: smaller =>
      working_image <-
        (if PyFloat.ltb factor one then
           new_width <- lift (scaled (fst original_size) factor) ;;
           new_height <- lift (scaled (snd original_size) factor) ;;
           img_resize image (new_width, new_height)
         else img_copy image) ;;
      searched <-
        quality_loop working_image factor (Z.to_nat max_iterations)
                     min_quality max_quality best ;;
      match searched with
      | Return found => ret (Return found)
      | Continue best =>
          accepted <- lift (good_enough target_size_bytes best) ;;
          match accepted with
          | Some found => ret (Return found)
          | None => dimension_loop original_size max_iterations smaller best
          end
      end
  end.

End Search.

Definition compress_image_to_kb (image : ref) (target_size_kb : Z)
    (preserve_exif : bool) (max_iterations : Z) : M (bytes * stats) :=
  let target_size_bytes := target_size_kb * 1024 in
  img <- deref image ;;
  image <- (if mode_needs_rgb (mode img) then img_convert image "RGB"
            else ret image) ;;
  img <- deref image ;;
  let original_size := size img in
  searched <-
    dimension_loop image target_size_bytes preserve_exif original_size
                   max_iterations dimension_reductions None ;;
  match searched with
  | Return found => ret found
  | Continue best =>
      match truthy_best best with
      | Some found => ret found
      | None =>
          compressed_data <- img_save AtFallback image min_quality None ;;
          ret (compressed_data,
               probe_stats img (Z.of_nat (length compressed_data))
                           min_quality one)
      end
  end.

End Program.

(** ** Text

    Python strings are modelled by strings of characters below 256. *)

(** [str(z)], and [{z}] in a formatted string, for an integer. *)
Definition py_str (z : Z) : string := NilZero.string_of_int (Z.to_int z).

Definition double_quote : Ascii.ascii := Ascii.ascii_of_nat 34.
Definition single_quote : Ascii.ascii := Ascii.ascii_of_nat 39.
Definition backslash : Ascii.ascii := Ascii.ascii_of_nat 92.

Definition hex_digit (n : nat) : Ascii.ascii :=
  Ascii.ascii_of_nat (if (n <? 10)%nat then 48 + n else 87 + n).

(** One character of [repr(text)] inside the quotes [quote]. *)
Definition repr_char (quote c : Ascii.ascii) : string :=
  let n := Ascii.nat_of_ascii c in
  if Ascii.eqb c quote || Ascii.eqb c backslash then
    String backslash (String c EmptyString)
  else if (n =? 9)%nat then String backslash "t"
  else if (n =? 10)%nat then String backslash "n"
  else if (n =? 13)%nat then String backslash "r"
  else if (n <? 32)%nat || (n =? 127)%nat
          || ((128 <=? n)%nat && (n <=? 160)%nat) || (n =? 173)%nat then
    String backslash
      (String "x" (String (hex_digit (n / 16))
                     (String (hex_digit (n mod 16)) EmptyString)))
  else String c EmptyString.

(** [repr(text)]: double quotes are used only for a text with a single
    quote and no double quote. *)
Definition py_repr (text : string) : string :=
  let chars := String.list_ascii_of_string text in
  let quote :=
    if existsb (Ascii.eqb single_quote) chars
       && negb (existsb (Ascii.eqb double_quote) chars)
    then double_quote else single_quote in
  String quote
    (String.concat "" (map (repr_char quote) chars) +:+ String quote EmptyString).

(** [int(s)] for a string, in base ten, as CPython 3.11 reads it: white
    space on both sides, an optional sign, then digits, where single
    underscores may separate digits. Of the characters below 256 the white
    space is tab, line feed, vertical tab, form feed, carriage return, space,
    U+0085 and U+00A0. A run of more than 4300 digits is refused before the
    text after it is looked at. *)
Module PyInt.

Definition is_space (c : Ascii.ascii) : bool :=
  let n := Ascii.nat_of_ascii c in
  (Nat.eqb n 32 || (Nat.leb 9 n && Nat.leb n 13)
   || Nat.eqb n 133 || Nat.eqb n 160)%bool.

Fixpoint lstrip (s : list Ascii.ascii) : list Ascii.ascii :=
  match s with
  | c :: rest => if is_space c then lstrip rest else s
  | [] => []
  end.

Definition digit (c : Ascii.ascii) : option Z :=
  let n := Z.of_nat (Ascii.nat_of_ascii c) in
  if (48 <=? n) && (n <=? 57) then Some (n - 48) else None.

(** The run of digits and underscores at the head of [s]: its value, the
    number of its digits and what follows it; nothing when two underscores
    meet or an underscore ends the run. *)
Fixpoint digit_run (s : list Ascii.ascii) (acc : Z) (count : nat)
    (after_underscore : bool) : option (Z * nat * list Ascii.ascii) :=
  match s with
  | [] => if after_underscore then None else Some (acc, count, [])
  | c :: rest =>
      match digit c with
      | Some d => digit_run rest (10 * acc + d) (S count) false
      | None =>
          if Ascii.eqb c "_"%char then
            if after_underscore then None else digit_run rest acc count true
          else if after_underscore then None
          else Some (acc, count, s)
      end
  end.

(** [sys.int_info.default_max_str_digits] *)
Definition max_str_digits : nat := 4300.

(** The two errors of [int]; the first shows at most 200 characters of
    [repr(s)]. *)
Definition invalid_literal (s : string) : exn :=
  PyExn "ValueError"
        ("invalid literal for int() with base 10: "
         +:+ String.substring 0 200 (py_repr s)).

Definition too_many_digits (count : nat) : exn :=
  PyExn "ValueError"
        ("Exceeds the limit (4300 digits) for integer string conversion: value has "
         +:+ py_str (Z.of_nat count)
         +:+ " digits; use sys.set_int_max_str_digits() to increase the limit").

Definition parse (s : string) : result Z :=
  let text := lstrip (String.list_ascii_of_string s) in
  let '(negative, unsigned) :=
    match text with
    | c :: rest =>
        if Ascii.eqb c "-"%char then (true, rest)
        else if Ascii.eqb c "+"%char then (false, rest)
        else (false, text)
    | [] => (false, text)
    end in
  let leading_underscore :=
    match unsigned with
    | c :: _ => Ascii.eqb c "_"%char
    | [] => false
    end in
  if leading_underscore then Raise (invalid_literal s)
  else
    match digit_run unsigned 0 0 false with
    | None => Raise (invalid_literal s)
    | Some (value, count, rest) =>
        if (max_str_digits <? count)%nat then Raise (too_many_digits count)
        else if (count =? 0)%nat || negb (forallb is_space rest) then
          Raise (invalid_literal s)
        else Ok (if negative : bool then - value else value)
    end.

End PyInt.

(** ** The fixed-quality view *)

Record UploadedFile := {
  file_name : string;
  file_size : Z;
  content_type : string;
  file_content : bytes
}.

(** The two dictionaries of the request the view reads. *)
Record HttpRequest := {
  FILES : gmap string UploadedFile;
  POST : gmap string string
}.

(** The responses of the view: a JSON error with its status, or the
    compressed image as a download (its headers are left out). *)
Inductive HttpResponse :=
| JsonResponse (success : bool) (error : string) (status : Z)
| FileResponse (content : bytes) (media_type : string).

(** [s.startswith(p)] *)
Fixpoint startswith (s p : string) : bool :=
  match p, s with
  | EmptyString, _ => true
  | String a p', String b s' => Ascii.eqb a b && startswith s' p'
  | String _ _, EmptyString => false
  end.

(** [request.POST.get(key) == value] *)
Definition post_is (request : HttpRequest) (key value : string) : bool :=
  match POST request !! key with
  | Some v => String.eqb v value
  | None => false
  end.

Section View.
Context {pil : Pil}.

(** [Image.open(image_file)] *)
Definition img_open (image_file : UploadedFile) : M ref :=
  img <- lift (pil_open (file_content image_file)) ;;
  alloc img.

Definition compress_single_image (request : HttpRequest) : M HttpResponse :=
  try_except
    (match FILES request !! "image_file" with
     | None => ret (JsonResponse false "No image file provided" 400)
     | Some image_file =>
         if String.eqb (file_name image_file) "" then
           ret (JsonResponse false "No image file provided" 400)
         else if file_size image_file >? 10 * 1024 * 1024 then
           ret (JsonResponse false "File too large. Maximum size is 10MB" 400)
         else if negb (startswith (content_type image_file) "image/") then
           ret (JsonResponse false "Invalid file type. Please upload an image." 400)
         else
           quality <- lift (match POST request !! "quality" with
                            | Some text => PyInt.parse text
                            | None => Ok 80
                            end) ;;
           let preserve_exif := post_is request "preserve_exif" "true" in
           let auto_rotate := post_is request "auto_rotate" "true" in
           let quality := Z.max 10 (Z.min 100 quality) in
           image <- img_open image_file ;;
           image <- (if auto_rotate then process_image_orientation image
                     else ret image) ;;
           compressed <- compress_image image 3000 quality preserve_exif ;;
           ret (FileResponse (fst compressed) "image/jpeg")
     end)
    (fun e =>
       emit (EvLog "ERROR" ("Compression error: " +:+ exn_str e)) ;;;
       ret (JsonResponse false "An error occurred while processing the image." 500)).

End View.

(** ** A small instance of the imaging library

    Pixel buffers hold one byte per pixel; resampling and conversion fill
    the new buffer with zeros, a rotation by an odd multiple of 90 degrees
    swaps the two dimensions, and the encoder writes the two bytes of the
    start-of-image marker followed by [width * height * quality / 100]
    bytes. Resampling to an empty size fails, as it does in the library. *)
Module Sample.

Definition blank (sz : Z * Z) : bytes :=
  repeat x00 (Z.to_nat (fst sz * snd sz)).

Definition resample (src : Image) (sz : Z * Z) : result bytes :=
  if (fst sz <? 1) || (snd sz <? 1)
  then Raise (PyExn "ValueError" "height and width must be > 0")
  else Ok (blank sz).

Definition convert (src : Image) (to : string) : result bytes :=
  Ok (blank (size src)).

Definition rotate (src : Image) (angle : Z) (expand : bool)
  : result (Z * Z * bytes) :=
  if expand && ((angle =? 90) || (angle =? 270))
  then Ok ((snd (size src), fst (size src)), blank (size src))
  else Ok (size src, blank (size src)).

Definition encode_jpeg (img : Image) (quality : Z) (exif : option bytes)
  : result bytes :=
  Ok (xff :: xd8 ::
      repeat x00 (Z.to_nat (fst (size img) * snd (size img) * quality / 100))).

Definition open (data : bytes) : result Image :=
  match data with
  | w :: h :: _ =>
      Ok {| size := (Z.of_N (Byte.to_N w), Z.of_N (Byte.to_N h));
            mode := "RGB"; pixels := []; info_exif := None;
            getexif := Some (Ok None) |}
  | _ => Raise (PyExn "UnidentifiedImageError" "cannot identify image file")
  end.

#[export] Instance pil : Pil := {|
  pil_resample := resample;
  pil_convert := convert;
  pil_rotate := rotate;
  pil_encode_jpeg := encode_jpeg;
  pil_open := open
|}.

Definition image (w h : Z) (m : string) : Image :=
  {| size := (w, h); mode := m; pixels := []; info_exif := None;
     getexif := None |}.

Definition store (img : Image) : state := {| heap := [img]; trace := [] |}.

End Sample.

(** * Reasoning about runs *)

(** ** The primitives, step by step *)

Definition result_map {A B} (f : A -> B) (r : result A) : result B :=
  match r with
  | Ok a => Ok (f a)
  | Raise e => Raise e
  end.

(** The state after a run that allocated [objs] and recorded [evs]. *)
Definition extend (s : state) (objs : list Image) (evs : list event) : state :=
  {| heap := heap s ++ objs; trace := trace s ++ evs |}.

Lemma extend_nothing s : extend s [] [] = s.
Proof. destruct s; unfold extend; simpl. by rewrite !app_nil_r. Qed.

Lemma extend_extend s o1 e1 o2 e2 :
  extend (extend s o1 e1) o2 e2 = extend s (o1 ++ o2) (e1 ++ e2).
Proof. unfold extend; simpl. by rewrite !app_assoc. Qed.

Lemma lookup_extend s objs evs (r : ref) i :
  heap s !! r = Some i -> heap (extend s objs evs) !! r = Some i.
Proof. intros Hr. simpl. by apply lookup_app_l_Some. Qed.

Lemma lookup_extend_new s i evs :
  heap (extend s [i] evs) !! length (heap s) = Some i.
Proof. simpl. by rewrite lookup_app_r, Nat.sub_diag. Qed.

Lemma bind_ok {A B} (m : M A) (k : A -> M B) s a s' :
  m s = (Ok a, s') -> bind m k s = k a s'.
Proof. unfold bind. by intros ->. Qed.

Lemma bind_raise {A B} (m : M A) (k : A -> M B) s e s' :
  m s = (Raise e, s') -> bind m k s = (Raise e, s').
Proof. unfold bind. by intros ->. Qed.

Lemma deref_ok s (r : ref) i : heap s !! r = Some i -> deref r s = (Ok i, s).
Proof. unfold deref. by intros ->. Qed.

Lemma deref_dangling s (r : ref) :
  heap s !! r = None -> exists e, deref r s = (Raise e, s).
Proof. unfold deref. intros ->. eauto. Qed.

Section Primitives.
Context {pil : Pil}.

Lemma img_save_run at_ (r : ref) q ex s i :
  heap s !! r = Some i ->
  img_save at_ r q ex s
  = (pil_encode_jpeg i q ex,
     extend s [] [EvSave at_ i q ex (pil_encode_jpeg i q ex)]).
Proof.
  intros Hr. unfold img_save. rewrite (bind_ok _ _ _ _ _ (deref_ok _ _ _ Hr)).
  unfold bind, emit, lift, extend; simpl. rewrite app_nil_r.
  by destruct (pil_encode_jpeg i q ex).
Qed.

Lemma img_resize_run (r : ref) sz s i :
  heap s !! r = Some i ->
  img_resize r sz s
  = match pil_resample i sz with
    | Ok px => (Ok (length (heap s)),
                extend s [derived i sz (mode i) px] [EvResize i sz (Ok px)])
    | Raise e => (Raise e, extend s [] [EvResize i sz (Raise e)])
    end.
Proof.
  intros Hr. unfold img_resize. rewrite (bind_ok _ _ _ _ _ (deref_ok _ _ _ Hr)).
  unfold bind, emit, lift, alloc, extend; simpl.
  destruct (pil_resample i sz); simpl; by rewrite ?app_nil_r.
Qed.

Lemma img_copy_run (r : ref) s i :
  heap s !! r = Some i ->
  img_copy r s
  = (Ok (length (heap s)),
     extend s [derived i (size i) (mode i) (pixels i)] [EvCopy i]).
Proof.
  intros Hr. unfold img_copy. rewrite (bind_ok _ _ _ _ _ (deref_ok _ _ _ Hr)).
  reflexivity.
Qed.

Lemma img_convert_run (r : ref) to s i :
  heap s !! r = Some i ->
  img_convert r to s
  = match pil_convert i to with
    | Ok px => (Ok (length (heap s)),
                extend s [derived i (size i) to px] [EvConvert i to (Ok px)])
    | Raise e => (Raise e, extend s [] [EvConvert i to (Raise e)])
    end.
Proof.
  intros Hr. unfold img_convert. rewrite (bind_ok _ _ _ _ _ (deref_ok _ _ _ Hr)).
  unfold bind, emit, lift, alloc, extend; simpl.
  destruct (pil_convert i to); simpl; by rewrite ?app_nil_r.
Qed.

Lemma img_rotate_run (r : ref) angle expand s i :
  heap s !! r = Some i ->
  img_rotate r angle expand s
  = match pil_rotate i angle expand with
    | Ok (sz, px) =>
        (Ok (length (heap s)),
         extend s [derived i sz (mode i) px]
                [EvRotate i angle expand (Ok (sz, px))])
    | Raise e => (Raise e, extend s [] [EvRotate i angle expand (Raise e)])
    end.
Proof.
  intros Hr. unfold img_rotate. rewrite (bind_ok _ _ _ _ _ (deref_ok _ _ _ Hr)).
  unfold bind, emit, lift, alloc, extend; simpl.
  destruct (pil_rotate i angle expand) as [[sz px]|e]; simpl;
    by rewrite ?app_nil_r.
Qed.

End Primitives.

(** ** The shape of a run of the size-targeting compressor *)

Section Shape.
Context {pil : Pil}.
Variables (target : Z) (img : Image) (preserve_exif : bool).

(** The probe at the middle of the quality range [low .. high], on the
    working image [working] at dimension factor [factor]. *)
Definition probe_quality (low high : Z) : Z := (low + high) / 2.

Definition probe_output (working : Image) (low high : Z) : result bytes :=
  pil_encode_jpeg working (probe_quality low high) (exif_param preserve_exif img).

Definition probe_event (working : Image) (factor : float) (low high : Z) : event :=
  EvSave (AtProbe factor) working (probe_quality low high)
         (exif_param preserve_exif img) (probe_output working low high).

Definition found (working : Image) (factor : float) (low high : Z)
    (data : bytes) : candidate :=
  (data, probe_stats working (Z.of_nat (length data)) (probe_quality low high) factor).

Definition keep_best (best : option candidate) (c : candidate) : option candidate :=
  if improves target (compressed_size (snd c)) best then Some c else best.

Definition narrowed (low high : Z) (data : bytes) : Z * Z :=
  narrow target (Z.of_nat (length data)) (probe_quality low high) (low, high).

(** The events and the outcome of the quality search at one factor. *)
Inductive probes (working : Image) (factor : float)
  : nat -> Z -> Z -> option candidate -> list event
    -> result (control (option candidate)) -> Prop :=
| probes_exhausted low high best :
    probes working factor 0 low high best [] (Ok (Continue best))
| probes_encoder_raises n low high best e :
    probe_output working low high = Raise e ->
    probes working factor (S n) low high best
           [probe_event working factor low high] (Raise e)
| probes_target_raises n low high best data e :
    probe_output working low high = Ok data ->
    within (Z.of_nat (length data)) target tight_tolerance = Raise e ->
    probes working factor (S n) low high best
           [probe_event working factor low high] (Raise e)
| probes_tight n low high best data :
    probe_output working low high = Ok data ->
    within (Z.of_nat (length data)) target tight_tolerance = Ok true ->
    probes working factor (S n) low high best
           [probe_event working factor low high]
           (Ok (Return (found working factor low high data)))
| probes_break n low high best data :
    probe_output working low high = Ok data ->
    within (Z.of_nat (length data)) target tight_tolerance = Ok false ->
    fst (narrowed low high data) >= snd (narrowed low high data) ->
    probes working factor (S n) low high best
           [probe_event working factor low high]
           (Ok (Continue (keep_best best (found working factor low high data))))
| probes_more n low high best data evs r :
    probe_output working low high = Ok data ->
    within (Z.of_nat (length data)) target tight_tolerance = Ok false ->
    fst (narrowed low high data) < snd (narrowed low high data) ->
    probes working factor n (fst (narrowed low high data))
           (snd (narrowed low high data))
           (keep_best best (found working factor low high data)) evs r ->
    probes working factor (S n) low high best
           (probe_event working factor low high :: evs) r.

Lemma quality_loop_probes (image working_image : ref) working factor n :
  forall low high best s,
    heap s !! image = Some img ->
    heap s !! working_image = Some working ->
    exists evs r,
      quality_loop image target preserve_exif working_image factor n
                   low high best s = (r, extend s [] evs)
      /\ probes working factor n low high best evs r.
Proof.
  induction n as [|n IH]; intros low high best s Himg Hw.
  - exists [], (Ok (Continue best)). split; [|constructor].
    simpl. unfold ret. by rewrite extend_nothing.
  - simpl quality_loop.
    rewrite (bind_ok _ _ _ _ _ (deref_ok _ _ _ Himg)).
    pose proof (img_save_run (AtProbe factor) working_image
                  ((low + high) / 2) (exif_param preserve_exif img) s working Hw)
      as Hsave.
    fold (probe_quality low high) in Hsave |- *.
    fold (probe_output working low high) in Hsave.
    fold (probe_event working factor low high) in Hsave.
    destruct (probe_output working low high) as [data|e] eqn:Hout.
    2:{ rewrite (bind_raise _ _ _ _ _ Hsave).
        eexists _, _. split; [reflexivity|]. by constructor. }
    rewrite (bind_ok _ _ _ _ _ Hsave).
    set (s1 := extend s [] [probe_event working factor low high]).
    assert (heap s1 !! image = Some img) as Himg1 by by apply lookup_extend.
    assert (heap s1 !! working_image = Some working) as Hw1
        by by apply lookup_extend.
    unfold bind at 1, lift at 1.
    destruct (within (Z.of_nat (length data)) target tight_tolerance)
      as [[|]|e] eqn:Htight.
    + rewrite (bind_ok _ _ _ _ _ (deref_ok _ _ _ Hw1)).
      eexists _, _. split; [reflexivity|]. by constructor.
    + rewrite (bind_ok _ _ _ _ _ (deref_ok _ _ _ Hw1)).
      fold (found working factor low high data).
      change (if improves target (Z.of_nat (length data)) best
              then Some (found working factor low high data) else best)
        with (keep_best best (found working factor low high data)).
      fold (narrowed low high data).
      destruct (fst (narrowed low high data) >=? snd (narrowed low high data))
        eqn:Hge.
      * eexists _, _. split; [reflexivity|].
        apply probes_break; auto. lia.
      * destruct (IH (fst (narrowed low high data)) (snd (narrowed low high data))
                    (keep_best best (found working factor low high data)) s1
                    Himg1 Hw1) as (evs & r & Hrun & Hp).
        exists (probe_event working factor low high :: evs), r. split.
        -- transitivity (r, extend s1 [] evs); [exact Hrun|].
           unfold s1. by rewrite extend_extend.
        -- apply probes_more with (data := data); auto. lia.
    + eexists _, _. split; [reflexivity|].
      by apply probes_target_raises with (data := data).
Qed.

(** The working image of one dimension factor: the events its
    preparation records, and the image itself unless a step raised. *)
Definition working_step (factor : float) : list event * result Image :=
  if PyFloat.ltb factor one then
    match scaled (fst (size img)) factor with
    | Raise e => ([], Raise e)
    | Ok new_width =>
        match scaled (snd (size img)) factor with
        | Raise e => ([], Raise e)
        | Ok new_height =>
            let out := pil_resample img (new_width, new_height) in
            ([EvResize img (new_width, new_height) out],
             result_map (derived img (new_width, new_height) (mode img)) out)
        end
    end
  else ([EvCopy img], Ok (derived img (size img) (mode img) (pixels img))).

Variable max_iterations : Z.

(** The events and the outcome of the loop over the dimension factors. *)
Inductive scales
  : list float -> option candidate -> list event
    -> result (control (option candidate)) -> Prop :=
| scales_exhausted best :
    scales [] best [] (Ok (Continue best))
| scales_working_raises factor smaller best evs e :
    working_step factor = (evs, Raise e) ->
    scales (factor :: smaller) best evs (Raise e)
| scales_probes_raise factor smaller best evs0 working evs1 e :
    working_step factor = (evs0, Ok working) ->
    probes working factor (Z.to_nat max_iterations) min_quality max_quality
           best evs1 (Raise e) ->
    scales (factor :: smaller) best (evs0 ++ evs1) (Raise e)
| scales_tight factor smaller best evs0 working evs1 c :
    working_step factor = (evs0, Ok working) ->
    probes working factor (Z.to_nat max_iterations) min_quality max_quality
           best evs1 (Ok (Return c)) ->
    scales (factor :: smaller) best (evs0 ++ evs1) (Ok (Return c))
| scales_check_raises factor smaller best evs0 working evs1 best' e :
    working_step factor = (evs0, Ok working) ->
    probes working factor (Z.to_nat max_iterations) min_quality max_quality
           best evs1 (Ok (Continue best')) ->
    good_enough target best' = Raise e ->
    scales (factor :: smaller) best (evs0 ++ evs1) (Raise e)
| scales_relaxed factor smaller best evs0 working evs1 best' c :
    working_step factor = (evs0, Ok working) ->
    probes working factor (Z.to_nat max_iterations) min_quality max_quality
           best evs1 (Ok (Continue best')) ->
    good_enough target best' = Ok (Some c) ->
    scales (factor :: smaller) best (evs0 ++ evs1) (Ok (Return c))
| scales_next factor smaller best evs0 working evs1 best' evs2 r :
    working_step factor = (evs0, Ok working) ->
    probes working factor (Z.to_nat max_iterations) min_quality max_quality
           best evs1 (Ok (Continue best')) ->
    good_enough target best' = Ok None ->
    scales smaller best' evs2 r ->
    scales (factor :: smaller) best (evs0 ++ evs1 ++ evs2) r.

Lemma working_step_run (image : ref) factor s :
  heap s !! image = Some img ->
  (if PyFloat.ltb factor one then
     new_width <- lift (scaled (fst (size img)) factor) ;;
     new_height <- lift (scaled (snd (size img)) factor) ;;
     img_resize image (new_width, new_height)
   else img_copy image) s
  = match working_step factor with
    | (evs, Ok working) => (Ok (length (heap s)), extend s [working] evs)
    | (evs, Raise e) => (Raise e, extend s [] evs)
    end.
Proof.
  intros Himg. unfold working_step.
  destruct (PyFloat.ltb factor one).
  - unfold bind at 1, lift at 1.
    destruct (scaled (fst (size img)) factor) as [nw|e];
      [|by rewrite extend_nothing].
    unfold bind at 1, lift at 1.
    destruct (scaled (snd (size img)) factor) as [nh|e];
      [|by rewrite extend_nothing].
    rewrite (img_resize_run _ _ _ _ Himg).
    by destruct (pil_resample img (nw, nh)).
  - by rewrite (img_copy_run _ _ _ Himg).
Qed.

Lemma dimension_loop_scales (image : ref) factors :
  forall best s,
    heap s !! image = Some img ->
    exists objs evs r,
      dimension_loop image target preserve_exif (size img) max_iterations
                     factors best s = (r, extend s objs evs)
      /\ scales factors best evs r.
Proof.
  induction factors as [|factor smaller IH]; intros best s Himg.
  - exists [], [], (Ok (Continue best)). split; [|constructor].
    simpl. unfold ret. by rewrite extend_nothing.
  - simpl dimension_loop.
    pose proof (working_step_run image factor s Himg) as Hstep.
    destruct (working_step factor) as [evs0 [working|e]] eqn:Hws.
    2:{ rewrite (bind_raise _ _ _ _ _ Hstep).
        eexists _, _, _. split; [reflexivity|]. by constructor. }
    rewrite (bind_ok _ _ _ _ _ Hstep).
    set (s1 := extend s [working] evs0).
    assert (heap s1 !! image = Some img) as Himg1 by by apply lookup_extend.
    assert (heap s1 !! length (heap s) = Some working) as Hw1
        by apply lookup_extend_new.
    destruct (quality_loop_probes image (length (heap s)) working factor
                (Z.to_nat max_iterations) min_quality max_quality best s1
                Himg1 Hw1) as (evs1 & r1 & Hrun1 & Hp).
    destruct r1 as [[c|best']|e].
    + rewrite (bind_ok _ _ _ _ _ Hrun1).
      exists [working], (evs0 ++ evs1), (Ok (Return c)). split.
      * unfold ret, s1. by rewrite extend_extend.
      * by apply scales_tight with (working := working).
    + rewrite (bind_ok _ _ _ _ _ Hrun1).
      set (s2 := extend s1 [] evs1).
      assert (s2 = extend s [working] (evs0 ++ evs1)) as Hs2
          by (unfold s2, s1; by rewrite extend_extend).
      unfold bind at 1, lift at 1.
      destruct (good_enough target best') as [[c|]|e] eqn:Hgood.
      * exists [working], (evs0 ++ evs1), (Ok (Return c)). split.
        -- unfold ret. by rewrite Hs2.
        -- by apply scales_relaxed with (working := working) (best' := best').
      * assert (heap s2 !! image = Some img) as Himg2 by by apply lookup_extend.
        destruct (IH best' s2 Himg2) as (objs & evs2 & r & Hrun2 & Hsc).
        exists ([working] ++ objs), (evs0 ++ evs1 ++ evs2), r. split.
        -- rewrite Hrun2, Hs2, extend_extend. by rewrite <- app_assoc.
        -- by apply scales_next with (working := working) (best' := best').
      * exists [working], (evs0 ++ evs1), (Raise e). split.
        -- by rewrite Hs2.
        -- by apply scales_check_raises
             with (working := working) (best' := best').
    + rewrite (bind_raise _ _ _ _ _ Hrun1).
      exists [working], (evs0 ++ evs1), (Raise e). split.
      * unfold s1. by rewrite extend_extend.
      * by apply scales_probes_raise with (working := working).
Qed.

End Shape.

Section Run.
Context {pil : Pil}.

(** The upfront mode conversion: its event, and the image the search
    works from. *)
Definition convert_step (img0 : Image) : list event * result Image :=
  if mode_needs_rgb (mode img0) then
    let out := pil_convert img0 "RGB" in
    ([EvConvert img0 "RGB" out],
     result_map (derived img0 (size img0) "RGB") out)
  else ([], Ok img0).

Definition fallback_output (img : Image) : result bytes :=
  pil_encode_jpeg img min_quality None.

Definition fallback_event (img : Image) : event :=
  EvSave AtFallback img min_quality None (fallback_output img).

Definition fallback_found (img : Image) (data : bytes) : candidate :=
  (data, probe_stats img (Z.of_nat (length data)) min_quality one).

(** The events and the result of a call of [compress_image_to_kb] on the
    image [img0]. *)
Inductive kb_run (img0 : Image) (target_size_kb : Z) (preserve_exif : bool)
    (max_iterations : Z) : list event -> result candidate -> Prop :=
| kb_convert_raises evc e :
    convert_step img0 = (evc, Raise e) ->
    kb_run img0 target_size_kb preserve_exif max_iterations evc (Raise e)
| kb_search_raises evc img evs e :
    convert_step img0 = (evc, Ok img) ->
    scales (target_size_kb * 1024) img preserve_exif max_iterations
           dimension_reductions None evs (Raise e) ->
    kb_run img0 target_size_kb preserve_exif max_iterations
           (evc ++ evs) (Raise e)
| kb_accepted evc img evs c :
    convert_step img0 = (evc, Ok img) ->
    scales (target_size_kb * 1024) img preserve_exif max_iterations
           dimension_reductions None evs (Ok (Return c)) ->
    kb_run img0 target_size_kb preserve_exif max_iterations
           (evc ++ evs) (Ok c)
| kb_best evc img evs best c :
    convert_step img0 = (evc, Ok img) ->
    scales (target_size_kb * 1024) img preserve_exif max_iterations
           dimension_reductions None evs (Ok (Continue best)) ->
    truthy_best best = Some c ->
    kb_run img0 target_size_kb preserve_exif max_iterations
           (evc ++ evs) (Ok c)
| kb_fallback evc img evs best :
    convert_step img0 = (evc, Ok img) ->
    scales (target_size_kb * 1024) img preserve_exif max_iterations
           dimension_reductions None evs (Ok (Continue best)) ->
    truthy_best best = None ->
    kb_run img0 target_size_kb preserve_exif max_iterations
           (evc ++ evs ++ [fallback_event img])
           (result_map (fallback_found img) (fallback_output img)).

Lemma convert_step_run (image : ref) img0 s :
  heap s !! image = Some img0 ->
  exists objs,
    (if mode_needs_rgb (mode img0) then img_convert image "RGB" else ret image) s
    = match convert_step img0 with
      | (evs, Ok img) =>
          (Ok (if mode_needs_rgb (mode img0) then length (heap s) else image),
           extend s objs evs)
      | (evs, Raise e) => (Raise e, extend s objs evs)
      end
    /\ match convert_step img0 with
       | (evs, Ok img) =>
           heap (extend s objs evs)
             !! (if mode_needs_rgb (mode img0) then length (heap s) else image)
           = Some img
       | _ => True
       end.
Proof.
  intros Himg. unfold convert_step.
  destruct (mode_needs_rgb (mode img0)).
  - rewrite (img_convert_run _ _ _ _ Himg).
    destruct (pil_convert img0 "RGB") as [px|e].
    + eexists. split; [reflexivity|]. apply lookup_extend_new.
    + by exists [].
  - exists []. unfold ret. rewrite extend_nothing. by split.
Qed.

Lemma compress_image_to_kb_run (image : ref) img0 kb preserve_exif n s :
  heap s !! image = Some img0 ->
  exists objs evs r,
    compress_image_to_kb image kb preserve_exif n s = (r, extend s objs evs)
    /\ kb_run img0 kb preserve_exif n evs r.
Proof.
  intros Himg0. unfold compress_image_to_kb.
  rewrite (bind_ok _ _ _ _ _ (deref_ok _ _ _ Himg0)).
  destruct (convert_step_run image img0 s Himg0) as (objs0 & Hconv & Hnew).
  destruct (convert_step img0) as [evc [img|e]] eqn:Hcs.
  2:{ rewrite (bind_raise _ _ _ _ _ Hconv).
      eexists _, _, _. split; [reflexivity|]. by constructor. }
  rewrite (bind_ok _ _ _ _ _ Hconv).
  set (image' := if mode_needs_rgb (mode img0) then length (heap s) else image)
    in *.
  set (s1 := extend s objs0 evc) in *.
  rewrite (bind_ok _ _ _ _ _ (deref_ok _ _ _ Hnew)).
  destruct (dimension_loop_scales (kb * 1024) img preserve_exif n image'
              dimension_reductions None s1 Hnew)
    as (objs & evs & r & Hrun & Hsc).
  destruct r as [[c|best]|e].
  - rewrite (bind_ok _ _ _ _ _ Hrun).
    exists (objs0 ++ objs), (evc ++ evs), (Ok c). split.
    + unfold ret, s1. by rewrite extend_extend.
    + by apply kb_accepted with (img := img).
  - rewrite (bind_ok _ _ _ _ _ Hrun).
    destruct (truthy_best best) as [c|] eqn:Hbest.
    + exists (objs0 ++ objs), (evc ++ evs), (Ok c). split.
      * unfold ret, s1. by rewrite extend_extend.
      * by apply kb_best with (img := img) (best := best).
    + assert (heap (extend s1 objs evs) !! image' = Some img) as Himg2
          by by apply lookup_extend.
      pose proof (img_save_run AtFallback image' min_quality None _ img Himg2)
        as Hsave.
      fold (fallback_output img) in Hsave. fold (fallback_event img) in Hsave.
      exists (objs0 ++ objs), (evc ++ evs ++ [fallback_event img]),
        (result_map (fallback_found img) (fallback_output img)).
      split; [|by apply kb_fallback with (best := best)].
      destruct (fallback_output img) as [data|e].
      * rewrite (bind_ok _ _ _ _ _ Hsave). unfold ret, s1.
        rewrite !extend_extend, app_nil_r. reflexivity.
      * rewrite (bind_raise _ _ _ _ _ Hsave). unfold s1.
        rewrite !extend_extend, app_nil_r. reflexivity.
  - rewrite (bind_raise _ _ _ _ _ Hrun).
    exists (objs0 ++ objs), (evc ++ evs), (Raise e). split.
    + unfold s1. by rewrite extend_extend.
    + by apply kb_search_raises with (img := img).
Qed.

End Run.

(** ** What a computation may do to the state

    Every computation of the embedding only appends: new objects to the
    store, new events to the trace. [emits P m] adds that all the events [m]
    records satisfy [P]. *)

Definition events_of {A} (m : M A) (s : state) : list event :=
  drop (length (trace s)) (trace (snd (m s))).

Definition result_of {A} (m : M A) (s : state) : result A := fst (m s).

Definition heap_after {A} (m : M A) (s : state) : list Image := heap (snd (m s)).

Lemma events_of_extend {A} (m : M A) s r objs evs :
  m s = (r, extend s objs evs) -> events_of m s = evs.
Proof.
  intros Hm. unfold events_of. rewrite Hm. simpl. by rewrite drop_app_length.
Qed.

Definition emits {A} (P : event -> Prop) (m : M A) : Prop :=
  forall s, exists objs evs, snd (m s) = extend s objs evs /\ Forall P evs.

Lemma emits_ret {A} P (a : A) : emits P (ret a).
Proof. intros s. exists [], []. by rewrite extend_nothing. Qed.

Lemma emits_lift {A} P (r : result A) : emits P (lift r).
Proof. intros s. exists [], []. by rewrite extend_nothing. Qed.

Lemma emits_deref P (r : ref) : emits P (deref r).
Proof.
  intros s. exists [], []. rewrite extend_nothing. split; [|done].
  unfold deref. by destruct (heap s !! r).
Qed.

Lemma emits_alloc P i : emits P (alloc i).
Proof. intros s. exists [i], []. unfold alloc, extend; simpl. by rewrite app_nil_r. Qed.

Lemma emits_emit P ev : P ev -> emits P (emit ev).
Proof.
  intros Hev s. exists [], [ev]. unfold emit, extend; simpl.
  rewrite app_nil_r. split; [done|]. by constructor.
Qed.

Lemma emits_bind {A B} P (m : M A) (k : A -> M B) :
  emits P m -> (forall a, emits P (k a)) -> emits P (bind m k).
Proof.
  intros Hm Hk s. destruct (Hm s) as (o1 & e1 & Hs1 & HP1).
  unfold bind. destruct (m s) as [[a|e] s1]; simpl in Hs1; subst s1.
  - destruct (Hk a (extend s o1 e1)) as (o2 & e2 & Hs2 & HP2).
    exists (o1 ++ o2), (e1 ++ e2). rewrite Hs2, extend_extend.
    split; [done|]. by apply Forall_app.
  - by exists o1, e1.
Qed.

Lemma emits_try_except {A} P (body : M A) (handler : exn -> M A) :
  emits P body -> (forall e, emits P (handler e)) -> emits P (try_except body handler).
Proof.
  intros Hm Hk s. destruct (Hm s) as (o1 & e1 & Hs1 & HP1).
  unfold try_except. destruct (body s) as [[a|e] s1]; simpl in Hs1; subst s1.
  - by exists o1, e1.
  - destruct (Hk e (extend s o1 e1)) as (o2 & e2 & Hs2 & HP2).
    exists (o1 ++ o2), (e1 ++ e2). rewrite Hs2, extend_extend.
    split; [done|]. by apply Forall_app.
Qed.

Lemma emits_if {A} P (b : bool) (m1 m2 : M A) :
  emits P m1 -> emits P m2 -> emits P (if b then m1 else m2).
Proof. by destruct b. Qed.

Lemma emits_events {A} P (m : M A) s : emits P m -> Forall P (events_of m s).
Proof.
  intros Hm. destruct (Hm s) as (objs & evs & Hs & HP).
  unfold events_of. rewrite Hs. simpl. by rewrite drop_app_length.
Qed.

Lemma emits_heap {A} P (m : M A) s (r : ref) i :
  emits P m -> heap s !! r = Some i -> heap_after m s !! r = Some i.
Proof.
  intros Hm Hr. destruct (Hm s) as (objs & evs & Hs & _).
  unfold heap_after. rewrite Hs. by apply lookup_extend.
Qed.

(** The quality of an encode lies in [low .. high]; other events pass. *)
Definition quality_within (low high : Z) (ev : event) : Prop :=
  match ev with
  | EvSave _ _ quality _ _ => low <= quality <= high
  | _ => True
  end.

Ltac emits_step :=
  first
    [ apply emits_ret
    | apply emits_lift
    | apply emits_deref
    | apply emits_alloc
    | apply emits_emit
    | apply emits_bind; [|intros ?]
    | apply emits_try_except; [|intros ?]
    | apply emits_if ].

Section Emits.
Context {pil : Pil}.

Lemma emits_img_resize P (r : ref) sz :
  (forall src out, P (EvResize src sz out)) -> emits P (img_resize r sz).
Proof. intros HP. unfold img_resize. repeat emits_step; auto. Qed.

Lemma emits_img_copy P (r : ref) :
  (forall src, P (EvCopy src)) -> emits P (img_copy r).
Proof. intros HP. unfold img_copy. repeat emits_step; auto. Qed.

Lemma emits_img_convert P (r : ref) to :
  (forall src out, P (EvConvert src to out)) -> emits P (img_convert r to).
Proof. intros HP. unfold img_convert. repeat emits_step; auto. Qed.

Lemma emits_img_rotate P (r : ref) angle expand :
  (forall src out, P (EvRotate src angle expand out)) ->
  emits P (img_rotate r angle expand).
Proof.
  intros HP. unfold img_rotate.
  apply emits_bind; [apply emits_deref|intros src].
  apply emits_bind; [by apply emits_emit|intros _].
  apply emits_bind; [apply emits_lift|intros [sz px]].
  apply emits_alloc.
Qed.

Lemma emits_img_save P at_ (r : ref) quality exif :
  (forall img, P (EvSave at_ img quality exif (pil_encode_jpeg img quality exif))) ->
  emits P (img_save at_ r quality exif).
Proof. intros HP. unfold img_save. repeat emits_step; auto. Qed.

Lemma emits_process_image_orientation P (image : ref) :
  (forall src angle expand out, P (EvRotate src angle expand out)) ->
  (forall level msg, P (EvLog level msg)) ->
  emits P (process_image_orientation image).
Proof.
  intros Hrot Hlog. unfold process_image_orientation.
  apply emits_bind; [apply emits_deref|intros img].
  destruct (getexif img) as [reader|]; [|apply emits_ret].
  apply emits_bind; [apply emits_lift|intros first].
  destruct (negb (exif_truthy first)); [apply emits_ret|].
  apply emits_bind.
  - apply emits_try_except.
    + apply emits_bind; [apply emits_lift|intros key].
      apply emits_bind; [apply emits_lift|intros second].
      apply emits_bind; [apply emits_lift|intros exif].
      destruct (exif !! key) as [v|]; [|apply emits_ret].
      repeat apply emits_if;
        try (apply emits_bind; [apply emits_img_rotate; auto|intros ?]);
        apply emits_ret.
    + intros e. apply emits_bind; [|intros ?; apply emits_ret].
      apply emits_emit. auto.
  - intros [rotated|]; apply emits_ret.
Qed.

Lemma emits_compress_image P (image : ref) max_dimension quality preserve_exif :
  (forall src sz out, P (EvResize src sz out)) ->
  (forall src to out, P (EvConvert src to out)) ->
  (forall img exif,
      P (EvSave AtFixed img quality exif (pil_encode_jpeg img quality exif))) ->
  emits P (compress_image image max_dimension quality preserve_exif).
Proof.
  intros Hres Hconv Hsave. unfold compress_image.
  repeat (first [ apply emits_img_resize; auto
                | apply emits_img_convert; auto
                | apply emits_img_save; auto
                | emits_step ]).
Qed.

Lemma emits_quality_loop P (image working_image : ref) target preserve_exif
    factor (Q : Z -> Z -> Prop) n :
  (forall low high (data : bytes),
      Q low high ->
      let range := narrow target (Z.of_nat (length data)) ((low + high) / 2)
                          (low, high) in
      fst range < snd range -> Q (fst range) (snd range)) ->
  (forall low high img exif,
      Q low high ->
      P (EvSave (AtProbe factor) img ((low + high) / 2) exif
                (pil_encode_jpeg img ((low + high) / 2) exif))) ->
  forall low high best,
    Q low high ->
    emits P (quality_loop image target preserve_exif working_image factor n
                          low high best).
Proof.
  intros Hnarrow Hsave. induction n as [|n IH]; intros low high best HQ.
  - apply emits_ret.
  - simpl. apply emits_bind; [apply emits_deref|intros img].
    apply emits_bind; [apply emits_img_save; auto|intros data].
    apply emits_bind; [apply emits_lift|intros tight].
    apply emits_bind; [apply emits_deref|intros working].
    destruct tight; [apply emits_ret|].
    match goal with |- context [if ?c then ret _ else _] => destruct c eqn:Hge end;
      [apply emits_ret|].
    apply IH. apply Hnarrow; auto. lia.
Qed.

Lemma emits_dimension_loop P (image : ref) target preserve_exif original_size
    max_iterations factors :
  (forall src sz out, P (EvResize src sz out)) ->
  (forall src, P (EvCopy src)) ->
  (forall factor working_image best,
      In factor factors ->
      emits P (quality_loop image target preserve_exif working_image factor
                            (Z.to_nat max_iterations) min_quality max_quality
                            best)) ->
  forall best,
    emits P (dimension_loop image target preserve_exif original_size
                            max_iterations factors best).
Proof.
  intros Hres Hcopy. induction factors as [|factor smaller IH]; intros Hq best.
  - apply emits_ret.
  - simpl. apply emits_bind.
    { apply emits_if; [|by apply emits_img_copy].
      repeat (first [apply emits_img_resize; auto | emits_step]). }
    intros working_image.
    apply emits_bind; [apply Hq; by left|intros [c|best']];
      [apply emits_ret|].
    apply emits_bind; [apply emits_lift|intros [c|]]; [apply emits_ret|].
    apply IH. intros. apply Hq. by right.
Qed.

Lemma emits_compress_image_to_kb P (image : ref) kb preserve_exif max_iterations :
  (forall src sz out, P (EvResize src sz out)) ->
  (forall src, P (EvCopy src)) ->
  (forall src to out, P (EvConvert src to out)) ->
  (forall img exif,
      P (EvSave AtFallback img min_quality exif
                (pil_encode_jpeg img min_quality exif))) ->
  (forall factor working_image image best,
      In factor dimension_reductions ->
      emits P (quality_loop image (kb * 1024) preserve_exif working_image factor
                            (Z.to_nat max_iterations) min_quality max_quality
                            best)) ->
  emits P (compress_image_to_kb image kb preserve_exif max_iterations).
Proof.
  intros Hres Hcopy Hconv Hfb Hq. unfold compress_image_to_kb.
  apply emits_bind; [apply emits_deref|intros img0].
  apply emits_bind;
    [apply emits_if; [by apply emits_img_convert|apply emits_ret]|intros image'].
  apply emits_bind; [apply emits_deref|intros img].
  apply emits_bind; [apply emits_dimension_loop; auto|intros [c|best]];
    [apply emits_ret|].
  destruct (truthy_best best); [apply emits_ret|].
  apply emits_bind; [by apply emits_img_save|intros ?; apply emits_ret].
Qed.

End Emits.

Section ViewEmits.
Context {pil : Pil}.

Lemma emits_compress_single_image P request :
  (forall src sz out, P (EvResize src sz out)) ->
  (forall src to out, P (EvConvert src to out)) ->
  (forall src angle expand out, P (EvRotate src angle expand out)) ->
  (forall level msg, P (EvLog level msg)) ->
  (forall img quality exif,
      P (EvSave AtFixed img (Z.max 10 (Z.min 100 quality)) exif
                (pil_encode_jpeg img (Z.max 10 (Z.min 100 quality)) exif))) ->
  emits P (compress_single_image request).
Proof.
  intros Hres Hconv Hrot Hlog Hsave. unfold compress_single_image.
  apply emits_try_except.
  - destruct (FILES request !! "image_file") as [image_file|]; [|apply emits_ret].
    repeat (apply emits_if; [apply emits_ret|]).
    apply emits_bind; [apply emits_lift|intros quality].
    apply emits_bind.
    { unfold img_open. apply emits_bind; [apply emits_lift|intros img].
      apply emits_alloc. }
    intros image. apply emits_bind.
    { apply emits_if; [|apply emits_ret].
      by apply emits_process_image_orientation. }
    intros image'. apply emits_bind; [|intros ?; apply emits_ret].
    apply emits_compress_image; auto.
  - intros e. apply emits_bind; [by apply emits_emit|intros ?; apply emits_ret].
Qed.

Lemma emits_quality_loop_any P (image working_image : ref) target preserve_exif
    factor n low high best :
  (forall img quality exif,
      P (EvSave (AtProbe factor) img quality exif
                (pil_encode_jpeg img quality exif))) ->
  emits P (quality_loop image target preserve_exif working_image factor n
                        low high best).
Proof.
  intros Hsave.
  apply emits_quality_loop with (Q := fun _ _ => True); auto.
Qed.

Lemma emits_quality_loop_range (image working_image : ref) target preserve_exif
    factor n best :
  emits (quality_within min_quality max_quality)
        (quality_loop image target preserve_exif working_image factor n
                      min_quality max_quality best).
Proof.
  apply emits_quality_loop
    with (Q := fun low high => min_quality <= low /\ low <= high /\ high <= max_quality).
  - intros low high data (Hlo & Hle & Hhi). unfold narrow, min_quality, max_quality in *.
    destruct (Z.of_nat (length data) >? target); simpl; intros Hlt;
      Z.div_mod_to_equations; lia.
  - intros low high img exif (Hlo & Hle & Hhi). simpl.
    unfold min_quality, max_quality in *. split.
    + apply Z.div_le_lower_bound; lia.
    + apply Z.div_le_upper_bound; lia.
  - unfold min_quality, max_quality. lia.
Qed.

End ViewEmits.

(** ** Tight acceptance ends the run *)

(** A probe whose output passes the 5% test of the search. *)
Definition tight_event (target : Z) (ev : event) : bool :=
  match ev with
  | EvSave (AtProbe _) _ _ _ (Ok data) =>
      match within (Z.of_nat (length data)) target tight_tolerance with
      | Ok true => true
      | _ => false
      end
  | _ => false
  end.

(** The candidate a successful probe stands for. *)
Definition probe_candidate (ev : event) : option candidate :=
  match ev with
  | EvSave (AtProbe factor) working quality _ (Ok data) =>
      Some (data, probe_stats working (Z.of_nat (length data)) quality factor)
  | _ => None
  end.

Definition returned_of {A} (r : result (control A)) : option candidate :=
  match r with
  | Ok (Return c) => Some c
  | _ => None
  end.

Definition result_option {A} (r : result A) : option A :=
  match r with
  | Ok a => Some a
  | Raise _ => None
  end.

(** Either no event is a tight probe, or the last one is, it is the only
    one, and its candidate is what the run returned. *)
Definition tight_only_last (target : Z) (evs : list event)
    (returned : option candidate) : Prop :=
  Forall (fun ev => tight_event target ev = false) evs
  \/ exists before ev,
       evs = before ++ [ev]
       /\ Forall (fun ev => tight_event target ev = false) before
       /\ tight_event target ev = true
       /\ probe_candidate ev = returned.

Lemma tight_event_candidate target ev :
  tight_event target ev = true -> exists c, probe_candidate ev = Some c.
Proof.
  destruct ev as [| | | |[f| |] w q ex [data|e]|]; simpl; try discriminate.
  eauto.
Qed.

Lemma tight_only_last_none target evs :
  tight_only_last target evs None ->
  Forall (fun ev => tight_event target ev = false) evs.
Proof.
  intros [Hall|(before & ev & _ & _ & Htight & Hcand)]; [done|].
  destruct (tight_event_candidate _ _ Htight) as [c Hc]. congruence.
Qed.

Lemma tight_only_last_app target pre evs returned :
  Forall (fun ev => tight_event target ev = false) pre ->
  tight_only_last target evs returned ->
  tight_only_last target (pre ++ evs) returned.
Proof.
  intros Hpre [Hall|(before & ev & -> & Hbefore & Htight & Hcand)].
  - left. by apply Forall_app.
  - right. exists (pre ++ before), ev. rewrite app_assoc.
    repeat split; auto. by apply Forall_app.
Qed.

Lemma tight_only_last_found target evs returned ev :
  tight_only_last target evs returned ->
  In ev evs -> tight_event target ev = true ->
  probe_candidate ev = returned
  /\ exists before,
       evs = before ++ [ev]
       /\ Forall (fun ev => tight_event target ev = false) before.
Proof.
  intros [Hall|(before & last & -> & Hbefore & Htight & Hcand)] Hin Hev.
  - rewrite Forall_forall in Hall. apply list_elem_of_In in Hin.
    specialize (Hall _ Hin). congruence.
  - apply in_app_or in Hin as [Hin|[->|[]]].
    + rewrite Forall_forall in Hbefore. apply list_elem_of_In in Hin.
      specialize (Hbefore _ Hin). congruence.
    + split; [done|]. by exists before.
Qed.

Section Tight.
Context {pil : Pil}.

Lemma probes_tight_only_last target img preserve_exif working factor n low high
    best evs r :
  probes target img preserve_exif working factor n low high best evs r ->
  tight_only_last target evs (returned_of r).
Proof.
  induction 1 as [ | n low high best e Hout | n low high best data e Hout Hw
                   | n low high best data Hout Hw
                   | n low high best data Hout Hw Hge
                   | n low high best data evs r Hout Hw Hlt _ IH ].
  - by left.
  - left. repeat constructor. unfold probe_event. by rewrite Hout.
  - left. repeat constructor. unfold probe_event. rewrite Hout. simpl.
    by rewrite Hw.
  - right. exists [], (probe_event img preserve_exif working factor low high).
    repeat split; auto; unfold probe_event; rewrite Hout; simpl; by rewrite ?Hw.
  - left. repeat constructor. unfold probe_event. rewrite Hout. simpl.
    by rewrite Hw.
  - apply (tight_only_last_app _ [probe_event img preserve_exif working factor low high]); auto.
    repeat constructor. unfold probe_event. rewrite Hout. simpl. by rewrite Hw.
Qed.

Lemma working_step_not_tight target img factor evs w :
  working_step img factor = (evs, w) ->
  Forall (fun ev => tight_event target ev = false) evs.
Proof.
  unfold working_step.
  destruct (PyFloat.ltb factor one);
    [destruct (scaled (fst (size img)) factor);
     [destruct (scaled (snd (size img)) factor)|]|];
    intros [= <- <-]; repeat constructor.
Qed.

Lemma scales_tight_only_last target img preserve_exif max_iterations factors
    best evs r :
  scales target img preserve_exif max_iterations factors best evs r ->
  tight_only_last target evs (returned_of r).
Proof.
  induction 1 as [ best | f fs best evs e Hws
                   | f fs best evs0 w evs1 e Hws Hp
                   | f fs best evs0 w evs1 c Hws Hp
                   | f fs best evs0 w evs1 best' e Hws Hp Hgood
                   | f fs best evs0 w evs1 best' c Hws Hp Hgood
                   | f fs best evs0 w evs1 best' evs2 r Hws Hp Hgood _ IH ];
    try (apply working_step_not_tight with (target := target) in Hws);
    try (apply probes_tight_only_last in Hp).
  - by left.
  - by left.
  - by apply tight_only_last_app.
  - by apply tight_only_last_app.
  - by apply tight_only_last_app.
  - apply tight_only_last_app; auto. left. by apply tight_only_last_none.
  - apply tight_only_last_app; auto. apply tight_only_last_app; auto.
    by apply tight_only_last_none.
Qed.

Lemma convert_step_not_tight target img0 evs w :
  convert_step img0 = (evs, w) ->
  Forall (fun ev => tight_event target ev = false) evs.
Proof.
  unfold convert_step. destruct (mode_needs_rgb (mode img0));
    intros [= <- <-]; repeat constructor.
Qed.

Lemma kb_run_tight_only_last img0 kb preserve_exif max_iterations evs r :
  kb_run img0 kb preserve_exif max_iterations evs r ->
  tight_only_last (kb * 1024) evs (result_option r).
Proof.
  destruct 1 as [ evc e Hcs | evc img evs e Hcs Hsc | evc img evs c Hcs Hsc
                  | evc img evs best c Hcs Hsc Hbest
                  | evc img evs best Hcs Hsc Hbest ];
    apply convert_step_not_tight with (target := kb * 1024) in Hcs;
    try (apply scales_tight_only_last in Hsc).
  - by left.
  - by apply tight_only_last_app.
  - by apply tight_only_last_app.
  - apply tight_only_last_app; auto. left. by apply tight_only_last_none.
  - left. apply Forall_app. split; [done|]. apply Forall_app. split.
    + by apply tight_only_last_none.
    + by repeat constructor.
Qed.

Lemma compress_image_to_kb_dangling (image : ref) kb preserve_exif n s :
  heap s !! image = None ->
  events_of (compress_image_to_kb image kb preserve_exif n) s = []
  /\ exists e, result_of (compress_image_to_kb image kb preserve_exif n) s = Raise e.
Proof.
  intros Hnone. destruct (deref_dangling _ _ Hnone) as [e He].
  unfold events_of, result_of, compress_image_to_kb.
  rewrite (bind_raise _ _ _ _ _ He). simpl. rewrite drop_all. eauto.
Qed.

Lemma compress_image_to_kb_shape (image : ref) kb preserve_exif n s img0 :
  heap s !! image = Some img0 ->
  kb_run img0 kb preserve_exif n
         (events_of (compress_image_to_kb image kb preserve_exif n) s)
         (result_of (compress_image_to_kb image kb preserve_exif n) s).
Proof.
  intros Himg.
  destruct (compress_image_to_kb_run image img0 kb preserve_exif n s Himg)
    as (objs & evs & r & Hrun & Hshape).
  rewrite (events_of_extend _ _ _ _ _ Hrun). unfold result_of. by rewrite Hrun.
Qed.

End Tight.

(** * The claims *)

Section Claims.
Context {pil : Pil}.

(** C4, as amended. Every JPEG quality handed to the encoder by the
    size-targeting compressor is an integer in [10, 95] (each probe of the
    binary search and the last-resort encode at 10); on the fixed-quality
    path the view clamps the requested quality into [10, 100], and that
    is the range of what the encoder receives there. *)
Theorem encoder_quality_ranges :
  (forall s (image : ref) kb preserve_exif max_iterations,
      Forall (quality_within 10 95)
             (events_of (compress_image_to_kb image kb preserve_exif max_iterations) s))
  /\ (forall s request,
         Forall (quality_within 10 100)
                (events_of (compress_single_image request) s)).
Proof.
  split.
  - intros. apply emits_events.
    apply emits_compress_image_to_kb; simpl; auto; try (unfold min_quality; lia).
    intros. apply emits_quality_loop_range.
  - intros. apply emits_events.
    apply emits_compress_single_image; simpl; auto. lia.
Qed.

End Claims.

(** C4 as stated fails: a request for quality 100 reaches the encoder with
    quality 100, outside [10, 95]. *)
Definition request_quality_100 : HttpRequest :=
  {| FILES := {[ "image_file" :=
                   {| file_name := "photo.png"; file_size := 2;
                      content_type := "image/png";
                      file_content := [x08; x08] |} ]};
     POST := {[ "quality" := "100" ]} |}.

Lemma fixed_quality_reaches_100 :
  ~ Forall (quality_within 10 95)
      (events_of (compress_single_image (pil := Sample.pil) request_quality_100)
                 {| heap := []; trace := [] |}).
Proof.
  intros Hall.
  remember (events_of (compress_single_image (pil := Sample.pil) request_quality_100)
                      {| heap := []; trace := [] |}) as evs eqn:Hevs.
  vm_compute in Hevs. subst evs.
  inversion Hall as [|? ? Hq _]. simpl in Hq. lia.
Qed.

Section TightAcceptance.
Context {pil : Pil}.

(** C1. When a probe of [compress_image_to_kb] produces a buffer whose
    length passes the test
    [abs(compressed_size - target) <= target * 0.05], the call returns
    that probe's bytes with a stats record carrying the probe's width,
    height, byte length, quality and dimension factor, and the probe is
    the last event of the run: no further probe, no further resize. *)
Theorem tight_acceptance_returns_at_once
    s (image : ref) kb preserve_exif max_iterations
    factor working quality exif data :
  In (EvSave (AtProbe factor) working quality exif (Ok data))
     (events_of (compress_image_to_kb image kb preserve_exif max_iterations) s) ->
  within (Z.of_nat (length data)) (kb * 1024) tight_tolerance = Ok true ->
  result_of (compress_image_to_kb image kb preserve_exif max_iterations) s
  = Ok (data,
        {| final_width := fst (size working);
           final_height := snd (size working);
           compressed_size := Z.of_nat (length data);
           quality_used := Some quality;
           dimension_factor := Some factor |})
  /\ exists before,
       events_of (compress_image_to_kb image kb preserve_exif max_iterations) s
       = before ++ [EvSave (AtProbe factor) working quality exif (Ok data)]
       /\ Forall (fun ev => tight_event (kb * 1024) ev = false) before.
Proof.
  intros Hin Htight.
  destruct (heap s !! image) as [img0|] eqn:Himg.
  - pose proof (kb_run_tight_only_last _ _ _ _ _ _
                  (compress_image_to_kb_shape image kb preserve_exif
                     max_iterations s img0 Himg)) as Hlast.
    destruct (tight_only_last_found _ _ _ _ Hlast Hin) as (Hcand & before & Hevs).
    { simpl. by rewrite Htight. }
    split; [|by exists before].
    simpl in Hcand.
    destruct (result_of (compress_image_to_kb image kb preserve_exif
                           max_iterations) s) as [c|e]; simpl in Hcand;
      [|discriminate].
    by injection Hcand as <-.
  - destruct (compress_image_to_kb_dangling image kb preserve_exif
                max_iterations s Himg) as [Hnil _].
    rewrite Hnil in Hin. destruct Hin.
Qed.

End TightAcceptance.

(** A delta exactly at the boundary is accepted: 5376 bytes against a
    target of 5 KB is 256 bytes away, and 5120 * 0.05 is 256.0. *)
Example within_accepts_the_boundary :
  within 5376 (5 * 1024) tight_tolerance = Ok true
  /\ within 5377 (5 * 1024) tight_tolerance = Ok false
  /\ within 4864 (5 * 1024) tight_tolerance = Ok true
  /\ within 4863 (5 * 1024) tight_tolerance = Ok false.
Proof. repeat split; vm_compute; reflexivity. Qed.

(** Witness of C1: a 45 x 45 image against a target of 1 KB is accepted at
    the first probe, quality 52, with 1055 bytes. *)
Lemma tight_acceptance_returns_at_once_witness :
  In (EvSave (AtProbe one) (Sample.image 45 45 "RGB") 52 None
             (Ok (xff :: xd8 :: repeat x00 1053)))
     (events_of (compress_image_to_kb (pil := Sample.pil) 0%nat 1 false 10)
                (Sample.store (Sample.image 45 45 "RGB")))
  /\ within (Z.of_nat (length (xff :: xd8 :: repeat x00 1053))) (1 * 1024)
            tight_tolerance = Ok true
  /\ result_of (compress_image_to_kb (pil := Sample.pil) 0%nat 1 false 10)
               (Sample.store (Sample.image 45 45 "RGB"))
     = Ok (xff :: xd8 :: repeat x00 1053,
           {| final_width := 45; final_height := 45;
              compressed_size := Z.of_nat (length (xff :: xd8 :: repeat x00 1053));
              quality_used := Some 52; dimension_factor := Some one |}).
Proof.
  assert (In (EvSave (AtProbe one) (Sample.image 45 45 "RGB") 52 None
                     (Ok (xff :: xd8 :: repeat x00 1053)))
             (events_of (compress_image_to_kb (pil := Sample.pil) 0%nat 1 false 10)
                        (Sample.store (Sample.image 45 45 "RGB")))) as Hin.
  { replace (events_of (compress_image_to_kb (pil := Sample.pil) 0%nat 1 false 10)
                       (Sample.store (Sample.image 45 45 "RGB")))
      with [EvCopy (Sample.image 45 45 "RGB");
            EvSave (AtProbe one) (Sample.image 45 45 "RGB") 52 None
                   (Ok (xff :: xd8 :: repeat x00 1053))]
      by (vm_compute; reflexivity).
    right. left. reflexivity. }
  assert (within (Z.of_nat (length (xff :: xd8 :: repeat x00 1053))) (1 * 1024)
                 tight_tolerance = Ok true) as Htight
      by (vm_compute; reflexivity).
  split; [exact Hin|]. split; [exact Htight|].
  exact (proj1 (tight_acceptance_returns_at_once (pil := Sample.pil)
                  (Sample.store (Sample.image 45 45 "RGB")) 0%nat 1 false 10
                  one (Sample.image 45 45 "RGB") 52 None
                  (xff :: xd8 :: repeat x00 1053) Hin Htight)).
Defined.

(** ** The order and the number of probes *)

Definition is_probe (ev : event) : bool :=
  match ev with
  | EvSave (AtProbe _) _ _ _ _ => true
  | _ => false
  end.

Definition probes_of (evs : list event) : list event := List.filter is_probe evs.

Definition at_factor (factor : float) (ev : event) : Prop :=
  match ev with
  | EvSave (AtProbe f) _ _ _ _ => f = factor
  | _ => False
  end.

(** The probes of one dimension factor, as the search is described: at most
    [budget] of them; each at the middle of the current quality range; and a
    further probe only after a successful one, with the range narrowed
    ([high = quality - 1] when the output is larger than the target,
    [low = quality + 1] otherwise) and still [low < high]. *)
Inductive bisection (target : Z) : nat -> Z -> Z -> list event -> Prop :=
| bisection_none budget low high :
    bisection target budget low high []
| bisection_last budget low high at_ working exif out :
    bisection target (S budget) low high
              [EvSave at_ working ((low + high) / 2) exif out]
| bisection_more budget low high at_ working exif data rest :
    rest <> [] ->
    fst (narrow target (Z.of_nat (length data)) ((low + high) / 2) (low, high))
    < snd (narrow target (Z.of_nat (length data)) ((low + high) / 2) (low, high)) ->
    bisection target budget
              (fst (narrow target (Z.of_nat (length data)) ((low + high) / 2)
                           (low, high)))
              (snd (narrow target (Z.of_nat (length data)) ((low + high) / 2)
                           (low, high)))
              rest ->
    bisection target (S budget) low high
              (EvSave at_ working ((low + high) / 2) exif (Ok data) :: rest).

(** The probes of a whole run: one group per dimension factor, in the order
    of the factors, each group a bisection from the full quality range. *)
Inductive search_blocks (target : Z) (budget : nat) : list float -> list event -> Prop :=
| search_blocks_done factors :
    search_blocks target budget factors []
| search_blocks_scale factor smaller block rest :
    Forall (at_factor factor) block ->
    bisection target budget min_quality max_quality block ->
    search_blocks target budget smaller rest ->
    search_blocks target budget (factor :: smaller) (block ++ rest).

Lemma bisection_length target budget low high evs :
  bisection target budget low high evs -> (length evs <= budget)%nat.
Proof. induction 1; simpl; lia. Qed.

(** The same search in the words of its description, with the arithmetic
    written out: each probe is made at the middle [(low + high) // 2] of the
    range; after a probe whose output is larger than the target the range
    becomes [low .. quality - 1], after any other [quality + 1 .. high];
    a further probe is made only if [low < high] then, and no more than
    [budget] probes are made. A probe that raises is the last one. *)
Inductive halving (target : Z) : nat -> Z -> Z -> list event -> Prop :=
| halving_end budget low high :
    halving target budget low high []
| halving_failed budget low high at_ working exif e :
    halving target (S budget) low high
            [EvSave at_ working ((low + high) / 2) exif (Raise e)]
| halving_down budget low high at_ working exif data rest :
    target < Z.of_nat (length data) ->
    (rest <> [] -> low < (low + high) / 2 - 1) ->
    halving target budget low ((low + high) / 2 - 1) rest ->
    halving target (S budget) low high
            (EvSave at_ working ((low + high) / 2) exif (Ok data) :: rest)
| halving_up budget low high at_ working exif data rest :
    Z.of_nat (length data) <= target ->
    (rest <> [] -> (low + high) / 2 + 1 < high) ->
    halving target budget ((low + high) / 2 + 1) high rest ->
    halving target (S budget) low high
            (EvSave at_ working ((low + high) / 2) exif (Ok data) :: rest).

(** The probes of a run in those words: one group per scale factor, in the
    order of the factors, each group a search of the qualities 10 .. 95
    among the probes of its factor. *)
Inductive schedule (target : Z) (budget : nat) : list float -> list event -> Prop :=
| schedule_done factors :
    schedule target budget factors []
| schedule_scale factor smaller block rest :
    Forall (at_factor factor) block ->
    halving target budget 10 95 block ->
    schedule target budget smaller rest ->
    schedule target budget (factor :: smaller) (block ++ rest).

Lemma bisection_halving target budget low high evs :
  bisection target budget low high evs -> halving target budget low high evs.
Proof.
  induction 1 as [ budget low high
                 | budget low high at_ working exif out
                 | budget low high at_ working exif data rest Hrest Hlt _ IH ].
  - constructor.
  - destruct out as [data|e]; [|constructor].
    destruct (Z.ltb_spec target (Z.of_nat (length data))).
    + apply halving_down; [done|done|constructor].
    + apply halving_up; [done|done|constructor].
  - unfold narrow in Hlt, IH.
    destruct (Z.gtb_spec (Z.of_nat (length data)) target); simpl in Hlt, IH.
    + apply halving_down; [lia|done|done].
    + apply halving_up; [lia|done|done].
Qed.

Lemma search_blocks_schedule target budget factors evs :
  search_blocks target budget factors evs -> schedule target budget factors evs.
Proof.
  induction 1 as [|factor smaller block rest Hfactor Hbisection _ IH];
    constructor; auto.
  by apply bisection_halving in Hbisection.
Qed.

Lemma search_blocks_length target budget factors evs :
  search_blocks target budget factors evs ->
  (length evs <= length factors * budget)%nat.
Proof.
  induction 1 as [|f fs block rest _ Hb _ IH]; simpl; [lia|].
  rewrite length_app. apply bisection_length in Hb. lia.
Qed.

Section Order.
Context {pil : Pil}.

Lemma probes_bisection target img preserve_exif working factor n low high
    best evs r :
  probes target img preserve_exif working factor n low high best evs r ->
  bisection target n low high evs
  /\ Forall (at_factor factor) evs
  /\ probes_of evs = evs.
Proof.
  induction 1 as [ | n low high best e Hout | n low high best data e Hout Hw
                   | n low high best data Hout Hw
                   | n low high best data Hout Hw Hge
                   | n low high best data evs r Hout Hw Hlt Hrest IH ];
    try (split; [constructor|split; [by repeat constructor|reflexivity]]).
  destruct IH as (Hb & Hf & Hp). split; [|split].
  - unfold probe_event, probe_quality. rewrite Hout.
    destruct evs as [|ev evs].
    + constructor.
    + apply bisection_more; [done| |]; assumption.
  - constructor; [reflexivity|assumption].
  - unfold probes_of in *. simpl. by rewrite Hp.
Qed.

Lemma working_step_no_probe img factor evs w :
  working_step img factor = (evs, w) -> probes_of evs = [].
Proof.
  unfold working_step.
  destruct (PyFloat.ltb factor one);
    [destruct (scaled (fst (size img)) factor);
     [destruct (scaled (snd (size img)) factor)|]|];
    by intros [= <- <-].
Qed.

Lemma probes_of_app evs1 evs2 :
  probes_of (evs1 ++ evs2) = probes_of evs1 ++ probes_of evs2.
Proof. apply List.filter_app. Qed.

Lemma scales_search_blocks target img preserve_exif max_iterations factors
    best evs r :
  scales target img preserve_exif max_iterations factors best evs r ->
  search_blocks target (Z.to_nat max_iterations) factors (probes_of evs).
Proof.
  induction 1 as [ best | f fs best evs e Hws
                   | f fs best evs0 w evs1 e Hws Hp
                   | f fs best evs0 w evs1 c Hws Hp
                   | f fs best evs0 w evs1 best' e Hws Hp Hgood
                   | f fs best evs0 w evs1 best' c Hws Hp Hgood
                   | f fs best evs0 w evs1 best' evs2 r Hws Hp Hgood _ IH ];
    try (apply working_step_no_probe in Hws);
    try (apply probes_bisection in Hp as (Hb & Hf & Hpr));
    rewrite ?probes_of_app, ?Hws, ?Hpr; simpl.
  - constructor.
  - constructor.
  - rewrite <- (app_nil_r evs1). constructor; auto. constructor.
  - rewrite <- (app_nil_r evs1). constructor; auto. constructor.
  - rewrite <- (app_nil_r evs1). constructor; auto. constructor.
  - rewrite <- (app_nil_r evs1). constructor; auto. constructor.
  - by constructor.
Qed.

Lemma convert_step_no_probe img0 evs w :
  convert_step img0 = (evs, w) -> probes_of evs = [].
Proof.
  unfold convert_step. destruct (mode_needs_rgb (mode img0)); by intros [= <- <-].
Qed.

Lemma kb_run_search_blocks img0 kb preserve_exif max_iterations evs r :
  kb_run img0 kb preserve_exif max_iterations evs r ->
  search_blocks (kb * 1024) (Z.to_nat max_iterations) dimension_reductions
                (probes_of evs).
Proof.
  destruct 1 as [ evc e Hcs | evc img evs e Hcs Hsc | evc img evs c Hcs Hsc
                  | evc img evs best c Hcs Hsc Hbest
                  | evc img evs best Hcs Hsc Hbest ];
    apply convert_step_no_probe in Hcs;
    try (apply scales_search_blocks in Hsc);
    rewrite ?probes_of_app, ?Hcs; simpl; try done.
  - constructor.
  - by rewrite app_nil_r.
Qed.

Lemma probes_length target img preserve_exif working factor n low high best
    evs r :
  probes target img preserve_exif working factor n low high best evs r ->
  (length evs <= n)%nat.
Proof.
  intros Hp. apply probes_bisection in Hp as (Hb & _).
  by apply bisection_length in Hb.
Qed.

Lemma working_step_short img factor evs w :
  working_step img factor = (evs, w) -> (length evs <= 1)%nat.
Proof.
  unfold working_step.
  destruct (PyFloat.ltb factor one);
    [destruct (scaled (fst (size img)) factor);
     [destruct (scaled (snd (size img)) factor)|]|];
    intros [= <- <-]; simpl; lia.
Qed.

Lemma scales_length target img preserve_exif max_iterations factors best evs r :
  scales target img preserve_exif max_iterations factors best evs r ->
  (length evs <= length factors * (1 + Z.to_nat max_iterations))%nat.
Proof.
  induction 1 as [ best | f fs best evs e Hws
                   | f fs best evs0 w evs1 e Hws Hp
                   | f fs best evs0 w evs1 c Hws Hp
                   | f fs best evs0 w evs1 best' e Hws Hp Hgood
                   | f fs best evs0 w evs1 best' c Hws Hp Hgood
                   | f fs best evs0 w evs1 best' evs2 r Hws Hp Hgood _ IH ];
    try (apply working_step_short in Hws);
    try (apply probes_length in Hp);
    rewrite ?length_app; simpl; lia.
Qed.

Lemma kb_run_length img0 kb preserve_exif max_iterations evs r :
  kb_run img0 kb preserve_exif max_iterations evs r ->
  (length evs <= 6 * Z.to_nat max_iterations + 8)%nat.
Proof.
  assert (forall evc w, convert_step img0 = (evc, w) -> (length evc <= 1)%nat)
    as Hconvert.
  { unfold convert_step. intros evc w.
    destruct (mode_needs_rgb (mode img0)); intros [= <- <-]; simpl; lia. }
  destruct 1 as [ evc e Hcs | evc img evs e Hcs Hsc | evc img evs c Hcs Hsc
                  | evc img evs best c Hcs Hsc Hbest
                  | evc img evs best Hcs Hsc Hbest ];
    apply Hconvert in Hcs;
    try (apply scales_length in Hsc; simpl in Hsc);
    rewrite ?length_app; simpl; lia.
Qed.

(** C7. The probes of a run of [compress_image_to_kb] come in groups, one per
    scale factor, in the order 1.0, 0.9, 0.8, 0.7, 0.6, 0.5; the probes of
    a group are at their factor and search the qualities 10 .. 95: each is
    made at [(low + high) // 2]; after a probe that overshoots the target
    [high = quality - 1], otherwise [low = quality + 1]; a further probe at
    the factor is made only if [low < high] after that, and at most
    [max_iterations] are made. With [max_iterations >= 0] a run makes at
    most 6 * max_iterations probes and, with the conversion, the six copies
    or resizes and the last-resort encode, at most 6 * max_iterations + 8
    library calls: every call ends. A [max_iterations] of zero or less
    allows no probe at all. *)
Theorem search_is_bounded s (image : ref) kb preserve_exif max_iterations :
  schedule (kb * 1024) (Z.to_nat max_iterations)
    [ PyFloat.literal 1 1; PyFloat.literal 9 10; PyFloat.literal 8 10;
      PyFloat.literal 7 10; PyFloat.literal 6 10; PyFloat.literal 5 10 ]
    (probes_of (events_of
       (compress_image_to_kb image kb preserve_exif max_iterations) s))
  /\ (0 <= max_iterations ->
      Z.of_nat (length (probes_of (events_of
        (compress_image_to_kb image kb preserve_exif max_iterations) s)))
      <= 6 * max_iterations
      /\ Z.of_nat (length (events_of
            (compress_image_to_kb image kb preserve_exif max_iterations) s))
         <= 6 * max_iterations + 8)
  /\ (max_iterations <= 0 ->
      probes_of (events_of
        (compress_image_to_kb image kb preserve_exif max_iterations) s) = []).
Proof.
  assert (search_blocks (kb * 1024) (Z.to_nat max_iterations) dimension_reductions
            (probes_of (events_of
               (compress_image_to_kb image kb preserve_exif max_iterations) s))
          /\ (length (events_of
                 (compress_image_to_kb image kb preserve_exif max_iterations) s)
              <= 6 * Z.to_nat max_iterations + 8)%nat)
    as [Hblocks Hcalls].
  { destruct (heap s !! image) as [img0|] eqn:Himg.
    - pose proof (compress_image_to_kb_shape image kb preserve_exif
                    max_iterations s img0 Himg) as Hshape.
      split; [by apply kb_run_search_blocks in Hshape|].
      by apply kb_run_length in Hshape.
    - destruct (compress_image_to_kb_dangling image kb preserve_exif
                  max_iterations s Himg) as [-> _].
      split; [constructor|simpl; lia]. }
  split; [exact (search_blocks_schedule _ _ _ _ Hblocks)|].
  apply search_blocks_length in Hblocks. simpl in Hblocks.
  split; [intros Hn; lia|].
  intros Hn. replace (Z.to_nat max_iterations) with 0%nat in Hblocks by lia.
  destruct (probes_of _); [done|simpl in Hblocks; lia].
Qed.

End Order.

(** A run with three iterations on a 10 x 10 image against 5 KB, which no
    probe reaches: each of the six factors is searched with its whole
    budget, the qualities going up from the middle of 10 .. 95 as every
    output is below the target, and the bound of 6 * 3 probes is met. With
    no iteration allowed a run on a palette image makes the eight other
    calls: the conversion, six copies or resizes and the last-resort
    encode. *)
Example three_iterations_per_factor :
  omap (fun ev => match ev with
                  | EvSave (AtProbe _) img quality _ _ => Some (size img, quality)
                  | _ => None
                  end)
       (events_of (compress_image_to_kb (pil := Sample.pil) 0%nat 5 false 3)
                  (Sample.store (Sample.image 10 10 "RGB")))
  = [ ((10, 10), 52); ((10, 10), 74); ((10, 10), 85);
      ((9, 9), 52); ((9, 9), 74); ((9, 9), 85);
      ((8, 8), 52); ((8, 8), 74); ((8, 8), 85);
      ((7, 7), 52); ((7, 7), 74); ((7, 7), 85);
      ((6, 6), 52); ((6, 6), 74); ((6, 6), 85);
      ((5, 5), 52); ((5, 5), 74); ((5, 5), 85) ]
  /\ length (events_of (compress_image_to_kb (pil := Sample.pil) 0%nat 5 false 0)
                       (Sample.store (Sample.image 10 10 "P")))
     = 8%nat.
Proof. split; vm_compute; reflexivity. Qed.

(** ** The best candidate of a run *)

Definition candidates (evs : list event) : list candidate :=
  omap probe_candidate evs.

(** The distance of a candidate from the target. *)
Definition delta (target : Z) (c : candidate) : Z :=
  Z.abs (compressed_size (snd c) - target).

(** The value of [best_result, best_stats] after the probes recorded in
    [evs], starting from [best]. *)
Definition best_after (target : Z) (best : option candidate) (evs : list event)
  : option candidate :=
  fold_left (keep_best target) (candidates evs) best.

Lemma candidates_app evs1 evs2 :
  candidates (evs1 ++ evs2) = candidates evs1 ++ candidates evs2.
Proof. apply omap_app. Qed.

Lemma best_after_app target best evs1 evs2 :
  best_after target best (evs1 ++ evs2)
  = best_after target (best_after target best evs1) evs2.
Proof. unfold best_after. by rewrite candidates_app, fold_left_app. Qed.

Lemma keep_best_cases target best c :
  (keep_best target best c = Some c
   /\ forall b, best = Some b -> delta target c < delta target b)
  \/ (keep_best target best c = best
      /\ exists b, best = Some b /\ delta target b <= delta target c).
Proof.
  unfold keep_best, improves, delta.
  destruct best as [[bd bs]|]; simpl.
  - destruct (Z.ltb_spec (Z.abs (compressed_size (snd c) - target))
                         (Z.abs (compressed_size bs - target))).
    + left. split; [done|]. intros b [= <-]. done.
    + right. split; [done|]. eexists. split; [done|]. done.
  - left. split; [done|]. intros b [=].
Qed.

Lemma fold_keep_best_some target cs b :
  exists c, fold_left (keep_best target) cs (Some b) = Some c.
Proof.
  revert b. induction cs as [|c cs IH]; intros b; simpl; [eauto|].
  destruct (keep_best_cases target (Some b) c) as [[-> _]|[-> _]]; apply IH.
Qed.

Lemma fold_keep_best_found target cs best c :
  fold_left (keep_best target) cs best = Some c ->
  (best = Some c \/ In c cs)
  /\ Forall (fun c' => delta target c <= delta target c') cs
  /\ (forall b, best = Some b -> delta target c <= delta target b).
Proof.
  revert best. induction cs as [|c1 cs IH]; intros best; simpl.
  - intros ->. repeat split; auto. intros b [= <-]. lia.
  - intros Hfold. destruct (IH _ Hfold) as (Hin & Hmin & Hbest).
    destruct (keep_best_cases target best c1) as [[Hk Hlt]|[Hk (b & -> & Hle)]];
      rewrite Hk in *.
    + specialize (Hbest _ eq_refl). repeat split.
      * destruct Hin as [[= ->]|Hin]; right; [by left|by right].
      * by constructor.
      * intros b Hb. specialize (Hlt _ Hb). lia.
    + specialize (Hbest _ eq_refl). repeat split.
      * destruct Hin as [Hin|Hin]; [by left|right; by right].
      * constructor; [lia|done].
      * intros b' [= <-]. done.
Qed.

Lemma fold_keep_best_nonempty target cs best :
  cs <> [] -> exists c, fold_left (keep_best target) cs best = Some c.
Proof.
  destruct cs as [|c cs]; [done|]. intros _. simpl.
  destruct (keep_best_cases target best c) as [[-> _]|[-> (b & -> & _)]];
    apply fold_keep_best_some.
Qed.

Lemma good_enough_some target best c :
  good_enough target best = Ok (Some c) ->
  best = Some c
  /\ bytes_truthy (fst c) = true
  /\ within (compressed_size (snd c)) target relaxed_tolerance = Ok true.
Proof.
  unfold good_enough, truthy_best. destruct best as [[bd bs]|]; [|discriminate].
  destruct (bytes_truthy bd) eqn:Htruthy; [|discriminate].
  simpl. destruct (within (compressed_size bs) target relaxed_tolerance)
    as [[|]|e] eqn:Hw; simpl; try discriminate.
  intros [= <-]. simpl. auto.
Qed.

Lemma good_enough_none target c :
  bytes_truthy (fst c) = true ->
  good_enough target (Some c) = Ok None ->
  within (compressed_size (snd c)) target relaxed_tolerance = Ok false.
Proof.
  unfold good_enough, truthy_best. destruct c as [bd bs]. simpl. intros ->.
  destruct (within (compressed_size bs) target relaxed_tolerance)
    as [[|]|e]; simpl; by try discriminate.
Qed.

Section Best.
Context {pil : Pil}.

Lemma probe_event_candidate img preserve_exif working factor low high data :
  probe_output img preserve_exif working low high = Ok data ->
  probe_candidate (probe_event img preserve_exif working factor low high)
  = Some (found working factor low high data).
Proof. intros Hout. unfold probe_event. by rewrite Hout. Qed.

Lemma probe_event_tight target img preserve_exif working factor low high data :
  probe_output img preserve_exif working low high = Ok data ->
  tight_event target (probe_event img preserve_exif working factor low high)
  = match within (Z.of_nat (length data)) target tight_tolerance with
    | Ok true => true
    | _ => false
    end.
Proof. intros Hout. unfold probe_event. by rewrite Hout. Qed.

Lemma candidates_cons_probe img preserve_exif working factor low high data evs :
  probe_output img preserve_exif working low high = Ok data ->
  candidates (probe_event img preserve_exif working factor low high :: evs)
  = found working factor low high data :: candidates evs.
Proof. intros Hout. unfold candidates. simpl. by rewrite Hout. Qed.

Lemma probes_best target img preserve_exif working factor n low high best evs r :
  probes target img preserve_exif working factor n low high best evs r ->
  match r with
  | Ok (Continue best') =>
      best' = best_after target best evs
      /\ (n <> 0%nat -> candidates evs <> [])
  | Ok (Return c) =>
      Exists (fun ev => tight_event target ev = true) evs
  | Raise _ => True
  end.
Proof.
  induction 1 as [ | n low high best e Hout | n low high best data e Hout Hw
                   | n low high best data Hout Hw
                   | n low high best data Hout Hw Hge
                   | n low high best data evs r Hout Hw Hlt Hrest IH ];
    try done.
  - apply Exists_cons_hd.
    by rewrite (probe_event_tight _ _ _ _ _ _ _ _ Hout), Hw.
  - unfold best_after. rewrite (candidates_cons_probe _ _ _ _ _ _ _ _ Hout).
    done.
  - destruct r as [[c|best']|e]; [|  |done].
    + by apply Exists_cons_tl.
    + destruct IH as [-> _]. unfold best_after.
      rewrite (candidates_cons_probe _ _ _ _ _ _ _ _ Hout). done.
Qed.

Lemma working_step_candidates img factor evs w :
  working_step img factor = (evs, w) -> candidates evs = [].
Proof.
  unfold working_step.
  destruct (PyFloat.ltb factor one);
    [destruct (scaled (fst (size img)) factor);
     [destruct (scaled (snd (size img)) factor)|]|];
    by intros [= <- <-].
Qed.

Lemma scales_best target img preserve_exif max_iterations factors best evs r :
  scales target img preserve_exif max_iterations factors best evs r ->
  match r with
  | Ok (Continue b) =>
      b = best_after target best evs
      /\ (factors <> [] -> Z.to_nat max_iterations <> 0%nat ->
          candidates evs <> [])
      /\ (good_enough target best = Ok None -> good_enough target b = Ok None)
      /\ (Z.to_nat max_iterations <> 0%nat ->
          Forall (fun f => Exists (at_factor f) evs) factors)
  | Ok (Return c) =>
      Exists (fun ev => tight_event target ev = true) evs
      \/ (best_after target best evs = Some c
          /\ bytes_truthy (fst c) = true
          /\ within (compressed_size (snd c)) target relaxed_tolerance = Ok true)
  | Raise _ => True
  end.
Proof.
  induction 1 as [ best | f fs best evs e Hws
                   | f fs best evs0 w evs1 e Hws Hp
                   | f fs best evs0 w evs1 c Hws Hp
                   | f fs best evs0 w evs1 best' e Hws Hp Hgood
                   | f fs best evs0 w evs1 best' c Hws Hp Hgood
                   | f fs best evs0 w evs1 best' evs2 r Hws Hp Hgood Hsc IH ];
    try done.
  - apply probes_best in Hp. left. apply Exists_app. by right.
  - pose proof (working_step_candidates _ _ _ _ Hws) as Hc0.
    apply probes_best in Hp as [-> _].
    apply good_enough_some in Hgood as (Hbest & Htruthy & Hwithin).
    right. rewrite best_after_app. unfold best_after at 2. rewrite Hc0. simpl.
    done.
  - pose proof (working_step_candidates _ _ _ _ Hws) as Hc0.
    pose proof (probes_bisection _ _ _ _ _ _ _ _ _ _ _ Hp) as (_ & Hfactor & _).
    apply probes_best in Hp as [Hbest' Hnonempty].
    assert (best' = best_after target best (evs0 ++ evs1)) as Hbest01.
    { rewrite best_after_app. unfold best_after at 2. rewrite Hc0. simpl. done. }
    destruct r as [[c|b]|e]; [| |done].
    + destruct IH as [Htight|(Hbest & Htruthy & Hwithin)].
      * left. rewrite app_assoc. apply Exists_app. by right.
      * right. rewrite app_assoc, best_after_app, <- Hbest01. done.
    + destruct IH as (Hb & _ & Hgood_b & Hall). repeat split.
      * rewrite app_assoc, best_after_app, <- Hbest01. done.
      * intros _ Hn. rewrite !candidates_app, Hc0. simpl.
        specialize (Hnonempty Hn). destruct (candidates evs1); [done|].
        discriminate.
      * intros _. by apply Hgood_b.
      * intros Hn. constructor.
        -- apply Exists_app. right. apply Exists_app. left.
           destruct evs1 as [|ev evs1].
           ++ specialize (Hnonempty Hn). done.
           ++ apply Exists_cons_hd. by inversion Hfactor.
        -- eapply Forall_impl; [apply Hall; done|]. intros f' Hex. simpl in Hex.
           apply Exists_app. right. apply Exists_app. by right.
Qed.

End Best.

(** ** A smaller factor is tried only when the best so far is not good enough *)

Definition is_resize (ev : event) : bool :=
  match ev with
  | EvResize _ _ _ => true
  | _ => false
  end.

Lemma resize_not_at_factor factor evs :
  Forall (at_factor factor) evs ->
  Forall (fun ev => is_resize ev = false) evs.
Proof.
  intros Hf. eapply Forall_impl; [exact Hf|].
  intros [| | | |[f| |] w q ex out|]; simpl; done.
Qed.

Lemma marked_split (mark : event -> bool) (evs0 evs1 rest tr1 tr2 : list event) ev :
  (length evs0 <= 1)%nat ->
  Forall (fun ev => mark ev = false) evs1 ->
  mark ev = true ->
  tr1 ++ ev :: tr2 = evs0 ++ evs1 ++ rest ->
  tr1 = [] \/ exists l, tr1 = evs0 ++ evs1 ++ l /\ rest = l ++ ev :: tr2.
Proof.
  intros Hlen Hnone Hev Heq. rewrite app_assoc in Heq.
  apply app_eq_inv in Heq as [(l & Hpre & Hrest)|(l & Hpre & Hrest)].
  - right. exists l. by rewrite app_assoc.
  - destruct l as [|ev' l].
    + right. exists []. rewrite app_nil_r in Hpre. simpl in Hrest.
      by rewrite app_assoc, app_nil_r.
    + injection Hrest as <- _.
      destruct tr1 as [|e1 tr1]; [by left|]. exfalso.
      destruct evs0 as [|e0 [|e0' evs0]]; simpl in *; try lia.
      * rewrite Forall_forall in Hnone.
        assert (ev ∈ evs1) as Hin.
        { rewrite Hpre. apply list_elem_of_In. apply (in_elt ev (e1 :: tr1)). }
        specialize (Hnone _ Hin). congruence.
      * injection Hpre as -> ->. rewrite Forall_forall in Hnone.
        assert (ev ∈ tr1 ++ ev :: l) as Hin.
        { apply list_elem_of_In. apply in_elt. }
        specialize (Hnone _ Hin). congruence.
Qed.

Lemma resize_split (evs0 evs1 rest tr1 tr2 : list event) ev :
  (length evs0 <= 1)%nat ->
  Forall (fun ev => is_resize ev = false) evs1 ->
  is_resize ev = true ->
  tr1 ++ ev :: tr2 = evs0 ++ evs1 ++ rest ->
  tr1 = [] \/ exists l, tr1 = evs0 ++ evs1 ++ l /\ rest = l ++ ev :: tr2.
Proof. apply marked_split. Qed.

Section Needed.
Context {pil : Pil}.

Lemma scales_resize_when_needed target img preserve_exif max_iterations factors
    best evs r :
  scales target img preserve_exif max_iterations factors best evs r ->
  good_enough target best = Ok None ->
  forall tr1 ev tr2,
    is_resize ev = true ->
    evs = tr1 ++ ev :: tr2 ->
    good_enough target (best_after target best tr1) = Ok None.
Proof.
  induction 1 as [ best | f fs best evs e Hws
                   | f fs best evs0 w evs1 e Hws Hp
                   | f fs best evs0 w evs1 c Hws Hp
                   | f fs best evs0 w evs1 best' e Hws Hp Hgood
                   | f fs best evs0 w evs1 best' c Hws Hp Hgood
                   | f fs best evs0 w evs1 best' evs2 r Hws Hp Hgood Hsc IH ];
    intros Hbest tr1 ev tr2 Hev Heq.
  - by destruct tr1.
  - apply working_step_short in Hws.
    destruct (resize_split evs [] [] tr1 tr2 ev Hws) as [->|(l & _ & Hl)];
      auto; [by rewrite app_nil_r|by destruct l].
  - pose proof (probes_bisection _ _ _ _ _ _ _ _ _ _ _ Hp) as (_ & Hf & _).
    apply resize_not_at_factor in Hf. apply working_step_short in Hws.
    destruct (resize_split evs0 evs1 [] tr1 tr2 ev Hws Hf Hev)
      as [->|(l & _ & Hl)]; auto; [by rewrite app_nil_r|by destruct l].
  - pose proof (probes_bisection _ _ _ _ _ _ _ _ _ _ _ Hp) as (_ & Hf & _).
    apply resize_not_at_factor in Hf. apply working_step_short in Hws.
    destruct (resize_split evs0 evs1 [] tr1 tr2 ev Hws Hf Hev)
      as [->|(l & _ & Hl)]; auto; [by rewrite app_nil_r|by destruct l].
  - pose proof (probes_bisection _ _ _ _ _ _ _ _ _ _ _ Hp) as (_ & Hf & _).
    apply resize_not_at_factor in Hf. apply working_step_short in Hws.
    destruct (resize_split evs0 evs1 [] tr1 tr2 ev Hws Hf Hev)
      as [->|(l & _ & Hl)]; auto; [by rewrite app_nil_r|by destruct l].
  - pose proof (probes_bisection _ _ _ _ _ _ _ _ _ _ _ Hp) as (_ & Hf & _).
    apply resize_not_at_factor in Hf. apply working_step_short in Hws.
    destruct (resize_split evs0 evs1 [] tr1 tr2 ev Hws Hf Hev)
      as [->|(l & _ & Hl)]; auto; [by rewrite app_nil_r|by destruct l].
  - pose proof (probes_bisection _ _ _ _ _ _ _ _ _ _ _ Hp) as (_ & Hf & _).
    apply resize_not_at_factor in Hf.
    pose proof (working_step_candidates _ _ _ _ Hws) as Hc0.
    apply working_step_short in Hws.
    destruct (resize_split evs0 evs1 evs2 tr1 tr2 ev Hws Hf Hev)
      as [->|(l & -> & Hl)]; auto.
    apply probes_best in Hp as [Hbest' _].
    rewrite app_assoc, best_after_app.
    replace (best_after target best (evs0 ++ evs1)) with best'.
    + by apply (IH Hgood l ev tr2).
    + rewrite best_after_app. unfold best_after at 2. rewrite Hc0. simpl. done.
Qed.

End Needed.

(** ** Runs in which no library call fails *)

Definition is_ok {A} (r : result A) : bool :=
  match r with
  | Ok _ => true
  | Raise _ => false
  end.

(** The recorded call did not raise. *)
Definition call_ok (ev : event) : bool :=
  match ev with
  | EvConvert _ _ out => is_ok out
  | EvResize _ _ out => is_ok out
  | EvRotate _ _ _ out => is_ok out
  | EvSave _ _ _ _ out => is_ok out
  | _ => true
  end.

Definition calls_ok (evs : list event) : bool := forallb call_ok evs.

(** [int(dim * factor)] is defined for both dimensions at the factor. *)
Definition scalable_at (sz : Z * Z) (factor : float) : bool :=
  is_ok (scaled (fst sz) factor) && is_ok (scaled (snd sz) factor).

Definition scalable (sz : Z * Z) : bool :=
  forallb (scalable_at sz) dimension_reductions.

(** The encode at the end of the function, which a call reaches only with
    no usable best result. *)
Definition is_fallback (ev : event) : bool :=
  match ev with
  | EvSave AtFallback _ _ _ _ => true
  | _ => false
  end.

Lemma within_is_ok size_now target tolerance :
  is_ok (py_float target) = true ->
  exists b, within size_now target tolerance = Ok b.
Proof.
  unfold within, int_mul_float. destruct (py_float target); [|discriminate].
  simpl. eauto.
Qed.

Section NoRaise.
Context {pil : Pil}.

(** The output recorded with an encode is the encoder's. *)
Definition truthful (ev : event) : Prop :=
  match ev with
  | EvSave _ img quality exif out => out = pil_encode_jpeg img quality exif
  | _ => True
  end.

Lemma emits_truthful (image : ref) kb preserve_exif max_iterations :
  emits truthful (compress_image_to_kb image kb preserve_exif max_iterations).
Proof.
  apply emits_compress_image_to_kb; simpl; auto.
  intros. apply emits_quality_loop_any. simpl. auto.
Qed.

Lemma truthful_candidates evs :
  (forall img quality exif, pil_encode_jpeg img quality exif <> Ok []) ->
  Forall truthful evs ->
  Forall (fun c => bytes_truthy (fst c) = true) (candidates evs).
Proof.
  intros Hnonempty. induction 1 as [|ev evs Hev _ IH]; [constructor|].
  unfold candidates. simpl.
  destruct ev as [| | | |[f| |] w q ex [data|e]|]; simpl; try exact IH.
  constructor; [|exact IH]. simpl in *.
  destruct data; [|done]. symmetry in Hev. by apply Hnonempty in Hev.
Qed.

Lemma probes_no_raise target img preserve_exif working factor n low high best
    evs r :
  probes target img preserve_exif working factor n low high best evs r ->
  calls_ok evs = true ->
  is_ok (py_float target) = true ->
  is_ok r = true.
Proof.
  induction 1 as [ | n low high best e Hout | n low high best data e Hout Hw
                   | n low high best data Hout Hw
                   | n low high best data Hout Hw Hge
                   | n low high best data evs r Hout Hw Hlt Hrest IH ];
    intros Hcalls Hfits; try done.
  - unfold calls_ok, probe_event in Hcalls. simpl in Hcalls.
    rewrite Hout in Hcalls. done.
  - destruct (within_is_ok (Z.of_nat (length data)) target tight_tolerance Hfits)
      as [b Hb]. congruence.
  - apply IH; [|done]. unfold calls_ok in *. simpl in Hcalls.
    by apply andb_prop in Hcalls as [_ ?].
Qed.

Lemma good_enough_is_ok target best :
  is_ok (py_float target) = true -> is_ok (good_enough target best) = true.
Proof.
  intros Hfits. unfold good_enough. destruct (truthy_best best) as [[bd bs]|]; [|done].
  destruct (within_is_ok (compressed_size bs) target relaxed_tolerance Hfits)
    as [b ->]. done.
Qed.

Lemma working_step_no_raise img factor evs e :
  working_step img factor = (evs, Raise e) ->
  calls_ok evs = true ->
  scalable_at (size img) factor = true ->
  False.
Proof.
  unfold working_step, scalable_at. intros Hws Hcalls Hsc.
  apply andb_prop in Hsc as [Hw Hh].
  destruct (PyFloat.ltb factor one); [|discriminate].
  destruct (scaled (fst (size img)) factor); [|discriminate].
  destruct (scaled (snd (size img)) factor); [|discriminate].
  injection Hws as <- Hout.
  unfold calls_ok in Hcalls. simpl in Hcalls.
  destruct (pil_resample img _); discriminate.
Qed.

Lemma scales_no_raise target img preserve_exif max_iterations factors best evs r :
  scales target img preserve_exif max_iterations factors best evs r ->
  calls_ok evs = true ->
  forallb (scalable_at (size img)) factors = true ->
  is_ok (py_float target) = true ->
  is_ok r = true.
Proof.
  induction 1 as [ best | f fs best evs e Hws
                   | f fs best evs0 w evs1 e Hws Hp
                   | f fs best evs0 w evs1 c Hws Hp
                   | f fs best evs0 w evs1 best' e Hws Hp Hgood
                   | f fs best evs0 w evs1 best' c Hws Hp Hgood
                   | f fs best evs0 w evs1 best' evs2 r Hws Hp Hgood Hsc IH ];
    intros Hcalls Hscal Hfits; try done; unfold calls_ok in *;
    rewrite ?forallb_app in Hcalls; simpl in Hscal;
    apply andb_prop in Hscal as [Hf Hfs].
  - exfalso. by apply (working_step_no_raise _ _ _ _ Hws).
  - apply andb_prop in Hcalls as [_ Hc1].
    by apply (probes_no_raise _ _ _ _ _ _ _ _ _ _ _ Hp).
  - pose proof (good_enough_is_ok target best' Hfits) as Hok.
    by rewrite Hgood in Hok.
  - apply andb_prop in Hcalls as [_ Hc]. apply andb_prop in Hc as [_ Hc2].
    by apply IH.
Qed.

End NoRaise.

Section Relaxed.
Context {pil : Pil}.

Lemma convert_step_ok img0 evc img :
  convert_step img0 = (evc, Ok img) ->
  size img = size img0
  /\ mode img = (if mode_needs_rgb (mode img0) then "RGB" else mode img0)
  /\ candidates evc = []
  /\ (length evc <= 1)%nat
  /\ Forall (fun ev => is_fallback ev = false) evc.
Proof.
  unfold convert_step. destruct (mode_needs_rgb (mode img0)).
  - destruct (pil_convert img0 "RGB"); simpl; intros [= <- <-]; simpl.
    repeat split; auto.
  - intros [= <- <-]. repeat split; auto.
Qed.

Lemma convert_step_raises img0 evc e :
  convert_step img0 = (evc, Raise e) -> calls_ok evc = false.
Proof.
  unfold convert_step. destruct (mode_needs_rgb (mode img0)); [|discriminate].
  destruct (pil_convert img0 "RGB"); simpl; intros [= <- ?]; done.
Qed.

Lemma probes_no_fallback target img preserve_exif working factor n low high best
    evs r :
  probes target img preserve_exif working factor n low high best evs r ->
  Forall (fun ev => is_fallback ev = false) evs.
Proof.
  intros Hp. apply probes_bisection in Hp as (_ & Hf & _).
  eapply Forall_impl; [exact Hf|].
  intros [| | | |[f| |] w q ex out|]; simpl; done.
Qed.

Lemma working_step_no_fallback img factor evs w :
  working_step img factor = (evs, w) ->
  Forall (fun ev => is_fallback ev = false) evs.
Proof.
  unfold working_step.
  destruct (PyFloat.ltb factor one);
    [destruct (scaled (fst (size img)) factor);
     [destruct (scaled (snd (size img)) factor)|]|];
    intros [= <- <-]; repeat constructor.
Qed.

Lemma scales_no_fallback target img preserve_exif max_iterations factors best
    evs r :
  scales target img preserve_exif max_iterations factors best evs r ->
  Forall (fun ev => is_fallback ev = false) evs.
Proof.
  induction 1 as [ best | f fs best evs e Hws
                   | f fs best evs0 w evs1 e Hws Hp
                   | f fs best evs0 w evs1 c Hws Hp
                   | f fs best evs0 w evs1 best' e Hws Hp Hgood
                   | f fs best evs0 w evs1 best' c Hws Hp Hgood
                   | f fs best evs0 w evs1 best' evs2 r Hws Hp Hgood Hsc IH ];
    try (apply working_step_no_fallback in Hws);
    try (apply probes_no_fallback in Hp);
    rewrite ?Forall_app; auto.
Qed.

Lemma convert_step_plain img0 evc w :
  convert_step img0 = (evc, w) ->
  Forall (fun ev => is_fallback ev = false) evc
  /\ Forall (fun ev => is_resize ev = false) evc
  /\ candidates evc = []
  /\ (length evc <= 1)%nat.
Proof.
  unfold convert_step. destruct (mode_needs_rgb (mode img0)).
  - destruct (pil_convert img0 "RGB"); simpl; intros [= <- <-]; simpl;
      repeat split; auto.
  - intros [= <- <-]. repeat split; auto.
Qed.

Lemma truthy_best_some best c :
  truthy_best best = Some c -> best = Some c.
Proof.
  unfold truthy_best. destruct best as [[bd bs]|]; [|done].
  by destruct (bytes_truthy bd).
Qed.

(** The loop over the factors never ends without a usable best result when
    the encoder gives no empty buffer and an iteration is allowed. *)
Lemma scales_leave_a_best target img preserve_exif max_iterations evs best :
  (forall img quality exif, pil_encode_jpeg img quality exif <> Ok []) ->
  1 <= max_iterations ->
  Forall truthful evs ->
  scales target img preserve_exif max_iterations dimension_reductions None evs
         (Ok (Continue best)) ->
  exists c, truthy_best best = Some c.
Proof.
  intros Hnonempty Hn Htruth Hsc.
  pose proof (scales_best _ _ _ _ _ _ _ _ Hsc) as (Hb & Hsome & _ & _).
  assert (candidates evs <> []) as Hcands by (apply Hsome; [done|lia]).
  destruct (fold_keep_best_nonempty target _ None Hcands) as [c Hc].
  destruct (fold_keep_best_found _ _ _ _ Hc) as ([Hnone|Hin] & _ & _);
    [discriminate|].
  assert (best = Some c) as -> by (rewrite Hb; exact Hc).
  pose proof (truthful_candidates evs Hnonempty Htruth) as Hty.
  rewrite Forall_forall in Hty. apply list_elem_of_In in Hin.
  specialize (Hty _ Hin). exists c. unfold truthy_best.
  destruct c as [bd bs]. simpl in Hty. by rewrite Hty.
Qed.

(** A resize is recorded only while the best candidate of the probes before
    it is outside the relaxed band. *)
Lemma kb_resize_when_needed target img0 img preserve_exif max_iterations
    evc evs r before ev after b w :
  (forall img quality exif, pil_encode_jpeg img quality exif <> Ok []) ->
  convert_step img0 = (evc, w) ->
  scales target img preserve_exif max_iterations dimension_reductions None evs r ->
  Forall truthful evs ->
  is_resize ev = true ->
  evc ++ evs = before ++ ev :: after ->
  best_after target None before = Some b ->
  within (compressed_size (snd b)) target relaxed_tolerance = Ok false.
Proof.
  intros Hnonempty Hcs Hsc Htruth Hev Heq Hb.
  destruct (convert_step_plain _ _ _ Hcs) as (_ & _ & Hc0 & Hlen).
  destruct (resize_split evc [] evs before after ev Hlen)
    as [->|(l & -> & Hl)]; auto; [discriminate|].
  simpl in Hb. rewrite best_after_app in Hb. unfold best_after at 2 in Hb.
  rewrite Hc0 in Hb. simpl in Hb.
  pose proof (scales_resize_when_needed _ _ _ _ _ _ _ _ Hsc eq_refl l ev after
                Hev Hl) as Hgood.
  rewrite Hb in Hgood. apply good_enough_none; [|done].
  destruct (fold_keep_best_found _ _ _ _ Hb) as ([Hnone|Hin] & _ & _);
    [discriminate|].
  rewrite Hl in Htruth. apply Forall_app in Htruth as [Htruth _].
  pose proof (truthful_candidates l Hnonempty Htruth) as Hty.
  rewrite Forall_forall in Hty. apply Hty. by apply list_elem_of_In.
Qed.

(** What holds of the best candidate on every image: for every run of
    [compress_image_to_kb] with at least one iteration allowed (the encoder is taken never to produce an empty buffer, since
    [best_result] is tested for truth): the last-resort encode at quality 10
    does not take place; a resize to a smaller dimension factor takes place
    only when the best candidate of all the probes before it is outside the
    10% band, so a best candidate inside the band is returned at the end of
    the factor that reached it; when the call returns and no probe was
    accepted tightly, what it returns is the candidate with the smallest
    distance from the target among all the probes of the run, and if that
    candidate is outside the band then every one of the six factors was
    probed; and the call does return when no library call fails and the
    sizes and the target are within the range of a double. *)
Theorem best_candidate_is_returned
    s (image : ref) img0 kb preserve_exif max_iterations :
  (forall img quality exif, pil_encode_jpeg img quality exif <> Ok []) ->
  heap s !! image = Some img0 ->
  1 <= max_iterations ->
  Forall (fun ev => is_fallback ev = false)
         (events_of (compress_image_to_kb image kb preserve_exif max_iterations) s)
  /\ (forall before ev after b,
         is_resize ev = true ->
         events_of (compress_image_to_kb image kb preserve_exif max_iterations) s
         = before ++ ev :: after ->
         best_after (kb * 1024) None before = Some b ->
         within (compressed_size (snd b)) (kb * 1024) relaxed_tolerance
         = Ok false)
  /\ (forall c,
         result_of (compress_image_to_kb image kb preserve_exif max_iterations) s
         = Ok c ->
         Forall (fun ev => tight_event (kb * 1024) ev = false)
                (events_of (compress_image_to_kb image kb preserve_exif
                              max_iterations) s) ->
         best_after (kb * 1024) None
           (events_of (compress_image_to_kb image kb preserve_exif
                         max_iterations) s) = Some c
         /\ In c (candidates
                    (events_of (compress_image_to_kb image kb preserve_exif
                                  max_iterations) s))
         /\ Forall (fun c' => delta (kb * 1024) c <= delta (kb * 1024) c')
                   (candidates
                      (events_of (compress_image_to_kb image kb preserve_exif
                                    max_iterations) s))
         /\ (within (compressed_size (snd c)) (kb * 1024) relaxed_tolerance
             = Ok false ->
             Forall (fun factor =>
                       Exists (at_factor factor)
                              (events_of (compress_image_to_kb image kb
                                            preserve_exif max_iterations) s))
                    dimension_reductions))
  /\ (calls_ok (events_of (compress_image_to_kb image kb preserve_exif
                             max_iterations) s) = true ->
      scalable (size img0) = true ->
      is_ok (py_float (kb * 1024)) = true ->
      exists c,
        result_of (compress_image_to_kb image kb preserve_exif max_iterations) s
        = Ok c).
Proof.
  intros Hnonempty Himg Hn.
  pose proof (compress_image_to_kb_shape image kb preserve_exif max_iterations
                s img0 Himg) as Hshape.
  pose proof (emits_events _ _ s
                (emits_truthful image kb preserve_exif max_iterations)) as Htruth.
  remember (events_of (compress_image_to_kb image kb preserve_exif
                         max_iterations) s) as evs eqn:Hevs.
  remember (result_of (compress_image_to_kb image kb preserve_exif
                         max_iterations) s) as r eqn:Hr.
  clear Hevs Hr.
  assert (Z.to_nat max_iterations <> 0%nat) as Hn' by lia.
  assert (forall evc img evs1 c,
             convert_step img0 = (evc, Ok img) ->
             best_after (kb * 1024) None evs1 = Some c ->
             best_after (kb * 1024) None (evc ++ evs1) = Some c
             /\ In c (candidates (evc ++ evs1))
             /\ Forall (fun c' => delta (kb * 1024) c <= delta (kb * 1024) c')
                       (candidates (evc ++ evs1))) as Hbest_of.
  { intros evc img evs1 c Hcs Hbest.
    destruct (convert_step_plain _ _ _ Hcs) as (_ & _ & Hc0 & _).
    destruct (fold_keep_best_found _ _ _ _ Hbest) as ([Hnone|Hin] & Hmin & _);
      [discriminate|].
    rewrite best_after_app, candidates_app. unfold best_after at 2.
    rewrite Hc0. simpl. auto. }
  destruct Hshape as [ evc e Hcs | evc img evs e Hcs Hsc | evc img evs c Hcs Hsc
                       | evc img evs best c Hcs Hsc Hbest
                       | evc img evs best Hcs Hsc Hbest ].
  - destruct (convert_step_plain _ _ _ Hcs) as (Hfb & Hnr & _ & _).
    split; [exact Hfb|]. split; [|split].
    + intros before ev after b Hev Heq. exfalso. rewrite Heq in Hnr.
      apply Forall_app in Hnr as [_ Hnr]. inversion Hnr. congruence.
    + intros c [=].
    + intros Hcalls. apply convert_step_raises in Hcs. congruence.
  - destruct (convert_step_plain _ _ _ Hcs) as (Hfb & _).
    apply Forall_app in Htruth as [_ Htruth].
    split; [|split; [|split]].
    + apply Forall_app. split; [done|]. by apply scales_no_fallback in Hsc.
    + intros before ev after b Hev Heq Hb.
      by apply (kb_resize_when_needed _ _ _ _ _ _ _ _ _ _ _ _ _
                  Hnonempty Hcs Hsc Htruth Hev Heq Hb).
    + intros c [=].
    + intros Hcalls Hscal Hfits. exfalso.
      unfold calls_ok in Hcalls. rewrite forallb_app in Hcalls.
      apply andb_prop in Hcalls as [_ Hcalls].
      destruct (convert_step_ok _ _ _ Hcs) as (Hsize & _).
      pose proof (scales_no_raise _ _ _ _ _ _ _ _ Hsc Hcalls) as Hok.
      rewrite Hsize in Hok. specialize (Hok Hscal Hfits). done.
  - destruct (convert_step_plain _ _ _ Hcs) as (Hfb & _).
    apply Forall_app in Htruth as [_ Htruth].
    split; [|split; [|split]].
    + apply Forall_app. split; [done|]. by apply scales_no_fallback in Hsc.
    + intros before ev after b Hev Heq Hb.
      by apply (kb_resize_when_needed _ _ _ _ _ _ _ _ _ _ _ _ _
                  Hnonempty Hcs Hsc Htruth Hev Heq Hb).
    + intros c' [= <-] Hloose.
      pose proof (scales_best _ _ _ _ _ _ _ _ Hsc)
        as [Htight|(Hbest & _ & Hwithin)].
      * exfalso. apply Forall_app in Hloose as [_ Hloose].
        apply Exists_exists in Htight as (ev & Hev & Ht).
        rewrite Forall_forall in Hloose. specialize (Hloose _ Hev). congruence.
      * destruct (Hbest_of _ _ _ _ Hcs Hbest) as (H1 & H2 & H3).
        repeat split; auto. intros Hout. congruence.
    + intros _ _ _. by exists c.
  - destruct (convert_step_plain _ _ _ Hcs) as (Hfb & _).
    apply Forall_app in Htruth as [_ Htruth].
    split; [|split; [|split]].
    + apply Forall_app. split; [done|]. by apply scales_no_fallback in Hsc.
    + intros before ev after b Hev Heq Hb.
      by apply (kb_resize_when_needed _ _ _ _ _ _ _ _ _ _ _ _ _
                  Hnonempty Hcs Hsc Htruth Hev Heq Hb).
    + intros c' [= <-] Hloose.
      apply truthy_best_some in Hbest. subst best.
      pose proof (scales_best _ _ _ _ _ _ _ _ Hsc) as (Hb & _ & _ & Hall).
      destruct (Hbest_of _ _ _ _ Hcs (eq_sym Hb)) as (H1 & H2 & H3).
      repeat split; auto. intros _.
      eapply Forall_impl; [by apply Hall|].
      intros f Hex. apply Exists_app. by right.
    + intros _ _ _. by exists c.
  - exfalso. apply Forall_app in Htruth as [_ Htruth].
    apply Forall_app in Htruth as [Htruth _].
    destruct (scales_leave_a_best _ _ _ _ _ _ Hnonempty Hn Htruth Hsc) as [c Hc].
    congruence.
Qed.

End Relaxed.

Lemma no_tight_event_check target evs :
  forallb (fun ev => negb (tight_event target ev)) evs = true ->
  Forall (fun ev => tight_event target ev = false) evs.
Proof.
  induction evs as [|ev evs IH]; simpl; [constructor|].
  intros Hall. apply andb_prop in Hall as [Hev Hall].
  constructor; [by apply negb_true_iff|by apply IH].
Qed.

(** An instance: a 111 x 111 image against a target of 1 KB. No probe at
    full size comes within 10%; at factor 0.9 the image is 99 x 99 and the
    probe at quality 11 gives 1080 bytes, 56 away from 1024: outside the
    tight band, inside the relaxed one, and returned at the end of that
    factor. *)
Lemma best_candidate_is_returned_witness :
  (forall img quality exif,
      pil_encode_jpeg (Pil := Sample.pil) img quality exif <> Ok [])
  /\ heap (Sample.store (Sample.image 111 111 "RGB")) !! 0%nat
     = Some (Sample.image 111 111 "RGB")
  /\ 1 <= 10
  /\ calls_ok (events_of (compress_image_to_kb (pil := Sample.pil) 0%nat 1 false 10)
                         (Sample.store (Sample.image 111 111 "RGB"))) = true
  /\ scalable (size (Sample.image 111 111 "RGB")) = true
  /\ is_ok (py_float (1 * 1024)) = true
  /\ Forall (fun ev => tight_event (1 * 1024) ev = false)
            (events_of (compress_image_to_kb (pil := Sample.pil) 0%nat 1 false 10)
                       (Sample.store (Sample.image 111 111 "RGB")))
  /\ exists c,
       result_of (compress_image_to_kb (pil := Sample.pil) 0%nat 1 false 10)
                 (Sample.store (Sample.image 111 111 "RGB")) = Ok c
       /\ best_after (1 * 1024) None
            (events_of (compress_image_to_kb (pil := Sample.pil) 0%nat 1 false 10)
                       (Sample.store (Sample.image 111 111 "RGB"))) = Some c.
Proof.
  assert (forall img quality exif,
             pil_encode_jpeg (Pil := Sample.pil) img quality exif <> Ok [])
    as Hnonempty by (intros img quality exif; discriminate).
  assert (heap (Sample.store (Sample.image 111 111 "RGB")) !! 0%nat
          = Some (Sample.image 111 111 "RGB")) as Hheld by reflexivity.
  assert (1 <= 10) as Hn by lia.
  assert (calls_ok (events_of (compress_image_to_kb (pil := Sample.pil) 0%nat 1
                                 false 10)
                              (Sample.store (Sample.image 111 111 "RGB"))) = true)
    as Hcalls by (vm_compute; reflexivity).
  assert (scalable (size (Sample.image 111 111 "RGB")) = true) as Hscalable
      by (vm_compute; reflexivity).
  assert (is_ok (py_float (1 * 1024)) = true) as Hfits
      by (vm_compute; reflexivity).
  assert (Forall (fun ev => tight_event (1 * 1024) ev = false)
                 (events_of (compress_image_to_kb (pil := Sample.pil) 0%nat 1
                               false 10)
                            (Sample.store (Sample.image 111 111 "RGB"))))
    as Hloose by (apply no_tight_event_check; vm_compute; reflexivity).
  repeat (split; [assumption|]).
  pose proof (best_candidate_is_returned (pil := Sample.pil)
                (Sample.store (Sample.image 111 111 "RGB")) 0%nat
                (Sample.image 111 111 "RGB") 1 false 10
                Hnonempty Hheld Hn) as (_ & _ & Hbest & Hreturns).
  destruct (Hreturns Hcalls Hscalable Hfits) as [c Hresult].
  exists c. split; [exact Hresult|].
  exact (proj1 (Hbest c Hresult Hloose)).
Defined.

(** That run, spelled out: what is returned, and the
    sizes and qualities of the probes. *)
Example relaxed_acceptance_run :
  result_option
    (result_map (fun c => (Z.of_nat (length (fst c)), snd c))
       (result_of (compress_image_to_kb (pil := Sample.pil) 0%nat 1 false 10)
                  (Sample.store (Sample.image 111 111 "RGB"))))
  = Some (1080,
          {| final_width := 99; final_height := 99; compressed_size := 1080;
             quality_used := Some 11;
             dimension_factor := Some (PyFloat.literal 9 10) |})
  /\ omap (fun ev => match ev with
                     | EvSave _ img quality _ (Ok data) =>
                         Some (size img, quality, Z.of_nat (length data))
                     | _ => None
                     end)
          (events_of (compress_image_to_kb (pil := Sample.pil) 0%nat 1 false 10)
                     (Sample.store (Sample.image 111 111 "RGB")))
     = [ ((111, 111), 52, 6408); ((111, 111), 30, 3698); ((111, 111), 19, 2342);
         ((111, 111), 14, 1726); ((111, 111), 11, 1357);
         ((99, 99), 52, 5098); ((99, 99), 30, 2942); ((99, 99), 19, 1864);
         ((99, 99), 14, 1374); ((99, 99), 11, 1080) ].
Proof. split; vm_compute; reflexivity. Qed.

(** ** Where the events of the search come from *)

Section Provenance.
Context {pil : Pil}.

(** An event of the loop over the factors of [factors], working from the
    image [img]: a probe encodes the working image of its factor, a resize
    is of [img] to the truncated products of its dimensions with a factor
    below one, a copy is of [img]. *)
Definition scale_event (img : Image) (factors : list float) (ev : event) : Prop :=
  match ev with
  | EvSave (AtProbe factor) working _ _ _ =>
      In factor factors
      /\ exists evs0, working_step img factor = (evs0, Ok working)
  | EvResize src new_size out =>
      src = img
      /\ out = pil_resample img new_size
      /\ exists factor,
           In factor factors
           /\ PyFloat.ltb factor one = true
           /\ scaled (fst (size img)) factor = Ok (fst new_size)
           /\ scaled (snd (size img)) factor = Ok (snd new_size)
  | EvCopy src => src = img
  | _ => False
  end.

Lemma scale_event_more img factor factors ev :
  scale_event img factors ev -> scale_event img (factor :: factors) ev.
Proof.
  destruct ev as [|src sz out| | |[f| |] w q ex out|]; simpl; auto.
  - intros (Hsrc & Hout & f & Hin & Hrest). repeat split; auto.
    exists f. split; [by right|done].
  - intros [Hin Hws]. split; [by right|done].
Qed.

Lemma working_step_cases img factor evs0 working :
  working_step img factor = (evs0, Ok working) ->
  (PyFloat.ltb factor one = true
   /\ exists new_width new_height px,
        scaled (fst (size img)) factor = Ok new_width
        /\ scaled (snd (size img)) factor = Ok new_height
        /\ pil_resample img (new_width, new_height) = Ok px
        /\ working = derived img (new_width, new_height) (mode img) px
        /\ evs0 = [EvResize img (new_width, new_height) (Ok px)])
  \/ (PyFloat.ltb factor one = false
      /\ working = derived img (size img) (mode img) (pixels img)
      /\ evs0 = [EvCopy img]).
Proof.
  unfold working_step. destruct (PyFloat.ltb factor one).
  - destruct (scaled (fst (size img)) factor) as [nw|]; [|discriminate].
    destruct (scaled (snd (size img)) factor) as [nh|]; [|discriminate].
    destruct (pil_resample img (nw, nh)) as [px|] eqn:Hpx; simpl; [|discriminate].
    intros [= <- <-]. left. split; [done|]. exists nw, nh, px. by rewrite Hpx.
  - intros [= <- <-]. by right.
Qed.

Lemma working_step_events img factor evs w :
  working_step img factor = (evs, w) ->
  Forall (scale_event img [factor]) evs.
Proof.
  unfold working_step. destruct (PyFloat.ltb factor one) eqn:Hlt.
  - destruct (scaled (fst (size img)) factor) as [nw|] eqn:Hw;
      [|intros [= <- <-]; constructor].
    destruct (scaled (snd (size img)) factor) as [nh|] eqn:Hh;
      [|intros [= <- <-]; constructor].
    intros [= <- <-]. repeat constructor. simpl.
    exists factor. repeat split; auto.
  - intros [= <- <-]. repeat constructor.
Qed.

Lemma probes_events target img preserve_exif working factor n low high best
    evs r evs0 :
  probes target img preserve_exif working factor n low high best evs r ->
  working_step img factor = (evs0, Ok working) ->
  Forall (scale_event img [factor]) evs.
Proof.
  intros Hp Hws.
  induction Hp; repeat constructor; simpl; eauto.
Qed.

Lemma scales_events target img preserve_exif max_iterations factors best evs r :
  scales target img preserve_exif max_iterations factors best evs r ->
  Forall (scale_event img factors) evs.
Proof.
  assert (forall f fs evs, Forall (scale_event img [f]) evs ->
                           Forall (scale_event img (f :: fs)) evs) as Hhead.
  { intros f fs evs' Hall. eapply Forall_impl; [exact Hall|].
    intros [|src sz out| | |[f'| |] w q ex out|]; simpl; auto.
    - intros (Hsrc & Hout & f' & [<-|[]] & Hrest). repeat split; auto.
      exists f. split; [by left|done].
    - intros [[<-|[]] Hws]. split; [by left|done]. }
  induction 1 as [ best | f fs best evs e Hws
                   | f fs best evs0 w evs1 e Hws Hp
                   | f fs best evs0 w evs1 c Hws Hp
                   | f fs best evs0 w evs1 best' e Hws Hp Hgood
                   | f fs best evs0 w evs1 best' c Hws Hp Hgood
                   | f fs best evs0 w evs1 best' evs2 r Hws Hp Hgood Hsc IH ];
    try (pose proof (probes_events _ _ _ _ _ _ _ _ _ _ _ _ Hp Hws) as Hpe);
    try (apply working_step_events in Hws);
    rewrite ?Forall_app; repeat split; auto.
  eapply Forall_impl; [exact IH|]. intros ev. apply scale_event_more.
Qed.

Lemma candidates_in c evs :
  In c (candidates evs) ->
  exists factor working quality exif,
    In (EvSave (AtProbe factor) working quality exif (Ok (fst c))) evs
    /\ snd c = probe_stats working (Z.of_nat (length (fst c))) quality factor.
Proof.
  induction evs as [|ev evs IH]; [intros []|].
  unfold candidates. simpl.
  destruct ev as [| | | |[f| |] w q ex [data|e]|]; simpl;
    try (intros Hin; destruct (IH Hin) as (f' & w' & q' & ex' & Hin' & Hst);
         exists f', w', q', ex'; split; [by right|done]).
  intros [<-|Hin].
  - exists f, w, q, ex. split; [by left|done].
  - destruct (IH Hin) as (f' & w' & q' & ex' & Hin' & Hst).
    exists f', w', q', ex'. split; [by right|done].
Qed.

Lemma scales_returned_candidate target img preserve_exif max_iterations factors
    evs c :
  scales target img preserve_exif max_iterations factors None evs (Ok (Return c)) ->
  In c (candidates evs).
Proof.
  intros Hsc.
  destruct (scales_best _ _ _ _ _ _ _ _ Hsc) as [Htight|(Hbest & _)].
  - destruct (scales_tight_only_last _ _ _ _ _ _ _ _ Hsc)
      as [Hnone|(before & ev & -> & _ & _ & Hcand)].
    + apply Exists_exists in Htight as (ev & Hin & Ht).
      rewrite Forall_forall in Hnone. specialize (Hnone _ Hin). congruence.
    + simpl in Hcand. rewrite candidates_app. apply in_or_app. right.
      unfold candidates. simpl. rewrite Hcand. by left.
  - by destruct (fold_keep_best_found _ _ _ _ Hbest) as ([?|?] & _).
Qed.

End Provenance.

(** ** The run of the fixed-quality compressor *)

Section Fixed.
Context {pil : Pil}.

(** [min(max_dimension / float(width), max_dimension / float(height))] *)
Definition fixed_ratio (img0 : Image) (max_dimension : Z) : result float :=
  result_bind (py_float (fst (size img0))) (fun width =>
  result_bind (int_div_float max_dimension width) (fun by_width =>
  result_bind (py_float (snd (size img0))) (fun height =>
  result_bind (int_div_float max_dimension height) (fun by_height =>
  Ok (py_min by_width by_height))))).

Definition fixed_resize_step (img0 : Image) (ratio : float)
  : list event * result Image :=
  if PyFloat.lt_int ratio 1 then
    match scaled (fst (size img0)) ratio with
    | Raise e => ([], Raise e)
    | Ok new_width =>
        match scaled (snd (size img0)) ratio with
        | Raise e => ([], Raise e)
        | Ok new_height =>
            let out := pil_resample img0 (new_width, new_height) in
            ([EvResize img0 (new_width, new_height) out],
             result_map (derived img0 (new_width, new_height) (mode img0)) out)
        end
    end
  else ([], Ok img0).

Definition fixed_stats (img : Image) (data : bytes) : candidate :=
  (data,
   {| final_width := fst (size img);
      final_height := snd (size img);
      compressed_size := Z.of_nat (length data);
      quality_used := None;
      dimension_factor := None |}).

Definition fixed_save (img : Image) (quality : Z) (preserve_exif : bool) : event :=
  EvSave AtFixed img quality (exif_param preserve_exif img)
         (pil_encode_jpeg img quality (exif_param preserve_exif img)).

(** The events and the result of [compress_image] on the image [img0]. *)
Definition fixed_run (img0 : Image) (max_dimension quality : Z)
    (preserve_exif : bool) : list event * result candidate :=
  match fixed_ratio img0 max_dimension with
  | Raise e => ([], Raise e)
  | Ok ratio =>
      match fixed_resize_step img0 ratio with
      | (evs1, Raise e) => (evs1, Raise e)
      | (evs1, Ok img1) =>
          match convert_step img1 with
          | (evs2, Raise e) => (evs1 ++ evs2, Raise e)
          | (evs2, Ok img2) =>
              (evs1 ++ evs2 ++ [fixed_save img2 quality preserve_exif],
               result_map (fixed_stats img2)
                 (pil_encode_jpeg img2 quality (exif_param preserve_exif img2)))
          end
      end
  end.

Lemma fixed_resize_step_run (image : ref) img0 ratio s :
  heap s !! image = Some img0 ->
  exists objs,
    (if PyFloat.lt_int ratio 1 then
       new_width <- lift (scaled (fst (size img0)) ratio) ;;
       new_height <- lift (scaled (snd (size img0)) ratio) ;;
       img_resize image (new_width, new_height)
     else ret image) s
    = match fixed_resize_step img0 ratio with
      | (evs, Ok img1) =>
          (Ok (if PyFloat.lt_int ratio 1 then length (heap s) else image),
           extend s objs evs)
      | (evs, Raise e) => (Raise e, extend s objs evs)
      end
    /\ match fixed_resize_step img0 ratio with
       | (evs, Ok img1) =>
           heap (extend s objs evs)
             !! (if PyFloat.lt_int ratio 1 then length (heap s) else image)
           = Some img1
       | _ => True
       end.
Proof.
  intros Himg. unfold fixed_resize_step.
  destruct (PyFloat.lt_int ratio 1).
  - unfold bind at 1, lift at 1.
    destruct (scaled (fst (size img0)) ratio) as [nw|e];
      [|exists []; by rewrite extend_nothing].
    unfold bind at 1, lift at 1.
    destruct (scaled (snd (size img0)) ratio) as [nh|e];
      [|exists []; by rewrite extend_nothing].
    rewrite (img_resize_run _ _ _ _ Himg).
    destruct (pil_resample img0 (nw, nh)) as [px|e].
    + eexists. split; [reflexivity|]. apply lookup_extend_new.
    + by exists [].
  - exists []. unfold ret. rewrite extend_nothing. by split.
Qed.

Lemma compress_image_run (image : ref) img0 max_dimension quality preserve_exif s :
  heap s !! image = Some img0 ->
  exists objs,
    compress_image image max_dimension quality preserve_exif s
    = (snd (fixed_run img0 max_dimension quality preserve_exif),
       extend s objs (fst (fixed_run img0 max_dimension quality preserve_exif))).
Proof.
  intros Himg. unfold compress_image, fixed_run, fixed_ratio.
  rewrite (bind_ok _ _ _ _ _ (deref_ok _ _ _ Himg)).
  unfold bind at 1, lift at 1.
  destruct (py_float (fst (size img0))) as [width|e]; simpl;
    [|exists []; by rewrite extend_nothing].
  unfold bind at 1, lift at 1.
  destruct (int_div_float max_dimension width) as [by_width|e]; simpl;
    [|exists []; by rewrite extend_nothing].
  unfold bind at 1, lift at 1.
  destruct (py_float (snd (size img0))) as [height|e]; simpl;
    [|exists []; by rewrite extend_nothing].
  unfold bind at 1, lift at 1.
  destruct (int_div_float max_dimension height) as [by_height|e]; simpl;
    [|exists []; by rewrite extend_nothing].
  destruct (fixed_resize_step_run image img0 (py_min by_width by_height) s Himg)
    as (objs1 & Hstep & Hnew1).
  destruct (fixed_resize_step img0 (py_min by_width by_height))
    as [evs1 [img1|e]].
  2:{ rewrite (bind_raise _ _ _ _ _ Hstep). by exists objs1. }
  rewrite (bind_ok _ _ _ _ _ Hstep).
  set (image1 := if PyFloat.lt_int (py_min by_width by_height) 1
                 then length (heap s) else image) in *.
  set (s1 := extend s objs1 evs1) in *.
  rewrite (bind_ok _ _ _ _ _ (deref_ok _ _ _ Hnew1)).
  destruct (convert_step_run image1 img1 s1 Hnew1) as (objs2 & Hconv & Hnew2).
  destruct (convert_step img1) as [evs2 [img2|e]].
  2:{ rewrite (bind_raise _ _ _ _ _ Hconv). exists (objs1 ++ objs2).
      unfold s1. by rewrite extend_extend. }
  rewrite (bind_ok _ _ _ _ _ Hconv).
  set (image2 := if mode_needs_rgb (mode img1) then length (heap s1) else image1)
    in *.
  set (s2 := extend s1 objs2 evs2) in *.
  rewrite (bind_ok _ _ _ _ _ (deref_ok _ _ _ Hnew2)).
  pose proof (img_save_run AtFixed image2 quality (exif_param preserve_exif img2)
                s2 img2 Hnew2) as Hsave.
  exists (objs1 ++ objs2). simpl. unfold fixed_save.
  destruct (pil_encode_jpeg img2 quality (exif_param preserve_exif img2))
    as [data|e].
  - rewrite (bind_ok _ _ _ _ _ Hsave). unfold ret, s2, s1, fixed_save.
    rewrite !extend_extend, app_nil_r. reflexivity.
  - rewrite (bind_raise _ _ _ _ _ Hsave). unfold s2, s1, fixed_save.
    rewrite !extend_extend, app_nil_r. reflexivity.
Qed.

Lemma compress_image_events (image : ref) img0 max_dimension quality
    preserve_exif s :
  heap s !! image = Some img0 ->
  events_of (compress_image image max_dimension quality preserve_exif) s
  = fst (fixed_run img0 max_dimension quality preserve_exif)
  /\ result_of (compress_image image max_dimension quality preserve_exif) s
     = snd (fixed_run img0 max_dimension quality preserve_exif).
Proof.
  intros Himg.
  destruct (compress_image_run image img0 max_dimension quality preserve_exif s
              Himg) as [objs Hrun].
  split.
  - by apply (events_of_extend _ _ _ _ _ Hrun).
  - unfold result_of. by rewrite Hrun.
Qed.

End Fixed.

Section Stats.
Context {pil : Pil}.

Lemma kb_run_returned img0 kb preserve_exif max_iterations evs c :
  kb_run img0 kb preserve_exif max_iterations evs (Ok c) ->
  (exists evc img evs1 rest,
      evs = evc ++ evs1 ++ rest
      /\ convert_step img0 = (evc, Ok img)
      /\ Forall (scale_event img dimension_reductions) evs1
      /\ In c (candidates evs1))
  \/ (exists evc img before data,
         evs = before ++ [EvSave AtFallback img min_quality None (Ok data)]
         /\ convert_step img0 = (evc, Ok img)
         /\ c = fallback_found img data).
Proof.
  intros Hrun.
  remember (Ok c) as r eqn:Hr.
  destruct Hrun as [ evc e Hcs | evc img evs e Hcs Hsc | evc img evs c' Hcs Hsc
                     | evc img evs best c' Hcs Hsc Hbest
                     | evc img evs best Hcs Hsc Hbest ]; try discriminate.
  - injection Hr as ->. left. exists evc, img, evs, [].
    rewrite app_nil_r. repeat split; auto.
    + by apply scales_events in Hsc.
    + by apply scales_returned_candidate in Hsc.
  - injection Hr as ->. left. exists evc, img, evs, [].
    rewrite app_nil_r. repeat split; auto.
    + by apply scales_events in Hsc.
    + pose proof (scales_best _ _ _ _ _ _ _ _ Hsc) as (Hb & _).
      assert (best = Some c) as ->.
      { unfold truthy_best in Hbest. destruct best as [[bd bs]|]; [|done].
        by destruct (bytes_truthy bd). }
      by destruct (fold_keep_best_found _ _ _ _ (eq_sym Hb)) as ([?|?] & _).
  - right. unfold fallback_event.
    destruct (fallback_output img) as [data|e]; [|discriminate].
    injection Hr as <-. exists evc, img, (evc ++ evs), data.
    by rewrite app_assoc.
Qed.

(** C10. On every return of [compress_image_to_kb] the stats describe the
    returned buffer: [compressed_size] is its length; the buffer is the
    output of an encode of the run, and [final_width], [final_height] and
    [quality_used] are the dimensions of the image that encode was given
    and its quality; [dimension_factor] is the factor of
    [dimension_reductions] whose working image was encoded, or 1.0 when the
    buffer comes from the last-resort encode of the unscaled image at
    quality 10. *)
Theorem returned_stats_describe_the_encode
    s (image : ref) img0 kb preserve_exif max_iterations data st :
  heap s !! image = Some img0 ->
  result_of (compress_image_to_kb image kb preserve_exif max_iterations) s
  = Ok (data, st) ->
  compressed_size st = Z.of_nat (length data)
  /\ exists at_ working quality exif,
       In (EvSave at_ working quality exif (Ok data))
          (events_of (compress_image_to_kb image kb preserve_exif max_iterations) s)
       /\ final_width st = fst (size working)
       /\ final_height st = snd (size working)
       /\ quality_used st = Some quality
       /\ match at_ with
          | AtProbe factor =>
              dimension_factor st = Some factor
              /\ In factor dimension_reductions
              /\ exists evc img evs0,
                   convert_step img0 = (evc, Ok img)
                   /\ working_step img factor = (evs0, Ok working)
          | AtFallback =>
              dimension_factor st = Some one
              /\ quality = min_quality
              /\ size working = size img0
          | AtFixed => False
          end.
Proof.
  intros Himg Hresult.
  pose proof (compress_image_to_kb_shape image kb preserve_exif max_iterations
                s img0 Himg) as Hshape.
  rewrite Hresult in Hshape.
  destruct (kb_run_returned _ _ _ _ _ _ Hshape)
    as [(evc & img & evs1 & rest & -> & Hcs & Hall & Hin)
       |(evc & img & before & data' & -> & Hcs & Hc)].
  - destruct (candidates_in _ _ Hin) as (f & w & q & ex & Hev & Hst).
    simpl in Hev, Hst. subst st. split; [reflexivity|].
    exists (AtProbe f), w, q, ex. repeat split; auto.
    + apply in_or_app. right. apply in_or_app. by left.
    + rewrite Forall_forall in Hall. apply list_elem_of_In in Hev.
      by destruct (Hall _ Hev).
    + rewrite Forall_forall in Hall. apply list_elem_of_In in Hev.
      destruct (Hall _ Hev) as [_ [evs0 Hws]]. by exists evc, img, evs0.
  - injection Hc as -> ->. split; [reflexivity|].
    exists AtFallback, img, min_quality, None. repeat split; auto.
    + apply in_or_app. right. by left.
    + by destruct (convert_step_ok _ _ _ Hcs).
Qed.

End Stats.

(** Witness of C10 on the relaxed-acceptance run of the 111 x 111 image. *)
Lemma returned_stats_describe_the_encode_witness :
  heap (Sample.store (Sample.image 111 111 "RGB")) !! 0%nat
  = Some (Sample.image 111 111 "RGB")
  /\ result_of (compress_image_to_kb (pil := Sample.pil) 0%nat 1 false 10)
               (Sample.store (Sample.image 111 111 "RGB"))
     = Ok (xff :: xd8 :: repeat x00 1078,
           {| final_width := 99; final_height := 99; compressed_size := 1080;
              quality_used := Some 11;
              dimension_factor := Some (PyFloat.literal 9 10) |})
  /\ compressed_size
       {| final_width := 99; final_height := 99; compressed_size := 1080;
          quality_used := Some 11;
          dimension_factor := Some (PyFloat.literal 9 10) |}
     = Z.of_nat (length (xff :: xd8 :: repeat x00 1078)).
Proof.
  assert (heap (Sample.store (Sample.image 111 111 "RGB")) !! 0%nat
          = Some (Sample.image 111 111 "RGB")) as Hheld by reflexivity.
  assert (result_of (compress_image_to_kb (pil := Sample.pil) 0%nat 1 false 10)
                    (Sample.store (Sample.image 111 111 "RGB"))
          = Ok (xff :: xd8 :: repeat x00 1078,
                {| final_width := 99; final_height := 99; compressed_size := 1080;
                   quality_used := Some 11;
                   dimension_factor := Some (PyFloat.literal 9 10) |}))
    as Hresult by (vm_compute; reflexivity).
  split; [exact Hheld|]. split; [exact Hresult|].
  exact (proj1 (returned_stats_describe_the_encode (pil := Sample.pil)
                  (Sample.store (Sample.image 111 111 "RGB")) 0%nat
                  (Sample.image 111 111 "RGB") 1 false 10 _ _ Hheld Hresult)).
Defined.

(** ** Sizes and modes of what is encoded *)

(** The mode in which an image of mode [m] reaches the encoder. *)
Definition encoder_mode (m : string) : string :=
  if mode_needs_rgb m then "RGB" else m.

Definition encodes_in (m : string) (ev : event) : Prop :=
  match ev with
  | EvSave _ img _ _ _ => mode img = m
  | _ => True
  end.

Definition is_convert (ev : event) : bool :=
  match ev with
  | EvConvert _ _ _ => true
  | _ => false
  end.

Definition is_save (ev : event) : bool :=
  match ev with
  | EvSave _ _ _ _ _ => true
  | _ => false
  end.

(** The number of bands of the library's standard modes. *)
Definition mode_bands (m : string) : option nat :=
  if String.eqb m "RGB" || String.eqb m "YCbCr" || String.eqb m "LAB"
     || String.eqb m "HSV" then Some 3%nat
  else if String.eqb m "RGBA" || String.eqb m "CMYK" || String.eqb m "RGBX"
          || String.eqb m "RGBa" then Some 4%nat
  else if String.eqb m "LA" || String.eqb m "PA" || String.eqb m "La"
       then Some 2%nat
  else if String.eqb m "1" || String.eqb m "L" || String.eqb m "P"
          || String.eqb m "I" || String.eqb m "F" then Some 1%nat
  else None.

Definition three_channel_encode (ev : event) : Prop :=
  match ev with
  | EvSave _ img _ _ _ => mode_bands (mode img) = Some 3%nat
  | _ => True
  end.

(** [round(dim * factor)] *)
Definition rounded (dim : Z) (factor : float) : result Z :=
  result_bind (int_mul_float dim factor) (fun product =>
    match PyFloat.round_nearest product with
    | Some z => Ok z
    | None => Raise ValueError_nan
    end).

Section SizesModes.
Context {pil : Pil}.

Lemma fixed_resize_step_cases img0 ratio evs1 img1 :
  fixed_resize_step img0 ratio = (evs1, Ok img1) ->
  mode img1 = mode img0
  /\ Forall (fun ev => is_convert ev = false /\ is_save ev = false) evs1
  /\ (if PyFloat.lt_int ratio 1
      then scaled (fst (size img0)) ratio = Ok (fst (size img1))
           /\ scaled (snd (size img0)) ratio = Ok (snd (size img1))
           /\ exists out, evs1 = [EvResize img0 (size img1) out]
      else img1 = img0 /\ evs1 = []).
Proof.
  unfold fixed_resize_step. destruct (PyFloat.lt_int ratio 1).
  - destruct (scaled (fst (size img0)) ratio) as [nw|]; [|discriminate].
    destruct (scaled (snd (size img0)) ratio) as [nh|]; [|discriminate].
    destruct (pil_resample img0 (nw, nh)) as [px|] eqn:Hpx; simpl; [|discriminate].
    intros [= <- <-]. simpl. repeat split; auto. eauto.
  - intros [= <- <-]. repeat split; auto.
Qed.

Lemma fixed_resize_step_events img0 ratio evs1 w src new_size out :
  fixed_resize_step img0 ratio = (evs1, w) ->
  In (EvResize src new_size out) evs1 ->
  src = img0
  /\ PyFloat.lt_int ratio 1 = true
  /\ scaled (fst (size img0)) ratio = Ok (fst new_size)
  /\ scaled (snd (size img0)) ratio = Ok (snd new_size).
Proof.
  unfold fixed_resize_step. destruct (PyFloat.lt_int ratio 1).
  - destruct (scaled (fst (size img0)) ratio) as [nw|]; [|by intros [= <- <-] []].
    destruct (scaled (snd (size img0)) ratio) as [nh|]; [|by intros [= <- <-] []].
    intros [= <- <-] [[= <- <- <-]|[]]. done.
  - by intros [= <- <-] [].
Qed.

Lemma convert_step_events img1 evs2 w :
  convert_step img1 = (evs2, w) ->
  Forall (fun ev => is_save ev = false /\ is_resize ev = false) evs2
  /\ (length evs2 <= 1)%nat.
Proof.
  unfold convert_step. destruct (mode_needs_rgb (mode img1));
    intros [= <- <-]; simpl; split; auto.
Qed.

(** C3, as amended. Every resampling step gives the working image the
    width and height [int(dimension * factor)], the double-precision
    product truncated toward zero (not rounded): in [compress_image] with
    [factor = min(max_dimension / width, max_dimension / height)] when that
    ratio is below 1, and in [compress_image_to_kb] for every dimension
    factor below 1.0. Without a resampling step the dimensions are those of
    the caller's image. *)
Theorem resampled_sizes_are_truncated
    s (image : ref) img0 max_dimension quality preserve_exif kb max_iterations :
  heap s !! image = Some img0 ->
  (forall src new_size out,
      In (EvResize src new_size out)
         (events_of (compress_image image max_dimension quality preserve_exif) s) ->
      src = img0
      /\ exists ratio,
           fixed_ratio img0 max_dimension = Ok ratio
           /\ PyFloat.lt_int ratio 1 = true
           /\ scaled (fst (size img0)) ratio = Ok (fst new_size)
           /\ scaled (snd (size img0)) ratio = Ok (snd new_size))
  /\ (forall data st,
         result_of (compress_image image max_dimension quality preserve_exif) s
         = Ok (data, st) ->
         exists ratio,
           fixed_ratio img0 max_dimension = Ok ratio
           /\ if PyFloat.lt_int ratio 1
              then scaled (fst (size img0)) ratio = Ok (final_width st)
                   /\ scaled (snd (size img0)) ratio = Ok (final_height st)
              else (final_width st, final_height st) = size img0)
  /\ (forall src new_size out,
         In (EvResize src new_size out)
            (events_of (compress_image_to_kb image kb preserve_exif
                          max_iterations) s) ->
         size src = size img0
         /\ exists factor,
              In factor dimension_reductions
              /\ PyFloat.ltb factor one = true
              /\ scaled (fst (size img0)) factor = Ok (fst new_size)
              /\ scaled (snd (size img0)) factor = Ok (snd new_size))
  /\ (forall factor working q exif out,
         In (EvSave (AtProbe factor) working q exif out)
            (events_of (compress_image_to_kb image kb preserve_exif
                          max_iterations) s) ->
         if PyFloat.ltb factor one
         then scaled (fst (size img0)) factor = Ok (fst (size working))
              /\ scaled (snd (size img0)) factor = Ok (snd (size working))
         else size working = size img0).
Proof.
  intros Himg.
  destruct (compress_image_events image img0 max_dimension quality preserve_exif
              s Himg) as [-> ->].
  pose proof (compress_image_to_kb_shape image kb preserve_exif max_iterations
                s img0 Himg) as Hshape.
  assert (forall ev,
             In ev (events_of (compress_image_to_kb image kb preserve_exif
                                 max_iterations) s) ->
             is_save ev = true \/ is_resize ev = true ->
             is_fallback ev = false ->
             exists img, size img = size img0
                         /\ scale_event img dimension_reductions ev) as Hkb.
  { intros ev Hin Hkind Hnfb.
    assert (forall evc img evs1,
               convert_step img0 = (evc, Ok img) ->
               Forall (scale_event img dimension_reductions) evs1 ->
               In ev (evc ++ evs1) ->
               exists img, size img = size img0
                           /\ scale_event img dimension_reductions ev) as Hcase.
    { intros evc img evs1 Hcs Hall Hin'.
      destruct (convert_step_ok _ _ _ Hcs) as (Hsize & _).
      destruct (convert_step_events _ _ _ Hcs) as [Hconv _].
      apply in_app_or in Hin' as [Hin'|Hin'].
      - rewrite Forall_forall in Hconv. apply list_elem_of_In in Hin'.
        destruct (Hconv _ Hin') as [Hs Hr]. destruct Hkind; congruence.
      - exists img. split; [done|]. rewrite Forall_forall in Hall.
        apply Hall. by apply list_elem_of_In. }
    destruct Hshape as [ evc e Hcs | evc img evs e Hcs Hsc | evc img evs c Hcs Hsc
                         | evc img evs best c Hcs Hsc Hbest
                         | evc img evs best Hcs Hsc Hbest ].
    - destruct (convert_step_events _ _ _ Hcs) as [Hconv _].
      rewrite Forall_forall in Hconv. apply list_elem_of_In in Hin.
      destruct (Hconv _ Hin) as [Hs Hr]. destruct Hkind; congruence.
    - apply (Hcase evc img evs); auto. by apply scales_events in Hsc.
    - apply (Hcase evc img evs); auto. by apply scales_events in Hsc.
    - apply (Hcase evc img evs); auto. by apply scales_events in Hsc.
    - rewrite app_assoc in Hin. apply in_app_or in Hin as [Hin|[<-|[]]].
      + apply (Hcase evc img evs); auto. by apply scales_events in Hsc.
      + discriminate. }
  repeat split.
  - unfold fixed_run in H. destruct (fixed_ratio img0 max_dimension) as [ratio|];
      [|destruct H].
    assert (In (EvResize src new_size out)
               (fst (fixed_resize_step img0 ratio))) as Hin.
    { destruct (fixed_resize_step img0 ratio) as [evs1 [img1|e]] eqn:Hstep;
        [|done].
      destruct (convert_step img1) as [evs2 [img2|e]] eqn:Hcs; simpl in H.
      - apply in_app_or in H as [H|H]; [done|].
        apply in_app_or in H as [H|[H|[]]]; [|discriminate].
        destruct (convert_step_events _ _ _ Hcs) as [Hconv _].
        rewrite Forall_forall in Hconv. apply list_elem_of_In in H.
        by destruct (Hconv _ H).
      - apply in_app_or in H as [H|H]; [done|].
        destruct (convert_step_events _ _ _ Hcs) as [Hconv _].
        rewrite Forall_forall in Hconv. apply list_elem_of_In in H.
        by destruct (Hconv _ H). }
    destruct (fixed_resize_step img0 ratio) as [evs1 w] eqn:Hstep.
    by destruct (fixed_resize_step_events _ _ _ _ _ _ _ Hstep Hin).
  - unfold fixed_run in H. destruct (fixed_ratio img0 max_dimension) as [ratio|];
      [|destruct H].
    assert (In (EvResize src new_size out)
               (fst (fixed_resize_step img0 ratio))) as Hin.
    { destruct (fixed_resize_step img0 ratio) as [evs1 [img1|e]] eqn:Hstep;
        [|done].
      destruct (convert_step img1) as [evs2 [img2|e]] eqn:Hcs; simpl in H.
      - apply in_app_or in H as [H|H]; [done|].
        apply in_app_or in H as [H|[H|[]]]; [|discriminate].
        destruct (convert_step_events _ _ _ Hcs) as [Hconv _].
        rewrite Forall_forall in Hconv. apply list_elem_of_In in H.
        by destruct (Hconv _ H).
      - apply in_app_or in H as [H|H]; [done|].
        destruct (convert_step_events _ _ _ Hcs) as [Hconv _].
        rewrite Forall_forall in Hconv. apply list_elem_of_In in H.
        by destruct (Hconv _ H). }
    destruct (fixed_resize_step img0 ratio) as [evs1 w] eqn:Hstep.
    destruct (fixed_resize_step_events _ _ _ _ _ _ _ Hstep Hin)
      as (_ & Hlt & Hw & Hh).
    exists ratio. repeat split; auto.
  - intros data st Hres. unfold fixed_run in Hres.
    destruct (fixed_ratio img0 max_dimension) as [ratio|]; [|discriminate].
    exists ratio. split; [done|].
    destruct (fixed_resize_step img0 ratio) as [evs1 [img1|e]] eqn:Hstep;
      [|discriminate].
    destruct (convert_step img1) as [evs2 [img2|e]] eqn:Hcs; [|discriminate].
    simpl in Hres.
    destruct (pil_encode_jpeg img2 quality (exif_param preserve_exif img2));
      [|discriminate].
    injection Hres as <- <-. simpl.
    destruct (convert_step_ok _ _ _ Hcs) as (Hsize & _).
    destruct (fixed_resize_step_cases _ _ _ _ Hstep) as (_ & _ & Hcases).
    rewrite Hsize. destruct (PyFloat.lt_int ratio 1).
    + by destruct Hcases as (Hw & Hh & _).
    + destruct Hcases as [-> _]. by destruct (size img0).
  - destruct (Hkb _ H) as (img & Hsize & Hsrc & _); auto. by subst src.
  - destruct (Hkb _ H) as (img & Hsize & _ & _ & f & Hin & Hlt & Hw & Hh); auto.
    exists f. rewrite <- Hsize. auto.
  - intros factor working q exif out Hin.
    destruct (Hkb _ Hin) as (img & Hsize & _ & evs0 & Hws); auto.
    destruct (working_step_cases _ _ _ _ Hws)
      as [(-> & nw & nh & px & Hw & Hh & _ & -> & _)|(-> & -> & _)]; simpl.
    + by rewrite <- Hsize.
    + done.
Qed.

End SizesModes.

(** What [int(dim * factor)] and [round(dim * factor)] give on a few inputs:
    they differ as soon as the product has a fractional part of one half or
    more, and the double product itself can fall below an exact integer. *)
Example scaled_truncates :
  scaled 11 (PyFloat.literal 9 10) = Ok 9
  /\ rounded 11 (PyFloat.literal 9 10) = Ok 10
  /\ scaled 90 (PyFloat.literal 7 10) = Ok 62
  /\ rounded 90 (PyFloat.literal 7 10) = Ok 63
  /\ scaled 100 (PyFloat.literal 9 10) = Ok 90
  /\ scaled 37 (PyFloat.literal 3 4) = Ok 27
  /\ rounded 37 (PyFloat.literal 3 4) = Ok 28.
Proof. repeat split; vm_compute; reflexivity. Qed.

(** C3 as stated fails. In the size-targeting compressor an 11 x 11 image
    is probed at factor 0.9 as a 9 x 9 image, where round(11 * 0.9) is 10;
    in the fixed-quality compressor a 37 x 40 image under a maximum
    dimension of 30 (ratio 0.75) comes out 27 wide, where round(37 * 0.75)
    is 28. *)
Lemma resampled_sizes_are_not_rounded :
  ~ (forall factor working q exif out,
        In (EvSave (AtProbe factor) working q exif out)
           (events_of (compress_image_to_kb (pil := Sample.pil) 0%nat 5 false 1)
                      (Sample.store (Sample.image 11 11 "L"))) ->
        PyFloat.ltb factor one = true ->
        rounded 11 factor = Ok (fst (size working)))
  /\ ~ (forall data st ratio,
           result_of (compress_image (pil := Sample.pil) 0%nat 30 85 false)
                     (Sample.store (Sample.image 37 40 "L")) = Ok (data, st) ->
           fixed_ratio (Sample.image 37 40 "L") 30 = Ok ratio ->
           rounded 37 ratio = Ok (final_width st)).
Proof.
  split.
  - intros Hround.
    assert (In (EvSave (AtProbe (PyFloat.literal 9 10))
                       {| size := (9, 9); mode := "L"; pixels := repeat x00 81;
                          info_exif := None; getexif := None |}
                       52 None (Ok (xff :: xd8 :: repeat x00 42)))
               (events_of (compress_image_to_kb (pil := Sample.pil) 0%nat 5 false 1)
                          (Sample.store (Sample.image 11 11 "L")))) as Hin
        by (vm_compute; right; right; right; left; reflexivity).
    assert (PyFloat.ltb (PyFloat.literal 9 10) one = true) as Hlt
        by (vm_compute; reflexivity).
    specialize (Hround _ _ _ _ _ Hin Hlt). vm_compute in Hround. discriminate Hround.
  - intros Hround.
    assert (result_of (compress_image (pil := Sample.pil) 0%nat 30 85 false)
                      (Sample.store (Sample.image 37 40 "L"))
            = Ok (xff :: xd8 :: repeat x00 688,
                  {| final_width := 27; final_height := 30;
                     compressed_size := 690; quality_used := None;
                     dimension_factor := None |})) as Hresult
        by (vm_compute; reflexivity).
    assert (fixed_ratio (Sample.image 37 40 "L") 30 = Ok (PyFloat.literal 3 4))
      as Hratio by (vm_compute; reflexivity).
    specialize (Hround _ _ _ Hresult Hratio). vm_compute in Hround. discriminate Hround.
Qed.

(** Witness of C3 on the 11 x 11 image. *)
Lemma resampled_sizes_are_truncated_witness :
  heap (Sample.store (Sample.image 11 11 "L")) !! 0%nat
  = Some (Sample.image 11 11 "L")
  /\ (forall factor working q exif out,
         In (EvSave (AtProbe factor) working q exif out)
            (events_of (compress_image_to_kb (pil := Sample.pil) 0%nat 5 false 1)
                       (Sample.store (Sample.image 11 11 "L"))) ->
         if PyFloat.ltb factor one
         then scaled (fst (size (Sample.image 11 11 "L"))) factor
              = Ok (fst (size working))
              /\ scaled (snd (size (Sample.image 11 11 "L"))) factor
                 = Ok (snd (size working))
         else size working = size (Sample.image 11 11 "L")).
Proof.
  assert (heap (Sample.store (Sample.image 11 11 "L")) !! 0%nat
          = Some (Sample.image 11 11 "L")) as Hheld by reflexivity.
  split; [exact Hheld|].
  exact (proj2 (proj2 (proj2
           (resampled_sizes_are_truncated (pil := Sample.pil)
              (Sample.store (Sample.image 11 11 "L")) 0%nat
              (Sample.image 11 11 "L") 30 85 false 5 1 Hheld)))).
Defined.

Section Modes.
Context {pil : Pil}.

Lemma scale_event_mode img factors ev :
  scale_event img factors ev ->
  encodes_in (mode img) ev /\ is_convert ev = false.
Proof.
  destruct ev as [|src sz out|src| |[f| |] w q ex out|]; simpl; try done.
  intros [_ [evs0 Hws]]. split; [|done].
  destruct (working_step_cases _ _ _ _ Hws)
    as [(_ & nw & nh & px & _ & _ & _ & -> & _)|(_ & -> & _)]; done.
Qed.

Lemma kb_run_modes img0 kb preserve_exif max_iterations evs r :
  kb_run img0 kb preserve_exif max_iterations evs r ->
  exists evc rest,
    evs = evc ++ rest
    /\ (length evc <= 1)%nat
    /\ Forall (encodes_in (encoder_mode (mode img0))) evs
    /\ Forall (fun ev => is_convert ev = false) rest.
Proof.
  assert (forall evc w,
             convert_step img0 = (evc, w) ->
             (length evc <= 1)%nat
             /\ Forall (encodes_in (encoder_mode (mode img0))) evc) as Hconv.
  { intros evc w Hcs. destruct (convert_step_events _ _ _ Hcs) as [Hall Hlen].
    split; [done|]. eapply Forall_impl; [exact Hall|].
    intros [| | | |at_ w' q ex out|]; simpl; intros [? ?]; done. }
  assert (forall evc img evs1 r1,
             convert_step img0 = (evc, Ok img) ->
             scales (kb * 1024) img preserve_exif max_iterations
                    dimension_reductions None evs1 r1 ->
             Forall (encodes_in (encoder_mode (mode img0))) evs1
             /\ Forall (fun ev => is_convert ev = false) evs1) as Hscales.
  { intros evc img evs1 r1 Hcs Hsc.
    destruct (convert_step_ok _ _ _ Hcs) as (_ & Hmode & _).
    apply scales_events in Hsc. unfold encoder_mode. rewrite <- Hmode.
    split; (eapply Forall_impl; [exact Hsc|]); intros ev Hev;
      by destruct (scale_event_mode _ _ _ Hev). }
  destruct 1 as [ evc e Hcs | evc img evs e Hcs Hsc | evc img evs c Hcs Hsc
                  | evc img evs best c Hcs Hsc Hbest
                  | evc img evs best Hcs Hsc Hbest ];
    destruct (Hconv _ _ Hcs) as [Hlen Hevc];
    try (destruct (Hscales _ _ _ _ Hcs Hsc) as [Hm Hnc]).
  - exists evc, []. rewrite app_nil_r. repeat split; auto.
  - exists evc, evs. repeat split; auto. by apply Forall_app.
  - exists evc, evs. repeat split; auto. by apply Forall_app.
  - exists evc, evs. repeat split; auto. by apply Forall_app.
  - exists evc, (evs ++ [fallback_event img]). repeat split; auto.
    + apply Forall_app. split; [done|]. apply Forall_app. split; [done|].
      repeat constructor. simpl.
      by destruct (convert_step_ok _ _ _ Hcs) as (_ & -> & _).
    + apply Forall_app. split; [done|]. by repeat constructor.
Qed.

(** C8, as amended. The image handed to the JPEG encoder by either
    compressor has mode RGB when the caller's image has mode RGBA or P, and
    the mode of the caller's image otherwise: RGB for an RGB image, but L
    for a greyscale image and CMYK for a CMYK one, which are not
    converted. [compress_image] converts (after resampling) before its
    single encode, which is the last event of its run;
    [compress_image_to_kb] converts once, as the first event of its run,
    before any probe. *)
Theorem encoder_receives_the_converted_mode
    s (image : ref) img0 max_dimension quality preserve_exif kb max_iterations :
  heap s !! image = Some img0 ->
  Forall (encodes_in (encoder_mode (mode img0)))
         (events_of (compress_image image max_dimension quality preserve_exif) s)
  /\ Forall (encodes_in (encoder_mode (mode img0)))
            (events_of (compress_image_to_kb image kb preserve_exif
                          max_iterations) s)
  /\ (mode img0 = "RGBA" \/ mode img0 = "P" \/ mode img0 = "RGB" ->
      encoder_mode (mode img0) = "RGB")
  /\ (mode img0 <> "RGBA" -> mode img0 <> "P" ->
      encoder_mode (mode img0) = mode img0)
  /\ (forall before ev after,
         is_save ev = true ->
         events_of (compress_image image max_dimension quality preserve_exif) s
         = before ++ ev :: after ->
         after = [])
  /\ (forall before ev after,
         is_convert ev = true ->
         events_of (compress_image_to_kb image kb preserve_exif max_iterations) s
         = before ++ ev :: after ->
         before = [] /\ Forall (fun ev => is_convert ev = false) after).
Proof.
  intros Himg.
  destruct (compress_image_events image img0 max_dimension quality preserve_exif
              s Himg) as [-> _].
  pose proof (compress_image_to_kb_shape image kb preserve_exif max_iterations
                s img0 Himg) as Hshape.
  apply kb_run_modes in Hshape as (evc & rest & -> & Hlen & Hmodes & Hrest).
  assert (exists pre post,
             fst (fixed_run img0 max_dimension quality preserve_exif) = pre ++ post
             /\ Forall (fun ev => is_save ev = false) pre
             /\ (length post <= 1)%nat
             /\ Forall (encodes_in (encoder_mode (mode img0))) post) as Hfixed.
  { unfold fixed_run.
    destruct (fixed_ratio img0 max_dimension) as [ratio|];
      [|exists [], []; simpl; repeat split; auto].
    destruct (fixed_resize_step img0 ratio) as [evs1 [img1|e]] eqn:Hstep.
    - destruct (fixed_resize_step_cases _ _ _ _ Hstep) as (Hmode1 & Hev1 & _).
      assert (Forall (fun ev => is_save ev = false) evs1) as Hns1.
      { eapply Forall_impl; [exact Hev1|]. by intros ev [_ ?]. }
      destruct (convert_step img1) as [evs2 [img2|e]] eqn:Hcs;
        destruct (convert_step_events _ _ _ Hcs) as [Hev2 _];
        assert (Forall (fun ev => is_save ev = false) evs2) as Hns2
          by (eapply Forall_impl; [exact Hev2|]; by intros ev [? _]).
      + exists (evs1 ++ evs2), [fixed_save img2 quality preserve_exif].
        simpl. rewrite app_assoc. repeat split; auto.
        * by apply Forall_app.
        * repeat constructor. simpl.
          destruct (convert_step_ok _ _ _ Hcs) as (_ & -> & _).
          unfold encoder_mode. by rewrite Hmode1.
      + exists (evs1 ++ evs2), []. simpl. rewrite app_nil_r.
        repeat split; auto. by apply Forall_app.
    - exists evs1, []. simpl. rewrite app_nil_r. repeat split; auto.
      unfold fixed_resize_step in Hstep.
      destruct (PyFloat.lt_int ratio 1); [|discriminate].
      destruct (scaled (fst (size img0)) ratio);
        [|injection Hstep as <- _; constructor].
      destruct (scaled (snd (size img0)) ratio);
        [|injection Hstep as <- _; constructor].
      injection Hstep as <- _. by repeat constructor. }
  destruct Hfixed as (pre & post & -> & Hpre & Hpost & Hpmode).
  split; [|split; [exact Hmodes|split; [|split; [|split]]]].
  - apply Forall_app. split; [|done].
    eapply Forall_impl; [exact Hpre|].
    intros [| | | |at_ w q ex out|]; simpl; done.
  - unfold encoder_mode, mode_needs_rgb. intros [->| [->| ->]]; reflexivity.
  - unfold encoder_mode, mode_needs_rgb. intros Hrgba Hp.
    destruct (String.eqb_spec (mode img0) "RGBA"); [done|].
    destruct (String.eqb_spec (mode img0) "P"); done.
  - intros before ev after Hev Heq. symmetry in Heq.
    apply app_eq_inv in Heq as [(k & -> & Hk)|(k & Hk & Hafter)].
    + destruct post as [|sv [|sv' post]]; simpl in Hpost; try lia.
      * by destruct k.
      * destruct k as [|k0 [|k1 k]]; simpl in Hk; try discriminate.
        by injection Hk as _ <-.
    + rewrite Hk in Hpre. apply Forall_app in Hpre as [_ Hpre].
      destruct k as [|k0 k]; simpl in Hafter.
      * subst post. simpl in Hpost. destruct after; [done|simpl in Hpost; lia].
      * exfalso. injection Hafter as <- _. inversion Hpre. congruence.
  - intros before ev after Hev Heq. symmetry in Heq.
    destruct (marked_split is_convert evc [] rest before after ev Hlen)
      as [->|(l & -> & Hl)]; auto.
    + split; [done|]. destruct evc as [|c0 [|c1 evc]]; simpl in *; try lia.
      * exfalso. rewrite <- Heq in Hrest. inversion Hrest. congruence.
      * by injection Heq as _ <-.
    + exfalso. rewrite Hl in Hrest. apply Forall_app in Hrest as [_ Hrest].
      inversion Hrest. congruence.
Qed.

End Modes.

(** C8 as stated fails: a greyscale image reaches the encoder in mode L, a
    one-band mode, from both compressors. *)
Lemma greyscale_is_encoded_as_greyscale :
  ~ Forall three_channel_encode
      (events_of (compress_image (pil := Sample.pil) 0%nat 3000 85 false)
                 (Sample.store (Sample.image 8 8 "L")))
  /\ ~ Forall three_channel_encode
         (events_of (compress_image_to_kb (pil := Sample.pil) 0%nat 5 false 1)
                    (Sample.store (Sample.image 8 8 "L"))).
Proof.
  split; intros Hall.
  - assert (In (EvSave AtFixed (Sample.image 8 8 "L") 85 None
                       (Ok (xff :: xd8 :: repeat x00 54)))
               (events_of (compress_image (pil := Sample.pil) 0%nat 3000 85 false)
                          (Sample.store (Sample.image 8 8 "L")))) as Hin
        by (vm_compute; left; reflexivity).
    rewrite Forall_forall in Hall. apply list_elem_of_In in Hin.
    specialize (Hall _ Hin). vm_compute in Hall. discriminate Hall.
  - assert (In (EvSave (AtProbe one) (Sample.image 8 8 "L") 52 None
                       (Ok (xff :: xd8 :: repeat x00 33)))
               (events_of (compress_image_to_kb (pil := Sample.pil) 0%nat 5 false 1)
                          (Sample.store (Sample.image 8 8 "L")))) as Hin
        by (vm_compute; right; left; reflexivity).
    rewrite Forall_forall in Hall. apply list_elem_of_In in Hin.
    specialize (Hall _ Hin). vm_compute in Hall. discriminate Hall.
Qed.

(** Witness of C8 on a 300 x 200 RGBA image. *)
Lemma encoder_receives_the_converted_mode_witness :
  heap (Sample.store (Sample.image 300 200 "RGBA")) !! 0%nat
  = Some (Sample.image 300 200 "RGBA")
  /\ Forall (encodes_in "RGB")
            (events_of (compress_image (pil := Sample.pil) 0%nat 250 80 true)
                       (Sample.store (Sample.image 300 200 "RGBA")))
  /\ Forall (encodes_in "RGB")
            (events_of (compress_image_to_kb (pil := Sample.pil) 0%nat 5 true 10)
                       (Sample.store (Sample.image 300 200 "RGBA"))).
Proof.
  assert (heap (Sample.store (Sample.image 300 200 "RGBA")) !! 0%nat
          = Some (Sample.image 300 200 "RGBA")) as Hheld by reflexivity.
  split; [exact Hheld|].
  pose proof (encoder_receives_the_converted_mode (pil := Sample.pil)
                (Sample.store (Sample.image 300 200 "RGBA")) 0%nat
                (Sample.image 300 200 "RGBA") 250 80 true 5 10 Hheld) as Hmodes.
  exact (conj (proj1 Hmodes) (proj1 (proj2 Hmodes))).
Defined.

(** ** Orientation *)

Lemma orientation_key_is_274 : orientation_key = Ok 274.
Proof. reflexivity. Qed.

Section Orientation.
Context {pil : Pil}.

(** The outcome of [image.rotate(angle, expand=True)] inside the [try] of
    the normaliser: the rotated image, a new object; or, when the library
    raises, the image itself after a warning. *)
Definition rotated_by (image : ref) (img : Image) (angle : Z) (s : state)
  : result ref * state :=
  match pil_rotate img angle true with
  | Ok (sz, px) =>
      (Ok (length (heap s)),
       extend s [derived img sz (mode img) px]
              [EvRotate img angle true (Ok (sz, px))])
  | Raise e =>
      (Ok image,
       extend s []
              [EvRotate img angle true (Raise e);
               EvLog "WARNING" ("Error processing image orientation: " +:+ exn_str e)])
  end.

Lemma exif_truthy_nonempty (d : exif_dict) :
  d <> ∅ -> exif_truthy (Some d) = true.
Proof.
  intros Hd. unfold exif_truthy. by rewrite bool_decide_eq_false_2.
Qed.

Lemma normaliser_rotates (image : ref) img (d : exif_dict) v angle s :
  heap s !! image = Some img ->
  getexif img = Some (Ok (Some d)) ->
  d <> ∅ ->
  d !! 274 = Some v ->
  (exif_eqb v 3 = true /\ angle = 180)
  \/ (exif_eqb v 3 = false /\ exif_eqb v 6 = true /\ angle = 270)
  \/ (exif_eqb v 3 = false /\ exif_eqb v 6 = false /\ exif_eqb v 8 = true
      /\ angle = 90) ->
  process_image_orientation image s = rotated_by image img angle s.
Proof.
  intros Himg Hget Hd Hv Hangle.
  unfold process_image_orientation.
  rewrite (bind_ok _ _ _ _ _ (deref_ok _ _ _ Himg)). rewrite Hget.
  unfold bind at 1, lift at 1. rewrite (exif_truthy_nonempty d Hd). simpl negb.
  cbv iota. rewrite orientation_key_is_274.
  pose proof (img_rotate_run image angle true s img Himg) as Hrot.
  unfold rotated_by.
  assert (forall k : option ref -> M ref,
             (k = fun returned => match returned with
                                  | Some rotated => ret rotated
                                  | None => ret image
                                  end) ->
             bind (try_except
                     (rotated <- img_rotate image angle true ;; ret (Some rotated))
                     (fun e =>
                        log_warning
                          ("Error processing image orientation: " +:+ exn_str e) ;;;
                        ret None)) k s
             = match pil_rotate img angle true with
               | Ok (sz, px) =>
                   (Ok (length (heap s)),
                    extend s [derived img sz (mode img) px]
                           [EvRotate img angle true (Ok (sz, px))])
               | Raise e =>
                   (Ok image,
                    extend s []
                           [EvRotate img angle true (Raise e);
                            EvLog "WARNING"
                                  ("Error processing image orientation: "
                                   +:+ exn_str e)])
               end) as Hcase.
  { intros k ->. unfold bind at 1, try_except. unfold bind at 1. rewrite Hrot.
    destruct (pil_rotate img angle true) as [[sz px]|e]; [reflexivity|].
    unfold bind, log_warning, emit, ret, extend. simpl.
    by rewrite !app_nil_r, <- app_assoc. }
  rewrite <- (Hcase _ eq_refl).
  cbv beta iota delta [bind lift try_except exif_items]. rewrite Hv.
  destruct Hangle as [[-> ->]|[(-> & -> & ->)|(-> & -> & -> & ->)]]; reflexivity.
Qed.

Lemma normaliser_keeps (image : ref) img s :
  heap s !! image = Some img ->
  getexif img = None
  \/ getexif img = Some (Ok None)
  \/ getexif img = Some (Ok (Some ∅))
  \/ (exists d,
         getexif img = Some (Ok (Some d))
         /\ match d !! 274 with
            | Some v => exif_eqb v 3 = false /\ exif_eqb v 6 = false
                        /\ exif_eqb v 8 = false
            | None => True
            end) ->
  process_image_orientation image s = (Ok image, s).
Proof.
  intros Himg Hcases. unfold process_image_orientation.
  rewrite (bind_ok _ _ _ _ _ (deref_ok _ _ _ Himg)).
  destruct Hcases as [->|[->|[->|(d & -> & Hd)]]]; try reflexivity.
  unfold bind at 1, lift at 1. unfold exif_truthy.
  destruct (bool_decide (d = ∅)); [reflexivity|]. simpl negb. cbv iota.
  rewrite orientation_key_is_274.
  cbv beta iota delta [bind lift try_except exif_items].
  destruct (d !! 274) as [v|]; [|reflexivity].
  destruct Hd as (-> & -> & ->). reflexivity.
Qed.

End Orientation.

Section Mapping.
Context {pil : Pil}.

(** C6. For an image whose [_getexif()] returns the dictionary [d], the
    normaliser rotates by 180 degrees when the orientation tag (274) is 3,
    by 270 degrees when it is 6 and by 90 degrees when it is 8, each time
    with [expand=True], and returns the image itself, with nothing
    recorded, for every other value of the tag and when the tag is
    absent. *)
Theorem orientation_mapping s (image : ref) img (d : exif_dict) :
  heap s !! image = Some img ->
  getexif img = Some (Ok (Some d)) ->
  (d !! 274 = Some (EInt 3) ->
   process_image_orientation image s = rotated_by image img 180 s)
  /\ (d !! 274 = Some (EInt 6) ->
      process_image_orientation image s = rotated_by image img 270 s)
  /\ (d !! 274 = Some (EInt 8) ->
      process_image_orientation image s = rotated_by image img 90 s)
  /\ (d !! 274 <> Some (EInt 3) ->
      d !! 274 <> Some (EInt 6) ->
      d !! 274 <> Some (EInt 8) ->
      process_image_orientation image s = (Ok image, s)).
Proof.
  intros Himg Hget.
  assert (forall v, d !! 274 = Some v -> d <> ∅) as Hnonempty.
  { intros v Hv ->. by rewrite lookup_empty in Hv. }
  repeat split.
  - intros Hv.
    apply (normaliser_rotates image img d (EInt 3) 180 s Himg Hget
             (Hnonempty _ Hv) Hv).
    left. auto.
  - intros Hv.
    apply (normaliser_rotates image img d (EInt 6) 270 s Himg Hget
             (Hnonempty _ Hv) Hv).
    right. left. auto.
  - intros Hv.
    apply (normaliser_rotates image img d (EInt 8) 90 s Himg Hget
             (Hnonempty _ Hv) Hv).
    right. right. auto.
  - intros H3 H6 H8. apply (normaliser_keeps image img); auto.
    right. right. right. exists d. split; [done|].
    destruct (d !! 274) as [[z|raw]|]; simpl; auto.
    repeat split; apply Z.eqb_neq; congruence.
Qed.

(** Without a readable dictionary the image is returned as it is: no
    [_getexif] attribute, [None], or an empty dictionary. *)
Lemma orientation_absent s (image : ref) img :
  heap s !! image = Some img ->
  getexif img = None \/ getexif img = Some (Ok None)
  \/ getexif img = Some (Ok (Some ∅)) ->
  process_image_orientation image s = (Ok image, s).
Proof.
  intros Himg Hcases. apply (normaliser_keeps image img); auto.
  destruct Hcases as [?|[?|?]]; auto.
Qed.

(** The first call of [_getexif()] stands outside the [try]: when it
    raises, the exception leaves the normaliser, and nothing is logged. *)
Lemma reader_failure_propagates s (image : ref) img e :
  heap s !! image = Some img ->
  getexif img = Some (Raise e) ->
  process_image_orientation image s = (Raise e, s).
Proof.
  intros Himg Hget. unfold process_image_orientation.
  rewrite (bind_ok _ _ _ _ _ (deref_ok _ _ _ Himg)). rewrite Hget. reflexivity.
Qed.

End Mapping.

(** An 8 x 4 image whose EXIF dictionary holds orientation 6. *)
Definition image_with_orientation_6 : Image :=
  {| size := (8, 4); mode := "RGB"; pixels := []; info_exif := Some [x45];
     getexif := Some (Ok (Some {[ 274 := EInt 6 ]})) |}.

(** Witness of C6: orientation 6 rotates by 270 degrees with expansion; in
    the sample library the 8 x 4 image comes out 4 x 8. *)
Lemma orientation_mapping_witness :
  heap (Sample.store image_with_orientation_6) !! 0%nat
  = Some image_with_orientation_6
  /\ getexif image_with_orientation_6
     = Some (Ok (Some ({[ 274 := EInt 6 ]} : exif_dict)))
  /\ process_image_orientation (pil := Sample.pil) 0%nat
       (Sample.store image_with_orientation_6)
     = rotated_by (pil := Sample.pil) 0%nat image_with_orientation_6 270
                  (Sample.store image_with_orientation_6).
Proof.
  assert (heap (Sample.store image_with_orientation_6) !! 0%nat
          = Some image_with_orientation_6) as Hheld by reflexivity.
  assert (getexif image_with_orientation_6
          = Some (Ok (Some ({[ 274 := EInt 6 ]} : exif_dict)))) as Hget
      by reflexivity.
  split; [exact Hheld|]. split; [exact Hget|].
  apply (proj1 (proj2 (orientation_mapping (pil := Sample.pil)
                         (Sample.store image_with_orientation_6) 0%nat
                         image_with_orientation_6 {[ 274 := EInt 6 ]}
                         Hheld Hget))).
  apply lookup_singleton_eq.
Defined.

Example rotation_swaps_the_dimensions :
  result_map
    (fun r => option_map size
                (heap_after (process_image_orientation (pil := Sample.pil) 0%nat)
                            (Sample.store image_with_orientation_6) !! r))
    (result_of (process_image_orientation (pil := Sample.pil) 0%nat)
               (Sample.store image_with_orientation_6))
  = Ok (Some (4, 8)).
Proof.
  unfold heap_after, result_of.
  rewrite (normaliser_rotates (pil := Sample.pil) 0%nat image_with_orientation_6
             {[ 274 := EInt 6 ]} (EInt 6) 270
             (Sample.store image_with_orientation_6) eq_refl eq_refl).
  - reflexivity.
  - intros Hempty.
    assert (({[ 274 := EInt 6 ]} : exif_dict) !! 274 = Some (EInt 6)) as Hv
        by apply lookup_singleton_eq.
    rewrite Hempty in Hv. by rewrite lookup_empty in Hv.
  - apply lookup_singleton_eq.
  - right. left. auto.
Qed.

(** An image whose EXIF block cannot be parsed: [_getexif()] raises. *)
Definition image_with_unreadable_exif : Image :=
  {| size := (8, 8); mode := "RGB"; pixels := []; info_exif := Some [x45];
     getexif := Some (Raise (PyExn "SyntaxError" "not a TIFF file")) |}.

(** C5. The claim is that the normaliser never raises, also when the EXIF
    reader itself fails. On an image whose [_getexif()] raises, the call of
    line 34, outside the [try], lets the exception out: the normaliser
    raises it, returns no image and logs no warning. *)
Theorem unreadable_exif_escapes_the_normaliser :
  process_image_orientation (pil := Sample.pil) 0%nat
    (Sample.store image_with_unreadable_exif)
  = (Raise (PyExn "SyntaxError" "not a TIFF file"),
     Sample.store image_with_unreadable_exif).
Proof. reflexivity. Qed.

(** ** The tolerance tests, in integers

    For the targets the views allow (5 to 1000 KB) the floating-point tests
    [delta <= target * 0.05] and [delta <= target * 0.1] decide exactly
    [20 * delta <= target] and [10 * delta <= target]. *)

Lemma int_le_truncate z m e t :
  PyFloat.truncate (S754_finite false m e) = Some t ->
  PyFloat.int_le z (S754_finite false m e) = (z <=? t).
Proof.
  unfold PyFloat.truncate, PyFloat.int_le, PyFloat.compare_int.
  destruct e as [|p|p]; intros [= <-].
  - unfold Z.leb. by destruct (z ?= Z.pos m).
  - unfold Z.leb. by destruct (z ?= Z.pos m * 2 ^ Z.pos p).
  - assert (0 < 2 ^ (- Z.neg p)) as Hpos by (apply Z.pow_pos_nonneg; lia).
    pose proof (Z.mul_div_le (Z.pos m) (2 ^ (- Z.neg p)) Hpos) as Hlow.
    pose proof (Z.mul_succ_div_gt (Z.pos m) (2 ^ (- Z.neg p)) Hpos) as Hhigh.
    destruct (Z.leb_spec z (Z.pos m / 2 ^ (- Z.neg p))) as [Hle|Hgt].
    + destruct (Z.compare_spec (z * 2 ^ (- Z.neg p)) (Z.pos m)) as [?|?|Hlt];
        try reflexivity. nia.
    + destruct (Z.compare_spec (z * 2 ^ (- Z.neg p)) (Z.pos m)) as [Heq|Hlt|?];
        try reflexivity; nia.
Qed.

(** [target * tolerance], truncated, equals [target / divisor]. *)
Definition tolerance_is (divisor : Z) (tolerance : float) (kb : Z) : bool :=
  match int_mul_float (kb * 1024) tolerance with
  | Ok (S754_finite false m e) =>
      match PyFloat.truncate (S754_finite false m e) with
      | Some t => t =? kb * 1024 / divisor
      | None => false
      end
  | _ => false
  end.

Definition allowed_targets : list Z := map Z.of_nat (seq 5 996).

Lemma allowed_targets_in kb : 5 <= kb <= 1000 -> In kb allowed_targets.
Proof.
  intros Hkb. unfold allowed_targets.
  replace kb with (Z.of_nat (Z.to_nat kb)) by lia.
  apply in_map. apply in_seq. lia.
Qed.

Lemma tolerances_on_allowed_targets :
  forallb (tolerance_is 20 tight_tolerance) allowed_targets = true
  /\ forallb (tolerance_is 10 relaxed_tolerance) allowed_targets = true.
Proof. split; vm_compute; reflexivity. Qed.

Lemma within_by_division divisor tolerance kb size_now :
  0 < divisor ->
  tolerance_is divisor tolerance kb = true ->
  within size_now (kb * 1024) tolerance
  = Ok (divisor * Z.abs (size_now - kb * 1024) <=? kb * 1024).
Proof.
  intros Hdiv Hcheck. unfold tolerance_is in Hcheck. unfold within.
  destruct (int_mul_float (kb * 1024) tolerance) as [[| | |[|] m e]|];
    try discriminate.
  destruct (PyFloat.truncate (S754_finite false m e)) as [t|] eqn:Ht;
    [|discriminate].
  apply Z.eqb_eq in Hcheck. simpl. rewrite (int_le_truncate _ _ _ _ Ht).
  f_equal. subst t.
  pose proof (Z.mul_div_le (kb * 1024) divisor Hdiv) as Hlow.
  pose proof (Z.mul_succ_div_gt (kb * 1024) divisor Hdiv) as Hhigh.
  destruct (Z.leb_spec (Z.abs (size_now - kb * 1024)) (kb * 1024 / divisor));
    destruct (Z.leb_spec (divisor * Z.abs (size_now - kb * 1024)) (kb * 1024));
    try reflexivity; nia.
Qed.

Lemma within_on_allowed_targets kb size_now :
  5 <= kb <= 1000 ->
  within size_now (kb * 1024) tight_tolerance
  = Ok (20 * Z.abs (size_now - kb * 1024) <=? kb * 1024)
  /\ within size_now (kb * 1024) relaxed_tolerance
     = Ok (10 * Z.abs (size_now - kb * 1024) <=? kb * 1024).
Proof.
  intros Hkb. apply allowed_targets_in in Hkb.
  destruct tolerances_on_allowed_targets as [Htight Hrelaxed].
  rewrite forallb_forall in Htight, Hrelaxed.
  split; apply within_by_division; try lia; auto.
Qed.

(** [int(f)] of a positive float with a fractional part is the floor of
    its exact value [m * 2^e]. *)
Lemma truncate_is_floor m p t :
  PyFloat.truncate (S754_finite false m (Z.neg p)) = Some t ->
  t * 2 ^ Z.pos p <= Z.pos m < (t + 1) * 2 ^ Z.pos p.
Proof.
  unfold PyFloat.truncate. intros [= <-].
  change (- Z.neg p) with (Z.pos p).
  assert (0 < 2 ^ Z.pos p) as Hpos by (apply Z.pow_pos_nonneg; lia).
  pose proof (Z.mul_div_le (Z.pos m) (2 ^ Z.pos p) Hpos).
  pose proof (Z.mul_succ_div_gt (Z.pos m) (2 ^ Z.pos p) Hpos).
  lia.
Qed.

(** ** Images one pixel wide or high

    At every factor below 1.0 the scaled size [int(1 * factor)] of a side of
    one pixel is 0, and the library refuses to resize to an empty size
    ([ValueError: height and width must be > 0]); nothing in
    [compress_image_to_kb] catches the error. *)

(** The recorded encode did not raise. *)
Definition encode_ok (ev : event) : bool :=
  match ev with
  | EvSave _ _ _ _ out => is_ok out
  | _ => true
  end.

Section LostCandidate.
Context {pil : Pil}.
Variables (kb : Z) (img : Image) (preserve_exif : bool) (max_iterations : Z).
Hypothesis Hkb : 5 <= kb <= 1000.
Hypothesis Hnarrow : fst (size img) = 1 \/ snd (size img) = 1.
Hypothesis Hrefuses :
  forall src sz, fst sz < 1 \/ snd sz < 1 -> is_ok (pil_resample src sz) = false.

Lemma narrow_image_is_not_scaled factor evs w :
  In factor (tl dimension_reductions) ->
  working_step img factor = (evs, w) ->
  candidates evs = [] /\ exists e, w = Raise e.
Proof.
  intros Hin Hws. split; [by apply working_step_candidates in Hws|].
  unfold working_step in Hws.
  assert (PyFloat.ltb factor one = true /\ scaled 1 factor = Ok 0)
    as [Hlt Hzero].
  { simpl in Hin.
    destruct Hin as [<-|[<-|[<-|[<-|[<-|[]]]]]]; split; vm_compute; reflexivity. }
  rewrite Hlt in Hws.
  destruct (scaled (fst (size img)) factor) as [nw|e] eqn:Hw;
    [|injection Hws as _ <-; eauto].
  destruct (scaled (snd (size img)) factor) as [nh|e] eqn:Hh;
    [|injection Hws as _ <-; eauto].
  injection Hws as _ <-.
  assert (is_ok (pil_resample img (nw, nh)) = false) as Hfails.
  { apply Hrefuses. simpl.
    destruct Hnarrow as [H1|H1]; rewrite H1 in *.
    - left. rewrite Hzero in Hw. injection Hw as <-. lia.
    - right. rewrite Hzero in Hh. injection Hh as <-. lia. }
  destruct (pil_resample img (nw, nh)) as [px|e]; [discriminate|].
  simpl. eauto.
Qed.

Lemma narrow_image_stops factor smaller best evs r :
  In factor (tl dimension_reductions) ->
  scales (kb * 1024) img preserve_exif max_iterations (factor :: smaller)
         best evs r ->
  candidates evs = [] /\ exists e, r = Raise e.
Proof.
  intros Hin Hsc.
  inversion Hsc as [ | f fs b evs' e Hws
                   | f fs b evs0 w evs1 e Hws Hp
                   | f fs b evs0 w evs1 c Hws Hp
                   | f fs b evs0 w evs1 best' e Hws Hp Hgood
                   | f fs b evs0 w evs1 best' c Hws Hp Hgood
                   | f fs b evs0 w evs1 best' evs2 r' Hws Hp Hgood Hrest ];
    subst;
    destruct (narrow_image_is_not_scaled _ _ _ Hin Hws) as [Hnone [e' He']];
    try discriminate.
  split; [exact Hnone|eauto].
Qed.

Lemma probes_tightly_accepted working factor n low high best evs c :
  probes (kb * 1024) img preserve_exif working factor n low high best evs
         (Ok (Return c)) ->
  In c (candidates evs)
  /\ dimension_factor (snd c) = Some factor
  /\ 20 * delta (kb * 1024) c <= kb * 1024.
Proof.
  intros Hp. remember (Ok (Return c)) as r eqn:Hr.
  induction Hp as [ | n low high best e Hout | n low high best data e Hout Hw
                   | n low high best data Hout Hw
                   | n low high best data Hout Hw Hge
                   | n low high best data evs r Hout Hw Hlt Hrest IH ];
    try discriminate.
  - injection Hr as <-.
    rewrite (candidates_cons_probe _ _ _ _ _ _ _ _ Hout).
    split; [by left|]. split; [reflexivity|].
    destruct (within_on_allowed_targets kb (Z.of_nat (length data)) Hkb) as [Htight _].
    rewrite Htight in Hw. injection Hw as Hw. apply Z.leb_le in Hw.
    exact Hw.
  - destruct (IH Hr) as (Hin & Hfactor & Hdelta).
    rewrite (candidates_cons_probe _ _ _ _ _ _ _ _ Hout).
    split; [by right|]. by split.
Qed.

Lemma candidates_at_factor factor evs c :
  Forall (at_factor factor) evs ->
  In c (candidates evs) ->
  dimension_factor (snd c) = Some factor.
Proof.
  intros Hall Hin.
  destruct (candidates_in _ _ Hin) as (f & w & q & ex & Hev & ->).
  rewrite Forall_forall in Hall. apply list_elem_of_In in Hev.
  specialize (Hall _ Hev). simpl in Hall. by subst f.
Qed.

Lemma probes_encode_ok working factor n low high best evs e :
  probes (kb * 1024) img preserve_exif working factor n low high best evs
         (Raise e) ->
  forallb encode_ok evs = true ->
  False.
Proof.
  intros Hp. remember (Raise e) as r eqn:Hr.
  induction Hp as [ | n low high best e' Hout | n low high best data e' Hout Hw
                   | n low high best data Hout Hw
                   | n low high best data Hout Hw Hge
                   | n low high best data evs r Hout Hw Hlt Hrest IH ];
    try discriminate; simpl; intros Hok.
  - unfold probe_event in Hok. simpl in Hok. rewrite Hout in Hok. done.
  - destruct (within_on_allowed_targets kb (Z.of_nat (length data)) Hkb) as [Htight _].
    congruence.
  - apply andb_prop in Hok as [_ Hok]. by apply IH.
Qed.

Lemma good_enough_in_band best :
  good_enough (kb * 1024) best
  = Ok (match truthy_best best with
        | Some c =>
            if 10 * delta (kb * 1024) c <=? kb * 1024 then Some c else None
        | None => None
        end).
Proof.
  unfold good_enough. destruct (truthy_best best) as [[data st]|]; [|done].
  destruct (within_on_allowed_targets kb (compressed_size st) Hkb) as [_ ->]. done.
Qed.

Lemma candidate_sizes evs :
  Forall (fun c => compressed_size (snd c) = Z.of_nat (length (fst c)))
         (candidates evs).
Proof.
  apply Forall_forall. intros c Hin. apply list_elem_of_In in Hin.
  by destruct (candidates_in _ _ Hin) as (f & w & q & ex & _ & ->).
Qed.

Lemma best_in_band evs c :
  In c (candidates evs) ->
  10 * delta (kb * 1024) c <= kb * 1024 ->
  exists b,
    best_after (kb * 1024) None evs = Some b
    /\ good_enough (kb * 1024) (Some b) = Ok (Some b).
Proof.
  intros Hin Hband.
  destruct (fold_keep_best_nonempty (kb * 1024) (candidates evs) None)
    as [b Hb]; [by destruct (candidates evs)|].
  exists b. split; [exact Hb|].
  destruct (fold_keep_best_found _ _ _ _ Hb) as ([Hnone|Hb_in] & Hmin & _);
    [discriminate|].
  rewrite Forall_forall in Hmin. apply list_elem_of_In in Hin.
  specialize (Hmin _ Hin).
  pose proof (candidate_sizes evs) as Hsizes. rewrite Forall_forall in Hsizes.
  apply list_elem_of_In in Hb_in. specialize (Hsizes _ Hb_in).
  rewrite good_enough_in_band.
  assert (truthy_best (Some b) = Some b) as ->.
  { unfold truthy_best. destruct b as [data st]. simpl in *.
    destruct data; [|done]. exfalso. unfold delta in *. simpl in *. lia. }
  destruct (Z.leb_spec (10 * delta (kb * 1024) b) (kb * 1024)); [done|lia].
Qed.

Lemma working_step_unscaled :
  working_step img one
  = ([EvCopy img], Ok (derived img (size img) (mode img) (pixels img))).
Proof. reflexivity. Qed.

(** The loop over the factors on such an image: it returns only from the
    first factor, and does so when a candidate within the band was found
    there and no encode failed. *)
Lemma first_scale_decides evs r :
  scales (kb * 1024) img preserve_exif max_iterations dimension_reductions
         None evs r ->
  match r with
  | Ok (Return c) =>
      In c (candidates evs)
      /\ dimension_factor (snd c) = Some one
      /\ 10 * delta (kb * 1024) c <= kb * 1024
  | Ok (Continue _) => False
  | Raise _ =>
      forallb encode_ok evs = true ->
      Forall (fun c => kb * 1024 < 10 * delta (kb * 1024) c) (candidates evs)
  end.
Proof.
  intros Hsc. unfold dimension_reductions in Hsc.
  inversion Hsc as [ | f fs b evs' e Hws
                   | f fs b evs0 w evs1 e Hws Hp
                   | f fs b evs0 w evs1 c Hws Hp
                   | f fs b evs0 w evs1 best' e Hws Hp Hgood
                   | f fs b evs0 w evs1 best' c Hws Hp Hgood
                   | f fs b evs0 w evs1 best' evs2 r' Hws Hp Hgood Hrest ];
    subst; rewrite working_step_unscaled in Hws; try discriminate;
    injection Hws as <- <-.
  - intros Hok. exfalso. simpl in Hok.
    by apply (probes_encode_ok _ _ _ _ _ _ _ _ Hp).
  - destruct (probes_tightly_accepted _ _ _ _ _ _ _ _ Hp)
      as (Hin & Hfactor & Hdelta).
    split; [rewrite candidates_app; apply in_or_app; by right|].
    split; [exact Hfactor|].
    unfold delta in *. lia.
  - rewrite good_enough_in_band in Hgood. discriminate.
  - apply good_enough_some in Hgood as (-> & _ & Hwithin).
    destruct (within_on_allowed_targets kb (compressed_size (snd c)) Hkb) as [_ Hrelaxed].
    rewrite Hrelaxed in Hwithin. injection Hwithin as Hwithin.
    apply Z.leb_le in Hwithin.
    pose proof (probes_bisection _ _ _ _ _ _ _ _ _ _ _ Hp) as (_ & Hat & _).
    apply probes_best in Hp as [Hbest _].
    destruct (fold_keep_best_found _ _ _ _ (eq_sym Hbest))
      as ([Hnone|Hin] & _); [discriminate|].
    split; [rewrite candidates_app; apply in_or_app; by right|].
    split; [|exact Hwithin].
    by apply (candidates_at_factor one evs1).
  - assert (In (PyFloat.literal 9 10) (tl dimension_reductions)) as Hnext
        by (simpl; auto).
    destruct (narrow_image_stops _ _ _ _ _ Hnext Hrest) as (Hnone & e & ->).
    intros _. rewrite !candidates_app, Hnone, app_nil_r. simpl.
    apply probes_best in Hp as [-> _].
    apply Forall_forall. intros c Hin. apply list_elem_of_In in Hin.
    destruct (Z.ltb_spec (kb * 1024) (10 * delta (kb * 1024) c)) as [|Hband];
      [done|exfalso].
    destruct (best_in_band _ _ Hin Hband) as (b & Hb & Hgood_b).
    rewrite Hb, Hgood_b in Hgood. discriminate.
Qed.

End LostCandidate.

Section LostCandidateClaim.
Context {pil : Pil}.

(** C2. On an image one pixel wide or high, with a library that refuses an
    empty size and a target of 5 to 1000 KB, [compress_image_to_kb] answers
    only from the unscaled image: what it returns is a candidate of factor
    1.0 within 10% of the target, and it does return one when one was
    probed and no encode failed. When no candidate is within the 10% band,
    the call does not go on to return the candidate nearest to the target:
    the resize at factor 0.9 raises, the error reaches the caller and the
    best candidate is lost. *)
Theorem a_failed_resize_loses_the_best_candidate
    s (image : ref) img0 kb preserve_exif max_iterations :
  heap s !! image = Some img0 ->
  fst (size img0) = 1 \/ snd (size img0) = 1 ->
  (forall src sz, fst sz < 1 \/ snd sz < 1 ->
                  is_ok (pil_resample src sz) = false) ->
  5 <= kb <= 1000 ->
  (forall c,
      result_of (compress_image_to_kb image kb preserve_exif max_iterations) s
      = Ok c ->
      In c (candidates
              (events_of (compress_image_to_kb image kb preserve_exif
                            max_iterations) s))
      /\ dimension_factor (snd c) = Some one
      /\ 10 * delta (kb * 1024) c <= kb * 1024)
  /\ (Forall (fun c => kb * 1024 < 10 * delta (kb * 1024) c)
             (candidates
                (events_of (compress_image_to_kb image kb preserve_exif
                              max_iterations) s)) ->
      exists e,
        result_of (compress_image_to_kb image kb preserve_exif max_iterations) s
        = Raise e)
  /\ (forallb encode_ok
              (events_of (compress_image_to_kb image kb preserve_exif
                            max_iterations) s) = true ->
      Exists (fun c => 10 * delta (kb * 1024) c <= kb * 1024)
             (candidates
                (events_of (compress_image_to_kb image kb preserve_exif
                              max_iterations) s)) ->
      exists c,
        result_of (compress_image_to_kb image kb preserve_exif max_iterations) s
        = Ok c).
Proof.
  intros Himg Hnarrow Hrefuses Hkb.
  pose proof (compress_image_to_kb_shape image kb preserve_exif max_iterations
                s img0 Himg) as Hshape.
  remember (events_of (compress_image_to_kb image kb preserve_exif
                         max_iterations) s) as evs eqn:Hevs.
  remember (result_of (compress_image_to_kb image kb preserve_exif
                         max_iterations) s) as r eqn:Hr.
  clear Hevs Hr.
  assert (forall c, r = Ok c ->
                    In c (candidates evs)
                    /\ dimension_factor (snd c) = Some one
                    /\ 10 * delta (kb * 1024) c <= kb * 1024) as Hreturned.
  { intros c ->.
    inversion Hshape as [ evc e Hcs | evc img evs1 e Hcs Hsc
                        | evc img evs1 c' Hcs Hsc
                        | evc img evs1 best c' Hcs Hsc Hbest
                        | evc img evs1 best Hcs Hsc Hbest ]; subst;
      destruct (convert_step_ok _ _ _ Hcs) as (Hsize & _);
      rewrite <- Hsize in Hnarrow;
      pose proof (first_scale_decides kb img preserve_exif max_iterations
                    Hkb Hnarrow Hrefuses _ _ Hsc) as Hfirst;
      simpl in Hfirst; try done.
    destruct Hfirst as (Hin & Hfactor & Hdelta).
    split; [|by split]. rewrite candidates_app. apply in_or_app. by right. }
  split; [exact Hreturned|]. split.
  - intros Hall. destruct r as [c|e]; [exfalso|by exists e].
    destruct (Hreturned c eq_refl) as (Hin & _ & Hdelta).
    rewrite Forall_forall in Hall. apply list_elem_of_In in Hin.
    specialize (Hall _ Hin). simpl in Hall. lia.
  - intros Hok Hsome. destruct r as [c|e]; [by exists c|exfalso].
    apply Exists_exists in Hsome as (c & Hin & Hband).
    inversion Hshape as [ evc e' Hcs | evc img evs1 e' Hcs Hsc
                        | evc img evs1 c' Hcs Hsc
                        | evc img evs1 best c' Hcs Hsc Hbest
                        | evc img evs1 best Hcs Hsc Hbest ]; subst.
    + destruct (convert_step_plain _ _ _ Hcs) as (_ & _ & Hnone & _).
      rewrite Hnone in Hin. by apply elem_of_nil in Hin.
    + destruct (convert_step_ok _ _ _ Hcs) as (Hsize & _).
      rewrite <- Hsize in Hnarrow.
      pose proof (first_scale_decides kb img preserve_exif max_iterations
                    Hkb Hnarrow Hrefuses _ _ Hsc) as Hfirst.
      simpl in Hfirst.
      destruct (convert_step_plain _ _ _ Hcs) as (_ & _ & Hnone & _).
      rewrite forallb_app in Hok. apply andb_prop in Hok as [_ Hok].
      specialize (Hfirst Hok).
      rewrite candidates_app, Hnone in Hin. simpl in Hin.
      rewrite Forall_forall in Hfirst. specialize (Hfirst _ Hin).
      simpl in Hfirst. lia.
    + destruct (convert_step_ok _ _ _ Hcs) as (Hsize & _).
      rewrite <- Hsize in Hnarrow.
      exact (first_scale_decides kb img preserve_exif max_iterations
               Hkb Hnarrow Hrefuses _ _ Hsc).
Qed.

End LostCandidateClaim.

(** Witness of C2: a 1 x 1 image against a target of 5 KB, where six probes
    are made on the unscaled image, none within 10% of the target, and the
    call raises; and a 1 x 10500 image whose only probe is within 10% of
    that target, where the call returns. *)
Lemma a_failed_resize_loses_the_best_candidate_witness :
  heap (Sample.store (Sample.image 1 1 "RGB")) !! 0%nat
  = Some (Sample.image 1 1 "RGB")
  /\ (fst (size (Sample.image 1 1 "RGB")) = 1
      \/ snd (size (Sample.image 1 1 "RGB")) = 1)
  /\ (forall src sz, fst sz < 1 \/ snd sz < 1 ->
                     is_ok (pil_resample (Pil := Sample.pil) src sz) = false)
  /\ 5 <= 5 <= 1000
  /\ length (candidates
               (events_of (compress_image_to_kb (pil := Sample.pil) 0%nat 5
                             false 10)
                          (Sample.store (Sample.image 1 1 "RGB")))) = 6%nat
  /\ Forall (fun c => 5 * 1024 < 10 * delta (5 * 1024) c)
            (candidates
               (events_of (compress_image_to_kb (pil := Sample.pil) 0%nat 5
                             false 10)
                          (Sample.store (Sample.image 1 1 "RGB"))))
  /\ (exists e,
         result_of (compress_image_to_kb (pil := Sample.pil) 0%nat 5 false 10)
                   (Sample.store (Sample.image 1 1 "RGB"))
         = Raise e)
  /\ heap (Sample.store (Sample.image 1 10500 "RGB")) !! 0%nat
     = Some (Sample.image 1 10500 "RGB")
  /\ forallb encode_ok
       (events_of (compress_image_to_kb (pil := Sample.pil) 0%nat 5 false 1)
                  (Sample.store (Sample.image 1 10500 "RGB"))) = true
  /\ Exists (fun c => 10 * delta (5 * 1024) c <= 5 * 1024)
            (candidates
               (events_of (compress_image_to_kb (pil := Sample.pil) 0%nat 5
                             false 1)
                          (Sample.store (Sample.image 1 10500 "RGB"))))
  /\ exists c,
       result_of (compress_image_to_kb (pil := Sample.pil) 0%nat 5 false 1)
                 (Sample.store (Sample.image 1 10500 "RGB"))
       = Ok c.
Proof.
  assert (heap (Sample.store (Sample.image 1 10500 "RGB")) !! 0%nat
          = Some (Sample.image 1 10500 "RGB")) as Hheld' by reflexivity.
  assert (fst (size (Sample.image 1 10500 "RGB")) = 1
          \/ snd (size (Sample.image 1 10500 "RGB")) = 1) as Hnarrow'
      by (left; reflexivity).
  assert (forallb encode_ok
            (events_of (compress_image_to_kb (pil := Sample.pil) 0%nat 5 false 1)
                       (Sample.store (Sample.image 1 10500 "RGB"))) = true)
    as Hencodes by (vm_compute; reflexivity).
  assert (Exists (fun c => 10 * delta (5 * 1024) c <= 5 * 1024)
                 (candidates
                    (events_of (compress_image_to_kb (pil := Sample.pil) 0%nat 5
                                  false 1)
                               (Sample.store (Sample.image 1 10500 "RGB")))))
    as Hnear.
  { remember (candidates
                (events_of (compress_image_to_kb (pil := Sample.pil) 0%nat 5
                              false 1)
                           (Sample.store (Sample.image 1 10500 "RGB")))) as cs
      eqn:Hcs.
    vm_compute in Hcs. subst cs.
    apply List.Exists_cons_hd. vm_compute. discriminate. }
  assert (heap (Sample.store (Sample.image 1 1 "RGB")) !! 0%nat
          = Some (Sample.image 1 1 "RGB")) as Hheld by reflexivity.
  assert (fst (size (Sample.image 1 1 "RGB")) = 1
          \/ snd (size (Sample.image 1 1 "RGB")) = 1) as Hnarrow
      by (left; reflexivity).
  assert (forall src sz, fst sz < 1 \/ snd sz < 1 ->
                         is_ok (pil_resample (Pil := Sample.pil) src sz) = false)
    as Hrefuses.
  { intros src sz Hempty. simpl. unfold Sample.resample.
    destruct (Z.ltb_spec (fst sz) 1); [reflexivity|].
    destruct (Z.ltb_spec (snd sz) 1); [reflexivity|]. lia. }
  assert (5 <= 5 <= 1000) as Hkb by lia.
  assert (length (candidates
                    (events_of (compress_image_to_kb (pil := Sample.pil) 0%nat 5
                                  false 10)
                               (Sample.store (Sample.image 1 1 "RGB")))) = 6%nat)
    as Hsix by (vm_compute; reflexivity).
  assert (Forall (fun c => 5 * 1024 < 10 * delta (5 * 1024) c)
                 (candidates
                    (events_of (compress_image_to_kb (pil := Sample.pil) 0%nat 5
                                  false 10)
                               (Sample.store (Sample.image 1 1 "RGB")))))
    as Hfar.
  { remember (candidates
                (events_of (compress_image_to_kb (pil := Sample.pil) 0%nat 5
                              false 10)
                           (Sample.store (Sample.image 1 1 "RGB")))) as cs eqn:Hcs.
    vm_compute in Hcs. subst cs.
    repeat (apply List.Forall_cons; [vm_compute; reflexivity|]).
    apply List.Forall_nil. }
  split; [exact Hheld|]. split; [exact Hnarrow|]. split; [exact Hrefuses|].
  split; [exact Hkb|]. split; [exact Hsix|]. split; [exact Hfar|].
  split.
  { exact (proj1 (proj2 (a_failed_resize_loses_the_best_candidate
                           (pil := Sample.pil)
                           (Sample.store (Sample.image 1 1 "RGB")) 0%nat
                           (Sample.image 1 1 "RGB") 5 false 10
                           Hheld Hnarrow Hrefuses Hkb)) Hfar). }
  split; [exact Hheld'|]. split; [exact Hencodes|]. split; [exact Hnear|].
  exact (proj2 (proj2 (a_failed_resize_loses_the_best_candidate
                         (pil := Sample.pil)
                         (Sample.store (Sample.image 1 10500 "RGB")) 0%nat
                         (Sample.image 1 10500 "RGB") 5 false 1
                         Hheld' Hnarrow' Hrefuses Hkb)) Hencodes Hnear).
Defined.

(** The run of the witness, spelled out: the six probes on the 1 x 1 image,
    the best candidate at that point, the resize to 0 x 0 that ends the run,
    and the error the caller gets instead of the candidate. *)
Example one_pixel_image_run :
  omap (fun ev => match ev with
                  | EvSave (AtProbe factor) img quality _ (Ok data) =>
                      Some (factor, size img, quality, Z.of_nat (length data))
                  | _ => None
                  end)
       (events_of (compress_image_to_kb (pil := Sample.pil) 0%nat 5 false 10)
                  (Sample.store (Sample.image 1 1 "RGB")))
  = [ (one, (1, 1), 52, 2); (one, (1, 1), 74, 2); (one, (1, 1), 85, 2);
      (one, (1, 1), 90, 2); (one, (1, 1), 93, 2); (one, (1, 1), 94, 2) ]
  /\ option_map (fun c => quality_used (snd c))
       (best_after (5 * 1024) None
          (events_of (compress_image_to_kb (pil := Sample.pil) 0%nat 5 false 10)
                     (Sample.store (Sample.image 1 1 "RGB"))))
     = Some (Some 52)
  /\ last (events_of (compress_image_to_kb (pil := Sample.pil) 0%nat 5 false 10)
                     (Sample.store (Sample.image 1 1 "RGB")))
     = Some (EvResize (derived (Sample.image 1 1 "RGB") (1, 1) "RGB" []) (0, 0)
               (Raise (PyExn "ValueError" "height and width must be > 0")))
  /\ result_of (compress_image_to_kb (pil := Sample.pil) 0%nat 5 false 10)
               (Sample.store (Sample.image 1 1 "RGB"))
     = Raise (PyExn "ValueError" "height and width must be > 0").
Proof. repeat split; vm_compute; reflexivity. Qed.

(** An image one pixel wide that the first factor brings within 10% of the
    target, but not within 5%: the call returns that candidate. *)
Example one_pixel_image_accepted :
  result_option
    (result_map (fun c => (Z.of_nat (length (fst c)), snd c))
       (result_of (compress_image_to_kb (pil := Sample.pil) 0%nat 5 false 1)
                  (Sample.store (Sample.image 1 10500 "RGB"))))
  = Some (5462,
          {| final_width := 1; final_height := 10500; compressed_size := 5462;
             quality_used := Some 52; dimension_factor := Some one |})
  /\ forallb encode_ok
       (events_of (compress_image_to_kb (pil := Sample.pil) 0%nat 5 false 1)
                  (Sample.store (Sample.image 1 10500 "RGB"))) = true
  /\ (20 * Z.abs (5462 - 5 * 1024) <=? 5 * 1024) = false
  /\ (10 * Z.abs (5462 - 5 * 1024) <=? 5 * 1024) = true.
Proof. repeat split; vm_compute; reflexivity. Qed.

(** * The objects the library is called on

    The trace of a run records the image each library call was made on, not
    the object that held it. To tell the caller's object from a copy of it,
    the two compressors are written once more over an interface of the
    operations they use; run with the operations of the sections above they
    are the compressors themselves, and run with operations that keep a
    record of their receivers they show which object each call was made
    on. *)

Class Runtime (T : Type -> Type) := {
  rt_ret : forall {A}, A -> T A;
  rt_bind : forall {A B}, T A -> (A -> T B) -> T B;
  rt_lift : forall {A}, result A -> T A;
  rt_deref : ref -> T Image;
  rt_resize : ref -> Z * Z -> T ref;
  rt_copy : ref -> T ref;
  rt_convert : ref -> string -> T ref;
  rt_save : site -> ref -> Z -> option bytes -> T bytes
}.

Declare Scope rt_scope.
Notation "x <- c1 ;; c2" := (rt_bind c1 (fun x => c2))
  (at level 100, c1 at next level, right associativity) : rt_scope.

Section Generic.
Context {T : Type -> Type} {runtime : Runtime T}.
Local Open Scope rt_scope.

Definition compress_image_in (image : ref) (max_dimension quality : Z)
    (preserve_exif : bool) : T (bytes * stats) :=
  img <- rt_deref image ;;
  width <- rt_lift (py_float (fst (size img))) ;;
  by_width <- rt_lift (int_div_float max_dimension width) ;;
  height <- rt_lift (py_float (snd (size img))) ;;
  by_height <- rt_lift (int_div_float max_dimension height) ;;
  let ratio := py_min by_width by_height in
  image <- (if PyFloat.lt_int ratio 1 then
              new_width <- rt_lift (scaled (fst (size img)) ratio) ;;
              new_height <- rt_lift (scaled (snd (size img)) ratio) ;;
              rt_resize image (new_width, new_height)
            else rt_ret image) ;;
  img <- rt_deref image ;;
  image <- (if mode_needs_rgb (mode img) then rt_convert image "RGB"
            else rt_ret image) ;;
  img <- rt_deref image ;;
  compressed_data <- rt_save AtFixed image quality (exif_param preserve_exif img) ;;
  rt_ret (compressed_data,
          {| final_width := fst (size img);
             final_height := snd (size img);
             compressed_size := Z.of_nat (length compressed_data);
             quality_used := None;
             dimension_factor := None |}).

Section Search.
Variables (image : ref) (target_size_bytes : Z) (preserve_exif : bool).

Fixpoint quality_loop_in (working_image : ref) (factor : float) (iterations : nat)
    (low_quality high_quality : Z) (best : option candidate)
  : T (control (option candidate)) :=
  match iterations with
  | O => rt_ret (Continue best)
  | S remaining =>
      let current_quality := (low_quality + high_quality) / 2 in
      img <- rt_deref image ;;
      compressed_data <-
        rt_save (AtProbe factor) working_image current_quality
                (exif_param preserve_exif img) ;;
      let compressed_size := Z.of_nat (length compressed_data) in
      tight <- rt_lift (within compressed_size target_size_bytes tight_tolerance) ;;
      working <- rt_deref working_image ;;
      let found :=
        (compressed_data,
         probe_stats working compressed_size current_quality factor) in
      if tight : bool then rt_ret (Return found)
      else
        let best :=
          if improves target_size_bytes compressed_size best
          then Some found else best in
        let range :=
          narrow target_size_bytes compressed_size current_quality
                 (low_quality, high_quality) in
        if fst range >=? snd range then rt_ret (Continue best)
        else quality_loop_in working_image factor remaining
                             (fst range) (snd range) best
  end.

Fixpoint dimension_loop_in (original_size : Z * Z) (max_iterations : Z)
    (factors : list float) (best : option candidate)
  : T (control (option candidate)) :=
  match factors with
  | [] => rt_ret (Continue best)
  | factor :: smaller =>
      working_image <-
        (if PyFloat.ltb factor one then
           new_width <- rt_lift (scaled (fst original_size) factor) ;;
           new_height <- rt_lift (scaled (snd original_size) factor) ;;
           rt_resize image (new_width, new_height)
         else rt_copy image) ;;
      searched <-
        quality_loop_in working_image factor (Z.to_nat max_iterations)
                        min_quality max_quality best ;;
      match searched with
      | Return found => rt_ret (Return found)
      | Continue best =>
          accepted <- rt_lift (good_enough target_size_bytes best) ;;
          match accepted with
          | Some found => rt_ret (Return found)
          | None => dimension_loop_in original_size max_iterations smaller best
          end
      end
  end.

End Search.

Definition compress_image_to_kb_in (image : ref) (target_size_kb : Z)
    (preserve_exif : bool) (max_iterations : Z) : T (bytes * stats) :=
  let target_size_bytes := target_size_kb * 1024 in
  img <- rt_deref image ;;
  image <- (if mode_needs_rgb (mode img) then rt_convert image "RGB"
            else rt_ret image) ;;
  img <- rt_deref image ;;
  let original_size := size img in
  searched <-
    dimension_loop_in image target_size_bytes preserve_exif original_size
                      max_iterations dimension_reductions None ;;
  match searched with
  | Return found => rt_ret found
  | Continue best =>
      match truthy_best best with
      | Some found => rt_ret found
      | None =>
          compressed_data <- rt_save AtFallback image min_quality None ;;
          rt_ret (compressed_data,
                  probe_stats img (Z.of_nat (length compressed_data))
                              min_quality one)
      end
  end.

End Generic.

(** The operations of the sections above. *)
#[export] Instance plain {pil : Pil} : Runtime M := {|
  rt_ret := @ret;
  rt_bind := @bind;
  rt_lift := @lift;
  rt_deref := deref;
  rt_resize := img_resize;
  rt_copy := img_copy;
  rt_convert := img_convert;
  rt_save := img_save
|}.

Section Same.
Context {pil : Pil}.

(** Run with them, the two programs are the compressors. *)
Lemma compress_image_in_plain :
  compress_image_in (T := M) = compress_image.
Proof. reflexivity. Qed.

Lemma compress_image_to_kb_in_plain :
  compress_image_to_kb_in (T := M) = compress_image_to_kb.
Proof. reflexivity. Qed.

End Same.

(** ** Operations that keep a record of their receivers *)

Inductive operation :=
| OpResize
| OpCopy
| OpConvert
| OpSave (at_ : site).

(** A library call: the operation, the object it was called on and the
    object it returned, if it returned an image. *)
Record call := {
  operation_of : operation;
  receiver : ref;
  produced : option ref
}.

Definition Logged (A : Type) : Type :=
  state * list call -> result A * (state * list call).

(** An operation that is no library call, and a library call on [r]: the
    operation runs as it does in a plain run, and the call is added to the
    record. *)
Definition unlogged {A} (m : M A) : Logged A :=
  fun sl => (fst (m (fst sl)), (snd (m (fst sl)), snd sl)).

Definition logged {A} (op : operation) (r : ref) (made : A -> option ref)
    (m : M A) : Logged A :=
  fun sl =>
    (fst (m (fst sl)),
     (snd (m (fst sl)),
      snd sl ++ [{| operation_of := op;
                    receiver := r;
                    produced := match fst (m (fst sl)) with
                                | Ok a => made a
                                | Raise _ => None
                                end |}])).

#[export] Instance recording {pil : Pil} : Runtime Logged := {|
  rt_ret := fun A a sl => (Ok a, sl);
  rt_bind := fun A B m k sl =>
    match m sl with
    | (Ok a, sl') => k a sl'
    | (Raise e, sl') => (Raise e, sl')
    end;
  rt_lift := fun A r => unlogged (lift r);
  rt_deref := fun r => unlogged (deref r);
  rt_resize := fun r new_size => logged OpResize r Some (img_resize r new_size);
  rt_copy := fun r => logged OpCopy r Some (img_copy r);
  rt_convert := fun r to => logged OpConvert r Some (img_convert r to);
  rt_save := fun at_ r quality exif =>
    logged (OpSave at_) r (fun _ => None) (img_save at_ r quality exif)
|}.

(** The calls of a recorded run from the state [s], and the run without
    its record. *)
Definition calls_of {A} (m : Logged A) (s : state) : list call :=
  snd (snd (m (s, []))).

Definition run_of {A} (m : Logged A) (s : state) : result A * state :=
  (fst (m (s, [])), fst (snd (m (s, [])))).

(** What the caller of a compressor can say of a call, [held] being the
    number of objects of the store when the compressor was entered: an
    image the call returned is a new object; the call was made on the
    caller's image or on an object made since, never on another object of
    the caller's; and a probe of the quality search was made on an object
    made since. *)
Definition works_on_copies (image : ref) (held : nat) (c : call) : Prop :=
  (forall r, produced c = Some r -> (held <= r)%nat)
  /\ match operation_of c with
     | OpSave (AtProbe _) => (held <= receiver c)%nat
     | _ => receiver c = image \/ (held <= receiver c)%nat
     end.

(** [tracks m' m held P Q]: from a store of at least [held] objects the
    recorded run [m'] is the plain run [m] with a record of calls that
    satisfy [P]; the store does not shrink, and a returned value satisfies
    [Q]. *)
Definition tracks {A} (m' : Logged A) (m : M A) (held : nat)
    (P : call -> Prop) (Q : A -> Prop) : Prop :=
  forall s log,
    (held <= length (heap s))%nat ->
    exists calls,
      m' (s, log) = (fst (m s), (snd (m s), log ++ calls))
      /\ Forall P calls
      /\ (held <= length (heap (snd (m s))))%nat
      /\ forall a, fst (m s) = Ok a -> Q a.

Section Tracks.
Context {pil : Pil}.

Lemma tracks_ret {A} held P (Q : A -> Prop) (a : A) :
  Q a -> tracks (rt_ret (T := Logged) a) (ret a) held P Q.
Proof.
  intros Ha s log Hheld. exists []. simpl. rewrite app_nil_r.
  repeat split; auto. by intros a' [= <-].
Qed.

Lemma tracks_bind {A B} held P (Q1 : A -> Prop) (Q2 : B -> Prop)
    (m' : Logged A) (m : M A) (k' : A -> Logged B) (k : A -> M B) :
  tracks m' m held P Q1 ->
  (forall a, Q1 a -> tracks (k' a) (k a) held P Q2) ->
  tracks (rt_bind (T := Logged) m' k') (bind m k) held P Q2.
Proof.
  intros Hm Hk s log Hheld.
  destruct (Hm s log Hheld) as (calls1 & Hrun1 & Hall1 & Hheld1 & Hq1).
  simpl. rewrite Hrun1. unfold bind.
  destruct (m s) as [[a|e] s1] eqn:Hms; simpl in *.
  - destruct (Hk a (Hq1 a eq_refl) s1 (log ++ calls1) Hheld1)
      as (calls2 & Hrun2 & Hall2 & Hheld2 & Hq2).
    exists (calls1 ++ calls2). rewrite Hrun2, app_assoc.
    repeat split; auto. by apply Forall_app.
  - exists calls1. repeat split; auto. intros b [=].
Qed.

Lemma tracks_weaken {A} held P (Q Q' : A -> Prop) (m' : Logged A) (m : M A) :
  tracks m' m held P Q -> (forall a, Q a -> Q' a) -> tracks m' m held P Q'.
Proof.
  intros Hm Himpl s log Hheld.
  destruct (Hm s log Hheld) as (calls & Hrun & Hall & Hheld' & Hq).
  exists calls. repeat split; auto.
Qed.

Lemma tracks_lift {A} held P (r : result A) :
  tracks (rt_lift (T := Logged) r) (lift r) held P (fun a => r = Ok a).
Proof.
  intros s log Hheld. exists []. simpl. unfold unlogged. simpl.
  rewrite app_nil_r. repeat split; auto.
Qed.

Lemma tracks_deref held P (r : ref) :
  tracks (rt_deref (T := Logged) r) (deref r) held P (fun _ => True).
Proof.
  intros s log Hheld. exists []. simpl. unfold unlogged. simpl.
  rewrite app_nil_r. repeat split; auto.
  unfold deref. by destruct (heap s !! r).
Qed.

(** An image the library returns is the newest object of the store. *)
Lemma img_resize_new (r : ref) new_size s :
  (length (heap s) <= length (heap (snd (img_resize r new_size s))))%nat
  /\ forall r', fst (img_resize r new_size s) = Ok r' -> r' = length (heap s).
Proof.
  unfold img_resize, bind, deref, emit, lift, alloc.
  destruct (heap s !! r); simpl; [|split; [lia|done]].
  destruct (pil_resample i new_size); simpl;
    rewrite ?length_app; simpl; split; try lia; by intros r' [= <-].
Qed.

Lemma img_copy_new (r : ref) s :
  (length (heap s) <= length (heap (snd (img_copy r s))))%nat
  /\ forall r', fst (img_copy r s) = Ok r' -> r' = length (heap s).
Proof.
  unfold img_copy, bind, deref, emit, lift, alloc.
  destruct (heap s !! r); simpl; [|split; [lia|done]].
  rewrite ?length_app; simpl; split; try lia; by intros r' [= <-].
Qed.

Lemma img_convert_new (r : ref) to s :
  (length (heap s) <= length (heap (snd (img_convert r to s))))%nat
  /\ forall r', fst (img_convert r to s) = Ok r' -> r' = length (heap s).
Proof.
  unfold img_convert, bind, deref, emit, lift, alloc.
  destruct (heap s !! r); simpl; [|split; [lia|done]].
  destruct (pil_convert i to); simpl;
    rewrite ?length_app; simpl; split; try lia; by intros r' [= <-].
Qed.

Lemma img_save_same (at_ : site) (r : ref) quality exif s :
  heap (snd (img_save at_ r quality exif s)) = heap s.
Proof.
  unfold img_save, bind, deref, emit, lift.
  destruct (heap s !! r); simpl; [|done].
  by destruct (pil_encode_jpeg i quality exif).
Qed.

Variables (image : ref) (held : nat).

Lemma tracks_resize (r : ref) new_size :
  r = image \/ (held <= r)%nat ->
  tracks (rt_resize (T := Logged) r new_size) (img_resize r new_size) held
         (works_on_copies image held) (fun r' => (held <= r')%nat).
Proof.
  intros Hr s log Hheld.
  destruct (img_resize_new r new_size s) as [Hgrow Hnew].
  eexists. split; [reflexivity|]. split; [|split; [lia|]].
  - constructor; [|constructor]. split; simpl; [|exact Hr].
    intros r'. destruct (fst (img_resize r new_size s)) as [r0|e] eqn:Hres;
      intros [= <-]. rewrite (Hnew _ eq_refl). lia.
  - intros r' Hres. rewrite (Hnew _ Hres). lia.
Qed.

Lemma tracks_copy (r : ref) :
  r = image \/ (held <= r)%nat ->
  tracks (rt_copy (T := Logged) r) (img_copy r) held
         (works_on_copies image held) (fun r' => (held <= r')%nat).
Proof.
  intros Hr s log Hheld.
  destruct (img_copy_new r s) as [Hgrow Hnew].
  eexists. split; [reflexivity|]. split; [|split; [lia|]].
  - constructor; [|constructor]. split; simpl; [|exact Hr].
    intros r'. destruct (fst (img_copy r s)) as [r0|e] eqn:Hres;
      intros [= <-]. rewrite (Hnew _ eq_refl). lia.
  - intros r' Hres. rewrite (Hnew _ Hres). lia.
Qed.

Lemma tracks_convert (r : ref) to :
  r = image \/ (held <= r)%nat ->
  tracks (rt_convert (T := Logged) r to) (img_convert r to) held
         (works_on_copies image held) (fun r' => (held <= r')%nat).
Proof.
  intros Hr s log Hheld.
  destruct (img_convert_new r to s) as [Hgrow Hnew].
  eexists. split; [reflexivity|]. split; [|split; [lia|]].
  - constructor; [|constructor]. split; simpl; [|exact Hr].
    intros r'. destruct (fst (img_convert r to s)) as [r0|e] eqn:Hres;
      intros [= <-]. rewrite (Hnew _ eq_refl). lia.
  - intros r' Hres. rewrite (Hnew _ Hres). lia.
Qed.

Lemma tracks_save (at_ : site) (r : ref) quality exif :
  match at_ with
  | AtProbe _ => (held <= r)%nat
  | _ => r = image \/ (held <= r)%nat
  end ->
  tracks (rt_save (T := Logged) at_ r quality exif)
         (img_save at_ r quality exif) held
         (works_on_copies image held) (fun _ => True).
Proof.
  intros Hr s log Hheld.
  eexists. split; [reflexivity|]. split; [|split; [|done]].
  - constructor; [|constructor]. split; simpl.
    + intros r'. by destruct (fst (img_save at_ r quality exif s)).
    + exact Hr.
  - by rewrite img_save_same.
Qed.

Lemma tracks_quality_loop (source : ref) target preserve_exif
    (working_image : ref) factor n :
  (held <= working_image)%nat ->
  forall low high best,
    tracks (quality_loop_in (T := Logged) source target preserve_exif
                            working_image factor n low high best)
           (quality_loop source target preserve_exif working_image factor n
                         low high best)
           held (works_on_copies image held) (fun _ => True).
Proof.
  intros Hworking. induction n as [|n IH]; intros low high best.
  - by apply tracks_ret.
  - cbn [quality_loop_in quality_loop].
    eapply tracks_bind; [apply tracks_deref|]. intros img _.
    eapply tracks_bind; [by apply tracks_save|]. intros compressed_data _.
    eapply tracks_bind; [apply tracks_lift|]. intros tight _.
    eapply tracks_bind; [apply tracks_deref|]. intros working _.
    destruct tight; [by apply tracks_ret|].
    match goal with |- context [if ?c then _ else _] => destruct c end;
      [by apply tracks_ret|apply IH].
Qed.

Lemma tracks_dimension_loop (source : ref) target preserve_exif original_size
    max_iterations factors :
  source = image \/ (held <= source)%nat ->
  forall best,
    tracks (dimension_loop_in (T := Logged) source target preserve_exif
                              original_size max_iterations factors best)
           (dimension_loop source target preserve_exif original_size
                           max_iterations factors best)
           held (works_on_copies image held) (fun _ => True).
Proof.
  intros Hsource. induction factors as [|factor smaller IH]; intros best.
  - by apply tracks_ret.
  - cbn [dimension_loop_in dimension_loop].
    eapply tracks_bind.
    { destruct (PyFloat.ltb factor one); [|by apply tracks_copy].
      eapply tracks_bind; [apply tracks_lift|]. intros new_width _.
      eapply tracks_bind; [apply tracks_lift|]. intros new_height _.
      by apply tracks_resize. }
    intros working_image Hworking. simpl in Hworking.
    eapply tracks_bind; [by apply tracks_quality_loop|].
    intros [found|best'] _; [by apply tracks_ret|].
    eapply tracks_bind; [apply tracks_lift|].
    intros [found|] _; [by apply tracks_ret|apply IH].
Qed.

Lemma tracks_compress_image_to_kb kb preserve_exif max_iterations :
  tracks (compress_image_to_kb_in (T := Logged) image kb preserve_exif
                                  max_iterations)
         (compress_image_to_kb image kb preserve_exif max_iterations)
         held (works_on_copies image held) (fun _ => True).
Proof.
  unfold compress_image_to_kb_in, compress_image_to_kb.
  eapply tracks_bind; [apply tracks_deref|]. intros img0 _.
  eapply tracks_bind with (Q1 := fun r => r = image \/ (held <= r)%nat).
  { destruct (mode_needs_rgb (mode img0)).
    - eapply tracks_weaken; [apply tracks_convert; by left|]. auto.
    - apply tracks_ret. by left. }
  intros source Hsource.
  eapply tracks_bind; [apply tracks_deref|]. intros img _.
  eapply tracks_bind; [by apply tracks_dimension_loop|].
  intros [found|best] _; [by apply tracks_ret|].
  destruct (truthy_best best); [by apply tracks_ret|].
  eapply tracks_bind; [by apply tracks_save|]. intros compressed_data _.
  by apply tracks_ret.
Qed.

Lemma tracks_compress_image max_dimension quality preserve_exif :
  tracks (compress_image_in (T := Logged) image max_dimension quality
                            preserve_exif)
         (compress_image image max_dimension quality preserve_exif)
         held (works_on_copies image held) (fun _ => True).
Proof.
  unfold compress_image_in, compress_image.
  eapply tracks_bind; [apply tracks_deref|]. intros img0 _.
  eapply tracks_bind; [apply tracks_lift|]. intros width _.
  eapply tracks_bind; [apply tracks_lift|]. intros by_width _.
  eapply tracks_bind; [apply tracks_lift|]. intros height _.
  eapply tracks_bind; [apply tracks_lift|]. intros by_height _.
  eapply tracks_bind with (Q1 := fun r => r = image \/ (held <= r)%nat).
  { destruct (PyFloat.lt_int (py_min by_width by_height) 1).
    - eapply tracks_bind; [apply tracks_lift|]. intros new_width _.
      eapply tracks_bind; [apply tracks_lift|]. intros new_height _.
      eapply tracks_weaken; [apply tracks_resize; by left|]. auto.
    - apply tracks_ret. by left. }
  intros resized Hresized.
  eapply tracks_bind; [apply tracks_deref|]. intros img1 _.
  eapply tracks_bind with (Q1 := fun r => r = image \/ (held <= r)%nat).
  { destruct (mode_needs_rgb (mode img1)).
    - eapply tracks_weaken; [by apply tracks_convert|]. auto.
    - by apply tracks_ret. }
  intros converted Hconverted.
  eapply tracks_bind; [apply tracks_deref|]. intros img2 _.
  eapply tracks_bind; [by apply tracks_save|]. intros compressed_data _.
  by apply tracks_ret.
Qed.

End Tracks.

Section CallersImage.
Context {pil : Pil}.

Lemma tracks_run {A} (m' : Logged A) (m : M A) held P Q s :
  tracks m' m held P Q ->
  (held <= length (heap s))%nat ->
  run_of m' s = m s /\ Forall P (calls_of m' s).
Proof.
  intros Hm Hheld. destruct (Hm s [] Hheld) as (calls & Hrun & Hall & _).
  unfold run_of, calls_of. rewrite Hrun. simpl. split; [|exact Hall].
  by destruct (m s).
Qed.

Lemma emits_keeps_the_store {A} (m : M A) s :
  emits (fun _ => True) m ->
  take (length (heap s)) (heap_after m s) = heap s.
Proof.
  intros Hm. destruct (Hm s) as (objs & evs & Hs & _).
  unfold heap_after. rewrite Hs. simpl. by rewrite take_app_length.
Qed.

(** C9. Neither compressor changes an object of the store it was given, and
    each works on copies. Run with a record of the objects the library is
    called on, [compress_image] and [compress_image_to_kb] are the same
    runs, and of every call of the record: an image it returned (from a
    resize, a conversion or a copy) is a new object; it was made on the
    caller's image or on an object made during the run, never on another
    object of the caller's; and a probe of the quality search was made on an
    object made during the run, also at factor 1.0, where that object is a
    copy. The library is taken at its word that [resize], [convert] and
    [copy] return new images and that [save] leaves the image it encodes
    alone; so every object the caller held, its image in particular, is
    after the call what it was before, whether the call returns or
    raises. *)
Theorem compressors_leave_the_callers_image
    s (image : ref) img0 max_dimension quality preserve_exif kb max_iterations :
  heap s !! image = Some img0 ->
  (image < length (heap s))%nat
  /\ (run_of (compress_image_in image max_dimension quality preserve_exif) s
      = compress_image image max_dimension quality preserve_exif s
      /\ Forall (works_on_copies image (length (heap s)))
                (calls_of (compress_image_in image max_dimension quality
                                             preserve_exif) s)
      /\ heap_after (compress_image image max_dimension quality preserve_exif) s
           !! image = Some img0
      /\ take (length (heap s))
              (heap_after (compress_image image max_dimension quality
                                          preserve_exif) s)
         = heap s)
  /\ (run_of (compress_image_to_kb_in image kb preserve_exif max_iterations) s
      = compress_image_to_kb image kb preserve_exif max_iterations s
      /\ Forall (works_on_copies image (length (heap s)))
                (calls_of (compress_image_to_kb_in image kb preserve_exif
                                                   max_iterations) s)
      /\ heap_after (compress_image_to_kb image kb preserve_exif max_iterations) s
           !! image = Some img0
      /\ take (length (heap s))
              (heap_after (compress_image_to_kb image kb preserve_exif
                                                max_iterations) s)
         = heap s).
Proof.
  intros Himg.
  assert (emits (fun _ => True)
            (compress_image image max_dimension quality preserve_exif)) as Hfixed
      by (apply emits_compress_image; auto).
  assert (emits (fun _ => True)
            (compress_image_to_kb image kb preserve_exif max_iterations)) as Hkb.
  { apply emits_compress_image_to_kb; auto.
    intros. apply emits_quality_loop_any. auto. }
  split; [by apply lookup_lt_Some in Himg|]. split.
  - destruct (tracks_run _ _ _ _ _ s
                (tracks_compress_image image (length (heap s)) max_dimension
                   quality preserve_exif) (le_n _)) as [Hrun Hcalls].
    split; [exact Hrun|]. split; [exact Hcalls|].
    split; [by apply (emits_heap _ _ _ _ _ Hfixed)|].
    by apply emits_keeps_the_store.
  - destruct (tracks_run _ _ _ _ _ s
                (tracks_compress_image_to_kb image (length (heap s)) kb
                   preserve_exif max_iterations) (le_n _)) as [Hrun Hcalls].
    split; [exact Hrun|]. split; [exact Hcalls|].
    split; [by apply (emits_heap _ _ _ _ _ Hkb)|].
    by apply emits_keeps_the_store.
Qed.

End CallersImage.

(** Witness of C9 on a 300 x 200 RGBA image. *)
Lemma compressors_leave_the_callers_image_witness :
  heap (Sample.store (Sample.image 300 200 "RGBA")) !! 0%nat
  = Some (Sample.image 300 200 "RGBA")
  /\ Forall (works_on_copies 0%nat 1%nat)
            (calls_of (compress_image_in (runtime := recording (pil := Sample.pil))
                                         0%nat 250 80 true)
                      (Sample.store (Sample.image 300 200 "RGBA")))
  /\ heap_after (compress_image (pil := Sample.pil) 0%nat 250 80 true)
                (Sample.store (Sample.image 300 200 "RGBA")) !! 0%nat
     = Some (Sample.image 300 200 "RGBA")
  /\ Forall (works_on_copies 0%nat 1%nat)
            (calls_of (compress_image_to_kb_in
                         (runtime := recording (pil := Sample.pil))
                         0%nat 20 true 10)
                      (Sample.store (Sample.image 300 200 "RGBA")))
  /\ heap_after (compress_image_to_kb (pil := Sample.pil) 0%nat 20 true 10)
                (Sample.store (Sample.image 300 200 "RGBA")) !! 0%nat
     = Some (Sample.image 300 200 "RGBA").
Proof.
  assert (heap (Sample.store (Sample.image 300 200 "RGBA")) !! 0%nat
          = Some (Sample.image 300 200 "RGBA")) as Hheld by reflexivity.
  split; [exact Hheld|].
  destruct (compressors_leave_the_callers_image (pil := Sample.pil)
              (Sample.store (Sample.image 300 200 "RGBA")) 0%nat
              (Sample.image 300 200 "RGBA") 250 80 true 20 10 Hheld)
    as (_ & (_ & Hfixed & Hsame & _) & (_ & Hkb & Hsame' & _)).
  repeat split; assumption.
Defined.

(** The calls of two small runs, each with its receiver and the object it
    returned. On an RGB image [compress_image_to_kb] resizes the caller's
    object, at reference 0, and encodes the copy and the resized images; on
    a palette image it converts the caller's object and works from the
    converted one, at reference 1. [compress_image] encodes the caller's
    object itself when it neither resizes nor converts. *)
Example calls_of_small_runs :
  calls_of (compress_image_to_kb_in (runtime := recording (pil := Sample.pil))
                                    0%nat 5 false 1)
           (Sample.store (Sample.image 10 10 "RGB"))
  = [ {| operation_of := OpCopy; receiver := 0; produced := Some 1 |};
      {| operation_of := OpSave (AtProbe one); receiver := 1; produced := None |};
      {| operation_of := OpResize; receiver := 0; produced := Some 2 |};
      {| operation_of := OpSave (AtProbe (PyFloat.literal 9 10)); receiver := 2;
         produced := None |};
      {| operation_of := OpResize; receiver := 0; produced := Some 3 |};
      {| operation_of := OpSave (AtProbe (PyFloat.literal 8 10)); receiver := 3;
         produced := None |};
      {| operation_of := OpResize; receiver := 0; produced := Some 4 |};
      {| operation_of := OpSave (AtProbe (PyFloat.literal 7 10)); receiver := 4;
         produced := None |};
      {| operation_of := OpResize; receiver := 0; produced := Some 5 |};
      {| operation_of := OpSave (AtProbe (PyFloat.literal 6 10)); receiver := 5;
         produced := None |};
      {| operation_of := OpResize; receiver := 0; produced := Some 6 |};
      {| operation_of := OpSave (AtProbe (PyFloat.literal 5 10)); receiver := 6;
         produced := None |} ]%nat
  /\ firstn 4
       (calls_of (compress_image_to_kb_in
                    (runtime := recording (pil := Sample.pil)) 0%nat 5 false 1)
                 (Sample.store (Sample.image 10 10 "P")))
     = [ {| operation_of := OpConvert; receiver := 0; produced := Some 1 |};
         {| operation_of := OpCopy; receiver := 1; produced := Some 2 |};
         {| operation_of := OpSave (AtProbe one); receiver := 2;
            produced := None |};
         {| operation_of := OpResize; receiver := 1; produced := Some 3 |} ]%nat
  /\ calls_of (compress_image_in (runtime := recording (pil := Sample.pil))
                                 0%nat 3000 80 true)
              (Sample.store (Sample.image 10 10 "RGB"))
     = [ {| operation_of := OpSave AtFixed; receiver := 0; produced := None |} ]%nat
  /\ calls_of (compress_image_in (runtime := recording (pil := Sample.pil))
                                 0%nat 5 80 true)
              (Sample.store (Sample.image 10 10 "P"))
     = [ {| operation_of := OpResize; receiver := 0; produced := Some 1 |};
         {| operation_of := OpConvert; receiver := 1; produced := Some 2 |};
         {| operation_of := OpSave AtFixed; receiver := 2; produced := None |} ]%nat.
Proof. repeat split; vm_compute; reflexivity. Qed.

(** * The views of the application *)

(** ** Text in the views *)

Definition is_line_break (c : Ascii.ascii) : bool :=
  let n := Ascii.nat_of_ascii c in ((n =? 10) || (n =? 13))%nat.

Definition has_line_break (text : string) : bool :=
  existsb is_line_break (String.list_ascii_of_string text).

(** [p.rfind(c)]: the last index of [c] in [p], or -1. *)
Fixpoint rfind_from (c : Ascii.ascii) (p : list Ascii.ascii) (index last : Z) : Z :=
  match p with
  | [] => last
  | x :: rest =>
      rfind_from c rest (index + 1) (if Ascii.eqb x c then index else last)
  end.

Definition rfind (c : Ascii.ascii) (p : list Ascii.ascii) : Z :=
  rfind_from c p 0 (-1).

(** [os.path.splitext(p)[0]] (POSIX): the extension starts at the last dot
    of the last path component, unless that component has only dots before
    it. *)
Definition splitext_root (p : string) : string :=
  let chars := String.list_ascii_of_string p in
  let sepIndex := rfind "/" chars in
  let dotIndex := rfind "." chars in
  if dotIndex >? sepIndex then
    if forallb (Ascii.eqb ".")
               (drop (Z.to_nat (sepIndex + 1)) (take (Z.to_nat dotIndex) chars))
    then p
    else String.string_of_list_ascii (take (Z.to_nat dotIndex) chars)
  else p.

(** ** Requests, responses and pages *)

Record Request := {
  method : string;
  payload : HttpRequest
}.

(** A response with its headers: the JSON error of a view, or the
    compressed image as a download, with the headers in the order in which
    the view sets them. *)
Inductive Response :=
| Json (success : bool) (error : string) (status : Z)
| Download (content : bytes) (content_type : string)
           (headers : list (string * string)).

(** The values of a template context. *)
#[warnings="-register-all"]
Inductive context_value :=
| CText (text : string)
| CList (items : list context_value)
| CDict (entries : list (string * context_value))
| CForm (form_class : string).

Abbreviation context := (list (string * context_value)).

(** What a view returns: a response it built, the page that
    [render(request, template_name, context)] makes, the refusal of the
    request method by [require_http_methods] (status 405), or the reply of
    a view under [ensure_csrf_cookie], which Django sends with the CSRF
    token: with the default settings it sets the CSRF cookie on the response
    and adds [Cookie] to its [Vary] header; with [CSRF_USE_SESSIONS] it
    stores the token in the session. *)
Inductive Reply (R : Type) :=
| Answer (response : R)
| Page (template_name : string) (values : context)
| NotAllowed (permitted_methods : list string)
| EnsureCsrfCookie (inner : Reply R).
Arguments Answer {R} response.
Arguments Page {R} template_name values.
Arguments NotAllowed {R} permitted_methods.
Arguments EnsureCsrfCookie {R} inner.

(** The response a reply carries, whatever decorators it went through. *)
Fixpoint response_of {R} (reply : Reply R) : option R :=
  match reply with
  | Answer response => Some response
  | EnsureCsrfCookie inner => response_of inner
  | Page _ _ => None
  | NotAllowed _ => None
  end.

(** [response[name] = value]: the framework refuses a value with a line
    break. *)
Definition header (name value : string) : result (string * string) :=
  if has_line_break value then
    Raise (PyExn "BadHeaderError"
                 ("Header values can't contain newlines (got "
                  +:+ py_repr value +:+ ")"))
  else Ok (name, value).

(** [@require_http_methods(allowed)] *)
Definition require_http_methods {R} (allowed : list string)
    (view : Request -> M (Reply R)) (request : Request) : M (Reply R) :=
  if existsb (String.eqb (method request)) allowed then view request
  else ret (NotAllowed allowed).

(** [@ensure_csrf_cookie]: the view runs as it is, and what it returns is
    sent with the CSRF token; an exception of the view passes through. *)
Definition ensure_csrf_cookie {R} (view : Request -> M (Reply R))
    (request : Request) : M (Reply R) :=
  reply <- view request ;;
  ret (EnsureCsrfCookie reply).

(** ** The size-targeting views

    [ResizeToKBView.post], [resize_to_50kb_view], [resize_to_100kb_view],
    [compress_to_50kb], [compress_to_100kb] and [compress_to_200kb] process
    a POST request by the same statements; they differ in the constants
    gathered here. *)

(** The quality modes of a page: the default of [quality_mode], and
    [max_iterations = best_iterations if quality_mode == best_mode
     else other_iterations]. *)
Record quality_modes := {
  default_mode : string;
  best_mode : string;
  best_iterations : Z;
  other_iterations : Z
}.

Record kb_page := {
  limit_mb : Z;
  too_large : string;
  default_text : string;
  default_kb : Z;
  (** [None] for a view that reads no [quality_mode] and leaves
      [max_iterations] to its default, 10 *)
  modes : option quality_modes;
  (** the log line before the image is opened, from the target and the mode *)
  starting : Z -> string -> string;
  (** the name of the download, from the base name and the target *)
  output_name : string -> Z -> string;
  (** the log line after the response is built, from the name of the
      download, the length of the data and the mode *)
  finished : string -> Z -> string -> string;
  (** the first part of the log line of the handler *)
  failed : string;
  (** the error text of status 500 *)
  failure : string
}.

(** The pages of [ResizeToKBView.post], [resize_to_50kb_view] and
    [resize_to_100kb_view]. *)
Definition resize_page (text : string) (kb : Z) : kb_page :=
  {| limit_mb := 10;
     too_large := "File too large. Maximum size is 10MB";
     default_text := text;
     default_kb := kb;
     modes := None;
     starting := fun target_size_kb _ =>
       "Processing image with target size: " +:+ py_str target_size_kb +:+ "KB";
     output_name := fun base_filename target_size_kb =>
       base_filename +:+ "_resized_" +:+ py_str target_size_kb +:+ "kb.jpg";
     finished := fun output_filename size_now _ =>
       "Successfully processed image: " +:+ output_filename
       +:+ ", final size: " +:+ py_str size_now +:+ " bytes";
     failed := "KB compression error: ";
     failure := "An error occurred while processing the image." |}.

(** The pages of [compress_to_50kb], [compress_to_100kb] and
    [compress_to_200kb]; [text] is the size in the messages and the default
    of [target_size_kb]. *)
Definition compress_page (text : string) (kb limit : Z) (limit_text : string)
    (mode_settings : quality_modes) : kb_page :=
  {| limit_mb := limit;
     too_large := "File too large. Maximum size is " +:+ limit_text +:+ "MB";
     default_text := text;
     default_kb := kb;
     modes := Some mode_settings;
     starting := fun _ quality_mode =>
       "Compressing image to " +:+ text +:+ "KB with quality mode: "
       +:+ quality_mode;
     output_name := fun base_filename _ =>
       base_filename +:+ "_compressed_" +:+ text +:+ "kb.jpg";
     finished := fun output_filename size_now quality_mode =>
       "Successfully compressed image to " +:+ text +:+ "KB: "
       +:+ output_filename +:+ ", final size: " +:+ py_str size_now
       +:+ " bytes, mode: " +:+ quality_mode;
     failed := text +:+ "KB compression error: ";
     failure := "An error occurred while compressing the image to "
                +:+ text +:+ "KB." |}.

Definition resize_to_kb : kb_page := resize_page "20" 20.
Definition resize_to_50kb : kb_page := resize_page "50" 50.
Definition resize_to_100kb : kb_page := resize_page "100" 100.

Definition compress_50kb : kb_page :=
  compress_page "50" 50 10 "10"
    {| default_mode := "balanced"; best_mode := "high";
       best_iterations := 15; other_iterations := 10 |}.

Definition compress_100kb : kb_page :=
  compress_page "100" 100 10 "10"
    {| default_mode := "balanced"; best_mode := "premium";
       best_iterations := 20; other_iterations := 15 |}.

Definition compress_200kb : kb_page :=
  compress_page "200" 200 15 "15"
    {| default_mode := "premium"; best_mode := "premium";
       best_iterations := 25; other_iterations := 20 |}.

Definition kb_pages : list kb_page :=
  [ resize_to_kb; resize_to_50kb; resize_to_100kb;
    compress_50kb; compress_100kb; compress_200kb ].

(** The clamp of the target: [if target_size_kb < 5: 5 elif > 1000: 1000]. *)
Definition clamp_target (target_size_kb : Z) : Z :=
  if target_size_kb <? 5 then 5
  else if target_size_kb >? 1000 then 1000
  else target_size_kb.

(** [try: int(text) except (ValueError, TypeError): default] *)
Definition int_or (default : Z) (text : string) : result Z :=
  match PyInt.parse text with
  | Ok z => Ok z
  | Raise (PyExn cls msg) =>
      if String.eqb cls "ValueError" || String.eqb cls "TypeError"
      then Ok default
      else Raise (PyExn cls msg)
  end.

(** The target of a request: [request.POST.get('target_size_kb', text)],
    converted and clamped. *)
Definition posted_target (page : kb_page) (request : HttpRequest) : result Z :=
  let text := match POST request !! "target_size_kb" with
              | Some text => text
              | None => default_text page
              end in
  result_map clamp_target (int_or (default_kb page) text).

(** [request.POST.get('quality_mode', default_mode)], for a page with
    quality modes. *)
Definition posted_mode (page : kb_page) (request : HttpRequest) : string :=
  match modes page with
  | Some settings =>
      match POST request !! "quality_mode" with
      | Some quality_mode => quality_mode
      | None => default_mode settings
      end
  | None => ""
  end.

Definition page_iterations (page : kb_page) (quality_mode : string) : Z :=
  match modes page with
  | Some settings =>
      if String.eqb quality_mode (best_mode settings)
      then best_iterations settings
      else other_iterations settings
  | None => 10
  end.

(** [request.POST.get('auto_rotate', 'on') == 'on'] *)
Definition auto_rotate_on (request : HttpRequest) : bool :=
  match POST request !! "auto_rotate" with
  | Some v => String.eqb v "on"
  | None => true
  end.

(** [str(stats.get('quality_used', 'unknown'))] *)
Definition quality_text (st : stats) : string :=
  match quality_used st with
  | Some quality => py_str quality
  | None => "unknown"
  end.

(** The headers of the download, in the order of the assignments. *)
Definition download_headers (page : kb_page) (image_file : UploadedFile)
    (output_filename : string) (compressed_data : bytes) (st : stats)
    (target_size_kb : Z) (quality_mode : string)
  : result (list (string * string)) :=
  result_bind
    (header "Content-Disposition"
            ("attachment; filename=" +:+ String double_quote output_filename
             +:+ String double_quote EmptyString)) (fun disposition =>
  result_bind
    (header "Content-Length" (py_str (Z.of_nat (length compressed_data))))
    (fun content_length =>
  result_bind
    (header "X-Original-Size" (py_str (file_size image_file)))
    (fun original_size =>
  result_bind
    (header "X-Compressed-Size" (py_str (Z.of_nat (length compressed_data))))
    (fun compressed_size =>
  result_bind
    (header "X-Target-Size" (py_str (target_size_kb * 1024)))
    (fun target_size =>
  result_bind
    (header "X-Quality-Used" (quality_text st)) (fun quality_used =>
  match modes page with
  | Some _ =>
      result_bind (header "X-Quality-Mode" quality_mode) (fun mode =>
      Ok [ disposition; content_length; original_size; compressed_size;
           target_size; quality_used; mode ])
  | None =>
      Ok [ disposition; content_length; original_size; compressed_size;
           target_size; quality_used ]
  end)))))).

Section KbViews.
Context {pil : Pil}.

(** [with Image.open(image_file) as image:] and the block under it. *)
Definition open_and_compress (image_file : UploadedFile) (auto_rotate : bool)
    (target_size_kb : Z) (preserve_exif : bool) (max_iterations : Z)
  : M (bytes * stats) :=
  image <- img_open image_file ;;
  image <- (if auto_rotate then process_image_orientation image
            else ret image) ;;
  compress_image_to_kb image target_size_kb preserve_exif max_iterations.

(** The POST branch of a size-targeting view. *)
Definition kb_post (page : kb_page) (request : HttpRequest) : M Response :=
  try_except
    (match FILES request !! "image_file" with
     | None => ret (Json false "No image file provided" 400)
     | Some image_file =>
         if String.eqb (file_name image_file) "" then
           ret (Json false "No image file provided" 400)
         else if file_size image_file >? limit_mb page * 1024 * 1024 then
           ret (Json false (too_large page) 400)
         else if negb (startswith (content_type image_file) "image/") then
           ret (Json false "Invalid file type. Please upload an image." 400)
         else
           target_size_kb <- lift (posted_target page request) ;;
           let quality_mode := posted_mode page request in
           let preserve_exif := post_is request "preserve_exif" "on" in
           let auto_rotate := auto_rotate_on request in
           emit (EvLog "INFO" (starting page target_size_kb quality_mode)) ;;;
           compressed <-
             open_and_compress image_file auto_rotate target_size_kb
                               preserve_exif
                               (page_iterations page quality_mode) ;;
           let compressed_data := fst compressed in
           let base_filename := splitext_root (file_name image_file) in
           let output_filename :=
             output_name page base_filename target_size_kb in
           headers <-
             lift (download_headers page image_file output_filename
                                    compressed_data (snd compressed)
                                    target_size_kb quality_mode) ;;
           emit (EvLog "INFO"
                   (finished page output_filename
                             (Z.of_nat (length compressed_data))
                             quality_mode)) ;;;
           ret (Download compressed_data "image/jpeg" headers)
     end)
    (fun e =>
       emit (EvLog "ERROR" (failed page +:+ exn_str e)) ;;;
       ret (Json false (failure page) 500)).

End KbViews.

(** The context of [home]. *)
Definition home_context : context :=
  [ ("page_title",
       CText "Free Online Image Compressor | Reduce Photo File Size | ImageResizer.Pro");
      ("meta_description",
       CText "Compress JPEG, PNG, WebP images online for free. Reduce photo file sizes by up to 90% while maintaining quality. Fast batch compression tool for web optimization.");
      ("keywords",
       CText "image compressor, photo compressor, reduce image size, compress photos online, optimize images for web, batch image compression, JPEG compressor, PNG compressor") ].

(** The context of [UploadView.get]. *)
Definition upload_context : context :=
  [ ("page_title",
       CText "Professional Image Compressor Tool | Compress JPEG, PNG, WebP Images Online | ImageResizer.Pro");
      ("meta_description",
       CText "Advanced online image compressor tool for professionals. Compress JPEG, PNG, WebP images with intelligent quality control. Reduce file sizes by up to 90% while preserving image quality.");
      ("keywords",
       CText "image compressor, professional image compression, compress JPEG online, PNG compressor tool, WebP image optimizer, batch image compressor, lossless image compression, photo size reducer") ].

(** The context of [ResizeToKBView.get]. *)
Definition resize_to_kb_context : context :=
  [ ("form",
       CForm "ImageResizeToKBForm");
      ("page_title",
       CText "Resize Image to 20KB Online Free | Compress Photos to Exact File Size | resizeimages.tools");
      ("meta_description",
       CText "Resize images to exactly 20KB or any specific file size online for free. Perfect for email attachments, web uploads, and file size requirements. Fast and accurate compression.");
      ("keywords",
       CText "resize image to 20kb, compress image to specific size, reduce photo to 20kb, image file size reducer, compress photo to kb, resize picture to exact size");
      ("canonical_url",
       CText "https://resizeimages.tools/resize-image-to-20kb/");
      ("focus_keyword",
       CText "resize image to 20kb") ].

(** The context of [resize_to_50kb_view]. *)
Definition resize_to_50kb_context : context :=
  [ ("page_title",
       CText "Resize Image to 50KB Online Free | Compress Photos to 50KB | resizeimages.tools");
      ("meta_description",
       CText "Resize images to exactly 50KB online for free. Perfect for job applications, email attachments, and document uploads. Fast, accurate, and secure compression.");
      ("keywords",
       CText "resize image to 50kb, compress image to 50kb, reduce photo to 50kb, image file size reducer, compress photo to 50 kilobytes");
      ("canonical_url",
       CText "https://resizeimages.tools/resize-image-to-50kb/");
      ("focus_keyword",
       CText "resize image to 50kb") ].

(** The context of [resize_to_100kb_view]. *)
Definition resize_to_100kb_context : context :=
  [ ("page_title",
       CText "Resize Image to 100KB Online Free | Compress Photos to 100KB | resizeimages.tools");
      ("meta_description",
       CText "Resize images to exactly 100KB online for free. Perfect for high-quality professional profiles, portfolios, and premium document submissions.");
      ("keywords",
       CText "resize image to 100kb, compress image to 100kb, reduce photo to 100kb, 100 kilobyte image, high quality compression");
      ("canonical_url",
       CText "https://resizeimages.tools/resize-image-to-100kb/");
      ("focus_keyword",
       CText "resize image to 100kb") ].

(** The context of [compress_to_50kb]. *)
Definition compress_to_50kb_context : context :=
  [ ("page_title",
       CText "Compress Image to 50KB Online Free | Photo Compressor 50KB | JPEG to 50KB");
      ("meta_description",
       CText "Compress image to 50KB, compress JPEG to 50KB, and photo resize 50KB online free. Professional photo compressor to 50KB for job applications, resumes, and uploads. Instant results!");
      ("keywords",
       CText "compress image to 50kb, compress jpeg to 50kb, photo compressor to 50kb, photo resize 50 kb, reduce image to 50kb, compress photo to 50kb, 50kb image compressor");
      ("canonical_url",
       CText "https://resizeimages.tools/compress-to-50kb/");
      ("focus_keyword",
       CText "compress image to 50kb");
      ("schema_markup",
       CDict
         [ ("@context", CText "https://schema.org");
           ("@type", CText "WebApplication");
           ("name", CText "Compress Image to 50KB - Photo Compressor");
           ("description", CText "Free online photo compressor to 50KB. Compress image to 50KB, compress JPEG to 50KB, and photo resize 50KB instantly for job applications and uploads.");
           ("url", CText "https://resizeimages.tools/compress-to-50kb/");
           ("applicationCategory", CText "MultimediaApplication");
           ("operatingSystem", CText "Any");
           ("offers", CDict
               [ ("@type", CText "Offer");
                 ("price", CText "0");
                 ("priceCurrency", CText "USD") ]);
           ("featureList", CList
               [ CText "Compress image to 50KB";
                 CText "Compress JPEG to 50KB";
                 CText "Photo compressor to 50KB";
                 CText "Photo resize 50 KB";
                 CText "Free online compression";
                 CText "No registration required";
                 CText "Instant results" ]) ]) ].

(** The context of [compress_to_100kb]. *)
Definition compress_to_100kb_context : context :=
  [ ("page_title",
       CText "Compress Image to 100KB Online Free | JPEG to 100KB Compressor | Image Compressor 100KB");
      ("meta_description",
       CText "Compress image to 100KB, compress JPEG to 100KB, and resize image to 100KB online free. Professional image compressor to 100KB for high-quality photos, portfolios, and premium uploads.");
      ("keywords",
       CText "compress image to 100kb, compress jpeg to 100kb, image compressor to 100kb, resize image to 100kb, photo compressor 100kb, reduce image to 100kb, 100kb image compressor");
      ("canonical_url",
       CText "https://resizeimages.tools/compress-to-100kb/");
      ("focus_keyword",
       CText "compress image to 100kb");
      ("schema_markup",
       CDict
         [ ("@context", CText "https://schema.org");
           ("@type", CText "WebApplication");
           ("name", CText "Compress Image to 100KB - Professional Image Compressor");
           ("description", CText "Free online image compressor to 100KB. Compress image to 100KB, compress JPEG to 100KB, and resize image to 100KB with premium quality retention.");
           ("url", CText "https://resizeimages.tools/compress-to-100kb/");
           ("applicationCategory", CText "MultimediaApplication");
           ("operatingSystem", CText "Any");
           ("offers", CDict
               [ ("@type", CText "Offer");
                 ("price", CText "0");
                 ("priceCurrency", CText "USD") ]);
           ("featureList", CList
               [ CText "Compress image to 100KB";
                 CText "Compress JPEG to 100KB";
                 CText "Image compressor to 100KB";
                 CText "Resize image to 100KB";
                 CText "High-quality compression";
                 CText "Free unlimited use";
                 CText "No watermarks" ]) ]) ].

(** The context of [compress_to_200kb]. *)
Definition compress_to_200kb_context : context :=
  [ ("page_title",
       CText "Compress Image to 200KB Online Free | JPEG to 200KB | Photo Compressor 200KB");
      ("meta_description",
       CText "Compress image to 200KB, compress JPEG to 200KB, and resize image to 200KB online free. Professional photo compressor to 200KB for high-quality images, presentations, and documents.");
      ("keywords",
       CText "compress image to 200kb, compress jpeg to 200kb, image compressor to 200kb, resize image to 200kb, photo compressor to 200kb, reduce pdf size to 200kb, 200kb image compressor");
      ("canonical_url",
       CText "https://resizeimages.tools/compress-to-200kb/");
      ("focus_keyword",
       CText "compress image to 200kb");
      ("schema_markup",
       CDict
         [ ("@context", CText "https://schema.org");
           ("@type", CText "WebApplication");
           ("name", CText "Compress Image to 200KB - Premium Image Compressor");
           ("description", CText "Free online image compressor to 200KB. Compress image to 200KB, compress JPEG to 200KB, and resize image to 200KB with exceptional quality retention for professional use.");
           ("url", CText "https://resizeimages.tools/compress-to-200kb/");
           ("applicationCategory", CText "MultimediaApplication");
           ("operatingSystem", CText "Any");
           ("offers", CDict
               [ ("@type", CText "Offer");
                 ("price", CText "0");
                 ("priceCurrency", CText "USD") ]);
           ("featureList", CList
               [ CText "Compress image to 200KB";
                 CText "Compress JPEG to 200KB";
                 CText "Image compressor to 200KB";
                 CText "Resize image to 200KB";
                 CText "Photo compressor to 200KB";
                 CText "Premium quality compression";
                 CText "Free unlimited use";
                 CText "No watermarks";
                 CText "Professional results" ]) ]) ].

Section Views.
Context {pil : Pil}.

(** [ResizeToKBView]: its two methods. *)
Definition ResizeToKBView_get (request : Request) : M (Reply Response) :=
  ret (Page "image_app/resize_to_kb.html" resize_to_kb_context).

Definition ResizeToKBView_post (request : Request) : M (Reply Response) :=
  response <- kb_post resize_to_kb (payload request) ;;
  ret (Answer response).

(** A function view of a size-targeting page, under
    [@require_http_methods(["GET", "POST"])] and [@ensure_csrf_cookie], in
    that order: the page for a GET request, the POST branch otherwise. *)
Definition kb_view (template_name : string) (values : context)
    (page : kb_page) : Request -> M (Reply Response) :=
  require_http_methods ["GET"; "POST"] (ensure_csrf_cookie (fun request =>
    if String.eqb (method request) "GET" then
      ret (Page template_name values)
    else
      response <- kb_post page (payload request) ;;
      ret (Answer response))).

Definition resize_to_50kb_view : Request -> M (Reply Response) :=
  kb_view "image_app/resize_to_50kb.html" resize_to_50kb_context
          resize_to_50kb.

Definition resize_to_100kb_view : Request -> M (Reply Response) :=
  kb_view "image_app/resize_to_100kb.html" resize_to_100kb_context
          resize_to_100kb.

Definition compress_to_50kb : Request -> M (Reply Response) :=
  kb_view "image_app/compress-to-50kb.html" compress_to_50kb_context
          compress_50kb.

Definition compress_to_100kb : Request -> M (Reply Response) :=
  kb_view "image_app/compress-to-100kb.html" compress_to_100kb_context
          compress_100kb.

Definition compress_to_200kb : Request -> M (Reply Response) :=
  kb_view "image_app/compress-to-200kb.html" compress_to_200kb_context
          compress_200kb.

(** The views of the fixed-quality path. *)
Definition home (request : Request) : M (Reply HttpResponse) :=
  if String.eqb (method request) "POST" then
    response <- compress_single_image (payload request) ;;
    ret (Answer response)
  else ret (Page "image_app/home.html" home_context).

Definition UploadView_get (request : Request) : M (Reply HttpResponse) :=
  ret (Page "image_app/upload.html" upload_context).

Definition UploadView_post (request : Request) : M (Reply HttpResponse) :=
  response <- compress_single_image (payload request) ;;
  ret (Answer response).

(** The six views that answer a POST request with a size-targeted download,
    each with the constants of its page and whether it is under
    [@ensure_csrf_cookie]. *)
Definition kb_views
  : list ((Request -> M (Reply Response)) * kb_page * bool) :=
  [ (ResizeToKBView_post, resize_to_kb, false);
    (resize_to_50kb_view, resize_to_50kb, true);
    (resize_to_100kb_view, resize_to_100kb, true);
    (compress_to_50kb, compress_50kb, true);
    (compress_to_100kb, compress_100kb, true);
    (compress_to_200kb, compress_200kb, true) ].

End Views.

(** ** The MIME type of an upload *)

(** A file object: its bytes and the position of the next read. *)
Record FileObject := {
  file_bytes : bytes;
  file_position : nat
}.

(** [file.seek(offset)] *)
Definition file_seek (file : FileObject) (offset : nat) : FileObject :=
  {| file_bytes := file_bytes file; file_position := offset |}.

(** [file.read(count)]: at most [count] bytes from the position, which
    moves past them. *)
Definition file_read (file : FileObject) (count : nat) : bytes * FileObject :=
  let buffer := take count (drop (file_position file) (file_bytes file)) in
  (buffer,
   {| file_bytes := file_bytes file;
      file_position := (file_position file + length buffer)%nat |}).

(** The detector of the [magic] library: [magic.Magic(mime=True)], which
    may fail, and its [from_buffer]. *)
Class Magic := {
  magic_mime : result (bytes -> result string)
}.

Definition get_mime_type {magic : Magic} (file : FileObject)
  : result string * FileObject :=
  match magic_mime with
  | Raise e => (Raise e, file)
  | Ok from_buffer =>
      let file := file_seek file 0 in
      let read := file_read file 2048 in
      match from_buffer (fst read) with
      | Raise e => (Raise e, snd read)
      | Ok mime_type => (Ok mime_type, file_seek (snd read) 0)
      end
  end.

(** ** The forms *)

(** An integer field of a form, with the bounds its validators check. *)
Record IntegerField := {
  min_value : Z;
  max_value : Z;
  initial : Z
}.

(** [ImageUploadForm.quality] and [ImageResizeToKBForm.target_size_kb]. *)
Definition quality_field : IntegerField :=
  {| min_value := 1; max_value := 100; initial := 80 |}.

Definition target_size_kb_field : IntegerField :=
  {| min_value := 5; max_value := 1000; initial := 20 |}.

(** The validators of the bounds: a value below [min_value] or above
    [max_value] is refused. *)
Definition run_validators (field : IntegerField) (value : Z) : result Z :=
  if value <? min_value field then
    Raise (PyExn "ValidationError"
                 ("Ensure this value is greater than or equal to "
                  +:+ py_str (min_value field) +:+ "."))
  else if value >? max_value field then
    Raise (PyExn "ValidationError"
                 ("Ensure this value is less than or equal to "
                  +:+ py_str (max_value field) +:+ "."))
  else Ok value.

(** [ImageResizeToKBForm.clean_target_size_kb], on what
    [self.cleaned_data.get('target_size_kb')] gives. *)
Definition clean_target_size_kb (cleaned : option Z) : result (option Z) :=
  match cleaned with
  | Some target_size =>
      if negb (target_size =? 0)
         && ((target_size <? 5) || (target_size >? 1000))
      then Raise (PyExn "ValidationError"
                        "Target size must be between 5 KB and 1000 KB")
      else Ok cleaned
  | None => Ok None
  end.

(** ** The sitemap *)

Module StaticViewSitemap.

Definition items : list string :=
  [ "home"; "upload"; "gallery"; "dynamic_features"; "about"; "privacy";
    "terms"; "contact"; "login"; "resize_to_kb"; "resize_to_50kb";
    "resize_to_100kb" ].

(** [table.get(item, default)] *)
Fixpoint get {A} (table : list (string * A)) (item : string) (default : A) : A :=
  match table with
  | [] => default
  | (key, value) :: rest =>
      if String.eqb key item then value else get rest item default
  end.

Definition priorities : list (string * float) :=
  [ ("home", PyFloat.literal 10 10);
    ("upload", PyFloat.literal 9 10);
    ("resize_to_kb", PyFloat.literal 95 100);
    ("resize_to_50kb", PyFloat.literal 95 100);
    ("resize_to_100kb", PyFloat.literal 95 100);
    ("dynamic_features", PyFloat.literal 8 10);
    ("gallery", PyFloat.literal 7 10);
    ("about", PyFloat.literal 6 10);
    ("contact", PyFloat.literal 5 10);
    ("privacy", PyFloat.literal 4 10);
    ("terms", PyFloat.literal 4 10);
    ("login", PyFloat.literal 3 10) ].

Definition priority (item : string) : float :=
  get priorities item (PyFloat.literal 5 10).

Definition frequencies : list (string * string) :=
  [ ("home", "weekly");
    ("upload", "monthly");
    ("resize_to_kb", "monthly");
    ("resize_to_50kb", "monthly");
    ("resize_to_100kb", "monthly");
    ("gallery", "weekly");
    ("dynamic_features", "monthly");
    ("about", "monthly");
    ("contact", "monthly");
    ("privacy", "quarterly");
    ("terms", "quarterly");
    ("login", "yearly") ].

Definition changefreq (item : string) : string :=
  get frequencies item "monthly".

End StaticViewSitemap.

(** ** The bisection ends by itself *)

Lemma bind_ext {A B} (m : M A) (k1 k2 : A -> M B) s :
  (forall a s', k1 a s' = k2 a s') -> bind m k1 s = bind m k2 s.
Proof. intros Hk. unfold bind. destruct (m s) as [[a|e] s']; auto. Qed.

Lemma bind_ext_both {A B} (m1 m2 : M A) (k1 k2 : A -> M B) s :
  m1 s = m2 s -> (forall a s', k1 a s' = k2 a s') ->
  bind m1 k1 s = bind m2 k2 s.
Proof. intros Hm Hk. unfold bind. rewrite Hm. destruct (m2 s) as [[a|e] s']; auto. Qed.

Section Fuel.
Context {pil : Pil}.

(** A bisection of a range of fewer than [2 ^ (n + 1)] qualities makes at
    most [n] probes: more iterations than that change nothing. *)
Lemma quality_loop_enough (image working_image : ref) target preserve_exif
    factor n :
  forall m low high best s,
    (1 <= n)%nat -> (n <= m)%nat ->
    high - low + 1 < 2 ^ (Z.of_nat n + 1) ->
    quality_loop image target preserve_exif working_image factor n
                 low high best s
    = quality_loop image target preserve_exif working_image factor m
                   low high best s.
Proof.
  induction n as [|n IH]; intros m low high best s Hn Hm Hwidth; [lia|].
  destruct m as [|m]; [lia|]. simpl.
  apply bind_ext; intros img s1. apply bind_ext; intros data s2.
  apply bind_ext; intros tight s3. apply bind_ext; intros working s4.
  destruct tight; [reflexivity|].
  set (range := narrow target (Z.of_nat (length data)) ((low + high) / 2)
                       (low, high)).
  destruct (fst range >=? snd range) eqn:Hge; [reflexivity|].
  assert (fst range < snd range) as Hlt by lia.
  assert (snd range - fst range + 1 < 2 ^ (Z.of_nat n + 1)) as Hnarrow.
  { replace (Z.of_nat (S n) + 1) with (Z.succ (Z.of_nat n + 1)) in Hwidth by lia.
    rewrite Z.pow_succ_r in Hwidth by lia.
    unfold range, narrow in *.
    destruct (Z.of_nat (length data) >? target); simpl in *;
      Z.div_mod_to_equations; lia. }
  apply IH; [|lia|exact Hnarrow].
  destruct n as [|n]; [|lia]. simpl in Hnarrow. lia.
Qed.

Lemma dimension_loop_enough (image : ref) target preserve_exif original_size
    max_iterations factors :
  6 <= max_iterations ->
  forall best s,
    dimension_loop image target preserve_exif original_size max_iterations
                   factors best s
    = dimension_loop image target preserve_exif original_size 6 factors best s.
Proof.
  intros Hn. induction factors as [|factor smaller IH]; intros best s;
    [reflexivity|].
  cbn [dimension_loop]. apply bind_ext; intros working_image s1.
  apply bind_ext_both.
  - symmetry. change (Z.to_nat 6) with 6%nat.
    apply quality_loop_enough; [lia|lia|].
    unfold min_quality, max_quality. simpl. lia.
  - intros [c|best'] s2; [reflexivity|].
    apply bind_ext. intros [c|] s3; [reflexivity|]. apply IH.
Qed.

Lemma compress_image_to_kb_enough (image : ref) kb preserve_exif
    max_iterations s :
  6 <= max_iterations ->
  compress_image_to_kb image kb preserve_exif max_iterations s
  = compress_image_to_kb image kb preserve_exif 6 s.
Proof.
  intros Hn. unfold compress_image_to_kb.
  apply bind_ext; intros img0 s1. apply bind_ext; intros image' s2.
  apply bind_ext; intros img s3. apply bind_ext_both; [|reflexivity].
  by apply dimension_loop_enough.
Qed.

Lemma open_and_compress_enough image_file auto_rotate kb preserve_exif n s :
  6 <= n ->
  open_and_compress image_file auto_rotate kb preserve_exif n s
  = open_and_compress image_file auto_rotate kb preserve_exif 6 s.
Proof.
  intros Hn. unfold open_and_compress.
  apply bind_ext; intros image s1. apply bind_ext; intros image' s2.
  by apply compress_image_to_kb_enough.
Qed.

End Fuel.

Section ProbeCount.
Context {pil : Pil}.

Lemma search_blocks_of_run (image : ref) kb preserve_exif n s :
  search_blocks (kb * 1024) (Z.to_nat n) dimension_reductions
    (probes_of (events_of (compress_image_to_kb image kb preserve_exif n) s)).
Proof.
  destruct (heap s !! image) as [img0|] eqn:Himg.
  - apply (kb_run_search_blocks img0 kb preserve_exif n _
             (result_of (compress_image_to_kb image kb preserve_exif n) s)).
    by apply compress_image_to_kb_shape.
  - destruct (compress_image_to_kb_dangling image kb preserve_exif n s Himg)
      as [-> _]. constructor.
Qed.

Lemma events_of_enough (image : ref) kb preserve_exif max_iterations s :
  6 <= max_iterations ->
  events_of (compress_image_to_kb image kb preserve_exif max_iterations) s
  = events_of (compress_image_to_kb image kb preserve_exif 6) s.
Proof.
  intros Hn. unfold events_of. by rewrite compress_image_to_kb_enough.
Qed.

(** X1. Whatever [max_iterations] is, the probes of a run of
    [compress_image_to_kb] come in groups of at most six, one group per
    dimension factor, each a bisection of the range 10 .. 95: the range has
    86 qualities, and a bisection of fewer than 128 values ends after six
    probes. A run makes at most 36 probes. *)
Theorem at_most_six_probes_per_factor
    s (image : ref) kb preserve_exif max_iterations :
  search_blocks (kb * 1024) (Nat.min 6 (Z.to_nat max_iterations))
    dimension_reductions
    (probes_of (events_of
       (compress_image_to_kb image kb preserve_exif max_iterations) s))
  /\ (length (probes_of (events_of
        (compress_image_to_kb image kb preserve_exif max_iterations) s))
      <= 36)%nat.
Proof.
  assert (search_blocks (kb * 1024) (Nat.min 6 (Z.to_nat max_iterations))
            dimension_reductions
            (probes_of (events_of
               (compress_image_to_kb image kb preserve_exif max_iterations) s)))
    as Hblocks.
  { destruct (Z_le_gt_dec 6 max_iterations) as [Hmany|Hfew].
    - rewrite (events_of_enough image kb preserve_exif max_iterations s Hmany).
      replace (Nat.min 6 (Z.to_nat max_iterations)) with (Z.to_nat 6) by lia.
      apply search_blocks_of_run.
    - replace (Nat.min 6 (Z.to_nat max_iterations))
        with (Z.to_nat max_iterations) by lia.
      apply search_blocks_of_run. }
  split; [exact Hblocks|].
  apply search_blocks_length in Hblocks.
  change (length dimension_reductions) with 6%nat in Hblocks. lia.
Qed.

(** X2. From six iterations on, [max_iterations] has no effect: the call
    returns the same result, creates the same objects and records the same
    events as with [max_iterations = 6]. *)
Theorem iterations_beyond_six_change_nothing
    s (image : ref) kb preserve_exif max_iterations :
  6 <= max_iterations ->
  compress_image_to_kb image kb preserve_exif max_iterations s
  = compress_image_to_kb image kb preserve_exif 6 s.
Proof. apply compress_image_to_kb_enough. Qed.

End ProbeCount.

(** ** The outcome of the normaliser *)

Section NormaliserOutcome.
Context {pil : Pil}.

(** The rotation the normaliser asks for: by the value of tag 274 of the
    dictionary that [_getexif()] returns. *)
Definition orientation_angle (img : Image) : option Z :=
  match getexif img with
  | Some (Ok (Some d)) =>
      match d !! 274 with
      | Some v =>
          if exif_eqb v 3 then Some 180
          else if exif_eqb v 6 then Some 270
          else if exif_eqb v 8 then Some 90
          else None
      | None => None
      end
  | _ => None
  end.

(** The events of [image.rotate(angle, expand=True)] inside the [try], and
    the image the normaliser returns after it. *)
Definition rotation_outcome (img : Image) (angle : Z)
  : list event * result Image :=
  match pil_rotate img angle true with
  | Ok (sz, px) =>
      ([EvRotate img angle true (Ok (sz, px))],
       Ok (derived img sz (mode img) px))
  | Raise e =>
      ([EvRotate img angle true (Raise e);
        EvLog "WARNING" ("Error processing image orientation: " +:+ exn_str e)],
       Ok img)
  end.

(** The events of a call of the normaliser on [img], and the image it
    returns. *)
Definition orientation_outcome (img : Image) : list event * result Image :=
  match getexif img with
  | Some (Raise e) => ([], Raise e)
  | _ =>
      match orientation_angle img with
      | Some angle => rotation_outcome img angle
      | None => ([], Ok img)
      end
  end.

Lemma orientation_angle_cases img angle :
  orientation_angle img = Some angle ->
  exists d v,
    getexif img = Some (Ok (Some d)) /\ d <> ∅ /\ d !! 274 = Some v
    /\ ((exif_eqb v 3 = true /\ angle = 180)
        \/ (exif_eqb v 3 = false /\ exif_eqb v 6 = true /\ angle = 270)
        \/ (exif_eqb v 3 = false /\ exif_eqb v 6 = false
            /\ exif_eqb v 8 = true /\ angle = 90)).
Proof.
  unfold orientation_angle.
  destruct (getexif img) as [[[d|]|e]|]; try discriminate.
  destruct (d !! 274) as [v|] eqn:Hv; [|discriminate].
  intros Hangle. exists d, v. split; [done|]. split.
  { intros ->. by rewrite lookup_empty in Hv. }
  split; [done|].
  destruct (exif_eqb v 3); [injection Hangle as <-; auto|].
  destruct (exif_eqb v 6); [injection Hangle as <-; auto|].
  destruct (exif_eqb v 8); [injection Hangle as <-|discriminate].
  right. right. auto.
Qed.

Lemma orientation_angle_values img angle :
  orientation_angle img = Some angle -> In angle [90; 180; 270].
Proof.
  intros Hangle.
  destruct (orientation_angle_cases img angle Hangle)
    as (d & v & _ & _ & _ & [[_ ->]|[(_ & _ & ->)|(_ & _ & _ & ->)]]);
    simpl; auto.
Qed.

Lemma normaliser_cases (image : ref) img s :
  heap s !! image = Some img ->
  process_image_orientation image s
  = match getexif img, orientation_angle img with
    | Some (Raise e), _ => (Raise e, s)
    | _, Some angle => rotated_by image img angle s
    | _, None => (Ok image, s)
    end.
Proof.
  intros Himg.
  destruct (orientation_angle img) as [angle|] eqn:Hangle.
  - destruct (orientation_angle_cases img angle Hangle)
      as (d & v & Hget & Hd & Hv & Hcases).
    rewrite Hget.
    apply (normaliser_rotates image img d v angle s Himg Hget Hd Hv Hcases).
  - destruct (getexif img) as [[first|e]|] eqn:Hget.
    + apply (normaliser_keeps image img s Himg).
      unfold orientation_angle in Hangle. rewrite Hget in Hangle.
      destruct first as [d|]; [|auto].
      right. right. right. exists d. split; [done|].
      destruct (d !! 274) as [v|]; [|done].
      destruct (exif_eqb v 3); [discriminate|].
      destruct (exif_eqb v 6); [discriminate|].
      destruct (exif_eqb v 8); [discriminate|]. auto.
    + by apply (reader_failure_propagates s image img e).
    + apply (normaliser_keeps image img s Himg). auto.
Qed.

Lemma normaliser_run (image : ref) img s :
  heap s !! image = Some img ->
  exists objs image',
    process_image_orientation image s
    = (result_map (fun _ => image') (snd (orientation_outcome img)),
       extend s objs (fst (orientation_outcome img)))
    /\ (forall img',
           snd (orientation_outcome img) = Ok img' ->
           heap (extend s objs (fst (orientation_outcome img))) !! image'
           = Some img').
Proof.
  intros Himg. rewrite (normaliser_cases image img s Himg).
  unfold orientation_outcome.
  assert (forall angle,
             exists objs image',
               rotated_by image img angle s
               = (result_map (fun _ => image') (snd (rotation_outcome img angle)),
                  extend s objs (fst (rotation_outcome img angle)))
               /\ (forall img',
                      snd (rotation_outcome img angle) = Ok img' ->
                      heap (extend s objs (fst (rotation_outcome img angle)))
                        !! image' = Some img')) as Hrot.
  { intros angle. unfold rotated_by, rotation_outcome.
    destruct (pil_rotate img angle true) as [[sz px]|e].
    - exists [derived img sz (mode img) px], (length (heap s)).
      split; [reflexivity|]. intros img' [= <-]. apply lookup_extend_new.
    - exists [], image. split; [reflexivity|].
      intros img' [= <-]. by apply lookup_extend. }
  assert (exists objs image',
             (Ok image, s)
             = (result_map (fun _ => image') (Ok img), extend s objs [])
             /\ (forall img',
                    Ok img = Ok img' ->
                    heap (extend s objs []) !! image' = Some img')) as Hkeep.
  { exists [], image. rewrite extend_nothing. split; [reflexivity|].
    by intros img' [= <-]. }
  destruct (getexif img) as [[first|e]|];
    try (destruct (orientation_angle img) as [angle|]; [apply Hrot|apply Hkeep]).
  exists [], image. rewrite extend_nothing. split; [reflexivity|discriminate].
Qed.

End NormaliserOutcome.

(** ** The run of a size-targeting view *)

Definition retrace (s : state) (t : list event) : state :=
  {| heap := heap s; trace := t |}.

(** The error for which a view refuses the upload with status 400, in the
    order of its checks. *)
Definition upload_error (limit : Z) (too_large : string)
    (request : HttpRequest) : option string :=
  match FILES request !! "image_file" with
  | None => Some "No image file provided"
  | Some image_file =>
      if String.eqb (file_name image_file) "" then
        Some "No image file provided"
      else if file_size image_file >? limit * 1024 * 1024 then Some too_large
      else if negb (startswith (content_type image_file) "image/") then
        Some "Invalid file type. Please upload an image."
      else None
  end.

Section Block.
Context {pil : Pil}.

(** The events and the result of [open_and_compress] on an upload. *)
Definition block_run (image_file : UploadedFile) (auto_rotate : bool)
    (target_size_kb : Z) (preserve_exif : bool) (max_iterations : Z)
    (evs : list event) (r : result candidate) : Prop :=
  match pil_open (file_content image_file) with
  | Raise e => evs = [] /\ r = Raise e
  | Ok img =>
      let outcome :=
        if auto_rotate then orientation_outcome img else ([], Ok img) in
      match snd outcome with
      | Raise e => evs = fst outcome /\ r = Raise e
      | Ok img' =>
          exists evk,
            evs = fst outcome ++ evk
            /\ kb_run img' target_size_kb preserve_exif max_iterations evk r
      end
  end.

Lemma open_and_compress_run image_file auto_rotate kb preserve_exif n s :
  exists objs evs r,
    open_and_compress image_file auto_rotate kb preserve_exif n s
    = (r, extend s objs evs)
    /\ block_run image_file auto_rotate kb preserve_exif n evs r.
Proof.
  unfold open_and_compress, block_run, img_open.
  destruct (pil_open (file_content image_file)) as [img|e].
  2:{ exists [], [], (Raise e). by rewrite extend_nothing. }
  assert (heap (extend s [img] []) !! length (heap s) = Some img) as Himg
      by apply lookup_extend_new.
  assert ((img <- lift (Ok img) ;; alloc img) s
          = (Ok (length (heap s)), extend s [img] [])) as Hopen.
  { unfold bind, lift, alloc, extend. simpl. by rewrite app_nil_r. }
  rewrite (bind_ok _ _ _ _ _ Hopen).
  assert (exists objs image' outcome,
             (if auto_rotate
              then process_image_orientation (length (heap s))
              else ret (length (heap s))) (extend s [img] [])
             = (result_map (fun _ => image') (snd outcome),
                extend s ([img] ++ objs) (fst outcome))
             /\ outcome = (if auto_rotate then orientation_outcome img
                           else ([], Ok img))
             /\ (forall img',
                    snd outcome = Ok img' ->
                    heap (extend s ([img] ++ objs) (fst outcome)) !! image'
                    = Some img')) as (objs & image' & outcome & Hrot & -> & Hheld).
  { destruct auto_rotate.
    - destruct (normaliser_run _ _ _ Himg) as (objs & image' & Hrun & Hheld).
      exists objs, image', (orientation_outcome img).
      rewrite Hrun. rewrite extend_extend in Hheld |- *.
      split; [reflexivity|]. split; [reflexivity|exact Hheld].
    - exists [], (length (heap s)), ([], Ok img). simpl.
      split; [reflexivity|]. split; [reflexivity|].
      by intros img' [= <-]. }
  set (outcome := if auto_rotate then orientation_outcome img
                  else ([], Ok img)) in *.
  destruct (snd outcome) as [img'|e] eqn:Hout; simpl in Hrot.
  - rewrite (bind_ok _ _ _ _ _ Hrot).
    destruct (compress_image_to_kb_run image' img' kb preserve_exif n
                (extend s ([img] ++ objs) (fst outcome))
                (Hheld img' eq_refl)) as (objs2 & evk & r & Hrun & Hkb).
    exists (([img] ++ objs) ++ objs2), (fst outcome ++ evk), r.
    change (img :: objs) with ([img] ++ objs).
    rewrite Hrun, extend_extend. split; [reflexivity|]. by exists evk.
  - rewrite (bind_raise _ _ _ _ _ Hrot).
    exists ([img] ++ objs), (fst outcome), (Raise e). auto.
Qed.

(** The response of the view after the block, with the log line that goes
    with it. *)
Definition kb_reply (page : kb_page) (image_file : UploadedFile)
    (target_size_kb : Z) (quality_mode : string) (r : result candidate)
  : Response * event :=
  let error e :=
    (Json false (failure page) 500,
     EvLog "ERROR" (failed page +:+ exn_str e)) in
  match r with
  | Ok compressed =>
      let output_filename :=
        output_name page (splitext_root (file_name image_file))
                    target_size_kb in
      match download_headers page image_file output_filename (fst compressed)
                             (snd compressed) target_size_kb quality_mode with
      | Ok headers =>
          (Download (fst compressed) "image/jpeg" headers,
           EvLog "INFO"
                 (finished page output_filename
                           (Z.of_nat (length (fst compressed))) quality_mode))
      | Raise e => error e
      end
  | Raise e => error e
  end.

(** The two ways in which [int] refuses a text. *)
Lemma parse_raises text e :
  PyInt.parse text = Raise e ->
  e = PyInt.invalid_literal text
  \/ exists count,
       (PyInt.max_str_digits < count)%nat /\ e = PyInt.too_many_digits count.
Proof.
  unfold PyInt.parse.
  repeat match goal with
         | |- context [match ?x with _ => _ end] => destruct x eqn:?
         end;
    intros [= <-];
    first [ by left
          | right; eexists; split; [by apply Nat.ltb_lt|reflexivity] ].
Qed.

Lemma parse_raises_value_error text e :
  PyInt.parse text = Raise e -> exists msg, e = PyExn "ValueError" msg.
Proof.
  intros Hparse.
  destruct (parse_raises _ _ Hparse) as [->|(count & _ & ->)];
    unfold PyInt.invalid_literal, PyInt.too_many_digits; eauto.
Qed.

Lemma int_or_cases default text :
  int_or default text
  = Ok (match PyInt.parse text with Ok z => z | Raise _ => default end).
Proof.
  unfold int_or.
  destruct (PyInt.parse text) as [z|e] eqn:Hparse; [done|].
  by destruct (parse_raises_value_error _ _ Hparse) as [msg ->].
Qed.

(** The target of a request, as a number: the posted text when it reads as
    an integer, the default of the page otherwise, clamped. *)
Definition target_of (page : kb_page) (request : HttpRequest) : Z :=
  clamp_target
    (match PyInt.parse (match POST request !! "target_size_kb" with
                        | Some text => text
                        | None => default_text page
                        end) with
     | Ok z => z
     | Raise _ => default_kb page
     end).

Lemma posted_target_ok page request :
  posted_target page request = Ok (target_of page request).
Proof. unfold posted_target, target_of. by rewrite int_or_cases. Qed.

Lemma clamp_target_range z : 5 <= clamp_target z <= 1000.
Proof.
  unfold clamp_target. destruct (Z.ltb_spec z 5); [lia|].
  destruct (Z.gtb_spec z 1000); lia.
Qed.

Lemma kb_post_rejected page request s message :
  upload_error (limit_mb page) (too_large page) request = Some message ->
  kb_post page request s = (Ok (Json false message 400), s).
Proof.
  unfold upload_error, kb_post, try_except.
  destruct (FILES request !! "image_file") as [image_file|];
    [|by intros [= <-]].
  destruct (String.eqb (file_name image_file) ""); [by intros [= <-]|].
  destruct (file_size image_file >? limit_mb page * 1024 * 1024);
    [by intros [= <-]|].
  destruct (negb (startswith (content_type image_file) "image/"));
    [by intros [= <-]|discriminate].
Qed.

Lemma upload_accepted limit too_large request :
  upload_error limit too_large request = None ->
  exists image_file,
    FILES request !! "image_file" = Some image_file
    /\ String.eqb (file_name image_file) "" = false
    /\ (file_size image_file >? limit * 1024 * 1024) = false
    /\ startswith (content_type image_file) "image/" = true.
Proof.
  unfold upload_error.
  destruct (FILES request !! "image_file") as [image_file|]; [|discriminate].
  destruct (String.eqb (file_name image_file) "") eqn:Hname; [discriminate|].
  destruct (file_size image_file >? limit * 1024 * 1024) eqn:Hsize;
    [discriminate|].
  destruct (startswith (content_type image_file) "image/") eqn:Htype;
    [|discriminate].
  intros _. exists image_file. auto.
Qed.

(** The state in which the block of an accepted request starts: after the
    first log line. *)
Definition started (page : kb_page) (request : HttpRequest) (s : state)
  : state :=
  retrace s (trace s ++ [EvLog "INFO" (starting page (target_of page request)
                                                (posted_mode page request))]).

Lemma kb_post_after_block page request s image_file r objs evs :
  upload_error (limit_mb page) (too_large page) request = None ->
  FILES request !! "image_file" = Some image_file ->
  open_and_compress image_file (auto_rotate_on request) (target_of page request)
                    (post_is request "preserve_exif" "on")
                    (page_iterations page (posted_mode page request))
                    (started page request s)
  = (r, extend (started page request s) objs evs) ->
  kb_post page request s
  = (Ok (fst (kb_reply page image_file (target_of page request)
                       (posted_mode page request) r)),
     extend s objs
       (EvLog "INFO" (starting page (target_of page request)
                               (posted_mode page request))
        :: evs
        ++ [snd (kb_reply page image_file (target_of page request)
                          (posted_mode page request) r)])).
Proof.
  intros Hcheck Hfile Hrun.
  destruct (upload_accepted _ _ _ Hcheck) as (f & Hf & Hname & Hsize & Htype).
  rewrite Hfile in Hf. injection Hf as <-.
  unfold kb_post. rewrite Hfile, Hname, Hsize, Htype. simpl negb. cbv iota.
  unfold started in Hrun.
  set (target := target_of page request) in *.
  set (mode := posted_mode page request) in *.
  set (s0 := retrace s (trace s ++ [EvLog "INFO" (starting page target mode)]))
    in *.
  unfold try_except, bind at 1, lift at 1. rewrite posted_target_ok.
  fold target. unfold bind at 1, emit at 1. fold mode.
  change {| heap := heap s;
            trace := trace s ++ [EvLog "INFO" (starting page target mode)] |}
    with s0.
  unfold bind at 1. rewrite Hrun. unfold kb_reply.
  assert (forall ev,
             {| heap := heap (extend s0 objs evs);
                trace := trace (extend s0 objs evs) ++ [ev] |}
             = extend s objs
                 (EvLog "INFO" (starting page target mode) :: evs ++ [ev]))
    as Hstate.
  { intros ev. unfold s0, extend, retrace. simpl. by rewrite <- !app_assoc. }
  destruct r as [compressed|e].
  - unfold bind at 1, lift at 1.
    destruct (download_headers page image_file _ (fst compressed)
                               (snd compressed) target mode) as [headers|e].
    + unfold bind, emit, ret. by rewrite Hstate.
    + unfold bind, emit, ret. by rewrite Hstate.
  - unfold bind, emit, ret. by rewrite Hstate.
Qed.

Lemma kb_post_accepted page request s :
  upload_error (limit_mb page) (too_large page) request = None ->
  exists image_file objs evs r,
    FILES request !! "image_file" = Some image_file
    /\ block_run image_file (auto_rotate_on request) (target_of page request)
                 (post_is request "preserve_exif" "on")
                 (page_iterations page (posted_mode page request)) evs r
    /\ block_run image_file (auto_rotate_on request) (target_of page request)
                 (post_is request "preserve_exif" "on")
                 (Z.min 6 (page_iterations page (posted_mode page request)))
                 evs r
    /\ kb_post page request s
       = (Ok (fst (kb_reply page image_file (target_of page request)
                            (posted_mode page request) r)),
          extend s objs
            (EvLog "INFO" (starting page (target_of page request)
                                    (posted_mode page request))
             :: evs
             ++ [snd (kb_reply page image_file (target_of page request)
                               (posted_mode page request) r)])).
Proof.
  intros Hcheck.
  destruct (upload_accepted _ _ _ Hcheck) as (image_file & Hfile & _).
  exists image_file.
  destruct (open_and_compress_run image_file (auto_rotate_on request)
              (target_of page request) (post_is request "preserve_exif" "on")
              (page_iterations page (posted_mode page request))
              (started page request s))
    as (objs & evs & r & Hrun & Hblock).
  exists objs, evs, r. split; [exact Hfile|]. split; [exact Hblock|].
  split; [|by apply kb_post_after_block].
  destruct (Z_le_gt_dec 6 (page_iterations page (posted_mode page request)))
    as [Hmany|Hfew].
  - rewrite Z.min_l by lia.
    destruct (open_and_compress_run image_file (auto_rotate_on request)
                (target_of page request) (post_is request "preserve_exif" "on")
                6 (started page request s))
      as (objs' & evs' & r' & Hrun' & Hblock').
    rewrite <- (open_and_compress_enough _ _ _ _ _ _ Hmany) in Hrun'.
    rewrite Hrun in Hrun'. injection Hrun' as -> _ Htrace.
    apply app_inv_head in Htrace. by subst evs'.
  - rewrite Z.min_r by lia. exact Hblock.
Qed.

End Block.

(** ** What the views hand to the library *)

Lemma emits_impl {A} (P Q : event -> Prop) (m : M A) :
  (forall ev, P ev -> Q ev) -> emits P m -> emits Q m.
Proof.
  intros HPQ Hm s. destruct (Hm s) as (objs & evs & Hs & HP).
  exists objs, evs. split; [done|]. eapply Forall_impl; [exact HP|exact HPQ].
Qed.

(** An event of the normaliser: a rotation by 90, 180 or 270 degrees with
    expansion, or a warning. *)
Definition normaliser_event (ev : event) : Prop :=
  match ev with
  | EvRotate _ angle expand _ => expand = true /\ In angle [90; 180; 270]
  | EvLog level _ => level = "WARNING"
  | _ => False
  end.

(** An event of a size-targeting view: the encodes are probes with a
    quality in 10 .. 95 or the last-resort encode at quality 10, each
    recorded with the encoder's output; a rotation takes
    place only with [auto_rotate], as the normaliser makes it. *)
Definition kb_event {pil : Pil} (auto_rotate : bool) (ev : event) : Prop :=
  match ev with
  | EvSave (AtProbe factor) img quality exif out =>
      In factor dimension_reductions
      /\ 10 <= quality <= 95
      /\ out = pil_encode_jpeg img quality exif
  | EvSave AtFallback img quality exif out =>
      quality = 10 /\ out = pil_encode_jpeg img quality exif
  | EvSave AtFixed _ _ _ _ => False
  | EvRotate _ angle expand _ =>
      auto_rotate = true /\ expand = true /\ In angle [90; 180; 270]
  | _ => True
  end.

Section ViewEvents.
Context {pil : Pil}.

Lemma emits_normaliser (image : ref) :
  emits normaliser_event (process_image_orientation image).
Proof.
  intros s. destruct (heap s !! image) as [img|] eqn:Himg.
  - destruct (normaliser_run image img s Himg) as (objs & image' & Hrun & _).
    exists objs, (fst (orientation_outcome img)). rewrite Hrun.
    split; [reflexivity|]. unfold orientation_outcome.
    destruct (orientation_angle img) as [angle|] eqn:Hangle.
    + apply orientation_angle_values in Hangle.
      assert (Forall normaliser_event (fst (rotation_outcome img angle)))
        as Hrot.
      { unfold rotation_outcome.
        destruct (pil_rotate img angle true) as [[sz px]|e'].
        - constructor; [by split|constructor].
        - constructor; [by split|]. constructor; [reflexivity|constructor]. }
      destruct (getexif img) as [[first|e]|]; [exact Hrot|constructor|exact Hrot].
    + destruct (getexif img) as [[first|e]|]; constructor.
  - exists [], []. rewrite extend_nothing. split; [|constructor].
    unfold process_image_orientation.
    destruct (deref_dangling _ _ Himg) as [e He].
    by rewrite (bind_raise _ _ _ _ _ He).
Qed.

Lemma emits_quality_loop_probes P (image working_image : ref) target
    preserve_exif factor n best :
  (forall img quality exif,
      10 <= quality <= 95 ->
      P (EvSave (AtProbe factor) img quality exif
                (pil_encode_jpeg img quality exif))) ->
  emits P (quality_loop image target preserve_exif working_image factor n
                        min_quality max_quality best).
Proof.
  intros Hsave.
  apply emits_quality_loop
    with (Q := fun low high =>
                 min_quality <= low /\ low <= high /\ high <= max_quality).
  - intros low high data (Hlo & Hle & Hhi).
    unfold narrow, min_quality, max_quality in *.
    destruct (Z.of_nat (length data) >? target); simpl; intros Hlt;
      Z.div_mod_to_equations; lia.
  - intros low high img exif (Hlo & Hle & Hhi). apply Hsave.
    unfold min_quality, max_quality in *. split.
    + apply Z.div_le_lower_bound; lia.
    + apply Z.div_le_upper_bound; lia.
  - unfold min_quality, max_quality. lia.
Qed.

Lemma emits_kb_compress auto_rotate (image : ref) kb preserve_exif n :
  emits (kb_event auto_rotate)
        (compress_image_to_kb image kb preserve_exif n).
Proof.
  apply emits_compress_image_to_kb; simpl; auto.
  intros factor working_image image' best Hin.
  apply emits_quality_loop_probes. intros img quality exif Hq.
  split; [exact Hin|]. split; [exact Hq|reflexivity].
Qed.

Lemma emits_open_and_compress image_file auto_rotate kb preserve_exif n :
  emits (kb_event auto_rotate)
        (open_and_compress image_file auto_rotate kb preserve_exif n).
Proof.
  unfold open_and_compress, img_open.
  apply emits_bind.
  { apply emits_bind; [apply emits_lift|intros img; apply emits_alloc]. }
  intros image. apply emits_bind.
  - destruct auto_rotate; [|apply emits_ret].
    apply (emits_impl normaliser_event); [|apply emits_normaliser].
    intros [| | |src angle expand out| |]; simpl; tauto.
  - intros image'. apply emits_kb_compress.
Qed.

Lemma emits_kb_post page request :
  emits (kb_event (auto_rotate_on request)) (kb_post page request).
Proof.
  unfold kb_post. apply emits_try_except.
  - destruct (FILES request !! "image_file") as [image_file|];
      [|apply emits_ret].
    repeat (apply emits_if; [apply emits_ret|]).
    apply emits_bind; [apply emits_lift|intros target].
    apply emits_bind; [by apply emits_emit|intros _].
    apply emits_bind; [apply emits_open_and_compress|intros compressed].
    apply emits_bind; [apply emits_lift|intros headers].
    apply emits_bind; [by apply emits_emit|intros _]. apply emits_ret.
  - intros e. apply emits_bind; [by apply emits_emit|intros _].
    apply emits_ret.
Qed.

End ViewEvents.

(** ** A run does not read the trace

    What a computation returns, creates and records is the same from two
    states with the same store, whatever was recorded before. *)

Definition blind {A} (m : M A) : Prop :=
  forall s t,
    exists r objs evs,
      m s = (r, extend s objs evs)
      /\ m (retrace s t) = (r, extend (retrace s t) objs evs).

Lemma blind_ret {A} (a : A) : blind (ret a).
Proof. intros s t. exists (Ok a), [], []. by rewrite !extend_nothing. Qed.

Lemma blind_lift {A} (r : result A) : blind (lift r).
Proof. intros s t. exists r, [], []. by rewrite !extend_nothing. Qed.

Lemma blind_deref (r : ref) : blind (deref r).
Proof.
  intros s t. unfold deref, retrace. simpl.
  destruct (heap s !! r) as [i|]; eexists _, [], [];
    by rewrite !extend_nothing.
Qed.

Lemma blind_alloc i : blind (alloc i).
Proof.
  intros s t. exists (Ok (length (heap s))), [i], [].
  unfold alloc, extend, retrace. simpl. by rewrite !app_nil_r.
Qed.

Lemma blind_emit ev : blind (emit ev).
Proof.
  intros s t. exists (Ok tt), [], [ev].
  unfold emit, extend, retrace. simpl. by rewrite !app_nil_r.
Qed.

Lemma blind_bind {A B} (m : M A) (k : A -> M B) :
  blind m -> (forall a, blind (k a)) -> blind (bind m k).
Proof.
  intros Hm Hk s t. destruct (Hm s t) as (r & o1 & e1 & H1 & H2).
  unfold bind. rewrite H1, H2. destruct r as [a|e].
  - destruct (Hk a (extend s o1 e1) (t ++ e1)) as (r' & o2 & e2 & H3 & H4).
    exists r', (o1 ++ o2), (e1 ++ e2). rewrite H3.
    change (extend (retrace s t) o1 e1)
      with (retrace (extend s o1 e1) (t ++ e1)).
    rewrite H4. rewrite extend_extend. split; [done|].
    unfold extend, retrace. simpl. by rewrite !app_assoc.
  - by exists (Raise e), o1, e1.
Qed.

Lemma blind_try_except {A} (body : M A) (handler : exn -> M A) :
  blind body -> (forall e, blind (handler e)) -> blind (try_except body handler).
Proof.
  intros Hm Hk s t. destruct (Hm s t) as (r & o1 & e1 & H1 & H2).
  unfold try_except. rewrite H1, H2. destruct r as [a|e].
  - by exists (Ok a), o1, e1.
  - destruct (Hk e (extend s o1 e1) (t ++ e1)) as (r' & o2 & e2 & H3 & H4).
    exists r', (o1 ++ o2), (e1 ++ e2). rewrite H3.
    change (extend (retrace s t) o1 e1)
      with (retrace (extend s o1 e1) (t ++ e1)).
    rewrite H4. rewrite extend_extend. split; [done|].
    unfold extend, retrace. simpl. by rewrite !app_assoc.
Qed.

Lemma blind_if {A} (b : bool) (m1 m2 : M A) :
  blind m1 -> blind m2 -> blind (if b then m1 else m2).
Proof. by destruct b. Qed.

Ltac blind_step :=
  first
    [ apply blind_ret
    | apply blind_lift
    | apply blind_deref
    | apply blind_alloc
    | apply blind_emit
    | apply blind_bind; [|intros ?]
    | apply blind_try_except; [|intros ?]
    | apply blind_if ].

Section Blind.
Context {pil : Pil}.

Lemma blind_img_save at_ (r : ref) quality exif :
  blind (img_save at_ r quality exif).
Proof. unfold img_save. repeat blind_step. Qed.

Lemma blind_img_resize (r : ref) sz : blind (img_resize r sz).
Proof. unfold img_resize. repeat blind_step. Qed.

Lemma blind_img_copy (r : ref) : blind (img_copy r).
Proof. unfold img_copy. repeat blind_step. Qed.

Lemma blind_img_convert (r : ref) to : blind (img_convert r to).
Proof. unfold img_convert. repeat blind_step. Qed.

Lemma blind_img_rotate (r : ref) angle expand :
  blind (img_rotate r angle expand).
Proof.
  unfold img_rotate. apply blind_bind; [apply blind_deref|intros src].
  apply blind_bind; [apply blind_emit|intros _].
  apply blind_bind; [apply blind_lift|intros [sz px]]. apply blind_alloc.
Qed.

Lemma blind_normaliser (image : ref) : blind (process_image_orientation image).
Proof.
  unfold process_image_orientation.
  apply blind_bind; [apply blind_deref|intros img].
  destruct (getexif img) as [reader|]; [|apply blind_ret].
  apply blind_bind; [apply blind_lift|intros first].
  destruct (negb (exif_truthy first)); [apply blind_ret|].
  apply blind_bind.
  - apply blind_try_except.
    + apply blind_bind; [apply blind_lift|intros key].
      apply blind_bind; [apply blind_lift|intros second].
      apply blind_bind; [apply blind_lift|intros exif].
      destruct (exif !! key) as [v|]; [|apply blind_ret].
      repeat apply blind_if;
        try (apply blind_bind; [apply blind_img_rotate|intros ?]);
        apply blind_ret.
    + intros e. apply blind_bind; [apply blind_emit|intros ?; apply blind_ret].
  - intros [rotated|]; apply blind_ret.
Qed.

Lemma blind_quality_loop (image working_image : ref) target preserve_exif
    factor n :
  forall low high best,
    blind (quality_loop image target preserve_exif working_image factor n
                        low high best).
Proof.
  induction n as [|n IH]; intros low high best; [apply blind_ret|].
  simpl. apply blind_bind; [apply blind_deref|intros img].
  apply blind_bind; [apply blind_img_save|intros data].
  apply blind_bind; [apply blind_lift|intros tight].
  apply blind_bind; [apply blind_deref|intros working].
  destruct tight; [apply blind_ret|].
  match goal with |- context [if ?c then ret _ else _] => destruct c end;
    [apply blind_ret|apply IH].
Qed.

Lemma blind_dimension_loop (image : ref) target preserve_exif original_size
    max_iterations factors :
  forall best,
    blind (dimension_loop image target preserve_exif original_size
                          max_iterations factors best).
Proof.
  induction factors as [|factor smaller IH]; intros best; [apply blind_ret|].
  cbn [dimension_loop]. apply blind_bind.
  { apply blind_if; [|apply blind_img_copy].
    repeat (first [apply blind_img_resize | blind_step]). }
  intros working_image.
  apply blind_bind; [apply blind_quality_loop|intros [c|best']];
    [apply blind_ret|].
  apply blind_bind; [apply blind_lift|intros [c|]]; [apply blind_ret|apply IH].
Qed.

Lemma blind_compress_image_to_kb (image : ref) kb preserve_exif n :
  blind (compress_image_to_kb image kb preserve_exif n).
Proof.
  unfold compress_image_to_kb.
  apply blind_bind; [apply blind_deref|intros img0].
  apply blind_bind;
    [apply blind_if; [apply blind_img_convert|apply blind_ret]|intros image'].
  apply blind_bind; [apply blind_deref|intros img].
  apply blind_bind; [apply blind_dimension_loop|intros [c|best]];
    [apply blind_ret|].
  destruct (truthy_best best); [apply blind_ret|].
  apply blind_bind; [apply blind_img_save|intros ?; apply blind_ret].
Qed.

Lemma blind_open_and_compress image_file auto_rotate kb preserve_exif n :
  blind (open_and_compress image_file auto_rotate kb preserve_exif n).
Proof.
  unfold open_and_compress, img_open.
  apply blind_bind.
  { apply blind_bind; [apply blind_lift|intros img; apply blind_alloc]. }
  intros image. apply blind_bind.
  - apply blind_if; [apply blind_normaliser|apply blind_ret].
  - intros image'. apply blind_compress_image_to_kb.
Qed.

End Blind.

(** ** The size-targeting views *)

Lemma kb_pages_iterations page quality_mode :
  In page kb_pages -> 10 <= page_iterations page quality_mode <= 25.
Proof.
  intros Hin. unfold kb_pages in Hin. simpl in Hin.
  destruct Hin as [<-|[<-|[<-|[<-|[<-|[<-|[]]]]]]];
    unfold page_iterations; simpl; try lia;
    match goal with |- context [if ?c then _ else _] => destruct c end; lia.
Qed.

Lemma kb_pages_defaults page :
  In page kb_pages ->
  PyInt.parse (default_text page) = Ok (default_kb page)
  /\ clamp_target (default_kb page) = default_kb page.
Proof.
  intros Hin. unfold kb_pages in Hin. simpl in Hin.
  destruct Hin as [<-|[<-|[<-|[<-|[<-|[<-|[]]]]]]]; split; reflexivity.
Qed.

Lemma clamp_target_max_min z : clamp_target z = Z.max 5 (Z.min 1000 z).
Proof.
  unfold clamp_target. destruct (Z.ltb_spec z 5); [lia|].
  destruct (Z.gtb_spec z 1000); lia.
Qed.

Section SizeViews.
Context {pil : Pil}.

Lemma orientation_outcome_events img :
  Forall normaliser_event (fst (orientation_outcome img)).
Proof.
  unfold orientation_outcome.
  destruct (orientation_angle img) as [angle|] eqn:Hangle.
  - apply orientation_angle_values in Hangle.
    assert (Forall normaliser_event (fst (rotation_outcome img angle)))
      as Hrot.
    { unfold rotation_outcome.
      destruct (pil_rotate img angle true) as [[sz px]|e'].
      - constructor; [by split|constructor].
      - constructor; [by split|]. constructor; [reflexivity|constructor]. }
    destruct (getexif img) as [[first|e]|]; [exact Hrot|constructor|exact Hrot].
  - destruct (getexif img) as [[first|e]|]; constructor.
Qed.

Lemma normaliser_event_plain ev :
  normaliser_event ev -> is_probe ev = false /\ is_fallback ev = false.
Proof. destruct ev as [| | | |[f| |] w q ex out|]; simpl; tauto. Qed.

Lemma kb_run_no_fallback img0 kb preserve_exif n evs r :
  (forall img quality exif, pil_encode_jpeg img quality exif <> Ok []) ->
  1 <= n ->
  kb_run img0 kb preserve_exif n evs r ->
  Forall truthful evs ->
  Forall (fun ev => is_fallback ev = false) evs.
Proof.
  intros Hnonempty Hn Hrun Htruth.
  destruct Hrun as [ evc e Hcs | evc img evs e Hcs Hsc | evc img evs c Hcs Hsc
                     | evc img evs best c Hcs Hsc Hbest
                     | evc img evs best Hcs Hsc Hbest ];
    destruct (convert_step_plain _ _ _ Hcs) as (Hfb & _); try done;
    try (apply Forall_app; split; [done|]; by apply scales_no_fallback in Hsc).
  exfalso. apply Forall_app in Htruth as [_ Htruth].
  apply Forall_app in Htruth as [Htruth _].
  destruct (scales_leave_a_best _ _ _ _ _ _ Hnonempty Hn Htruth Hsc) as [c Hc].
  congruence.
Qed.

Lemma block_run_parts image_file auto_rotate kb preserve_exif n evs r :
  block_run image_file auto_rotate kb preserve_exif n evs r ->
  exists evo evk,
    evs = evo ++ evk
    /\ Forall normaliser_event evo
    /\ (auto_rotate = false -> evo = [])
    /\ (evk = [] /\ (exists e, r = Raise e)
        \/ exists img, kb_run img kb preserve_exif n evk r).
Proof.
  unfold block_run.
  destruct (pil_open (file_content image_file)) as [img|e].
  2:{ intros [-> ->]. exists [], []. repeat split; eauto. }
  set (outcome := if auto_rotate then orientation_outcome img
                  else ([], Ok img)).
  assert (Forall normaliser_event (fst outcome)) as Hevents.
  { unfold outcome. destruct auto_rotate; [|constructor].
    apply orientation_outcome_events. }
  assert (auto_rotate = false -> fst outcome = []) as Hoff.
  { intros ->. reflexivity. }
  destruct (snd outcome) as [img'|e].
  - intros (evk & -> & Hrun). exists (fst outcome), evk. eauto 10.
  - intros [-> ->]. exists (fst outcome), []. rewrite app_nil_r.
    repeat split; eauto.
Qed.

Lemma probes_of_plain evs :
  Forall (fun ev => is_probe ev = false) evs -> probes_of evs = [].
Proof.
  induction 1 as [|ev evs Hev _ IH]; [reflexivity|].
  unfold probes_of in *. simpl. by rewrite Hev.
Qed.

Lemma block_run_probes image_file auto_rotate kb preserve_exif n evs r :
  block_run image_file auto_rotate kb preserve_exif n evs r ->
  search_blocks (kb * 1024) (Z.to_nat n) dimension_reductions (probes_of evs).
Proof.
  intros Hblock.
  destruct (block_run_parts _ _ _ _ _ _ _ Hblock)
    as (evo & evk & -> & Hevo & _ & Hkb).
  rewrite probes_of_app, (probes_of_plain evo).
  2:{ eapply Forall_impl; [exact Hevo|].
      intros ev Hev. by apply normaliser_event_plain in Hev as [? _]. }
  simpl. destruct Hkb as [[-> _]|[img Hrun]]; [constructor|].
  by apply kb_run_search_blocks in Hrun.
Qed.

(** The events of a request that passed the checks of the upload. *)
Lemma kb_post_events page request s :
  upload_error (limit_mb page) (too_large page) request = None ->
  exists image_file evs r,
    FILES request !! "image_file" = Some image_file
    /\ block_run image_file (auto_rotate_on request) (target_of page request)
                 (post_is request "preserve_exif" "on")
                 (page_iterations page (posted_mode page request)) evs r
    /\ block_run image_file (auto_rotate_on request) (target_of page request)
                 (post_is request "preserve_exif" "on")
                 (Z.min 6 (page_iterations page (posted_mode page request)))
                 evs r
    /\ result_of (kb_post page request) s
       = Ok (fst (kb_reply page image_file (target_of page request)
                           (posted_mode page request) r))
    /\ events_of (kb_post page request) s
       = EvLog "INFO" (starting page (target_of page request)
                                (posted_mode page request))
         :: evs
         ++ [snd (kb_reply page image_file (target_of page request)
                           (posted_mode page request) r)].
Proof.
  intros Hcheck.
  destruct (kb_post_accepted page request s Hcheck)
    as (image_file & objs & evs & r & Hfile & Hblock & Hblock6 & Hrun).
  exists image_file, evs, r. repeat split; auto.
  - unfold result_of. by rewrite Hrun.
  - by rewrite (events_of_extend _ _ _ _ _ Hrun).
Qed.

Lemma kb_reply_log page image_file target mode r :
  exists level msg, snd (kb_reply page image_file target mode r) = EvLog level msg.
Proof.
  unfold kb_reply. destruct r as [c|e]; [|simpl; eauto].
  destruct (download_headers _ _ _ _ _ _ _); simpl; eauto.
Qed.

Lemma kb_post_total page request s :
  exists response s', kb_post page request s = (Ok response, s').
Proof.
  destruct (upload_error (limit_mb page) (too_large page) request)
    as [message|] eqn:Hcheck.
  - rewrite (kb_post_rejected _ _ _ _ Hcheck). eauto.
  - destruct (kb_post_accepted page request s Hcheck)
      as (image_file & objs & evs & r & _ & _ & _ & ->). eauto.
Qed.

(** X3. Every POST request to a size-targeting view gets a response: the view
    raises nothing. The response is the download, of type image/jpeg, or
    a JSON error with [success] false and status 400 or 500. *)
Theorem size_views_always_answer page request s :
  exists response,
    result_of (kb_post page request) s = Ok response
    /\ match response with
       | Json success _ status =>
           success = false /\ (status = 400 \/ status = 500)
       | Download _ content_type _ => content_type = "image/jpeg"
       end.
Proof.
  destruct (upload_error (limit_mb page) (too_large page) request)
    as [message|] eqn:Hcheck.
  - unfold result_of. rewrite (kb_post_rejected _ _ _ _ Hcheck).
    eexists. split; [reflexivity|]. simpl. auto.
  - destruct (kb_post_events page request s Hcheck)
      as (image_file & evs & r & _ & _ & _ & -> & _).
    eexists. split; [reflexivity|]. unfold kb_reply.
    destruct r as [c|e]; [|simpl; auto].
    destruct (download_headers _ _ _ _ _ _ _); simpl; auto.
Qed.

(** X4. The target of a request to each of the six views lies between 5 and
    1000 KB: it is the posted text as [int] reads it (white space on both
    sides, U+00A0 and U+0085 included, a sign, single underscores between
    digits, at most 4300 digits), clamped into that range, and the default
    of the page (20, 50, 100 or 200) when the text is missing or [int]
    refuses it. *)
Theorem posted_target_is_clamped :
  Forall (fun page =>
            forall request,
            exists target,
              posted_target page request = Ok target
              /\ 5 <= target <= 1000
              /\ match POST request !! "target_size_kb" with
                 | Some text =>
                     match PyInt.parse text with
                     | Ok z => target = Z.max 5 (Z.min 1000 z)
                     | Raise _ => target = default_kb page
                     end
                 | None => target = default_kb page
                 end)
         kb_pages.
Proof.
  apply Forall_forall. intros page Hin request.
  apply list_elem_of_In in Hin.
  destruct (kb_pages_defaults page Hin) as [Htext Hdefault].
  exists (target_of page request). split; [apply posted_target_ok|].
  split; [apply clamp_target_range|]. unfold target_of.
  destruct (POST request !! "target_size_kb") as [text|].
  - destruct (PyInt.parse text) as [z|e]; [apply clamp_target_max_min|].
    exact Hdefault.
  - by rewrite Htext.
Qed.

End SizeViews.

(** Targets of [compress_to_50kb], from the posted text: a no-break space is
    white space to [int], underscores separate digits, a value outside 5 ..
    1000 is clamped, and a text that is no integer, or has 4301 digits, gives
    the default of the page. *)
Example posted_targets :
  map (fun text =>
         posted_target compress_50kb
           {| FILES := gmap_empty; POST := {[ "target_size_kb" := text ]} |})
      [ String (Ascii.ascii_of_nat 160) "7"; "7" +:+ String (Ascii.ascii_of_nat 133) "";
        " +1_0 "; "5000"; "-3"; "0x20"; "12.5"; "";
        String.string_of_list_ascii (repeat "1"%char 4301);
        String (Ascii.ascii_of_nat 28) "7" ]
  = [ Ok 7; Ok 7; Ok 10; Ok 1000; Ok 5; Ok 50; Ok 50; Ok 50; Ok 50; Ok 50 ].
Proof. vm_compute. reflexivity. Qed.

(** ** The download and its headers *)

Lemma header_ok name value h :
  header name value = Ok h -> h = (name, value).
Proof. unfold header. destruct (has_line_break value); congruence. Qed.

(** The headers every download carries, and the one of the pages with
    quality modes. *)
Definition common_headers (image_file : UploadedFile) (output_filename : string)
    (content : bytes) (quality : string) (target_size_kb : Z)
  : list (string * string) :=
  [ ("Content-Disposition",
     "attachment; filename=" +:+ String double_quote output_filename
     +:+ String double_quote EmptyString);
    ("Content-Length", py_str (Z.of_nat (length content)));
    ("X-Original-Size", py_str (file_size image_file));
    ("X-Compressed-Size", py_str (Z.of_nat (length content)));
    ("X-Target-Size", py_str (target_size_kb * 1024));
    ("X-Quality-Used", quality) ].

Definition mode_header (page : kb_page) (quality_mode : string)
  : list (string * string) :=
  match modes page with
  | Some _ => [("X-Quality-Mode", quality_mode)]
  | None => []
  end.

Lemma download_headers_ok page image_file output_filename content st target
    quality_mode headers :
  download_headers page image_file output_filename content st target
                   quality_mode = Ok headers ->
  headers
  = common_headers image_file output_filename content (quality_text st) target
    ++ mode_header page quality_mode.
Proof.
  unfold download_headers, common_headers, mode_header.
  repeat match goal with
         | |- result_bind (header ?n ?v) _ = _ -> _ =>
             destruct (header n v) as [?h|?e] eqn:?Hh; simpl; [|discriminate];
             apply header_ok in Hh; subst
         end.
  destruct (modes page) as [settings|]; [|by intros [= <-]].
  destruct (header "X-Quality-Mode" quality_mode) as [h|e] eqn:Hh; simpl;
    [|discriminate].
  apply header_ok in Hh. subst. by intros [= <-].
Qed.

Section Downloads.
Context {pil : Pil}.

Lemma kb_run_returned_encode img0 kb preserve_exif n evs data st :
  kb_run img0 kb preserve_exif n evs (Ok (data, st)) ->
  exists at_ working quality exif,
    In (EvSave at_ working quality exif (Ok data)) evs
    /\ quality_used st = Some quality
    /\ compressed_size st = Z.of_nat (length data)
    /\ (final_width st, final_height st) = size working.
Proof.
  intros Hrun.
  destruct (kb_run_returned _ _ _ _ _ _ Hrun)
    as [(evc & img & evs1 & rest & -> & Hcs & Hall & Hin)
       |(evc & img & before & data' & -> & Hcs & Hc)].
  - destruct (candidates_in _ _ Hin) as (f & w & q & ex & Hev & Hst).
    simpl in Hev, Hst. subst st. exists (AtProbe f), w, q, ex.
    split; [|simpl; by destruct (size w)].
    apply in_or_app. right. apply in_or_app. by left.
  - injection Hc as -> ->. exists AtFallback, img, min_quality, None.
    split; [|simpl; by destruct (size img)].
    apply in_or_app. right. by left.
Qed.

Lemma kb_post_download
    page request s content content_type headers :
  result_of (kb_post page request) s
  = Ok (Download content content_type headers) ->
  exists image_file quality,
    FILES request !! "image_file" = Some image_file
    /\ content_type = "image/jpeg"
    /\ 10 <= quality <= 95
    /\ (exists at_ working exif,
           In (EvSave at_ working quality exif (Ok content))
              (events_of (kb_post page request) s))
    /\ 5 <= target_of page request <= 1000
    /\ headers
       = common_headers image_file
           (output_name page (splitext_root (file_name image_file))
                        (target_of page request))
           content (py_str quality) (target_of page request)
         ++ mode_header page (posted_mode page request).
Proof.
  intros Hresult.
  destruct (upload_error (limit_mb page) (too_large page) request)
    as [message|] eqn:Hcheck.
  { unfold result_of in Hresult.
    rewrite (kb_post_rejected _ _ _ _ Hcheck) in Hresult. discriminate. }
  pose proof (emits_events _ _ s (emits_kb_post page request)) as Hall.
  destruct (kb_post_events page request s Hcheck)
    as (image_file & evs & r & Hfile & Hblock & _ & Hres & Hevs).
  rewrite Hres in Hresult. rewrite Hevs in Hall |- *.
  unfold kb_reply in Hresult.
  destruct r as [[data st]|e]; [|discriminate]. simpl in Hresult.
  destruct (download_headers page image_file _ data st _ _) as [hs|e] eqn:Hhs;
    [|discriminate].
  simpl in Hresult. injection Hresult as <- <- <-.
  apply download_headers_ok in Hhs.
  destruct (block_run_parts _ _ _ _ _ _ _ Hblock)
    as (evo & evk & -> & _ & _ & [[_ [e He]]|[img Hrun]]); [discriminate|].
  destruct (kb_run_returned_encode _ _ _ _ _ _ _ Hrun)
    as (at_ & w & q & ex & Hin & Hq & _).
  assert (In (EvSave at_ w q ex (Ok data))
             (EvLog "INFO" (starting page (target_of page request)
                                     (posted_mode page request))
              :: (evo ++ evk)
              ++ [snd (kb_reply page image_file (target_of page request)
                                (posted_mode page request) (Ok (data, st)))]))
    as Hin'.
  { right. apply in_or_app. left. apply in_or_app. by right. }
  exists image_file, q. split; [exact Hfile|]. split; [reflexivity|].
  split.
  { rewrite Forall_forall in Hall. apply list_elem_of_In in Hin'.
    specialize (Hall _ Hin'). simpl in Hall.
    destruct at_ as [f| |]; [| |done]; [tauto|].
    destruct Hall as [-> _]. lia. }
  split; [by exists at_, w, ex|].
  split; [apply clamp_target_range|].
  rewrite Hhs. unfold quality_text. by rewrite Hq.
Qed.

(** X6. No request to one of the six views reaches the last-resort encode at
    quality 10 (for an encoder that gives no empty buffer): every view
    allows at least ten iterations, so a best result exists when the
    search ends. *)
Theorem views_never_reach_the_fallback page request s :
  (forall img quality exif, pil_encode_jpeg img quality exif <> Ok []) ->
  In page kb_pages ->
  Forall (fun ev => is_fallback ev = false)
         (events_of (kb_post page request) s).
Proof.
  intros Hnonempty Hpage.
  destruct (upload_error (limit_mb page) (too_large page) request)
    as [message|] eqn:Hcheck.
  { unfold events_of. rewrite (kb_post_rejected _ _ _ _ Hcheck). simpl.
    rewrite drop_all. constructor. }
  pose proof (emits_events _ _ s (emits_kb_post page request)) as Hall.
  destruct (kb_post_events page request s Hcheck)
    as (image_file & evs & r & Hfile & Hblock & _ & _ & Hevs).
  rewrite Hevs in Hall |- *.
  destruct (kb_reply_log page image_file (target_of page request)
              (posted_mode page request) r) as (level & msg & ->).
  constructor; [reflexivity|]. apply Forall_app. split; [|by repeat constructor].
  apply Forall_cons in Hall as [_ Hall].
  apply Forall_app in Hall as [Hall _].
  destruct (block_run_parts _ _ _ _ _ _ _ Hblock)
    as (evo & evk & -> & Hevo & _ & Hkb).
  apply Forall_app in Hall as [_ Hall]. apply Forall_app. split.
  - eapply Forall_impl; [exact Hevo|].
    intros ev Hev. by apply normaliser_event_plain in Hev as [_ ?].
  - destruct Hkb as [[-> _]|[img Hrun]]; [constructor|].
    apply (kb_run_no_fallback _ _ _ _ _ _ Hnonempty) in Hrun; auto.
    + pose proof (kb_pages_iterations page (posted_mode page request) Hpage).
      lia.
    + eapply Forall_impl; [exact Hall|].
      intros [| | | |[f| |] w q ex out|]; simpl; tauto.
Qed.

(** X7. A request to a size-targeting view makes at most 36 probes, at most
    six for each dimension factor, whatever the page and the quality
    mode. *)
Theorem a_request_makes_at_most_36_probes page request s :
  search_blocks (target_of page request * 1024) 6 dimension_reductions
    (probes_of (events_of (kb_post page request) s))
  /\ (length (probes_of (events_of (kb_post page request) s)) <= 36)%nat.
Proof.
  assert (search_blocks (target_of page request * 1024) 6 dimension_reductions
            (probes_of (events_of (kb_post page request) s))) as Hblocks.
  { destruct (upload_error (limit_mb page) (too_large page) request)
      as [message|] eqn:Hcheck.
    { unfold events_of. rewrite (kb_post_rejected _ _ _ _ Hcheck). simpl.
      rewrite drop_all. constructor. }
    destruct (kb_post_events page request s Hcheck)
      as (image_file & evs & r & Hfile & _ & Hblock & _ & ->).
    destruct (kb_reply_log page image_file (target_of page request)
                (posted_mode page request) r) as (level & msg & ->).
    change (EvLog "INFO" (starting page (target_of page request)
                                   (posted_mode page request))
            :: evs ++ [EvLog level msg])
      with ([EvLog "INFO" (starting page (target_of page request)
                                    (posted_mode page request))]
            ++ evs ++ [EvLog level msg]).
    rewrite !probes_of_app. simpl. rewrite app_nil_r.
    apply block_run_probes in Hblock.
    revert Hblock. generalize (probes_of evs). intros probes Hblock.
    clear -Hblock.
    assert (Z.to_nat (Z.min 6 (page_iterations page
                                 (posted_mode page request))) <= 6)%nat
      as Hle by lia.
    revert Hle Hblock.
    generalize (Z.to_nat (Z.min 6 (page_iterations page
                                     (posted_mode page request)))).
    intros budget Hle Hblock.
    induction Hblock as [|f fs block rest Hf Hb _ IH]; constructor; auto.
    clear -Hb Hle. revert Hle.
    assert (forall b1 b2 low high evs,
               (b1 <= b2)%nat ->
               bisection (target_of page request * 1024) b1 low high evs ->
               bisection (target_of page request * 1024) b2 low high evs)
      as Hmono.
    { intros b1 b2 low high evs Hle Hbis. revert b2 Hle.
      induction Hbis as [| |b lo hi at_ w ex data rest' Hne Hlt _ IH];
        intros b2 Hle.
      - constructor.
      - destruct b2 as [|b2]; [lia|]. constructor.
      - destruct b2 as [|b2]; [lia|]. constructor; auto. apply IH. lia. }
    intros Hle. by apply (Hmono budget 6%nat). }
  split; [exact Hblocks|].
  apply search_blocks_length in Hblocks.
  change (length dimension_reductions) with 6%nat in Hblocks. lia.
Qed.

End Downloads.

(** ** The quality mode *)

(** The request with [quality_mode] set to [mode]. *)
Definition with_mode (mode : string) (request : HttpRequest) : HttpRequest :=
  {| FILES := FILES request;
     POST := <["quality_mode" := mode]> (POST request) |}.

Definition without_mode_header (response : Response) : Response :=
  match response with
  | Download content content_type headers =>
      Download content content_type
        (List.filter (fun h => negb (String.eqb (fst h) "X-Quality-Mode"))
                     headers)
  | Json success error status => response
  end.

Definition is_log (ev : event) : bool :=
  match ev with
  | EvLog _ _ => true
  | _ => false
  end.

Lemma header_without_line_break name value :
  has_line_break value = false -> header name value = Ok (name, value).
Proof. unfold header. by intros ->. Qed.

Lemma download_headers_modes page image_file output_filename content st target
    mode1 mode2 :
  has_line_break mode1 = false -> has_line_break mode2 = false ->
  result_map
    (List.filter (fun h => negb (String.eqb (fst h) "X-Quality-Mode")))
    (download_headers page image_file output_filename content st target mode1)
  = result_map
      (List.filter (fun h => negb (String.eqb (fst h) "X-Quality-Mode")))
      (download_headers page image_file output_filename content st target
                        mode2).
Proof.
  intros H1 H2. unfold download_headers.
  repeat match goal with
         | |- context [result_bind (header ?n ?v) _] =>
             destruct (header n v) as [?h|?e] eqn:?Hh; simpl; [|reflexivity];
             apply header_ok in Hh; subst
         end.
  destruct (modes page) as [settings|]; [|reflexivity].
  rewrite !header_without_line_break by assumption. reflexivity.
Qed.

Section QualityMode.
Context {pil : Pil}.

Lemma with_mode_lookup mode request key :
  key <> "quality_mode" ->
  POST (with_mode mode request) !! key = POST request !! key.
Proof. intros Hkey. simpl. by rewrite lookup_insert_ne. Qed.

Lemma with_mode_target page mode request :
  target_of page (with_mode mode request) = target_of page request.
Proof. unfold target_of. by rewrite with_mode_lookup. Qed.

Lemma kb_reply_modes page image_file target mode1 mode2 r :
  has_line_break mode1 = false -> has_line_break mode2 = false ->
  without_mode_header (fst (kb_reply page image_file target mode1 r))
  = without_mode_header (fst (kb_reply page image_file target mode2 r)).
Proof.
  intros H1 H2. unfold kb_reply. destruct r as [c|e]; [|reflexivity].
  pose proof (download_headers_modes page image_file
                (output_name page (splitext_root (file_name image_file)) target)
                (fst c) (snd c) target mode1 mode2 H1 H2) as Hmodes.
  destruct (download_headers page image_file _ (fst c) (snd c) target mode1);
    destruct (download_headers page image_file _ (fst c) (snd c) target mode2);
    simpl in *; congruence.
Qed.

(** X8. On each of the six pages the quality mode has no effect on the
    compression: two requests that differ only in their [quality_mode]
    (without a line break) get the same response up to the header
    X-Quality-Mode, create the same objects, and make the same library
    calls; only the log lines differ. The modes choose between 10, 15, 20
    and 25 iterations, and from six iterations on the search is the
    same. *)
Theorem quality_mode_changes_only_its_header page request mode1 mode2 s :
  In page kb_pages ->
  has_line_break mode1 = false ->
  has_line_break mode2 = false ->
  result_map without_mode_header
             (result_of (kb_post page (with_mode mode1 request)) s)
  = result_map without_mode_header
               (result_of (kb_post page (with_mode mode2 request)) s)
  /\ heap_after (kb_post page (with_mode mode1 request)) s
     = heap_after (kb_post page (with_mode mode2 request)) s
  /\ List.filter (fun ev => negb (is_log ev))
                 (events_of (kb_post page (with_mode mode1 request)) s)
     = List.filter (fun ev => negb (is_log ev))
                   (events_of (kb_post page (with_mode mode2 request)) s).
Proof.
  intros Hpage H1 H2.
  destruct (upload_error (limit_mb page) (too_large page)
                         (with_mode mode1 request)) as [message|] eqn:Hcheck.
  { assert (upload_error (limit_mb page) (too_large page)
                         (with_mode mode2 request) = Some message) as Hcheck2
        by exact Hcheck.
    unfold result_of, heap_after, events_of.
    by rewrite (kb_post_rejected _ _ _ _ Hcheck),
               (kb_post_rejected _ _ _ _ Hcheck2). }
  assert (upload_error (limit_mb page) (too_large page)
                       (with_mode mode2 request) = None) as Hcheck2
      by exact Hcheck.
  destruct (upload_accepted _ _ _ Hcheck) as (image_file & Hfile & _).
  assert (FILES (with_mode mode2 request) !! "image_file" = Some image_file)
    as Hfile2 by exact Hfile.
  set (target := target_of page request).
  set (auto_rotate := auto_rotate_on request).
  set (preserve_exif := post_is request "preserve_exif" "on").
  assert (forall mode,
             target_of page (with_mode mode request) = target
             /\ auto_rotate_on (with_mode mode request) = auto_rotate
             /\ post_is (with_mode mode request) "preserve_exif" "on"
                = preserve_exif) as Hsame.
  { intros mode. split; [apply with_mode_target|].
    unfold auto_rotate_on, post_is. by rewrite !with_mode_lookup. }
  destruct (blind_open_and_compress image_file auto_rotate target preserve_exif
              6 (started page (with_mode mode1 request) s)
              (trace (started page (with_mode mode2 request) s)))
    as (r & objs & evs & Hrun1 & Hrun2).
  change (retrace (started page (with_mode mode1 request) s)
                  (trace (started page (with_mode mode2 request) s)))
    with (started page (with_mode mode2 request) s) in Hrun2.
  assert (forall mode,
             open_and_compress image_file
               (auto_rotate_on (with_mode mode request))
               (target_of page (with_mode mode request))
               (post_is (with_mode mode request) "preserve_exif" "on")
               (page_iterations page (posted_mode page (with_mode mode request)))
               (started page (with_mode mode request) s)
             = open_and_compress image_file auto_rotate target preserve_exif 6
                 (started page (with_mode mode request) s)) as Henough.
  { intros mode. destruct (Hsame mode) as (-> & -> & ->).
    apply open_and_compress_enough.
    pose proof (kb_pages_iterations page
                  (posted_mode page (with_mode mode request)) Hpage). lia. }
  rewrite <- Henough in Hrun1, Hrun2.
  pose proof (kb_post_after_block page (with_mode mode1 request) s image_file
                r objs evs Hcheck Hfile Hrun1) as Hpost1.
  pose proof (kb_post_after_block page (with_mode mode2 request) s image_file
                r objs evs Hcheck2 Hfile2 Hrun2) as Hpost2.
  unfold result_of, heap_after.
  rewrite (events_of_extend _ _ _ _ _ Hpost1),
          (events_of_extend _ _ _ _ _ Hpost2), Hpost1, Hpost2.
  destruct (Hsame mode1) as (-> & _). destruct (Hsame mode2) as (-> & _).
  split; [|split; [reflexivity|]].
  - simpl. f_equal.
    destruct (modes page) as [settings|] eqn:Hmodes.
    + unfold posted_mode. rewrite Hmodes. simpl.
      rewrite !lookup_insert_eq. by apply kb_reply_modes.
    + unfold posted_mode. by rewrite Hmodes.
  - destruct (kb_reply_log page image_file target
                (posted_mode page (with_mode mode1 request)) r)
      as (level1 & msg1 & ->).
    destruct (kb_reply_log page image_file target
                (posted_mode page (with_mode mode2 request)) r)
      as (level2 & msg2 & ->).
    simpl. by rewrite !List.filter_app.
Qed.

End QualityMode.

(** ** EXIF data *)

(** The EXIF argument of an encode: [expected] for a probe and for the
    encode of the fixed-quality compressor, none for the last-resort
    encode. *)
Definition exif_given (expected : option bytes) (ev : event) : Prop :=
  match ev with
  | EvSave AtFallback _ _ exif _ => exif = None
  | EvSave _ _ _ exif _ => exif = expected
  | _ => True
  end.

Section Exif.
Context {pil : Pil}.

Lemma probes_exif target img preserve_exif working factor n low high best
    evs r :
  probes target img preserve_exif working factor n low high best evs r ->
  Forall (exif_given (exif_param preserve_exif img)) evs.
Proof.
  induction 1 as [ | n low high best e Hout | n low high best data e Hout Hw
                   | n low high best data Hout Hw
                   | n low high best data Hout Hw Hge
                   | n low high best data evs r Hout Hw Hlt _ IH ];
    repeat constructor; auto.
Qed.

Lemma working_step_exif expected img factor evs w :
  working_step img factor = (evs, w) ->
  Forall (exif_given expected) evs
  /\ (forall working, w = Ok working -> info_exif working = info_exif img).
Proof.
  unfold working_step.
  destruct (PyFloat.ltb factor one);
    [destruct (scaled (fst (size img)) factor);
     [destruct (scaled (snd (size img)) factor)|]|];
    intros [= <- <-]; (split; [by repeat constructor|]); try discriminate.
  - destruct (pil_resample img _); simpl; [|discriminate].
    by intros working [= <-].
  - by intros working [= <-].
Qed.

Lemma scales_exif target img preserve_exif max_iterations factors best evs r :
  scales target img preserve_exif max_iterations factors best evs r ->
  Forall (exif_given (exif_param preserve_exif img)) evs.
Proof.
  induction 1 as [ best | f fs best evs e Hws
                   | f fs best evs0 w evs1 e Hws Hp
                   | f fs best evs0 w evs1 c Hws Hp
                   | f fs best evs0 w evs1 best' e Hws Hp Hgood
                   | f fs best evs0 w evs1 best' c Hws Hp Hgood
                   | f fs best evs0 w evs1 best' evs2 r Hws Hp Hgood _ IH ];
    try (apply (working_step_exif (exif_param preserve_exif img)) in Hws
           as [Hws _]);
    try (apply probes_exif in Hp);
    rewrite ?Forall_app; auto.
Qed.

Lemma convert_step_exif expected img0 evc w :
  convert_step img0 = (evc, w) ->
  Forall (exif_given expected) evc
  /\ (forall img, w = Ok img -> info_exif img = info_exif img0).
Proof.
  unfold convert_step. destruct (mode_needs_rgb (mode img0)).
  - intros [= <- <-]. split; [by repeat constructor|].
    destruct (pil_convert img0 "RGB"); simpl; [|discriminate].
    by intros img [= <-].
  - intros [= <- <-]. split; [constructor|]. by intros img [= <-].
Qed.

Lemma kb_run_exif img0 kb preserve_exif n evs r :
  kb_run img0 kb preserve_exif n evs r ->
  Forall (exif_given (exif_param preserve_exif img0)) evs.
Proof.
  assert (forall img, info_exif img = info_exif img0 ->
                      exif_param preserve_exif img
                      = exif_param preserve_exif img0) as Hparam.
  { intros img Hinfo. unfold exif_param. by rewrite Hinfo. }
  destruct 1 as [ evc e Hcs | evc img evs e Hcs Hsc | evc img evs c Hcs Hsc
                  | evc img evs best c Hcs Hsc Hbest
                  | evc img evs best Hcs Hsc Hbest ];
    destruct (convert_step_exif (exif_param preserve_exif img0) _ _ _ Hcs)
      as [Hevc Hinfo]; try done;
    apply scales_exif in Hsc; rewrite (Hparam img (Hinfo img eq_refl)) in Hsc;
    rewrite ?Forall_app; auto.
  repeat split; auto. by repeat constructor.
Qed.

Lemma fixed_run_exif img0 max_dimension quality preserve_exif :
  Forall (exif_given (exif_param preserve_exif img0))
         (fst (fixed_run img0 max_dimension quality preserve_exif)).
Proof.
  unfold fixed_run.
  destruct (fixed_ratio img0 max_dimension) as [ratio|e]; [|constructor].
  destruct (fixed_resize_step img0 ratio) as [evs1 [img1|e]] eqn:Hstep.
  2:{ unfold fixed_resize_step in Hstep.
      destruct (PyFloat.lt_int ratio 1); [|discriminate].
      destruct (scaled (fst (size img0)) ratio);
        [|injection Hstep as <- _; constructor].
      destruct (scaled (snd (size img0)) ratio);
        injection Hstep as <- _; by repeat constructor. }
  assert (Forall (exif_given (exif_param preserve_exif img0)) evs1
          /\ info_exif img1 = info_exif img0) as [Hevs1 Hinfo1].
  { unfold fixed_resize_step in Hstep.
    destruct (PyFloat.lt_int ratio 1); [|by injection Hstep as <- <-].
    destruct (scaled (fst (size img0)) ratio); [|discriminate].
    destruct (scaled (snd (size img0)) ratio); [|discriminate].
    injection Hstep as <- Hout. split; [by repeat constructor|].
    destruct (pil_resample img0 _); simpl in Hout; [|discriminate].
    by injection Hout as <-. }
  destruct (convert_step img1) as [evs2 [img2|e]] eqn:Hcs;
    destruct (convert_step_exif (exif_param preserve_exif img0) _ _ _ Hcs)
      as [Hevs2 Hinfo2]; simpl; rewrite ?Forall_app; auto.
  repeat split; auto. constructor; [|constructor]. simpl. unfold exif_param.
  pose proof (Hinfo2 img2 eq_refl) as Hinfo. by rewrite Hinfo, Hinfo1.
Qed.

(** X9. The EXIF data the encoder receives is that of the caller's image and
    is given only on request: every probe of [compress_image_to_kb] and
    the encode of [compress_image] get the [exif] entry of the [info] of
    the image they were called with when [preserve_exif] is set, also
    after a conversion or a resize, and nothing otherwise; the last-resort
    encode never gets any. *)
Theorem exif_is_passed_on_only_on_request
    s (image : ref) img0 max_dimension quality (preserve_exif : bool) kb
    max_iterations :
  heap s !! image = Some img0 ->
  Forall (exif_given (if preserve_exif then info_exif img0 else None))
         (events_of (compress_image image max_dimension quality preserve_exif) s)
  /\ Forall (exif_given (if preserve_exif then info_exif img0 else None))
            (events_of
               (compress_image_to_kb image kb preserve_exif max_iterations) s).
Proof.
  intros Himg. split.
  - destruct (compress_image_events image img0 max_dimension quality
                preserve_exif s Himg) as [-> _].
    apply fixed_run_exif.
  - apply (kb_run_exif img0 kb preserve_exif max_iterations _
             (result_of (compress_image_to_kb image kb preserve_exif
                           max_iterations) s)).
    by apply compress_image_to_kb_shape.
Qed.

End Exif.

Section UploadExif.
Context {pil : Pil}.

Lemma orientation_outcome_exif img img' :
  snd (orientation_outcome img) = Ok img' -> info_exif img' = info_exif img.
Proof.
  unfold orientation_outcome.
  assert (forall angle,
             snd (rotation_outcome img angle) = Ok img' ->
             info_exif img' = info_exif img) as Hrot.
  { intros angle. unfold rotation_outcome.
    destruct (pil_rotate img angle true) as [[sz px]|e]; by intros [= <-]. }
  destruct (getexif img) as [[first|e]|]; [|discriminate|];
    (destruct (orientation_angle img) as [angle|]; [apply Hrot|by intros [= <-]]).
Qed.

(** X10. In a size-targeting view the EXIF data handed to the encoder is the
    block of the uploaded image as it was opened, also when the image was
    rotated by the normaliser first: the rotated pixels are encoded with
    the unchanged block, orientation tag included, when [preserve_exif] is
    on, and with no EXIF data otherwise. *)
Theorem uploads_keep_their_exif_block page request s image_file img :
  FILES request !! "image_file" = Some image_file ->
  pil_open (file_content image_file) = Ok img ->
  Forall (exif_given (if post_is request "preserve_exif" "on"
                      then info_exif img else None))
         (events_of (kb_post page request) s).
Proof.
  intros Hfile Hopen.
  destruct (upload_error (limit_mb page) (too_large page) request)
    as [message|] eqn:Hcheck.
  { unfold events_of. rewrite (kb_post_rejected _ _ _ _ Hcheck). simpl.
    rewrite drop_all. constructor. }
  destruct (kb_post_events page request s Hcheck)
    as (f & evs & r & Hf & Hblock & _ & _ & ->).
  rewrite Hfile in Hf. injection Hf as <-.
  destruct (kb_reply_log page image_file (target_of page request)
              (posted_mode page request) r) as (level & msg & ->).
  constructor; [done|]. apply Forall_app. split; [|by repeat constructor].
  unfold block_run in Hblock. rewrite Hopen in Hblock.
  set (outcome := if auto_rotate_on request then orientation_outcome img
                  else ([], Ok img)) in *.
  assert (Forall (exif_given (if post_is request "preserve_exif" "on"
                              then info_exif img else None)) (fst outcome))
    as Hevo.
  { unfold outcome. destruct (auto_rotate_on request); [|constructor].
    eapply Forall_impl; [apply orientation_outcome_events|].
    intros [| | | |[f| |] w q ex out|]; simpl; tauto. }
  destruct (snd outcome) as [img'|e] eqn:Hout.
  - destruct Hblock as (evk & -> & Hrun). apply Forall_app. split; [done|].
    assert (info_exif img' = info_exif img) as Hinfo.
    { unfold outcome in Hout. destruct (auto_rotate_on request).
      - by apply orientation_outcome_exif.
      - by injection Hout as <-. }
    apply kb_run_exif in Hrun. unfold exif_param in Hrun.
    by rewrite Hinfo in Hrun.
  - by destruct Hblock as [-> _].
Qed.

End UploadExif.

(** ** The tolerance tests of the views *)

(** X11. For every request to a size-targeting view, whatever the page, the
    two acceptance tests of the search are decided exactly: with the
    target of the request, [delta <= target * 0.05] holds exactly when
    [20 * delta <= target] and [delta <= target * 0.1] exactly when
    [10 * delta <= target]; rounding in the floating-point products plays
    no part for the targets the views let through. *)
Theorem view_targets_are_tested_exactly page request :
  exists target,
    posted_target page request = Ok target
    /\ forall size_now,
         within size_now (target * 1024) tight_tolerance
         = Ok (20 * Z.abs (size_now - target * 1024) <=? target * 1024)
         /\ within size_now (target * 1024) relaxed_tolerance
            = Ok (10 * Z.abs (size_now - target * 1024) <=? target * 1024).
Proof.
  exists (target_of page request). split; [apply posted_target_ok|].
  intros size_now. apply within_on_allowed_targets. apply clamp_target_range.
Qed.

(** ** Rotation *)

Definition is_rotate (ev : event) : bool :=
  match ev with
  | EvRotate _ _ _ _ => true
  | _ => false
  end.

Section Rotation.
Context {pil : Pil}.

Lemma emits_fixed_without_rotation request :
  post_is request "auto_rotate" "true" = false ->
  emits (fun ev => is_rotate ev = false) (compress_single_image request).
Proof.
  intros Hoff. unfold compress_single_image. rewrite Hoff.
  apply emits_try_except.
  - destruct (FILES request !! "image_file") as [image_file|]; [|apply emits_ret].
    repeat (apply emits_if; [apply emits_ret|]).
    apply emits_bind; [apply emits_lift|intros quality].
    apply emits_bind.
    { unfold img_open. apply emits_bind; [apply emits_lift|intros img].
      apply emits_alloc. }
    intros image. apply emits_bind; [apply emits_ret|intros image'].
    apply emits_bind; [|intros ?; apply emits_ret].
    by apply emits_compress_image.
  - intros e. apply emits_bind; [by apply emits_emit|intros ?; apply emits_ret].
Qed.

(** X12. An image is rotated only on request. The size-targeting views rotate
    unless the request posts an [auto_rotate] other than [on] (a request
    without the field is rotated); the fixed-quality view rotates only
    when the request posts [auto_rotate] as [true]. When rotation is off
    no rotation is recorded; when it is on, there is at most a rotation by
    90, 180 or 270 degrees with expansion. *)
Theorem rotation_only_on_request page request s :
  (auto_rotate_on request = false ->
   Forall (fun ev => is_rotate ev = false)
          (events_of (kb_post page request) s))
  /\ (post_is request "auto_rotate" "true" = false ->
      Forall (fun ev => is_rotate ev = false)
             (events_of (compress_single_image request) s))
  /\ Forall (fun ev => match ev with
                       | EvRotate _ angle expand _ =>
                           expand = true /\ In angle [90; 180; 270]
                       | _ => True
                       end)
            (events_of (kb_post page request) s)
  /\ (POST request !! "auto_rotate" = None -> auto_rotate_on request = true)
  /\ (POST request !! "auto_rotate" = None ->
      post_is request "auto_rotate" "true" = false).
Proof.
  pose proof (emits_events _ _ s (emits_kb_post page request)) as Hall.
  split; [|split; [|split; [|split]]].
  - intros Hoff. eapply Forall_impl; [exact Hall|].
    rewrite Hoff. intros [| | | |[f| |] w q ex out|]; simpl; try tauto.
    intros [? _]. discriminate.
  - intros Hoff. apply emits_events. by apply emits_fixed_without_rotation.
  - eapply Forall_impl; [exact Hall|].
    intros [| | | |[f| |] w q ex out|]; simpl; tauto.
  - unfold auto_rotate_on. by intros ->.
  - unfold post_is. by intros ->.
Qed.

End Rotation.

(** ** The normaliser, call by call *)

Section NormaliserCalls.
Context {pil : Pil}.

(** X13. The normaliser makes at most one library call, a rotation by 90, 180
    or 270 degrees with expansion. When the rotation succeeds the result
    is a new image, with the mode and the [info] of the original; when it
    raises, a warning with the message of the exception is logged and the
    image itself is returned; otherwise nothing is recorded and the image
    itself is returned, unless the first call of [_getexif()] raised: its
    exception is the only one that leaves the normaliser. *)
Theorem normaliser_makes_at_most_one_rotation s (image : ref) img :
  heap s !! image = Some img ->
  (events_of (process_image_orientation image) s = []
   /\ heap_after (process_image_orientation image) s = heap s
   /\ (result_of (process_image_orientation image) s = Ok image
       \/ exists e,
            getexif img = Some (Raise e)
            /\ result_of (process_image_orientation image) s = Raise e))
  \/ (exists angle sz px,
         In angle [90; 180; 270]
         /\ events_of (process_image_orientation image) s
            = [EvRotate img angle true (Ok (sz, px))]
         /\ heap_after (process_image_orientation image) s
            = heap s ++ [{| size := sz; mode := mode img; pixels := px;
                            info_exif := info_exif img; getexif := None |}]
         /\ result_of (process_image_orientation image) s
            = Ok (length (heap s)))
  \/ (exists angle e,
         In angle [90; 180; 270]
         /\ events_of (process_image_orientation image) s
            = [EvRotate img angle true (Raise e);
               EvLog "WARNING"
                     ("Error processing image orientation: " +:+ exn_str e)]
         /\ heap_after (process_image_orientation image) s = heap s
         /\ result_of (process_image_orientation image) s = Ok image).
Proof.
  intros Himg. unfold events_of, heap_after, result_of.
  rewrite (normaliser_cases image img s Himg).
  assert (drop (length (trace s)) (trace s) = []) as Hnone by apply drop_all.
  destruct (orientation_angle img) as [angle|] eqn:Hangle.
  - pose proof (orientation_angle_values _ _ Hangle) as Hvalues.
    destruct (orientation_angle_cases _ _ Hangle) as (d & v & -> & _).
    unfold rotated_by.
    destruct (pil_rotate img angle true) as [[sz px]|e]; simpl;
      rewrite drop_app_length.
    + right. left. exists angle, sz, px. auto.
    + right. right. exists angle, e. rewrite app_nil_r. auto.
  - left. destruct (getexif img) as [[first|e]|]; simpl; eauto 10.
Qed.

End NormaliserCalls.

(** ** The fixed-quality view *)

(** The results a computation can return. *)
Definition returns {A} (Q : A -> Prop) (m : M A) : Prop :=
  forall s a s', m s = (Ok a, s') -> Q a.

Lemma returns_ret {A} (Q : A -> Prop) (a : A) : Q a -> returns Q (ret a).
Proof. intros Ha s a' s' [= <- _]. exact Ha. Qed.

Lemma returns_bind {A B} (Q : B -> Prop) (m : M A) (k : A -> M B) :
  (forall a, returns Q (k a)) -> returns Q (bind m k).
Proof.
  intros Hk s b s'. unfold bind. destruct (m s) as [[a|e] s1]; [|discriminate].
  apply Hk.
Qed.

Lemma returns_if {A} (Q : A -> Prop) (b : bool) (m1 m2 : M A) :
  returns Q m1 -> returns Q m2 -> returns Q (if b then m1 else m2).
Proof. by destruct b. Qed.

Lemma returns_try_except {A} (Q : A -> Prop) (body : M A)
    (handler : exn -> M A) :
  returns Q body -> (forall e, returns Q (handler e)) ->
  returns Q (try_except body handler).
Proof.
  intros Hbody Hhandler s a s'. unfold try_except.
  destruct (body s) as [[a'|e] s1] eqn:Hrun.
  - intros [= <- <-]. by apply (Hbody s a' s1).
  - apply Hhandler.
Qed.

Section FixedView.
Context {pil : Pil}.

(** What [compress_single_image] answers: an error with [success] false
    and status 400 or 500, or the image as image/jpeg. *)
Definition fixed_answer (response : HttpResponse) : Prop :=
  match response with
  | JsonResponse success _ status =>
      success = false /\ (status = 400 \/ status = 500)
  | FileResponse _ media_type => media_type = "image/jpeg"
  end.

Lemma compress_single_image_returns request :
  returns fixed_answer (compress_single_image request).
Proof.
  unfold compress_single_image. apply returns_try_except.
  - destruct (FILES request !! "image_file") as [image_file|];
      [|apply returns_ret; simpl; auto].
    repeat (apply returns_if; [apply returns_ret; simpl; auto|]).
    repeat (apply returns_bind; intros ?). by apply returns_ret.
  - intros e. apply returns_bind. intros _. apply returns_ret. simpl. auto.
Qed.

Lemma compress_single_image_total request s :
  exists response s', compress_single_image request s = (Ok response, s').
Proof.
  unfold compress_single_image, try_except.
  match goal with |- context [let (r, s') := ?body s in _] =>
    destruct (body s) as [[response|e] s1] end; [eauto|].
  unfold bind, emit, ret. eauto.
Qed.

Lemma compress_single_image_rejected request s message :
  upload_error 10 "File too large. Maximum size is 10MB" request
  = Some message ->
  compress_single_image request s = (Ok (JsonResponse false message 400), s).
Proof.
  unfold upload_error, compress_single_image, try_except.
  destruct (FILES request !! "image_file") as [image_file|];
    [|by intros [= <-]].
  destruct (String.eqb (file_name image_file) ""); [by intros [= <-]|].
  destruct (file_size image_file >? 10 * 1024 * 1024); [by intros [= <-]|].
  destruct (negb (startswith (content_type image_file) "image/"));
    [by intros [= <-]|discriminate].
Qed.

(** X14. Every request to the fixed-quality view gets a response: the view
    raises nothing, whatever the request and whatever the library does.
    The response is the compressed image, as image/jpeg, or an error with
    [success] false and status 400 or 500. *)
Theorem fixed_view_always_answers request s :
  exists response,
    result_of (compress_single_image request) s = Ok response
    /\ match response with
       | JsonResponse success _ status =>
           success = false /\ (status = 400 \/ status = 500)
       | FileResponse _ media_type => media_type = "image/jpeg"
       end.
Proof.
  destruct (compress_single_image_total request s) as (response & s' & Hrun).
  exists response. unfold result_of. rewrite Hrun. split; [reflexivity|].
  apply (compress_single_image_returns request s response s' Hrun).
Qed.

(** X15. A request whose upload is refused (no file or a file without a name,
    a file above the limit, 10 MB or 15 MB for [compress_to_200kb], a
    content type that does not start with image/) is answered with status
    400 and the message of the first check that fails, and leaves the state
    as it was: nothing is opened and nothing is logged. This holds for the
    size-targeting views and for the fixed-quality view. A request to a
    size-targeting view that passes the checks logs its first line before
    anything else, and is never answered with status 400. *)
Theorem refused_uploads_are_not_opened page request s :
  match upload_error (limit_mb page) (too_large page) request with
  | Some message => kb_post page request s = (Ok (Json false message 400), s)
  | None =>
      (exists rest,
          events_of (kb_post page request) s
          = EvLog "INFO" (starting page (target_of page request)
                                   (posted_mode page request)) :: rest)
      /\ forall success message,
           result_of (kb_post page request) s <> Ok (Json success message 400)
  end
  /\ match upload_error 10 "File too large. Maximum size is 10MB" request with
     | Some message =>
         compress_single_image request s
         = (Ok (JsonResponse false message 400), s)
     | None =>
         forall success message,
           result_of (compress_single_image request) s
           <> Ok (JsonResponse success message 400)
     end.
Proof.
  split.
  - destruct (upload_error (limit_mb page) (too_large page) request)
      as [message|] eqn:Hcheck.
    + by apply kb_post_rejected.
    + destruct (kb_post_events page request s Hcheck)
        as (image_file & evs & r & _ & _ & _ & -> & ->).
      split; [eauto|]. intros success message. unfold kb_reply.
      destruct r as [c|e]; [|simpl; congruence].
      destruct (download_headers _ _ _ _ _ _ _); simpl; congruence.
  - destruct (upload_error 10 "File too large. Maximum size is 10MB" request)
      as [message|] eqn:Hcheck.
    + by apply compress_single_image_rejected.
    + destruct (upload_accepted _ _ _ Hcheck)
        as (image_file & Hfile & Hname & Hsize & Htype).
      intros success message. unfold result_of, compress_single_image.
      rewrite Hfile, Hname, Hsize, Htype. simpl negb. cbv iota.
      unfold try_except.
      match goal with |- context [let (r, s') := ?body s in _] =>
        destruct (body s) as [[response|e] s1] eqn:Hbody end.
      * simpl. intros [= ->].
        assert (returns (fun response =>
                           exists content media_type,
                             response = FileResponse content media_type)
                        (quality <- lift (match POST request !! "quality" with
                                          | Some text => PyInt.parse text
                                          | None => Ok 80
                                          end) ;;
                         image <- img_open image_file ;;
                         image <- (if post_is request "auto_rotate" "true"
                                   then process_image_orientation image
                                   else ret image) ;;
                         compressed <-
                           compress_image image 3000
                             (Z.max 10 (Z.min 100 quality))
                             (post_is request "preserve_exif" "true") ;;
                         ret (FileResponse (fst compressed) "image/jpeg")))
          as Hreturns.
        { repeat (apply returns_bind; intros ?). apply returns_ret. eauto. }
        destruct (Hreturns _ _ _ Hbody) as (content & media_type & Heq).
        discriminate.
      * unfold bind, emit, ret. simpl. congruence.
Qed.

(** X16. A posted quality that [int] refuses is a server error: the conversion
    raises inside the [try], so an upload that passed the checks is answered
    with status 500, the error is logged, and the image is never opened.
    The logged text is that of [int]: the invalid literal with at most 200
    characters of its [repr], or, for a text with more than 4300 digits,
    the limit and the number of digits. (The size-targeting views fall back
    on their default target instead.) *)
Theorem unreadable_quality_is_a_server_error request s text e :
  upload_error 10 "File too large. Maximum size is 10MB" request = None ->
  POST request !! "quality" = Some text ->
  PyInt.parse text = Raise e ->
  compress_single_image request s
  = (Ok (JsonResponse false "An error occurred while processing the image." 500),
     {| heap := heap s;
        trace := trace s ++ [EvLog "ERROR" ("Compression error: " +:+ exn_str e)] |})
  /\ (exn_str e
      = "invalid literal for int() with base 10: "
        +:+ String.substring 0 200 (py_repr text)
      \/ exists count,
           (4300 < count)%nat
           /\ exn_str e
              = "Exceeds the limit (4300 digits) for integer string conversion: value has "
                +:+ py_str (Z.of_nat count)
                +:+ " digits; use sys.set_int_max_str_digits() to increase the limit").
Proof.
  intros Hcheck Htext Hparse. split.
  - destruct (upload_accepted _ _ _ Hcheck)
      as (image_file & Hfile & Hname & Hsize & Htype).
    unfold compress_single_image.
    rewrite Hfile, Hname, Hsize, Htype, Htext, Hparse. reflexivity.
  - destruct (parse_raises _ _ Hparse) as [->|(count & Hcount & ->)];
      [by left|right]. by exists count.
Qed.

End FixedView.

(** ** The edges of the fixed-quality compressor *)

(** [3000 / float(dim)] is at least 1 for every dimension from 1 to 3000. *)
Definition within_limit (dim : Z) : bool :=
  match py_float dim with
  | Ok as_float =>
      match int_div_float 3000 as_float with
      | Ok quotient => negb (PyFloat.lt_int quotient 1)
      | Raise _ => false
      end
  | Raise _ => false
  end.

Lemma dimensions_within_limit :
  forallb within_limit (map Z.of_nat (seq 1 3000)) = true.
Proof. vm_compute. reflexivity. Qed.

Lemma within_limit_in dim : 1 <= dim <= 3000 -> within_limit dim = true.
Proof.
  intros Hdim. pose proof dimensions_within_limit as Hall.
  rewrite forallb_forall in Hall. apply Hall.
  replace dim with (Z.of_nat (Z.to_nat dim)) by lia.
  apply in_map. apply in_seq. lia.
Qed.

Section FixedEdges.
Context {pil : Pil}.

(** X17. An image with a zero dimension makes [compress_image] raise
    ZeroDivisionError before any library call: [max_dimension / float(0)].
    (The width is divided first; for a zero height the quotient by the
    width must be defined.) *)
Theorem zero_dimension_is_a_division_by_zero
    s (image : ref) img0 max_dimension quality preserve_exif :
  heap s !! image = Some img0 ->
  is_ok (py_float max_dimension) = true ->
  fst (size img0) = 0
  \/ (snd (size img0) = 0
      /\ exists width,
           py_float (fst (size img0)) = Ok width
           /\ PyFloat.is_zero width = false) ->
  compress_image image max_dimension quality preserve_exif s
  = (Raise ZeroDivisionError, s).
Proof.
  intros Himg Hmax Hzero. unfold compress_image.
  rewrite (bind_ok _ _ _ _ _ (deref_ok _ _ _ Himg)).
  unfold int_div_float.
  destruct (py_float max_dimension) as [limit|]; [|discriminate].
  destruct Hzero as [->|(-> & width & -> & Hwidth)].
  - reflexivity.
  - unfold bind at 1, lift at 1. unfold bind at 1, lift at 1. simpl result_bind.
    rewrite Hwidth. reflexivity.
Qed.

(** X18. An image of at most 3000 by 3000 pixels is not resampled by
    [compress_image] at the limit the view uses, 3000: no resize is
    recorded, and what is returned has the dimensions of the image. *)
Theorem images_within_the_limit_are_not_resampled
    s (image : ref) img0 quality preserve_exif :
  heap s !! image = Some img0 ->
  1 <= fst (size img0) <= 3000 ->
  1 <= snd (size img0) <= 3000 ->
  Forall (fun ev => is_resize ev = false)
         (events_of (compress_image image 3000 quality preserve_exif) s)
  /\ forall data st,
       result_of (compress_image image 3000 quality preserve_exif) s
       = Ok (data, st) ->
       (final_width st, final_height st) = size img0.
Proof.
  intros Himg Hwidth Hheight.
  destruct (compress_image_events image img0 3000 quality preserve_exif s Himg)
    as [-> ->].
  apply within_limit_in in Hwidth, Hheight. unfold within_limit in *.
  unfold fixed_run, fixed_ratio.
  destruct (py_float (fst (size img0))) as [width|]; [|discriminate].
  destruct (int_div_float 3000 width) as [by_width|] eqn:Hby_width;
    [|discriminate].
  destruct (py_float (snd (size img0))) as [height|]; [|discriminate].
  destruct (int_div_float 3000 height) as [by_height|] eqn:Hby_height;
    [|discriminate].
  simpl result_bind. rewrite Hby_width. simpl result_bind.
  rewrite Hby_height. simpl result_bind.
  assert (PyFloat.lt_int (py_min by_width by_height) 1 = false) as Hratio.
  { unfold py_min. destruct (PyFloat.ltb by_height by_width).
    - by destruct (PyFloat.lt_int by_height 1).
    - by destruct (PyFloat.lt_int by_width 1). }
  unfold fixed_resize_step. rewrite Hratio.
  destruct (convert_step img0) as [evs2 [img2|e]] eqn:Hcs.
  - destruct (convert_step_ok _ _ _ Hcs) as (Hsize & _).
    destruct (convert_step_plain _ _ _ Hcs) as (_ & Hres & _).
    split.
    + simpl. apply Forall_app. split; [exact Hres|]. by repeat constructor.
    + simpl. intros data st.
      destruct (pil_encode_jpeg img2 quality (exif_param preserve_exif img2));
        [|discriminate].
      intros [= <- <-]. simpl. rewrite Hsize. by destruct (size img0).
  - destruct (convert_step_plain _ _ _ Hcs) as (_ & Hres & _).
    split; [exact Hres|]. discriminate.
Qed.

End FixedEdges.

(** ** Which requests do the work *)

Section Dispatch.
Context {pil : Pil}.

(** The five function views of the size-targeting pages, each with the
    constants of its POST branch. *)
Definition kb_function_views
  : list ((Request -> M (Reply Response)) * kb_page) :=
  [ (resize_to_50kb_view, resize_to_50kb);
    (resize_to_100kb_view, resize_to_100kb);
    (compress_to_50kb, compress_50kb);
    (compress_to_100kb, compress_100kb);
    (compress_to_200kb, compress_200kb) ].

Lemma kb_view_dispatch template_name values page request s :
  kb_view template_name values page request s
  = if String.eqb (method request) "GET" then
      (Ok (EnsureCsrfCookie (Page template_name values)), s)
    else if String.eqb (method request) "POST" then
      (result_map (fun response => EnsureCsrfCookie (Answer response))
                  (result_of (kb_post page (payload request)) s),
       snd (kb_post page (payload request) s))
    else (Ok (NotAllowed ["GET"; "POST"]), s).
Proof.
  unfold kb_view, require_http_methods, ensure_csrf_cookie. cbn [existsb].
  destruct (String.eqb (method request) "GET") eqn:Hget; [reflexivity|].
  destruct (String.eqb (method request) "POST") eqn:Hpost; [|reflexivity].
  cbn [orb]. unfold bind, result_of.
  destruct (kb_post_total page (payload request) s)
    as (response & s' & ->). reflexivity.
Qed.

Lemma answered {R} (m : M R) s :
  (exists response s', m s = (Ok response, s')) ->
  (response <- m ;; ret (Answer response)) s
  = (result_map Answer (result_of m s), snd (m s)).
Proof. intros (response & s' & Hrun). unfold bind, result_of. by rewrite Hrun. Qed.

(** X19. Only a POST request makes a view work on an image. The five function
    views of the size-targeting pages answer a POST request with the
    response of their POST branch, a GET request with their page, both
    through [ensure_csrf_cookie], and refuse every other method (status
    405); [home] answers a POST request with the response of the
    fixed-quality view and any other request with its page. A request that
    is not a POST leaves the state as it was: nothing is opened and nothing
    is logged. *)
Theorem only_post_requests_do_the_work :
  Forall (fun entry =>
            forall request s,
              (method request = "POST" ->
               fst entry request s
               = (result_map (fun response => EnsureCsrfCookie (Answer response))
                    (result_of (kb_post (snd entry) (payload request)) s),
                  snd (kb_post (snd entry) (payload request) s)))
              /\ (method request <> "POST" ->
                  exists reply,
                    fst entry request s = (Ok reply, s)
                    /\ match reply with
                       | EnsureCsrfCookie (Page _ _) => method request = "GET"
                       | NotAllowed permitted =>
                           permitted = ["GET"; "POST"]
                           /\ method request <> "GET"
                       | _ => False
                       end))
         kb_function_views
  /\ (forall request s,
         (method request = "POST" ->
          home request s
          = (result_map Answer
               (result_of (compress_single_image (payload request)) s),
             snd (compress_single_image (payload request) s)))
         /\ (method request <> "POST" ->
             home request s
             = (Ok (Page "image_app/home.html" home_context), s))).
Proof.
  split.
  - assert (forall template_name values page request s,
               (method request = "POST" ->
                kb_view template_name values page request s
                = (result_map (fun response => EnsureCsrfCookie (Answer response))
                     (result_of (kb_post page (payload request)) s),
                   snd (kb_post page (payload request) s)))
               /\ (method request <> "POST" ->
                   exists reply,
                     kb_view template_name values page request s = (Ok reply, s)
                     /\ match reply with
                        | EnsureCsrfCookie (Page _ _) => method request = "GET"
                        | NotAllowed permitted =>
                            permitted = ["GET"; "POST"]
                            /\ method request <> "GET"
                        | _ => False
                        end)) as Hview.
    { intros template_name values page request s.
      rewrite kb_view_dispatch. split.
      - intros ->. reflexivity.
      - intros Hnot.
        destruct (String.eqb_spec (method request) "GET") as [Hget|Hget].
        + eexists. split; [reflexivity|exact Hget].
        + destruct (String.eqb_spec (method request) "POST") as [Hpost|_];
            [done|].
          eexists. split; [reflexivity|]. by split. }
    unfold kb_function_views.
    repeat (apply List.Forall_cons; [intros request s; apply Hview|]).
    apply List.Forall_nil.
  - intros request s. unfold home. split.
    + intros ->. simpl String.eqb. cbv iota. apply answered.
      apply compress_single_image_total.
    + intros Hnot.
      destruct (String.eqb_spec (method request) "POST") as [Hpost|_]; done.
Qed.

Lemma kb_views_post view page decorated request s :
  In (view, page, decorated) kb_views ->
  method request = "POST" ->
  view request s
  = (result_map (fun response =>
                   if decorated : bool then EnsureCsrfCookie (Answer response)
                   else Answer response)
                (result_of (kb_post page (payload request)) s),
     snd (kb_post page (payload request) s)).
Proof.
  intros Hin Hpost. unfold kb_views in Hin. simpl in Hin.
  destruct Hin as [Heq|[Heq|[Heq|[Heq|[Heq|[Heq|[]]]]]]];
    injection Heq as <- <- <-;
    try (unfold resize_to_50kb_view, resize_to_100kb_view, compress_to_50kb,
           compress_to_100kb, compress_to_200kb;
         rewrite kb_view_dispatch, Hpost; reflexivity).
  unfold ResizeToKBView_post. apply answered. apply kb_post_total.
Qed.

(** X5. The download of a size-targeting view, for each of the six views. The
    headers the view sets on it are, in this order, Content-Disposition
    with the name of the download, Content-Length and X-Compressed-Size
    with the length of the content, X-Original-Size with the size of the
    upload, X-Target-Size with the target in bytes, which lies between 5 and
    1000 times 1024, X-Quality-Used with the quality of the encode that
    produced the content (between 10 and 95, never the text [unknown]), and
    X-Quality-Mode on the pages that have a quality mode; none of them is a
    Vary header. [ResizeToKBView] returns the download as it is; the five
    function views return it through [ensure_csrf_cookie], so that it is
    sent with the CSRF cookie and [Vary: Cookie] besides. *)
Theorem download_headers_describe_the_result
    view page decorated request s reply content content_type headers :
  In (view, page, decorated) kb_views ->
  method request = "POST" ->
  result_of (view request) s = Ok reply ->
  response_of reply = Some (Download content content_type headers) ->
  reply = (if decorated : bool
           then EnsureCsrfCookie (Answer (Download content content_type headers))
           else Answer (Download content content_type headers))
  /\ (decorated = false <-> page = resize_to_kb)
  /\ ~ In "Vary" (map fst headers)
  /\ exists image_file quality,
       FILES (payload request) !! "image_file" = Some image_file
       /\ content_type = "image/jpeg"
       /\ 10 <= quality <= 95
       /\ (exists at_ working exif,
              In (EvSave at_ working quality exif (Ok content))
                 (events_of (view request) s))
       /\ 5 <= target_of page (payload request) <= 1000
       /\ headers
          = common_headers image_file
              (output_name page (splitext_root (file_name image_file))
                           (target_of page (payload request)))
              content (py_str quality) (target_of page (payload request))
            ++ mode_header page (posted_mode page (payload request)).
Proof.
  intros Hin Hpost Hresult Hresponse.
  pose proof (kb_views_post _ _ _ _ s Hin Hpost) as Hview.
  unfold result_of, events_of in *. rewrite Hview in *. simpl in Hresult.
  destruct (fst (kb_post page (payload request) s)) as [response|e] eqn:Hres;
    [|discriminate].
  simpl in Hresult. injection Hresult as <-.
  assert (response = Download content content_type headers) as ->.
  { destruct decorated; simpl in Hresponse; congruence. }
  split; [reflexivity|]. split.
  { unfold kb_views in Hin. simpl in Hin.
    destruct Hin as [Heq|[Heq|[Heq|[Heq|[Heq|[Heq|[]]]]]]];
      injection Heq as <- <- <-; split; try done; discriminate. }
  destruct (kb_post_download page (payload request) s content content_type
              headers Hres)
    as (image_file & quality & Hfile & Htype & Hquality & Hencode & Htarget
        & Hheaders).
  split.
  { rewrite Hheaders. unfold common_headers, mode_header.
    destruct (modes page); simpl; intuition discriminate. }
  exists image_file, quality. auto 10.
Qed.

End Dispatch.

(** ** The MIME type of an upload *)

(** X20. [get_mime_type] decides on the first 2048 bytes of the file, wherever
    the file stood before, and leaves the file rewound: its position is 0
    after a call that returns. When the detector raises, the file is left
    after the bytes that were read; the bytes of the file are never
    changed. *)
Theorem mime_type_is_read_from_the_first_2048_bytes
    {magic : Magic} (file : FileObject) :
  file_bytes (snd (get_mime_type file)) = file_bytes file
  /\ match magic_mime with
     | Ok from_buffer =>
         fst (get_mime_type file) = from_buffer (take 2048 (file_bytes file))
         /\ file_position (snd (get_mime_type file))
            = (if is_ok (fst (get_mime_type file)) then 0
               else Nat.min 2048 (length (file_bytes file)))%nat
     | Raise e => get_mime_type file = (Raise e, file)
     end.
Proof.
  unfold get_mime_type, file_read, file_seek.
  destruct magic_mime as [from_buffer|e]; [|done].
  cbn [fst snd file_bytes file_position]. rewrite drop_0.
  destruct (from_buffer (take 2048 (file_bytes file))) as [mime_type|e];
    cbn [fst snd file_bytes file_position is_ok]; repeat split; auto.
  by rewrite length_take.
Qed.

(** ** The form and the view *)

(** X21. The check of [clean_target_size_kb] never fires on a value that the
    validators of the field let through: the field already bounds the
    target by 5 and 1000. On its own the method lets through no value,
    zero, and the values from 5 to 1000. The view does not reject a
    target outside that range: it clamps it into the range, and leaves
    exactly the targets the field accepts as they are. *)
Theorem form_and_view_agree_on_the_target_range (target_size : Z) :
  match run_validators target_size_kb_field target_size with
  | Ok value => clean_target_size_kb (Some value) = Ok (Some value)
  | Raise _ => True
  end
  /\ (clean_target_size_kb (Some target_size) = Ok (Some target_size)
      <-> target_size = 0 \/ 5 <= target_size <= 1000)
  /\ clean_target_size_kb None = Ok None
  /\ (is_ok (run_validators target_size_kb_field target_size) = true
      <-> clamp_target target_size = target_size)
  /\ 5 <= clamp_target target_size <= 1000.
Proof.
  unfold run_validators, clean_target_size_kb, clamp_target. simpl.
  destruct (target_size <? 5) eqn:Hlow; destruct (target_size >? 1000) eqn:Hhigh;
    destruct (target_size =? 0) eqn:Hzero; simpl;
    rewrite ?Hlow, ?Hhigh, ?Hzero; simpl;
    repeat split; intros; try lia; try done.
Qed.

(** ** The priorities of the sitemap *)

Lemma get_cases {A} (P : A -> Prop) (table : list (string * A)) item default :
  P default -> Forall (fun entry => P (snd entry)) table ->
  P (StaticViewSitemap.get table item default).
Proof.
  intros Hdefault. induction 1 as [|[key value] rest Hvalue _ IH]; [done|].
  simpl. by destruct (String.eqb key item).
Qed.

(** X22. The sitemap gives every name a priority between 0.3 and 1.0, whether
    the name is listed or not, and a change frequency among weekly,
    monthly, quarterly and yearly; every item of the sitemap has an entry
    of its own in both tables, so that the defaults (0.5 and monthly)
    never apply to an item. *)
Theorem sitemap_priorities_are_in_range :
  (forall item,
      PyFloat.ltb (StaticViewSitemap.priority item) (PyFloat.literal 3 10)
      = false
      /\ PyFloat.ltb (PyFloat.literal 10 10) (StaticViewSitemap.priority item)
         = false
      /\ In (StaticViewSitemap.changefreq item)
            ["weekly"; "monthly"; "quarterly"; "yearly"])
  /\ Forall (fun item =>
               In item (map fst StaticViewSitemap.priorities)
               /\ In item (map fst StaticViewSitemap.frequencies))
            StaticViewSitemap.items.
Proof.
  split.
  - intros item. repeat split.
    + apply (get_cases
               (fun p => PyFloat.ltb p (PyFloat.literal 3 10) = false));
        [reflexivity|]. repeat constructor.
    + apply (get_cases
               (fun p => PyFloat.ltb (PyFloat.literal 10 10) p = false));
        [reflexivity|]. repeat constructor.
    + apply (get_cases
               (fun f => In f ["weekly"; "monthly"; "quarterly"; "yearly"]));
        [simpl; auto|].
      repeat (apply List.Forall_cons; [simpl; auto|]). apply List.Forall_nil.
  - repeat (apply List.Forall_cons; [split; simpl; auto 20|]).
    apply List.Forall_nil.
Qed.

(** ** Sample requests *)

(** A 10 x 10 image, uploaded as a PNG file of the sample library. *)
Definition sample_upload : UploadedFile :=
  {| file_name := "holiday.photo.png";
     file_size := 2;
     content_type := "image/png";
     file_content := [x0a; x0a] |}.

(** The image the sample library opens the upload as. *)
Definition sample_opened : Image :=
  {| size := (10, 10); mode := "RGB"; pixels := []; info_exif := None;
     getexif := Some (Ok None) |}.

Definition sample_request (fields : list (string * string)) : HttpRequest :=
  {| FILES := {[ "image_file" := sample_upload ]};
     POST := list_to_map fields |}.

Definition no_objects : state := {| heap := []; trace := [] |}.

Definition sample_post (fields : list (string * string)) : Request :=
  {| method := "POST"; payload := sample_request fields |}.

(** Witness of X2: 25 iterations, the
    most a view allows, against 6. *)
Lemma iterations_beyond_six_change_nothing_witness :
  6 <= 25
  /\ compress_image_to_kb (pil := Sample.pil) 0%nat 5 false 25
       (Sample.store (Sample.image 10 10 "RGB"))
     = compress_image_to_kb (pil := Sample.pil) 0%nat 5 false 6
         (Sample.store (Sample.image 10 10 "RGB")).
Proof.
  assert (6 <= 25) as Hmany by lia.
  split; [exact Hmany|].
  apply (iterations_beyond_six_change_nothing (pil := Sample.pil)
           (Sample.store (Sample.image 10 10 "RGB")) 0%nat 5 false 25 Hmany).
Defined.

(** The bound of 36 probes is reached: a 10 x 10 image never comes near a
    target of 200 KB, so each of the six factors is searched to the end,
    with six probes. *)
Example thirty_six_probes_are_made :
  length (probes_of
            (events_of (kb_post (pil := Sample.pil) compress_200kb
                                (sample_request []))
                       no_objects))
  = 36%nat
  /\ omap (fun ev => match ev with
                     | EvSave (AtProbe _) img quality _ _ =>
                         if bool_decide (size img = (10, 10))
                         then Some quality else None
                     | _ => None
                     end)
          (events_of (kb_post (pil := Sample.pil) compress_200kb
                              (sample_request []))
                     no_objects)
     = [52; 74; 85; 90; 93; 94].
Proof. split; vm_compute; reflexivity. Qed.

(** Witness of X5: the download of the sample upload from [compress_to_50kb]
    in mode [high]. *)
Lemma download_headers_describe_the_result_witness :
  In (compress_to_50kb (pil := Sample.pil), compress_50kb, true)
     (kb_views (pil := Sample.pil))
  /\ method (sample_post [("quality_mode", "high")]) = "POST"
  /\ exists content headers,
       result_of (compress_to_50kb (pil := Sample.pil)
                    (sample_post [("quality_mode", "high")]))
                 no_objects
       = Ok (EnsureCsrfCookie (Answer (Download content "image/jpeg" headers)))
       /\ ~ In "Vary" (map fst headers)
       /\ exists image_file quality,
            headers
            = common_headers image_file
                (output_name compress_50kb
                   (splitext_root (file_name image_file))
                   (target_of compress_50kb
                      (sample_request [("quality_mode", "high")])))
                content (py_str quality)
                (target_of compress_50kb
                   (sample_request [("quality_mode", "high")]))
              ++ mode_header compress_50kb
                   (posted_mode compress_50kb
                      (sample_request [("quality_mode", "high")])).
Proof.
  assert (In (compress_to_50kb (pil := Sample.pil), compress_50kb, true)
             (kb_views (pil := Sample.pil))) as Hin by (simpl; auto).
  assert (method (sample_post [("quality_mode", "high")]) = "POST")
    as Hpost by reflexivity.
  split; [exact Hin|]. split; [exact Hpost|].
  assert (exists content headers,
             result_of (compress_to_50kb (pil := Sample.pil)
                          (sample_post [("quality_mode", "high")]))
                       no_objects
             = Ok (EnsureCsrfCookie
                     (Answer (Download content "image/jpeg" headers))))
    as (content & headers & Hresult) by (vm_compute; eauto).
  exists content, headers. split; [exact Hresult|].
  destruct (download_headers_describe_the_result (pil := Sample.pil)
              _ _ _ (sample_post [("quality_mode", "high")]) no_objects
              _ content "image/jpeg" headers Hin Hpost Hresult eq_refl)
    as (_ & _ & Hvary & image_file & quality & _ & _ & _ & _ & _ & Hheaders).
  split; [exact Hvary|]. by exists image_file, quality.
Defined.

(** The response of the witness, spelled out. *)
Example sample_download :
  match result_of (compress_to_50kb (pil := Sample.pil)
                     (sample_post [("quality_mode", "high")]))
                  no_objects with
  | Ok (EnsureCsrfCookie (Answer (Download content content_type headers))) =>
      Some (length content, content_type, headers)
  | _ => None
  end
  = Some (96%nat, "image/jpeg",
          [ ("Content-Disposition",
             "attachment; filename="
             +:+ String double_quote "holiday.photo_compressed_50kb.jpg"
             +:+ String double_quote EmptyString);
            ("Content-Length", "96");
            ("X-Original-Size", "2");
            ("X-Compressed-Size", "96");
            ("X-Target-Size", "51200");
            ("X-Quality-Used", "94");
            ("X-Quality-Mode", "high") ]).
Proof. vm_compute. reflexivity. Qed.

(** Witness of X6. *)
Lemma views_never_reach_the_fallback_witness :
  (forall img quality exif,
      pil_encode_jpeg (Pil := Sample.pil) img quality exif <> Ok [])
  /\ In compress_50kb kb_pages
  /\ Forall (fun ev => is_fallback ev = false)
            (events_of (kb_post (pil := Sample.pil) compress_50kb
                                (sample_request []))
                       no_objects).
Proof.
  assert (forall img quality exif,
             pil_encode_jpeg (Pil := Sample.pil) img quality exif <> Ok [])
    as Hnonempty by (intros img quality exif; discriminate).
  assert (In compress_50kb kb_pages) as Hpage by (simpl; auto).
  split; [exact Hnonempty|]. split; [exact Hpage|].
  exact (views_never_reach_the_fallback (pil := Sample.pil) compress_50kb
           (sample_request []) no_objects Hnonempty Hpage).
Defined.

(** Witness of X8: the modes [high]
    and [balanced] of [compress_to_50kb], 15 iterations against 10. *)
Lemma quality_mode_changes_only_its_header_witness :
  In compress_50kb kb_pages
  /\ has_line_break "high" = false
  /\ has_line_break "balanced" = false
  /\ result_map without_mode_header
       (result_of (kb_post (pil := Sample.pil) compress_50kb
                           (with_mode "high" (sample_request [])))
                  no_objects)
     = result_map without_mode_header
         (result_of (kb_post (pil := Sample.pil) compress_50kb
                             (with_mode "balanced" (sample_request [])))
                    no_objects).
Proof.
  assert (In compress_50kb kb_pages) as Hpage by (simpl; auto).
  assert (has_line_break "high" = false) as Hhigh by reflexivity.
  assert (has_line_break "balanced" = false) as Hbalanced by reflexivity.
  split; [exact Hpage|]. split; [exact Hhigh|]. split; [exact Hbalanced|].
  exact (proj1 (quality_mode_changes_only_its_header (pil := Sample.pil)
                  compress_50kb (sample_request []) "high" "balanced"
                  no_objects Hpage Hhigh Hbalanced)).
Defined.

(** A 6 x 4 image with an EXIF block. *)
Definition image_with_exif : Image :=
  {| size := (6, 4); mode := "P"; pixels := []; info_exif := Some [x45; x78];
     getexif := None |}.

(** Witness of X9. *)
Lemma exif_is_passed_on_only_on_request_witness :
  heap (Sample.store image_with_exif) !! 0%nat = Some image_with_exif
  /\ Forall (exif_given (Some [x45; x78]))
            (events_of (compress_image_to_kb (pil := Sample.pil) 0%nat 5 true 10)
                       (Sample.store image_with_exif)).
Proof.
  assert (heap (Sample.store image_with_exif) !! 0%nat = Some image_with_exif)
    as Hheld by reflexivity.
  split; [exact Hheld|].
  exact (proj2 (exif_is_passed_on_only_on_request (pil := Sample.pil)
                  (Sample.store image_with_exif) 0%nat image_with_exif
                  3000 80 true 5 10 Hheld)).
Defined.

(** A library that opens every upload as a photograph taken with the camera
    on its side: the image of the sample library, with an EXIF block in
    [info] and the orientation tag 6. *)
Definition exif_block : bytes := [x45; x78; x69; x66; x00; x00].

Definition open_sideways (data : bytes) : result Image :=
  result_map (fun img =>
                {| size := size img; mode := mode img; pixels := pixels img;
                   info_exif := Some exif_block;
                   getexif := Some (Ok (Some {[ 274 := EInt 6 ]})) |})
             (Sample.open data).

Definition camera : Pil := {|
  pil_resample := Sample.resample;
  pil_convert := Sample.convert;
  pil_rotate := Sample.rotate;
  pil_encode_jpeg := Sample.encode_jpeg;
  pil_open := open_sideways
|}.

(** A 12 x 8 upload, and the image the camera library opens it as. *)
Definition sideways_upload : UploadedFile :=
  {| file_name := "IMG_0042.JPG";
     file_size := 2;
     content_type := "image/jpeg";
     file_content := [x0c; x08] |}.

Definition sideways_opened : Image :=
  {| size := (12, 8); mode := "RGB"; pixels := [];
     info_exif := Some exif_block;
     getexif := Some (Ok (Some {[ 274 := EInt 6 ]})) |}.

Definition sideways_request (fields : list (string * string)) : HttpRequest :=
  {| FILES := {[ "image_file" := sideways_upload ]};
     POST := list_to_map fields |}.

(** Witness of X10: the upload has an EXIF block and is rotated before the
    search; [preserve_exif] is on. *)
Lemma uploads_keep_their_exif_block_witness :
  FILES (sideways_request [("preserve_exif", "on")]) !! "image_file"
  = Some sideways_upload
  /\ pil_open (Pil := camera) (file_content sideways_upload)
     = Ok sideways_opened
  /\ Forall (exif_given (Some exif_block))
            (events_of (kb_post (pil := camera) resize_to_kb
                                (sideways_request [("preserve_exif", "on")]))
                       no_objects).
Proof.
  assert (FILES (sideways_request [("preserve_exif", "on")]) !! "image_file"
          = Some sideways_upload) as Hfile by (vm_compute; reflexivity).
  assert (pil_open (Pil := camera) (file_content sideways_upload)
          = Ok sideways_opened) as Hopen by reflexivity.
  split; [exact Hfile|]. split; [exact Hopen|].
  exact (uploads_keep_their_exif_block (pil := camera) resize_to_kb
           (sideways_request [("preserve_exif", "on")]) no_objects
           sideways_upload sideways_opened Hfile Hopen).
Defined.

(** The run of the witness: the upload is rotated by 270 degrees into an
    8 x 12 image, and each of the 36 probes encodes an 8 x 12 image with the
    EXIF block of the upload; without [preserve_exif] none of them gets
    it. *)
Example rotated_upload_keeps_its_exif :
  omap (fun ev => match ev with
                  | EvRotate src angle expand (Ok (sz, _)) =>
                      Some (info_exif src, angle, expand, sz)
                  | _ => None
                  end)
       (events_of (kb_post (pil := camera) resize_to_kb
                           (sideways_request [("preserve_exif", "on")]))
                  no_objects)
  = [(Some exif_block, 270, true, (8, 12))]
  /\ omap (fun ev => match ev with
                     | EvSave (AtProbe _) img _ exif _ => Some (size img, exif)
                     | _ => None
                     end)
          (events_of (kb_post (pil := camera) resize_to_kb
                              (sideways_request [("preserve_exif", "on")]))
                     no_objects)
     = [ ((8, 12), Some exif_block); ((8, 12), Some exif_block);
         ((8, 12), Some exif_block); ((8, 12), Some exif_block);
         ((8, 12), Some exif_block); ((8, 12), Some exif_block);
         ((7, 10), Some exif_block); ((7, 10), Some exif_block);
         ((7, 10), Some exif_block); ((7, 10), Some exif_block);
         ((7, 10), Some exif_block); ((7, 10), Some exif_block);
         ((6, 9), Some exif_block); ((6, 9), Some exif_block);
         ((6, 9), Some exif_block); ((6, 9), Some exif_block);
         ((6, 9), Some exif_block); ((6, 9), Some exif_block);
         ((5, 8), Some exif_block); ((5, 8), Some exif_block);
         ((5, 8), Some exif_block); ((5, 8), Some exif_block);
         ((5, 8), Some exif_block); ((5, 8), Some exif_block);
         ((4, 7), Some exif_block); ((4, 7), Some exif_block);
         ((4, 7), Some exif_block); ((4, 7), Some exif_block);
         ((4, 7), Some exif_block); ((4, 7), Some exif_block);
         ((4, 6), Some exif_block); ((4, 6), Some exif_block);
         ((4, 6), Some exif_block); ((4, 6), Some exif_block);
         ((4, 6), Some exif_block); ((4, 6), Some exif_block) ]
  /\ existsb (fun ev => match ev with
                        | EvSave _ _ _ (Some _) _ => true
                        | _ => false
                        end)
             (events_of (kb_post (pil := camera) resize_to_kb
                                 (sideways_request []))
                        no_objects)
     = false.
Proof. repeat split; vm_compute; reflexivity. Qed.

(** Witness of X13, on the image with
    orientation 6. *)
Lemma normaliser_makes_at_most_one_rotation_witness :
  heap (Sample.store image_with_orientation_6) !! 0%nat
  = Some image_with_orientation_6
  /\ exists angle sz px,
       In angle [90; 180; 270]
       /\ events_of (process_image_orientation (pil := Sample.pil) 0%nat)
                    (Sample.store image_with_orientation_6)
          = [EvRotate image_with_orientation_6 angle true (Ok (sz, px))].
Proof.
  assert (heap (Sample.store image_with_orientation_6) !! 0%nat
          = Some image_with_orientation_6) as Hheld by reflexivity.
  split; [exact Hheld|].
  destruct (normaliser_makes_at_most_one_rotation (pil := Sample.pil)
              (Sample.store image_with_orientation_6) 0%nat
              image_with_orientation_6 Hheld)
    as [(Hnone & _)|[(angle & sz & px & Hangle & Hevents & _)
                    |(angle & e & _ & Hevents & _)]].
  - exfalso. vm_compute in Hnone. discriminate Hnone.
  - exists angle, sz, px. split; [exact Hangle|exact Hevents].
  - exfalso. vm_compute in Hevents. discriminate Hevents.
Defined.

(** Witness of X16: the quality
    [high]. *)
Lemma unreadable_quality_is_a_server_error_witness :
  upload_error 10 "File too large. Maximum size is 10MB"
               (sample_request [("quality", "high")]) = None
  /\ POST (sample_request [("quality", "high")]) !! "quality" = Some "high"
  /\ PyInt.parse "high"
     = Raise (PyExn "ValueError" "invalid literal for int() with base 10: 'high'")
  /\ compress_single_image (pil := Sample.pil)
       (sample_request [("quality", "high")]) no_objects
     = (Ok (JsonResponse false "An error occurred while processing the image."
                         500),
        {| heap := [];
           trace := [EvLog "ERROR"
                       "Compression error: invalid literal for int() with base 10: 'high'"] |}).
Proof.
  assert (upload_error 10 "File too large. Maximum size is 10MB"
                       (sample_request [("quality", "high")]) = None)
    as Hcheck by (vm_compute; reflexivity).
  assert (POST (sample_request [("quality", "high")]) !! "quality"
          = Some "high") as Htext by (vm_compute; reflexivity).
  assert (PyInt.parse "high"
          = Raise (PyExn "ValueError"
                         "invalid literal for int() with base 10: 'high'"))
    as Hparse by reflexivity.
  split; [exact Hcheck|]. split; [exact Htext|]. split; [exact Hparse|].
  exact (proj1 (unreadable_quality_is_a_server_error (pil := Sample.pil)
                  (sample_request [("quality", "high")]) no_objects "high"
                  (PyExn "ValueError"
                         "invalid literal for int() with base 10: 'high'")
                  Hcheck Htext Hparse)).
Defined.

(** A quality of 4301 digits is refused in the same way, with the message of
    the limit. *)
Example overlong_quality_is_a_server_error :
  compress_single_image (pil := Sample.pil)
    (sample_request
       [("quality", String.string_of_list_ascii (repeat "9"%char 4301))])
    no_objects
  = (Ok (JsonResponse false "An error occurred while processing the image."
                      500),
     {| heap := [];
        trace := [EvLog "ERROR"
                    ("Compression error: Exceeds the limit (4300 digits) for "
                     +:+ "integer string conversion: value has 4301 digits; "
                     +:+ "use sys.set_int_max_str_digits() to increase the limit")] |}).
Proof. vm_compute. reflexivity. Qed.

(** Witness of X17: an image of width
    0. *)
Lemma zero_dimension_is_a_division_by_zero_witness :
  heap (Sample.store (Sample.image 0 5 "RGB")) !! 0%nat
  = Some (Sample.image 0 5 "RGB")
  /\ is_ok (py_float 3000) = true
  /\ (fst (size (Sample.image 0 5 "RGB")) = 0
      \/ (snd (size (Sample.image 0 5 "RGB")) = 0
          /\ exists width,
               py_float (fst (size (Sample.image 0 5 "RGB"))) = Ok width
               /\ PyFloat.is_zero width = false))
  /\ compress_image (pil := Sample.pil) 0%nat 3000 80 true
       (Sample.store (Sample.image 0 5 "RGB"))
     = (Raise ZeroDivisionError, Sample.store (Sample.image 0 5 "RGB")).
Proof.
  assert (heap (Sample.store (Sample.image 0 5 "RGB")) !! 0%nat
          = Some (Sample.image 0 5 "RGB")) as Hheld by reflexivity.
  assert (is_ok (py_float 3000) = true) as Hlimit by reflexivity.
  assert (fst (size (Sample.image 0 5 "RGB")) = 0
          \/ (snd (size (Sample.image 0 5 "RGB")) = 0
              /\ exists width,
                   py_float (fst (size (Sample.image 0 5 "RGB"))) = Ok width
                   /\ PyFloat.is_zero width = false)) as Hzero
      by (left; reflexivity).
  split; [exact Hheld|]. split; [exact Hlimit|]. split; [exact Hzero|].
  exact (zero_dimension_is_a_division_by_zero (pil := Sample.pil)
           (Sample.store (Sample.image 0 5 "RGB")) 0%nat
           (Sample.image 0 5 "RGB") 3000 80 true Hheld Hlimit Hzero).
Defined.

(** Witness of X18. *)
Lemma images_within_the_limit_are_not_resampled_witness :
  heap (Sample.store (Sample.image 300 200 "RGB")) !! 0%nat
  = Some (Sample.image 300 200 "RGB")
  /\ 1 <= fst (size (Sample.image 300 200 "RGB")) <= 3000
  /\ 1 <= snd (size (Sample.image 300 200 "RGB")) <= 3000
  /\ Forall (fun ev => is_resize ev = false)
            (events_of (compress_image (pil := Sample.pil) 0%nat 3000 80 true)
                       (Sample.store (Sample.image 300 200 "RGB"))).
Proof.
  assert (heap (Sample.store (Sample.image 300 200 "RGB")) !! 0%nat
          = Some (Sample.image 300 200 "RGB")) as Hheld by reflexivity.
  assert (1 <= fst (size (Sample.image 300 200 "RGB")) <= 3000) as Hwidth
      by (simpl; lia).
  assert (1 <= snd (size (Sample.image 300 200 "RGB")) <= 3000) as Hheight
      by (simpl; lia).
  split; [exact Hheld|]. split; [exact Hwidth|]. split; [exact Hheight|].
  exact (proj1 (images_within_the_limit_are_not_resampled (pil := Sample.pil)
                  (Sample.store (Sample.image 300 200 "RGB")) 0%nat
                  (Sample.image 300 200 "RGB") 80 true Hheld Hwidth Hheight)).
Defined.
